(** * NES emulator core: PPU, bus, controller and mappers

    A shallow embedding of the Go sources
    ([pkg/ppu], [pkg/bus], [pkg/controller], [pkg/cartridge]) and the
    properties of the specification checked against it. *)

From Stdlib Require Import ZArith List Bool Lia Btauto.
From stdpp Require Import base option gmap list.
Import ListNotations.

Local Open Scope Z_scope.

(** ** Machine integers

    Go's [uint8], [uint16] and [int16] values are integers of [Z]; the
    wrap-around of an operation is written where the operation can leave
    the range of its type. *)

Definition u8 (x : Z) : Z := x mod 256.
Definition u16 (x : Z) : Z := x mod 65536.

(** [int16(x)] of a [uint16] value: two's complement reinterpretation. *)
Definition i16 (x : Z) : Z :=
  let y := x mod 65536 in if y <? 32768 then y else y - 65536.

(** [^uint8(m)] and [^uint16(m)]. *)
Definition not8 (m : Z) : Z := 255 - m.
Definition not16 (m : Z) : Z := 65535 - m.

(** ** Failure

    An index outside a Go array or slice, or a method call through a nil
    interface, stops the program with a run-time panic: [None]. *)

Definition bind {A B : Type} (m : option A) (f : A -> option B) : option B :=
  match m with
  | Some a => f a
  | None => None
  end.

Notation "'do' x <- m ; f" := (bind m (fun x => f))
  (at level 10, x pattern, m at level 100, f at level 200).

(** ** Fixed-size arrays

    A Go array [[n]uint8] holds a byte at every index below [n], zero
    until written.  It is a finite map read with default zero; the length
    [n] is part of the array's type in Go and is passed to each access. *)

Definition aget (n : Z) (a : gmap Z Z) (i : Z) : option Z :=
  if bool_decide (0 <= i < n) then Some (default 0 (a !! i)) else None.

Definition aset (n : Z) (a : gmap Z Z) (i v : Z) : option (gmap Z Z) :=
  if bool_decide (0 <= i < n) then Some (<[i := v]> a) else None.

(** A slice [[]uint8]: its length is that of the list. *)
Definition sget (s : list Z) (i : Z) : option Z :=
  if bool_decide (0 <= i < Z.of_nat (length s)) then s !! Z.to_nat i else None.

Definition sset (s : list Z) (i v : Z) : option (list Z) :=
  if bool_decide (0 <= i < Z.of_nat (length s))
  then Some (<[Z.to_nat i := v]> s) else None.

(** ** pkg/ppu/registers.go

    Each register type is a struct with the single field [register]; it
    is represented by that value. *)

Module PPUControl.
Definition NametableX (c : Z) : Z := Z.land (Z.shiftr c 0) 0x01.
Definition NametableY (c : Z) : Z := Z.land (Z.shiftr c 1) 0x01.
Definition IncrementMode (c : Z) : Z :=
  if negb (Z.land (Z.shiftr c 2) 0x01 =? 0) then 32 else 1.
Definition SpritePatternTable (c : Z) : Z :=
  if negb (Z.land (Z.shiftr c 3) 0x01 =? 0) then 0x1000 else 0x0000.
Definition BackgroundPatternTable (c : Z) : Z :=
  if negb (Z.land (Z.shiftr c 4) 0x01 =? 0) then 0x1000 else 0x0000.
Definition SpriteSize (c : Z) : Z := Z.land (Z.shiftr c 5) 0x01.
Definition EnableNMI (c : Z) : bool := negb (Z.land (Z.shiftr c 7) 0x01 =? 0).
Definition SlaveMode (c : Z) : bool := negb (Z.land (Z.shiftr c 6) 0x01 =? 0).
End PPUControl.

Module PPUMask.
Definition RenderBackgroundLeft (m : Z) : bool := negb (Z.land (Z.shiftr m 1) 0x01 =? 0).
Definition RenderSpritesLeft (m : Z) : bool := negb (Z.land (Z.shiftr m 2) 0x01 =? 0).
Definition RenderBackground (m : Z) : bool := negb (Z.land (Z.shiftr m 3) 0x01 =? 0).
Definition RenderSprites (m : Z) : bool := negb (Z.land (Z.shiftr m 4) 0x01 =? 0).
Definition IsRenderingEnabled (m : Z) : bool := RenderBackground m || RenderSprites m.
Definition Grayscale (m : Z) : bool := negb (Z.land (Z.shiftr m 0) 0x01 =? 0).
Definition EmphasizeRed (m : Z) : bool := negb (Z.land (Z.shiftr m 5) 0x01 =? 0).
Definition EmphasizeGreen (m : Z) : bool := negb (Z.land (Z.shiftr m 6) 0x01 =? 0).
Definition EmphasizeBlue (m : Z) : bool := negb (Z.land (Z.shiftr m 7) 0x01 =? 0).
End PPUMask.

Module PPUStatus.
Definition SetVBlank (value : bool) (s : Z) : Z :=
  if value then Z.lor s 0x80 else Z.land s (not8 0x80).
Definition VBlank (s : Z) : bool := negb (Z.land (Z.shiftr s 7) 0x01 =? 0).
Definition SetSprite0Hit (value : bool) (s : Z) : Z :=
  if value then Z.lor s 0x40 else Z.land s (not8 0x40).
Definition Sprite0Hit (s : Z) : bool := negb (Z.land (Z.shiftr s 6) 0x01 =? 0).
Definition SetSpriteOverflow (value : bool) (s : Z) : Z :=
  if value then Z.lor s 0x20 else Z.land s (not8 0x20).
Definition SpriteOverflow (s : Z) : bool := negb (Z.land (Z.shiftr s 5) 0x01 =? 0).
End PPUStatus.

Module LoopyRegister.
(** [Set]: the register keeps 15 bits. *)
Definition Set_ (value : Z) : Z := Z.land value 0x7FFF.
Definition CoarseX (l : Z) : Z := Z.land l 0x001F.
Definition SetCoarseX (value : Z) (l : Z) : Z :=
  Z.lor (Z.land l 0x7FE0) (Z.land value 0x001F).
Definition CoarseY (l : Z) : Z := Z.shiftr (Z.land l 0x03E0) 5.
Definition SetCoarseY (value : Z) (l : Z) : Z :=
  Z.lor (Z.land l 0x7C1F) (Z.shiftl (Z.land value 0x001F) 5).
Definition NametableX (l : Z) : Z := Z.shiftr (Z.land l 0x0400) 10.
Definition SetNametableX (value : Z) (l : Z) : Z :=
  if negb (value =? 0) then Z.lor l 0x0400 else Z.land l (not16 0x0400).
Definition NametableY (l : Z) : Z := Z.shiftr (Z.land l 0x0800) 11.
Definition SetNametableY (value : Z) (l : Z) : Z :=
  if negb (value =? 0) then Z.lor l 0x0800 else Z.land l (not16 0x0800).
Definition FineY (l : Z) : Z := Z.shiftr (Z.land l 0x7000) 12.
Definition SetFineY (value : Z) (l : Z) : Z :=
  Z.lor (Z.land l 0x0FFF) (Z.shiftl (Z.land value 0x0007) 12).

Definition IncrementX (l : Z) : Z :=
  if CoarseX l =? 31
  then let l := SetCoarseX 0 l in SetNametableX (Z.lxor (NametableX l) 1) l
  else SetCoarseX (CoarseX l + 1) l.

Definition IncrementY (l : Z) : Z :=
  if FineY l <? 7 then SetFineY (FineY l + 1) l
  else
    let l := SetFineY 0 l in
    let y := CoarseY l in
    if y =? 29 then SetCoarseY 0 (SetNametableY (Z.lxor (NametableY l) 1) l)
    else if y =? 31 then SetCoarseY 0 l
    else SetCoarseY (y + 1) l.

Definition TransferX (source : Z) (l : Z) : Z :=
  Z.lor (Z.land l 0x7BE0) (Z.land source 0x041F).
Definition TransferY (source : Z) (l : Z) : Z :=
  Z.lor (Z.land l 0x041F) (Z.land source 0x7BE0).
End LoopyRegister.

(** ** pkg/cartridge/cartridge.go: mirroring modes *)

Definition MirrorHorizontal : Z := 0.
Definition MirrorVertical : Z := 1.
Definition MirrorSingleLow : Z := 2.
Definition MirrorSingleHigh : Z := 3.
Definition MirrorFourScreen : Z := 4.

(** ** pkg/cartridge/mapper.go

    The [Mapper] interface.  A mapper is a heap object reached through a
    pointer; a method that mutates it returns the new object.  The read
    methods of every implementation leave the object unchanged. *)

Class Mapper (M : Type) : Type := {
  ReadPRG : Z -> M -> option Z;
  WritePRG : Z -> Z -> M -> option M;
  ReadCHR : Z -> M -> option Z;
  WriteCHR : Z -> Z -> M -> option M;
  Scanline : M -> M;
  GetMirroring : M -> Z
}.

(** [make([]uint8, n)] *)
Definition make (n : Z) : list Z := repeat 0 (Z.to_nat n).

Definition len (s : list Z) : Z := Z.of_nat (length s).

(** ** pkg/cartridge/mapper0.go *)

Module Mapper0.

Record t : Type := mk {
  prgROM : list Z;
  chrMem : list Z;
  prgBanks : Z;
  chrIsRAM : bool;
  mirroring : Z
}.

Definition set_chrMem (x : list Z) (m : t) : t :=
  mk (prgROM m) x (prgBanks m) (chrIsRAM m) (mirroring m).

Definition NewMapper0 (prgROM0 chrROM : list Z) (mirroring0 : Z) : t :=
  let banks := u8 (len prgROM0 / 16384) in
  if 0 <? len chrROM
  then mk prgROM0 chrROM banks false mirroring0
  else mk prgROM0 (make 8192) banks true mirroring0.

Definition ReadPRG (addr : Z) (m : t) : option Z :=
  let addr := u16 (addr - 0x8000) in
  let addr := if prgBanks m =? 1 then addr mod 0x4000 else addr in
  if addr <? len (prgROM m) then sget (prgROM m) addr else Some 0.

Definition WritePRG (addr value : Z) (m : t) : option t := Some m.

Definition ReadCHR (addr : Z) (m : t) : option Z :=
  if addr <? len (chrMem m) then sget (chrMem m) addr else Some 0.

Definition WriteCHR (addr value : Z) (m : t) : option t :=
  if chrIsRAM m && (addr <? len (chrMem m))
  then do c <- sset (chrMem m) addr value; Some (set_chrMem c m)
  else Some m.

Definition Scanline (m : t) : t := m.

Definition GetMirroring (m : t) : Z := mirroring m.

End Mapper0.

(** ** pkg/cartridge/mapper1.go (MMC1) *)

Module Mapper1.

Record t : Type := mk {
  prgROM : list Z;
  chrMem : list Z;
  prgRAM : list Z;
  prgBanks : Z;
  chrBanks : Z;
  chrIsRAM : bool;
  shiftRegister : Z;
  shiftCount : Z;
  mirroring : Z;
  prgMode : Z;
  chrMode : Z;
  chrBank0 : Z;
  chrBank1 : Z;
  prgBank : Z;
  prgRAMEnabled : bool
}.

Definition set_chrMem (x : list Z) (m : t) : t :=
  mk (prgROM m) x (prgRAM m) (prgBanks m) (chrBanks m) (chrIsRAM m)
  (shiftRegister m) (shiftCount m) (mirroring m) (prgMode m) (chrMode m)
  (chrBank0 m) (chrBank1 m) (prgBank m) (prgRAMEnabled m).
Definition set_prgRAM (x : list Z) (m : t) : t :=
  mk (prgROM m) (chrMem m) x (prgBanks m) (chrBanks m) (chrIsRAM m)
  (shiftRegister m) (shiftCount m) (mirroring m) (prgMode m) (chrMode m)
  (chrBank0 m) (chrBank1 m) (prgBank m) (prgRAMEnabled m).
Definition set_shiftRegister (x : Z) (m : t) : t :=
  mk (prgROM m) (chrMem m) (prgRAM m) (prgBanks m) (chrBanks m) (chrIsRAM m)
  x (shiftCount m) (mirroring m) (prgMode m) (chrMode m) (chrBank0 m)
  (chrBank1 m) (prgBank m) (prgRAMEnabled m).
Definition set_shiftCount (x : Z) (m : t) : t :=
  mk (prgROM m) (chrMem m) (prgRAM m) (prgBanks m) (chrBanks m) (chrIsRAM m)
  (shiftRegister m) x (mirroring m) (prgMode m) (chrMode m) (chrBank0 m)
  (chrBank1 m) (prgBank m) (prgRAMEnabled m).
Definition set_mirroring (x : Z) (m : t) : t :=
  mk (prgROM m) (chrMem m) (prgRAM m) (prgBanks m) (chrBanks m) (chrIsRAM m)
  (shiftRegister m) (shiftCount m) x (prgMode m) (chrMode m) (chrBank0 m)
  (chrBank1 m) (prgBank m) (prgRAMEnabled m).
Definition set_prgMode (x : Z) (m : t) : t :=
  mk (prgROM m) (chrMem m) (prgRAM m) (prgBanks m) (chrBanks m) (chrIsRAM m)
  (shiftRegister m) (shiftCount m) (mirroring m) x (chrMode m) (chrBank0 m)
  (chrBank1 m) (prgBank m) (prgRAMEnabled m).
Definition set_chrMode (x : Z) (m : t) : t :=
  mk (prgROM m) (chrMem m) (prgRAM m) (prgBanks m) (chrBanks m) (chrIsRAM m)
  (shiftRegister m) (shiftCount m) (mirroring m) (prgMode m) x (chrBank0 m)
  (chrBank1 m) (prgBank m) (prgRAMEnabled m).
Definition set_chrBank0 (x : Z) (m : t) : t :=
  mk (prgROM m) (chrMem m) (prgRAM m) (prgBanks m) (chrBanks m) (chrIsRAM m)
  (shiftRegister m) (shiftCount m) (mirroring m) (prgMode m) (chrMode m) x
  (chrBank1 m) (prgBank m) (prgRAMEnabled m).
Definition set_chrBank1 (x : Z) (m : t) : t :=
  mk (prgROM m) (chrMem m) (prgRAM m) (prgBanks m) (chrBanks m) (chrIsRAM m)
  (shiftRegister m) (shiftCount m) (mirroring m) (prgMode m) (chrMode m)
  (chrBank0 m) x (prgBank m) (prgRAMEnabled m).
Definition set_prgBank (x : Z) (m : t) : t :=
  mk (prgROM m) (chrMem m) (prgRAM m) (prgBanks m) (chrBanks m) (chrIsRAM m)
  (shiftRegister m) (shiftCount m) (mirroring m) (prgMode m) (chrMode m)
  (chrBank0 m) (chrBank1 m) x (prgRAMEnabled m).
Definition set_prgRAMEnabled (x : bool) (m : t) : t :=
  mk (prgROM m) (chrMem m) (prgRAM m) (prgBanks m) (chrBanks m) (chrIsRAM m)
  (shiftRegister m) (shiftCount m) (mirroring m) (prgMode m) (chrMode m)
  (chrBank0 m) (chrBank1 m) (prgBank m) x.

Definition NewMapper1 (prgROM0 chrROM : list Z) (mirroring0 : Z) : t :=
  let banks := u8 (len prgROM0 / 16384) in
  if 0 <? len chrROM
  then mk prgROM0 chrROM (make 8192) banks (u8 (len chrROM / 4096)) false
          0x10 0 mirroring0 3 0 0 0 0 true
  else mk prgROM0 (make 8192) (make 8192) banks 2 true
          0x10 0 mirroring0 3 0 0 0 0 true.

Definition ReadPRG (addr : Z) (m : t) : option Z :=
  if (0x6000 <=? addr) && (addr <? 0x8000) then
    if prgRAMEnabled m then sget (prgRAM m) (addr - 0x6000) else Some 0
  else if (0x8000 <=? addr) && (addr <? 0xC000) then
    let bank :=
      if (prgMode m =? 0) || (prgMode m =? 1) then Z.land (prgBank m) 0xFE
      else if prgMode m =? 2 then 0
      else if prgMode m =? 3 then prgBank m
      else 0 in
    let offset := bank * 0x4000 + (addr - 0x8000) in
    if offset <? len (prgROM m) then sget (prgROM m) offset else Some 0
  else if 0xC000 <=? addr then
    let bank :=
      if (prgMode m =? 0) || (prgMode m =? 1) then Z.lor (Z.land (prgBank m) 0xFE) 1
      else if prgMode m =? 2 then prgBank m
      else if prgMode m =? 3 then u8 (prgBanks m - 1)
      else 0 in
    let offset := bank * 0x4000 + (addr - 0xC000) in
    if offset <? len (prgROM m) then sget (prgROM m) offset else Some 0
  else Some 0.

Definition writeRegister (addr value : Z) (m : t) : t :=
  if (0x8000 <=? addr) && (addr <? 0xA000) then
    set_chrMode (Z.land (Z.shiftr value 4) 0x01)
      (set_prgMode (Z.land (Z.shiftr value 2) 0x03)
        (set_mirroring (Z.land value 0x03) m))
  else if (0xA000 <=? addr) && (addr <? 0xC000) then
    set_chrBank0 (Z.land value 0x1F) m
  else if (0xC000 <=? addr) && (addr <? 0xE000) then
    set_chrBank1 (Z.land value 0x1F) m
  else if 0xE000 <=? addr then
    set_prgRAMEnabled (Z.land value 0x10 =? 0) (set_prgBank (Z.land value 0x0F) m)
  else m.

Definition WritePRG (addr value : Z) (m : t) : option t :=
  if (0x6000 <=? addr) && (addr <? 0x8000) then
    if prgRAMEnabled m
    then do r <- sset (prgRAM m) (addr - 0x6000) value; Some (set_prgRAM r m)
    else Some m
  else if 0x8000 <=? addr then
    if negb (Z.land value 0x80 =? 0) then
      Some (set_prgMode 3 (set_shiftCount 0 (set_shiftRegister 0x10 m)))
    else
      let m := set_shiftRegister (Z.shiftr (shiftRegister m) 1) m in
      let m := set_shiftRegister
                 (Z.lor (shiftRegister m) (u8 (Z.shiftl (Z.land value 1) 4))) m in
      let m := set_shiftCount (u8 (shiftCount m + 1)) m in
      if shiftCount m =? 5 then
        let m := writeRegister addr (shiftRegister m) m in
        Some (set_shiftCount 0 (set_shiftRegister 0x10 m))
      else Some m
  else Some m.

(** The bank computation shared by [ReadCHR] and [WriteCHR]. *)
Definition chrOffset (addr : Z) (m : t) : Z :=
  if chrMode m =? 0 then
    let bank := Z.land (chrBank0 m) 0xFE in
    let bank := if 0x1000 <=? addr then Z.lor bank 1 else bank in
    bank * 0x1000 + Z.land addr 0x0FFF
  else if addr <? 0x1000 then chrBank0 m * 0x1000 + addr
  else chrBank1 m * 0x1000 + (addr - 0x1000).

Definition ReadCHR (addr : Z) (m : t) : option Z :=
  let offset := chrOffset addr m in
  if offset <? len (chrMem m) then sget (chrMem m) offset else Some 0.

Definition WriteCHR (addr value : Z) (m : t) : option t :=
  if negb (chrIsRAM m) then Some m
  else
    let offset := chrOffset addr m in
    if offset <? len (chrMem m)
    then do c <- sset (chrMem m) offset value; Some (set_chrMem c m)
    else Some m.

Definition Scanline (m : t) : t := m.

Definition GetMirroring (m : t) : Z :=
  if mirroring m =? 0 then 2
  else if mirroring m =? 1 then 3
  else if mirroring m =? 2 then MirrorVertical
  else if mirroring m =? 3 then MirrorHorizontal
  else MirrorHorizontal.

End Mapper1.

(** ** pkg/cartridge/mapper4.go (MMC3) *)

Module Mapper4.

Record t : Type := mk {
  prgROM : list Z;
  chrMem : list Z;
  prgRAM : list Z;
  prgBanks : Z;
  chrBanks : Z;
  chrIsRAM : bool;
  bankSelect : Z;
  prgMode : Z;
  chrMode : Z;
  registers : gmap Z Z;
  mirroring : Z;
  prgRAMEnabled : bool;
  prgRAMWriteProtect : bool;
  irqLatch : Z;
  irqCounter : Z;
  irqEnabled : bool;
  irqPending : bool;
  irqReloadFlag : bool
}.

Definition set_chrMem (x : list Z) (m : t) : t :=
  mk (prgROM m) x (prgRAM m) (prgBanks m) (chrBanks m) (chrIsRAM m)
  (bankSelect m) (prgMode m) (chrMode m) (registers m) (mirroring m)
  (prgRAMEnabled m) (prgRAMWriteProtect m) (irqLatch m) (irqCounter m)
  (irqEnabled m) (irqPending m) (irqReloadFlag m).
Definition set_prgRAM (x : list Z) (m : t) : t :=
  mk (prgROM m) (chrMem m) x (prgBanks m) (chrBanks m) (chrIsRAM m)
  (bankSelect m) (prgMode m) (chrMode m) (registers m) (mirroring m)
  (prgRAMEnabled m) (prgRAMWriteProtect m) (irqLatch m) (irqCounter m)
  (irqEnabled m) (irqPending m) (irqReloadFlag m).
Definition set_bankSelect (x : Z) (m : t) : t :=
  mk (prgROM m) (chrMem m) (prgRAM m) (prgBanks m) (chrBanks m) (chrIsRAM m)
  x (prgMode m) (chrMode m) (registers m) (mirroring m) (prgRAMEnabled m)
  (prgRAMWriteProtect m) (irqLatch m) (irqCounter m) (irqEnabled m)
  (irqPending m) (irqReloadFlag m).
Definition set_prgMode (x : Z) (m : t) : t :=
  mk (prgROM m) (chrMem m) (prgRAM m) (prgBanks m) (chrBanks m) (chrIsRAM m)
  (bankSelect m) x (chrMode m) (registers m) (mirroring m) (prgRAMEnabled m)
  (prgRAMWriteProtect m) (irqLatch m) (irqCounter m) (irqEnabled m)
  (irqPending m) (irqReloadFlag m).
Definition set_chrMode (x : Z) (m : t) : t :=
  mk (prgROM m) (chrMem m) (prgRAM m) (prgBanks m) (chrBanks m) (chrIsRAM m)
  (bankSelect m) (prgMode m) x (registers m) (mirroring m) (prgRAMEnabled m)
  (prgRAMWriteProtect m) (irqLatch m) (irqCounter m) (irqEnabled m)
  (irqPending m) (irqReloadFlag m).
Definition set_registers (x : gmap Z Z) (m : t) : t :=
  mk (prgROM m) (chrMem m) (prgRAM m) (prgBanks m) (chrBanks m) (chrIsRAM m)
  (bankSelect m) (prgMode m) (chrMode m) x (mirroring m) (prgRAMEnabled m)
  (prgRAMWriteProtect m) (irqLatch m) (irqCounter m) (irqEnabled m)
  (irqPending m) (irqReloadFlag m).
Definition set_mirroring (x : Z) (m : t) : t :=
  mk (prgROM m) (chrMem m) (prgRAM m) (prgBanks m) (chrBanks m) (chrIsRAM m)
  (bankSelect m) (prgMode m) (chrMode m) (registers m) x (prgRAMEnabled m)
  (prgRAMWriteProtect m) (irqLatch m) (irqCounter m) (irqEnabled m)
  (irqPending m) (irqReloadFlag m).
Definition set_prgRAMEnabled (x : bool) (m : t) : t :=
  mk (prgROM m) (chrMem m) (prgRAM m) (prgBanks m) (chrBanks m) (chrIsRAM m)
  (bankSelect m) (prgMode m) (chrMode m) (registers m) (mirroring m) x
  (prgRAMWriteProtect m) (irqLatch m) (irqCounter m) (irqEnabled m)
  (irqPending m) (irqReloadFlag m).
Definition set_prgRAMWriteProtect (x : bool) (m : t) : t :=
  mk (prgROM m) (chrMem m) (prgRAM m) (prgBanks m) (chrBanks m) (chrIsRAM m)
  (bankSelect m) (prgMode m) (chrMode m) (registers m) (mirroring m)
  (prgRAMEnabled m) x (irqLatch m) (irqCounter m) (irqEnabled m)
  (irqPending m) (irqReloadFlag m).
Definition set_irqLatch (x : Z) (m : t) : t :=
  mk (prgROM m) (chrMem m) (prgRAM m) (prgBanks m) (chrBanks m) (chrIsRAM m)
  (bankSelect m) (prgMode m) (chrMode m) (registers m) (mirroring m)
  (prgRAMEnabled m) (prgRAMWriteProtect m) x (irqCounter m) (irqEnabled m)
  (irqPending m) (irqReloadFlag m).
Definition set_irqCounter (x : Z) (m : t) : t :=
  mk (prgROM m) (chrMem m) (prgRAM m) (prgBanks m) (chrBanks m) (chrIsRAM m)
  (bankSelect m) (prgMode m) (chrMode m) (registers m) (mirroring m)
  (prgRAMEnabled m) (prgRAMWriteProtect m) (irqLatch m) x (irqEnabled m)
  (irqPending m) (irqReloadFlag m).
Definition set_irqEnabled (x : bool) (m : t) : t :=
  mk (prgROM m) (chrMem m) (prgRAM m) (prgBanks m) (chrBanks m) (chrIsRAM m)
  (bankSelect m) (prgMode m) (chrMode m) (registers m) (mirroring m)
  (prgRAMEnabled m) (prgRAMWriteProtect m) (irqLatch m) (irqCounter m) x
  (irqPending m) (irqReloadFlag m).
Definition set_irqPending (x : bool) (m : t) : t :=
  mk (prgROM m) (chrMem m) (prgRAM m) (prgBanks m) (chrBanks m) (chrIsRAM m)
  (bankSelect m) (prgMode m) (chrMode m) (registers m) (mirroring m)
  (prgRAMEnabled m) (prgRAMWriteProtect m) (irqLatch m) (irqCounter m)
  (irqEnabled m) x (irqReloadFlag m).
Definition set_irqReloadFlag (x : bool) (m : t) : t :=
  mk (prgROM m) (chrMem m) (prgRAM m) (prgBanks m) (chrBanks m) (chrIsRAM m)
  (bankSelect m) (prgMode m) (chrMode m) (registers m) (mirroring m)
  (prgRAMEnabled m) (prgRAMWriteProtect m) (irqLatch m) (irqCounter m)
  (irqEnabled m) (irqPending m) x.

Definition NewMapper4 (prgROM0 chrROM : list Z) (mirroring0 : Z) : t :=
  let banks := u8 (len prgROM0 / 8192) in
  if 0 <? len chrROM
  then mk prgROM0 chrROM (make 8192) banks (u8 (len chrROM / 1024)) false
          0 0 0 ∅ mirroring0 true false 0 0 false false false
  else mk prgROM0 (make 8192) (make 8192) banks 8 true
          0 0 0 ∅ mirroring0 true false 0 0 false false false.

Definition readBank (bank base addr : Z) (m : t) : option Z :=
  let offset := bank * 0x2000 + (addr - base) in
  if offset <? len (prgROM m) then sget (prgROM m) offset else Some 0.

Definition ReadPRG (addr : Z) (m : t) : option Z :=
  if (0x6000 <=? addr) && (addr <? 0x8000) then
    if prgRAMEnabled m then sget (prgRAM m) (addr - 0x6000) else Some 0
  else if (0x8000 <=? addr) && (addr <? 0xA000) then
    do bank <- (if prgMode m =? 0 then aget 8 (registers m) 6
                else Some (u8 (prgBanks m - 2)));
    readBank bank 0x8000 addr m
  else if (0xA000 <=? addr) && (addr <? 0xC000) then
    do bank <- aget 8 (registers m) 7;
    readBank bank 0xA000 addr m
  else if (0xC000 <=? addr) && (addr <? 0xE000) then
    do bank <- (if prgMode m =? 0 then Some (u8 (prgBanks m - 2))
                else aget 8 (registers m) 6);
    readBank bank 0xC000 addr m
  else if 0xE000 <=? addr then
    readBank (u8 (prgBanks m - 1)) 0xE000 addr m
  else Some 0.

Definition WritePRG (addr value : Z) (m : t) : option t :=
  if (0x6000 <=? addr) && (addr <? 0x8000) then
    if prgRAMEnabled m && negb (prgRAMWriteProtect m)
    then do r <- sset (prgRAM m) (addr - 0x6000) value; Some (set_prgRAM r m)
    else Some m
  else if (0x8000 <=? addr) && (addr <? 0xA000) then
    if Z.land addr 1 =? 0 then
      Some (set_chrMode (Z.land (Z.shiftr value 7) 0x01)
             (set_prgMode (Z.land (Z.shiftr value 6) 0x01)
               (set_bankSelect (Z.land value 0x07) m)))
    else
      do r <- aset 8 (registers m) (bankSelect m) value; Some (set_registers r m)
  else if (0xA000 <=? addr) && (addr <? 0xC000) then
    if Z.land addr 1 =? 0 then
      if Z.land value 1 =? 0
      then Some (set_mirroring MirrorVertical m)
      else Some (set_mirroring MirrorHorizontal m)
    else
      Some (set_prgRAMEnabled (negb (Z.land value 0x80 =? 0))
             (set_prgRAMWriteProtect (negb (Z.land value 0x40 =? 0)) m))
  else if (0xC000 <=? addr) && (addr <? 0xE000) then
    if Z.land addr 1 =? 0 then Some (set_irqLatch value m)
    else Some (set_irqReloadFlag true (set_irqCounter 0 m))
  else if 0xE000 <=? addr then
    if Z.land addr 1 =? 0
    then Some (set_irqPending false (set_irqEnabled false m))
    else Some (set_irqEnabled true m)
  else Some m.

(** The bank computation shared by [ReadCHR] and [WriteCHR]; the bank
    register read can fail only through the array access. *)
Definition chrOffset (addr : Z) (m : t) : option Z :=
  let even (r : Z) := do b <- aget 8 (registers m) r; Some (Z.land b 0xFE) in
  let reg (r : Z) := aget 8 (registers m) r in
  if chrMode m =? 0 then
    if addr <? 0x0800 then do bank <- even 0; Some (bank * 0x400 + addr)
    else if addr <? 0x1000 then do bank <- even 1; Some (bank * 0x400 + (addr - 0x0800))
    else if addr <? 0x1400 then do bank <- reg 2; Some (bank * 0x400 + (addr - 0x1000))
    else if addr <? 0x1800 then do bank <- reg 3; Some (bank * 0x400 + (addr - 0x1400))
    else if addr <? 0x1C00 then do bank <- reg 4; Some (bank * 0x400 + (addr - 0x1800))
    else do bank <- reg 5; Some (bank * 0x400 + (addr - 0x1C00))
  else
    if addr <? 0x0400 then do bank <- reg 2; Some (bank * 0x400 + addr)
    else if addr <? 0x0800 then do bank <- reg 3; Some (bank * 0x400 + (addr - 0x0400))
    else if addr <? 0x0C00 then do bank <- reg 4; Some (bank * 0x400 + (addr - 0x0800))
    else if addr <? 0x1000 then do bank <- reg 5; Some (bank * 0x400 + (addr - 0x0C00))
    else if addr <? 0x1800 then do bank <- even 0; Some (bank * 0x400 + (addr - 0x1000))
    else do bank <- even 1; Some (bank * 0x400 + (addr - 0x1800)).

Definition ReadCHR (addr : Z) (m : t) : option Z :=
  do offset <- chrOffset addr m;
  if offset <? len (chrMem m) then sget (chrMem m) offset else Some 0.

Definition WriteCHR (addr value : Z) (m : t) : option t :=
  if negb (chrIsRAM m) then Some m
  else
    do offset <- chrOffset addr m;
    if offset <? len (chrMem m)
    then do c <- sset (chrMem m) offset value; Some (set_chrMem c m)
    else Some m.

Definition Scanline (m : t) : t :=
  let m :=
    if (irqCounter m =? 0) || irqReloadFlag m
    then set_irqReloadFlag false (set_irqCounter (irqLatch m) m)
    else set_irqCounter (u8 (irqCounter m - 1)) m in
  if (irqCounter m =? 0) && irqEnabled m
  then set_irqPending true m
  else m.

Definition GetMirroring (m : t) : Z := mirroring m.

Definition IRQPending (m : t) : bool := irqPending m.

Definition ClearIRQ (m : t) : t := set_irqPending false m.

End Mapper4.

(** ** pkg/cartridge/mapper2.go (UxROM) *)

Module Mapper2.

Record t : Type := mk {
  prgROM : list Z;
  chrRAM : list Z;
  prgBanks : Z;
  prgBank : Z;
  mirroring : Z
}.

Definition set_chrRAM (x : list Z) (m : t) : t :=
  mk (prgROM m) x (prgBanks m) (prgBank m) (mirroring m).
Definition set_prgBank (x : Z) (m : t) : t :=
  mk (prgROM m) (chrRAM m) (prgBanks m) x (mirroring m).

(** The CHR-ROM data handed in is ignored: the mapper always has 8 KiB
    of CHR-RAM. *)
Definition NewMapper2 (prgROM0 chrROM : list Z) (mirroring0 : Z) : t :=
  mk prgROM0 (make 8192) (u8 (len prgROM0 / 16384)) 0 mirroring0.

Definition ReadPRG (addr : Z) (m : t) : option Z :=
  if (0x8000 <=? addr) && (addr <? 0xC000) then
    let offset := prgBank m * 0x4000 + (addr - 0x8000) in
    if offset <? len (prgROM m) then sget (prgROM m) offset else Some 0
  else if 0xC000 <=? addr then
    let lastBank := u8 (prgBanks m - 1) in
    let offset := lastBank * 0x4000 + (addr - 0xC000) in
    if offset <? len (prgROM m) then sget (prgROM m) offset else Some 0
  else Some 0.

Definition WritePRG (addr value : Z) (m : t) : option t :=
  if 0x8000 <=? addr
  then Some (set_prgBank (Z.land value (u8 (prgBanks m - 1))) m)
  else Some m.

Definition ReadCHR (addr : Z) (m : t) : option Z :=
  if addr <? len (chrRAM m) then sget (chrRAM m) addr else Some 0.

Definition WriteCHR (addr value : Z) (m : t) : option t :=
  if addr <? len (chrRAM m)
  then do c <- sset (chrRAM m) addr value; Some (set_chrRAM c m)
  else Some m.

Definition Scanline (m : t) : t := m.

Definition GetMirroring (m : t) : Z := mirroring m.

End Mapper2.

(** ** pkg/cartridge/mapper3.go (CNROM) *)

Module Mapper3.

Record t : Type := mk {
  prgROM : list Z;
  chrROM : list Z;
  prgBanks : Z;
  chrBanks : Z;
  chrBank : Z;
  mirroring : Z
}.

Definition set_chrBank (x : Z) (m : t) : t :=
  mk (prgROM m) (chrROM m) (prgBanks m) (chrBanks m) x (mirroring m).

Definition NewMapper3 (prgROM0 chrROM0 : list Z) (mirroring0 : Z) : t :=
  mk prgROM0 chrROM0 (u8 (len prgROM0 / 16384)) (u8 (len chrROM0 / 8192)) 0
     mirroring0.

Definition ReadPRG (addr : Z) (m : t) : option Z :=
  let addr := u16 (addr - 0x8000) in
  let addr := if prgBanks m =? 1 then addr mod 0x4000 else addr in
  if addr <? len (prgROM m) then sget (prgROM m) addr else Some 0.

Definition WritePRG (addr value : Z) (m : t) : option t :=
  if 0x8000 <=? addr then
    if 0 <? chrBanks m
    then Some (set_chrBank (Z.land value (u8 (chrBanks m - 1))) m)
    else Some m
  else Some m.

Definition ReadCHR (addr : Z) (m : t) : option Z :=
  let offset := chrBank m * 0x2000 + addr in
  if offset <? len (chrROM m) then sget (chrROM m) offset else Some 0.

Definition WriteCHR (addr value : Z) (m : t) : option t := Some m.

Definition Scanline (m : t) : t := m.

Definition GetMirroring (m : t) : Z := mirroring m.

End Mapper3.

(** ** pkg/cartridge/mapper7.go (AxROM) *)

Module Mapper7.

Record t : Type := mk {
  prgROM : list Z;
  chrRAM : list Z;
  prgBanks : Z;
  prgBank : Z;
  mirroring : Z
}.

Definition set_chrRAM (x : list Z) (m : t) : t :=
  mk (prgROM m) x (prgBanks m) (prgBank m) (mirroring m).
Definition set_prgBank (x : Z) (m : t) : t :=
  mk (prgROM m) (chrRAM m) (prgBanks m) x (mirroring m).
Definition set_mirroring (x : Z) (m : t) : t :=
  mk (prgROM m) (chrRAM m) (prgBanks m) (prgBank m) x.

(** Neither the CHR-ROM data nor the mirroring handed in is used: 8 KiB
    of CHR-RAM and single-screen mirroring on the lower bank. *)
Definition NewMapper7 (prgROM0 chrROM : list Z) (mirroring0 : Z) : t :=
  mk prgROM0 (make 8192) (u8 (len prgROM0 / 32768)) 0 MirrorSingleLow.

Definition ReadPRG (addr : Z) (m : t) : option Z :=
  if 0x8000 <=? addr then
    let offset := prgBank m * 0x8000 + (addr - 0x8000) in
    if offset <? len (prgROM m) then sget (prgROM m) offset else Some 0
  else Some 0.

Definition WritePRG (addr value : Z) (m : t) : option t :=
  if 0x8000 <=? addr then
    let m := set_prgBank (Z.land value 0x07) m in
    let m :=
      if 0 <? prgBanks m
      then set_prgBank (Z.land (prgBank m) (u8 (prgBanks m - 1))) m
      else m in
    if negb (Z.land value 0x10 =? 0)
    then Some (set_mirroring MirrorSingleHigh m)
    else Some (set_mirroring MirrorSingleLow m)
  else Some m.

Definition ReadCHR (addr : Z) (m : t) : option Z :=
  if addr <? len (chrRAM m) then sget (chrRAM m) addr else Some 0.

Definition WriteCHR (addr value : Z) (m : t) : option t :=
  if addr <? len (chrRAM m)
  then do c <- sset (chrRAM m) addr value; Some (set_chrRAM c m)
  else Some m.

Definition Scanline (m : t) : t := m.

Definition GetMirroring (m : t) : Z := mirroring m.

End Mapper7.

#[export] Instance Mapper0_Mapper : Mapper Mapper0.t := {|
  ReadPRG := Mapper0.ReadPRG;
  WritePRG := Mapper0.WritePRG;
  ReadCHR := Mapper0.ReadCHR;
  WriteCHR := Mapper0.WriteCHR;
  Scanline := Mapper0.Scanline;
  GetMirroring := Mapper0.GetMirroring
|}.

#[export] Instance Mapper1_Mapper : Mapper Mapper1.t := {|
  ReadPRG := Mapper1.ReadPRG;
  WritePRG := Mapper1.WritePRG;
  ReadCHR := Mapper1.ReadCHR;
  WriteCHR := Mapper1.WriteCHR;
  Scanline := Mapper1.Scanline;
  GetMirroring := Mapper1.GetMirroring
|}.

#[export] Instance Mapper4_Mapper : Mapper Mapper4.t := {|
  ReadPRG := Mapper4.ReadPRG;
  WritePRG := Mapper4.WritePRG;
  ReadCHR := Mapper4.ReadCHR;
  WriteCHR := Mapper4.WriteCHR;
  Scanline := Mapper4.Scanline;
  GetMirroring := Mapper4.GetMirroring
|}.

#[export] Instance Mapper2_Mapper : Mapper Mapper2.t := {|
  ReadPRG := Mapper2.ReadPRG;
  WritePRG := Mapper2.WritePRG;
  ReadCHR := Mapper2.ReadCHR;
  WriteCHR := Mapper2.WriteCHR;
  Scanline := Mapper2.Scanline;
  GetMirroring := Mapper2.GetMirroring
|}.

#[export] Instance Mapper3_Mapper : Mapper Mapper3.t := {|
  ReadPRG := Mapper3.ReadPRG;
  WritePRG := Mapper3.WritePRG;
  ReadCHR := Mapper3.ReadCHR;
  WriteCHR := Mapper3.WriteCHR;
  Scanline := Mapper3.Scanline;
  GetMirroring := Mapper3.GetMirroring
|}.

#[export] Instance Mapper7_Mapper : Mapper Mapper7.t := {|
  ReadPRG := Mapper7.ReadPRG;
  WritePRG := Mapper7.WritePRG;
  ReadCHR := Mapper7.ReadCHR;
  WriteCHR := Mapper7.WriteCHR;
  Scanline := Mapper7.Scanline;
  GetMirroring := Mapper7.GetMirroring
|}.

(** A value of the [Mapper] interface is an object of one of the six
    mapper types; a method call goes to the method of that type. *)
Inductive AnyMapper : Type :=
| IsMapper0 (m : Mapper0.t)
| IsMapper1 (m : Mapper1.t)
| IsMapper2 (m : Mapper2.t)
| IsMapper3 (m : Mapper3.t)
| IsMapper4 (m : Mapper4.t)
| IsMapper7 (m : Mapper7.t).

#[export] Instance AnyMapper_Mapper : Mapper AnyMapper := {|
  ReadPRG addr a :=
    match a with
    | IsMapper0 m => Mapper0.ReadPRG addr m
    | IsMapper1 m => Mapper1.ReadPRG addr m
    | IsMapper2 m => Mapper2.ReadPRG addr m
    | IsMapper3 m => Mapper3.ReadPRG addr m
    | IsMapper4 m => Mapper4.ReadPRG addr m
    | IsMapper7 m => Mapper7.ReadPRG addr m
    end;
  WritePRG addr value a :=
    match a with
    | IsMapper0 m => option_map IsMapper0 (Mapper0.WritePRG addr value m)
    | IsMapper1 m => option_map IsMapper1 (Mapper1.WritePRG addr value m)
    | IsMapper2 m => option_map IsMapper2 (Mapper2.WritePRG addr value m)
    | IsMapper3 m => option_map IsMapper3 (Mapper3.WritePRG addr value m)
    | IsMapper4 m => option_map IsMapper4 (Mapper4.WritePRG addr value m)
    | IsMapper7 m => option_map IsMapper7 (Mapper7.WritePRG addr value m)
    end;
  ReadCHR addr a :=
    match a with
    | IsMapper0 m => Mapper0.ReadCHR addr m
    | IsMapper1 m => Mapper1.ReadCHR addr m
    | IsMapper2 m => Mapper2.ReadCHR addr m
    | IsMapper3 m => Mapper3.ReadCHR addr m
    | IsMapper4 m => Mapper4.ReadCHR addr m
    | IsMapper7 m => Mapper7.ReadCHR addr m
    end;
  WriteCHR addr value a :=
    match a with
    | IsMapper0 m => option_map IsMapper0 (Mapper0.WriteCHR addr value m)
    | IsMapper1 m => option_map IsMapper1 (Mapper1.WriteCHR addr value m)
    | IsMapper2 m => option_map IsMapper2 (Mapper2.WriteCHR addr value m)
    | IsMapper3 m => option_map IsMapper3 (Mapper3.WriteCHR addr value m)
    | IsMapper4 m => option_map IsMapper4 (Mapper4.WriteCHR addr value m)
    | IsMapper7 m => option_map IsMapper7 (Mapper7.WriteCHR addr value m)
    end;
  Scanline a :=
    match a with
    | IsMapper0 m => IsMapper0 (Mapper0.Scanline m)
    | IsMapper1 m => IsMapper1 (Mapper1.Scanline m)
    | IsMapper2 m => IsMapper2 (Mapper2.Scanline m)
    | IsMapper3 m => IsMapper3 (Mapper3.Scanline m)
    | IsMapper4 m => IsMapper4 (Mapper4.Scanline m)
    | IsMapper7 m => IsMapper7 (Mapper7.Scanline m)
    end;
  GetMirroring a :=
    match a with
    | IsMapper0 m => Mapper0.GetMirroring m
    | IsMapper1 m => Mapper1.GetMirroring m
    | IsMapper2 m => Mapper2.GetMirroring m
    | IsMapper3 m => Mapper3.GetMirroring m
    | IsMapper4 m => Mapper4.GetMirroring m
    | IsMapper7 m => Mapper7.GetMirroring m
    end
|}.

(** ** pkg/controller/controller.go *)

(** [[8]bool]: false until written. *)
Definition bget (n : Z) (a : gmap Z bool) (i : Z) : option bool :=
  if bool_decide (0 <= i < n) then Some (default false (a !! i)) else None.

Definition bset (n : Z) (a : gmap Z bool) (i : Z) (v : bool) : option (gmap Z bool) :=
  if bool_decide (0 <= i < n) then Some (<[i := v]> a) else None.

Module Controller.

(** [type Button uint8] with the constants numbered by [iota]. *)
Definition ButtonA : Z := 0.
Definition ButtonB : Z := 1.
Definition ButtonSelect : Z := 2.
Definition ButtonStart : Z := 3.
Definition ButtonUp : Z := 4.
Definition ButtonDown : Z := 5.
Definition ButtonLeft : Z := 6.
Definition ButtonRight : Z := 7.

Record t : Type := mk {
  buttons : gmap Z bool;
  strobe : bool;
  index : Z
}.

Definition NewController : t := mk ∅ false 0.

Definition SetButton (button : Z) (pressed : bool) (c : t) : option t :=
  if button <? 8
  then do b <- bset 8 (buttons c) button pressed; Some (mk b (strobe c) (index c))
  else Some c.

Definition IsPressed (button : Z) (c : t) : option bool :=
  if button <? 8 then bget 8 (buttons c) button else Some false.

Definition Write (value : Z) (c : t) : t :=
  let wasStrobe := strobe c in
  let c := mk (buttons c) (negb (Z.land value 0x01 =? 0)) (index c) in
  if wasStrobe && negb (strobe c) then mk (buttons c) (strobe c) 0 else c.

Definition Read (c : t) : option (Z * t) :=
  if strobe c then
    do a <- bget 8 (buttons c) ButtonA;
    Some (if a then 0x01 else 0x00, c)
  else
    do value <- (if index c <? 8
                 then do b <- bget 8 (buttons c) (index c);
                      Some (if b then 0x01 else 0x00)
                 else Some 0x01);
    let c := mk (buttons c) (strobe c) (u8 (index c + 1)) in
    let c := if 23 <? index c then mk (buttons c) (strobe c) 8 else c in
    Some (value, c).

Definition Reset (c : t) : t := mk (buttons c) false 0.

End Controller.

(** ** pkg/ppu/ppu.go *)

Definition ScreenWidth : Z := 256.
Definition ScreenHeight : Z := 240.
Definition CyclesPerScanline : Z := 341.
Definition ScanlinesPerFrame : Z := 262.
Definition VisibleScanlines : Z := 240.

Section PPU.

Context {M : Type} {mapperM : Mapper M}.

(** The [PPU] struct.  The fields [oamData], [ppuScroll], [ppuAddr] and
    [ppuData] are never read or written by the code and are left out.
    [mapper] is the object behind the interface pointer, [None] when the
    pointer is nil. *)
Record PPU : Type := mkPPU {
  nametable : gmap Z Z;
  paletteRAM : gmap Z Z;
  oam : gmap Z Z;
  oamAddress : Z;
  control : Z;
  mask : Z;
  status : Z;
  vramAddress : Z;
  tempVRAMAddress : Z;
  fineX : Z;
  writeLatch : bool;
  readBuffer : Z;
  scanline : Z;
  cycle : Z;
  frame : Z;
  oddFrame : bool;
  frameComplete : bool;
  bgNextTileID : Z;
  bgNextTileAttrib : Z;
  bgNextTileLSB : Z;
  bgNextTileMSB : Z;
  bgShifterPatternLo : Z;
  bgShifterPatternHi : Z;
  bgShifterAttribLo : Z;
  bgShifterAttribHi : Z;
  secondaryOAM : gmap Z Z;
  spriteCount : Z;
  sprite0Present : bool;
  spriteShifterPatternLo : gmap Z Z;
  spriteShifterPatternHi : gmap Z Z;
  spriteAttributes : gmap Z Z;
  spritePositions : gmap Z Z;
  mapper : option M;
  mirroringMode : Z;
  frameBuffer : gmap Z Z;
  nmiOutput : bool
}.

Definition set_nametable (x : gmap Z Z) (p : PPU) : PPU :=
  mkPPU x (paletteRAM p) (oam p) (oamAddress p) (control p) (mask p)
  (status p) (vramAddress p) (tempVRAMAddress p) (fineX p) (writeLatch p)
  (readBuffer p) (scanline p) (cycle p) (frame p) (oddFrame p)
  (frameComplete p) (bgNextTileID p) (bgNextTileAttrib p) (bgNextTileLSB p)
  (bgNextTileMSB p) (bgShifterPatternLo p) (bgShifterPatternHi p)
  (bgShifterAttribLo p) (bgShifterAttribHi p) (secondaryOAM p)
  (spriteCount p) (sprite0Present p) (spriteShifterPatternLo p)
  (spriteShifterPatternHi p) (spriteAttributes p) (spritePositions p)
  (mapper p) (mirroringMode p) (frameBuffer p) (nmiOutput p).
Definition set_paletteRAM (x : gmap Z Z) (p : PPU) : PPU :=
  mkPPU (nametable p) x (oam p) (oamAddress p) (control p) (mask p)
  (status p) (vramAddress p) (tempVRAMAddress p) (fineX p) (writeLatch p)
  (readBuffer p) (scanline p) (cycle p) (frame p) (oddFrame p)
  (frameComplete p) (bgNextTileID p) (bgNextTileAttrib p) (bgNextTileLSB p)
  (bgNextTileMSB p) (bgShifterPatternLo p) (bgShifterPatternHi p)
  (bgShifterAttribLo p) (bgShifterAttribHi p) (secondaryOAM p)
  (spriteCount p) (sprite0Present p) (spriteShifterPatternLo p)
  (spriteShifterPatternHi p) (spriteAttributes p) (spritePositions p)
  (mapper p) (mirroringMode p) (frameBuffer p) (nmiOutput p).
Definition set_oam (x : gmap Z Z) (p : PPU) : PPU :=
  mkPPU (nametable p) (paletteRAM p) x (oamAddress p) (control p) (mask p)
  (status p) (vramAddress p) (tempVRAMAddress p) (fineX p) (writeLatch p)
  (readBuffer p) (scanline p) (cycle p) (frame p) (oddFrame p)
  (frameComplete p) (bgNextTileID p) (bgNextTileAttrib p) (bgNextTileLSB p)
  (bgNextTileMSB p) (bgShifterPatternLo p) (bgShifterPatternHi p)
  (bgShifterAttribLo p) (bgShifterAttribHi p) (secondaryOAM p)
  (spriteCount p) (sprite0Present p) (spriteShifterPatternLo p)
  (spriteShifterPatternHi p) (spriteAttributes p) (spritePositions p)
  (mapper p) (mirroringMode p) (frameBuffer p) (nmiOutput p).
Definition set_oamAddress (x : Z) (p : PPU) : PPU :=
  mkPPU (nametable p) (paletteRAM p) (oam p) x (control p) (mask p)
  (status p) (vramAddress p) (tempVRAMAddress p) (fineX p) (writeLatch p)
  (readBuffer p) (scanline p) (cycle p) (frame p) (oddFrame p)
  (frameComplete p) (bgNextTileID p) (bgNextTileAttrib p) (bgNextTileLSB p)
  (bgNextTileMSB p) (bgShifterPatternLo p) (bgShifterPatternHi p)
  (bgShifterAttribLo p) (bgShifterAttribHi p) (secondaryOAM p)
  (spriteCount p) (sprite0Present p) (spriteShifterPatternLo p)
  (spriteShifterPatternHi p) (spriteAttributes p) (spritePositions p)
  (mapper p) (mirroringMode p) (frameBuffer p) (nmiOutput p).
Definition set_control (x : Z) (p : PPU) : PPU :=
  mkPPU (nametable p) (paletteRAM p) (oam p) (oamAddress p) x (mask p)
  (status p) (vramAddress p) (tempVRAMAddress p) (fineX p) (writeLatch p)
  (readBuffer p) (scanline p) (cycle p) (frame p) (oddFrame p)
  (frameComplete p) (bgNextTileID p) (bgNextTileAttrib p) (bgNextTileLSB p)
  (bgNextTileMSB p) (bgShifterPatternLo p) (bgShifterPatternHi p)
  (bgShifterAttribLo p) (bgShifterAttribHi p) (secondaryOAM p)
  (spriteCount p) (sprite0Present p) (spriteShifterPatternLo p)
  (spriteShifterPatternHi p) (spriteAttributes p) (spritePositions p)
  (mapper p) (mirroringMode p) (frameBuffer p) (nmiOutput p).
Definition set_mask (x : Z) (p : PPU) : PPU :=
  mkPPU (nametable p) (paletteRAM p) (oam p) (oamAddress p) (control p) x
  (status p) (vramAddress p) (tempVRAMAddress p) (fineX p) (writeLatch p)
  (readBuffer p) (scanline p) (cycle p) (frame p) (oddFrame p)
  (frameComplete p) (bgNextTileID p) (bgNextTileAttrib p) (bgNextTileLSB p)
  (bgNextTileMSB p) (bgShifterPatternLo p) (bgShifterPatternHi p)
  (bgShifterAttribLo p) (bgShifterAttribHi p) (secondaryOAM p)
  (spriteCount p) (sprite0Present p) (spriteShifterPatternLo p)
  (spriteShifterPatternHi p) (spriteAttributes p) (spritePositions p)
  (mapper p) (mirroringMode p) (frameBuffer p) (nmiOutput p).
Definition set_status (x : Z) (p : PPU) : PPU :=
  mkPPU (nametable p) (paletteRAM p) (oam p) (oamAddress p) (control p)
  (mask p) x (vramAddress p) (tempVRAMAddress p) (fineX p) (writeLatch p)
  (readBuffer p) (scanline p) (cycle p) (frame p) (oddFrame p)
  (frameComplete p) (bgNextTileID p) (bgNextTileAttrib p) (bgNextTileLSB p)
  (bgNextTileMSB p) (bgShifterPatternLo p) (bgShifterPatternHi p)
  (bgShifterAttribLo p) (bgShifterAttribHi p) (secondaryOAM p)
  (spriteCount p) (sprite0Present p) (spriteShifterPatternLo p)
  (spriteShifterPatternHi p) (spriteAttributes p) (spritePositions p)
  (mapper p) (mirroringMode p) (frameBuffer p) (nmiOutput p).
Definition set_vramAddress (x : Z) (p : PPU) : PPU :=
  mkPPU (nametable p) (paletteRAM p) (oam p) (oamAddress p) (control p)
  (mask p) (status p) x (tempVRAMAddress p) (fineX p) (writeLatch p)
  (readBuffer p) (scanline p) (cycle p) (frame p) (oddFrame p)
  (frameComplete p) (bgNextTileID p) (bgNextTileAttrib p) (bgNextTileLSB p)
  (bgNextTileMSB p) (bgShifterPatternLo p) (bgShifterPatternHi p)
  (bgShifterAttribLo p) (bgShifterAttribHi p) (secondaryOAM p)
  (spriteCount p) (sprite0Present p) (spriteShifterPatternLo p)
  (spriteShifterPatternHi p) (spriteAttributes p) (spritePositions p)
  (mapper p) (mirroringMode p) (frameBuffer p) (nmiOutput p).
Definition set_tempVRAMAddress (x : Z) (p : PPU) : PPU :=
  mkPPU (nametable p) (paletteRAM p) (oam p) (oamAddress p) (control p)
  (mask p) (status p) (vramAddress p) x (fineX p) (writeLatch p)
  (readBuffer p) (scanline p) (cycle p) (frame p) (oddFrame p)
  (frameComplete p) (bgNextTileID p) (bgNextTileAttrib p) (bgNextTileLSB p)
  (bgNextTileMSB p) (bgShifterPatternLo p) (bgShifterPatternHi p)
  (bgShifterAttribLo p) (bgShifterAttribHi p) (secondaryOAM p)
  (spriteCount p) (sprite0Present p) (spriteShifterPatternLo p)
  (spriteShifterPatternHi p) (spriteAttributes p) (spritePositions p)
  (mapper p) (mirroringMode p) (frameBuffer p) (nmiOutput p).
Definition set_fineX (x : Z) (p : PPU) : PPU :=
  mkPPU (nametable p) (paletteRAM p) (oam p) (oamAddress p) (control p)
  (mask p) (status p) (vramAddress p) (tempVRAMAddress p) x (writeLatch p)
  (readBuffer p) (scanline p) (cycle p) (frame p) (oddFrame p)
  (frameComplete p) (bgNextTileID p) (bgNextTileAttrib p) (bgNextTileLSB p)
  (bgNextTileMSB p) (bgShifterPatternLo p) (bgShifterPatternHi p)
  (bgShifterAttribLo p) (bgShifterAttribHi p) (secondaryOAM p)
  (spriteCount p) (sprite0Present p) (spriteShifterPatternLo p)
  (spriteShifterPatternHi p) (spriteAttributes p) (spritePositions p)
  (mapper p) (mirroringMode p) (frameBuffer p) (nmiOutput p).
Definition set_writeLatch (x : bool) (p : PPU) : PPU :=
  mkPPU (nametable p) (paletteRAM p) (oam p) (oamAddress p) (control p)
  (mask p) (status p) (vramAddress p) (tempVRAMAddress p) (fineX p) x
  (readBuffer p) (scanline p) (cycle p) (frame p) (oddFrame p)
  (frameComplete p) (bgNextTileID p) (bgNextTileAttrib p) (bgNextTileLSB p)
  (bgNextTileMSB p) (bgShifterPatternLo p) (bgShifterPatternHi p)
  (bgShifterAttribLo p) (bgShifterAttribHi p) (secondaryOAM p)
  (spriteCount p) (sprite0Present p) (spriteShifterPatternLo p)
  (spriteShifterPatternHi p) (spriteAttributes p) (spritePositions p)
  (mapper p) (mirroringMode p) (frameBuffer p) (nmiOutput p).
Definition set_readBuffer (x : Z) (p : PPU) : PPU :=
  mkPPU (nametable p) (paletteRAM p) (oam p) (oamAddress p) (control p)
  (mask p) (status p) (vramAddress p) (tempVRAMAddress p) (fineX p)
  (writeLatch p) x (scanline p) (cycle p) (frame p) (oddFrame p)
  (frameComplete p) (bgNextTileID p) (bgNextTileAttrib p) (bgNextTileLSB p)
  (bgNextTileMSB p) (bgShifterPatternLo p) (bgShifterPatternHi p)
  (bgShifterAttribLo p) (bgShifterAttribHi p) (secondaryOAM p)
  (spriteCount p) (sprite0Present p) (spriteShifterPatternLo p)
  (spriteShifterPatternHi p) (spriteAttributes p) (spritePositions p)
  (mapper p) (mirroringMode p) (frameBuffer p) (nmiOutput p).
Definition set_scanline (x : Z) (p : PPU) : PPU :=
  mkPPU (nametable p) (paletteRAM p) (oam p) (oamAddress p) (control p)
  (mask p) (status p) (vramAddress p) (tempVRAMAddress p) (fineX p)
  (writeLatch p) (readBuffer p) x (cycle p) (frame p) (oddFrame p)
  (frameComplete p) (bgNextTileID p) (bgNextTileAttrib p) (bgNextTileLSB p)
  (bgNextTileMSB p) (bgShifterPatternLo p) (bgShifterPatternHi p)
  (bgShifterAttribLo p) (bgShifterAttribHi p) (secondaryOAM p)
  (spriteCount p) (sprite0Present p) (spriteShifterPatternLo p)
  (spriteShifterPatternHi p) (spriteAttributes p) (spritePositions p)
  (mapper p) (mirroringMode p) (frameBuffer p) (nmiOutput p).
Definition set_cycle (x : Z) (p : PPU) : PPU :=
  mkPPU (nametable p) (paletteRAM p) (oam p) (oamAddress p) (control p)
  (mask p) (status p) (vramAddress p) (tempVRAMAddress p) (fineX p)
  (writeLatch p) (readBuffer p) (scanline p) x (frame p) (oddFrame p)
  (frameComplete p) (bgNextTileID p) (bgNextTileAttrib p) (bgNextTileLSB p)
  (bgNextTileMSB p) (bgShifterPatternLo p) (bgShifterPatternHi p)
  (bgShifterAttribLo p) (bgShifterAttribHi p) (secondaryOAM p)
  (spriteCount p) (sprite0Present p) (spriteShifterPatternLo p)
  (spriteShifterPatternHi p) (spriteAttributes p) (spritePositions p)
  (mapper p) (mirroringMode p) (frameBuffer p) (nmiOutput p).
Definition set_frame (x : Z) (p : PPU) : PPU :=
  mkPPU (nametable p) (paletteRAM p) (oam p) (oamAddress p) (control p)
  (mask p) (status p) (vramAddress p) (tempVRAMAddress p) (fineX p)
  (writeLatch p) (readBuffer p) (scanline p) (cycle p) x (oddFrame p)
  (frameComplete p) (bgNextTileID p) (bgNextTileAttrib p) (bgNextTileLSB p)
  (bgNextTileMSB p) (bgShifterPatternLo p) (bgShifterPatternHi p)
  (bgShifterAttribLo p) (bgShifterAttribHi p) (secondaryOAM p)
  (spriteCount p) (sprite0Present p) (spriteShifterPatternLo p)
  (spriteShifterPatternHi p) (spriteAttributes p) (spritePositions p)
  (mapper p) (mirroringMode p) (frameBuffer p) (nmiOutput p).
Definition set_oddFrame (x : bool) (p : PPU) : PPU :=
  mkPPU (nametable p) (paletteRAM p) (oam p) (oamAddress p) (control p)
  (mask p) (status p) (vramAddress p) (tempVRAMAddress p) (fineX p)
  (writeLatch p) (readBuffer p) (scanline p) (cycle p) (frame p) x
  (frameComplete p) (bgNextTileID p) (bgNextTileAttrib p) (bgNextTileLSB p)
  (bgNextTileMSB p) (bgShifterPatternLo p) (bgShifterPatternHi p)
  (bgShifterAttribLo p) (bgShifterAttribHi p) (secondaryOAM p)
  (spriteCount p) (sprite0Present p) (spriteShifterPatternLo p)
  (spriteShifterPatternHi p) (spriteAttributes p) (spritePositions p)
  (mapper p) (mirroringMode p) (frameBuffer p) (nmiOutput p).
Definition set_frameComplete (x : bool) (p : PPU) : PPU :=
  mkPPU (nametable p) (paletteRAM p) (oam p) (oamAddress p) (control p)
  (mask p) (status p) (vramAddress p) (tempVRAMAddress p) (fineX p)
  (writeLatch p) (readBuffer p) (scanline p) (cycle p) (frame p)
  (oddFrame p) x (bgNextTileID p) (bgNextTileAttrib p) (bgNextTileLSB p)
  (bgNextTileMSB p) (bgShifterPatternLo p) (bgShifterPatternHi p)
  (bgShifterAttribLo p) (bgShifterAttribHi p) (secondaryOAM p)
  (spriteCount p) (sprite0Present p) (spriteShifterPatternLo p)
  (spriteShifterPatternHi p) (spriteAttributes p) (spritePositions p)
  (mapper p) (mirroringMode p) (frameBuffer p) (nmiOutput p).
Definition set_bgNextTileID (x : Z) (p : PPU) : PPU :=
  mkPPU (nametable p) (paletteRAM p) (oam p) (oamAddress p) (control p)
  (mask p) (status p) (vramAddress p) (tempVRAMAddress p) (fineX p)
  (writeLatch p) (readBuffer p) (scanline p) (cycle p) (frame p)
  (oddFrame p) (frameComplete p) x (bgNextTileAttrib p) (bgNextTileLSB p)
  (bgNextTileMSB p) (bgShifterPatternLo p) (bgShifterPatternHi p)
  (bgShifterAttribLo p) (bgShifterAttribHi p) (secondaryOAM p)
  (spriteCount p) (sprite0Present p) (spriteShifterPatternLo p)
  (spriteShifterPatternHi p) (spriteAttributes p) (spritePositions p)
  (mapper p) (mirroringMode p) (frameBuffer p) (nmiOutput p).
Definition set_bgNextTileAttrib (x : Z) (p : PPU) : PPU :=
  mkPPU (nametable p) (paletteRAM p) (oam p) (oamAddress p) (control p)
  (mask p) (status p) (vramAddress p) (tempVRAMAddress p) (fineX p)
  (writeLatch p) (readBuffer p) (scanline p) (cycle p) (frame p)
  (oddFrame p) (frameComplete p) (bgNextTileID p) x (bgNextTileLSB p)
  (bgNextTileMSB p) (bgShifterPatternLo p) (bgShifterPatternHi p)
  (bgShifterAttribLo p) (bgShifterAttribHi p) (secondaryOAM p)
  (spriteCount p) (sprite0Present p) (spriteShifterPatternLo p)
  (spriteShifterPatternHi p) (spriteAttributes p) (spritePositions p)
  (mapper p) (mirroringMode p) (frameBuffer p) (nmiOutput p).
Definition set_bgNextTileLSB (x : Z) (p : PPU) : PPU :=
  mkPPU (nametable p) (paletteRAM p) (oam p) (oamAddress p) (control p)
  (mask p) (status p) (vramAddress p) (tempVRAMAddress p) (fineX p)
  (writeLatch p) (readBuffer p) (scanline p) (cycle p) (frame p)
  (oddFrame p) (frameComplete p) (bgNextTileID p) (bgNextTileAttrib p) x
  (bgNextTileMSB p) (bgShifterPatternLo p) (bgShifterPatternHi p)
  (bgShifterAttribLo p) (bgShifterAttribHi p) (secondaryOAM p)
  (spriteCount p) (sprite0Present p) (spriteShifterPatternLo p)
  (spriteShifterPatternHi p) (spriteAttributes p) (spritePositions p)
  (mapper p) (mirroringMode p) (frameBuffer p) (nmiOutput p).
Definition set_bgNextTileMSB (x : Z) (p : PPU) : PPU :=
  mkPPU (nametable p) (paletteRAM p) (oam p) (oamAddress p) (control p)
  (mask p) (status p) (vramAddress p) (tempVRAMAddress p) (fineX p)
  (writeLatch p) (readBuffer p) (scanline p) (cycle p) (frame p)
  (oddFrame p) (frameComplete p) (bgNextTileID p) (bgNextTileAttrib p)
  (bgNextTileLSB p) x (bgShifterPatternLo p) (bgShifterPatternHi p)
  (bgShifterAttribLo p) (bgShifterAttribHi p) (secondaryOAM p)
  (spriteCount p) (sprite0Present p) (spriteShifterPatternLo p)
  (spriteShifterPatternHi p) (spriteAttributes p) (spritePositions p)
  (mapper p) (mirroringMode p) (frameBuffer p) (nmiOutput p).
Definition set_bgShifterPatternLo (x : Z) (p : PPU) : PPU :=
  mkPPU (nametable p) (paletteRAM p) (oam p) (oamAddress p) (control p)
  (mask p) (status p) (vramAddress p) (tempVRAMAddress p) (fineX p)
  (writeLatch p) (readBuffer p) (scanline p) (cycle p) (frame p)
  (oddFrame p) (frameComplete p) (bgNextTileID p) (bgNextTileAttrib p)
  (bgNextTileLSB p) (bgNextTileMSB p) x (bgShifterPatternHi p)
  (bgShifterAttribLo p) (bgShifterAttribHi p) (secondaryOAM p)
  (spriteCount p) (sprite0Present p) (spriteShifterPatternLo p)
  (spriteShifterPatternHi p) (spriteAttributes p) (spritePositions p)
  (mapper p) (mirroringMode p) (frameBuffer p) (nmiOutput p).
Definition set_bgShifterPatternHi (x : Z) (p : PPU) : PPU :=
  mkPPU (nametable p) (paletteRAM p) (oam p) (oamAddress p) (control p)
  (mask p) (status p) (vramAddress p) (tempVRAMAddress p) (fineX p)
  (writeLatch p) (readBuffer p) (scanline p) (cycle p) (frame p)
  (oddFrame p) (frameComplete p) (bgNextTileID p) (bgNextTileAttrib p)
  (bgNextTileLSB p) (bgNextTileMSB p) (bgShifterPatternLo p) x
  (bgShifterAttribLo p) (bgShifterAttribHi p) (secondaryOAM p)
  (spriteCount p) (sprite0Present p) (spriteShifterPatternLo p)
  (spriteShifterPatternHi p) (spriteAttributes p) (spritePositions p)
  (mapper p) (mirroringMode p) (frameBuffer p) (nmiOutput p).
Definition set_bgShifterAttribLo (x : Z) (p : PPU) : PPU :=
  mkPPU (nametable p) (paletteRAM p) (oam p) (oamAddress p) (control p)
  (mask p) (status p) (vramAddress p) (tempVRAMAddress p) (fineX p)
  (writeLatch p) (readBuffer p) (scanline p) (cycle p) (frame p)
  (oddFrame p) (frameComplete p) (bgNextTileID p) (bgNextTileAttrib p)
  (bgNextTileLSB p) (bgNextTileMSB p) (bgShifterPatternLo p)
  (bgShifterPatternHi p) x (bgShifterAttribHi p) (secondaryOAM p)
  (spriteCount p) (sprite0Present p) (spriteShifterPatternLo p)
  (spriteShifterPatternHi p) (spriteAttributes p) (spritePositions p)
  (mapper p) (mirroringMode p) (frameBuffer p) (nmiOutput p).
Definition set_bgShifterAttribHi (x : Z) (p : PPU) : PPU :=
  mkPPU (nametable p) (paletteRAM p) (oam p) (oamAddress p) (control p)
  (mask p) (status p) (vramAddress p) (tempVRAMAddress p) (fineX p)
  (writeLatch p) (readBuffer p) (scanline p) (cycle p) (frame p)
  (oddFrame p) (frameComplete p) (bgNextTileID p) (bgNextTileAttrib p)
  (bgNextTileLSB p) (bgNextTileMSB p) (bgShifterPatternLo p)
  (bgShifterPatternHi p) (bgShifterAttribLo p) x (secondaryOAM p)
  (spriteCount p) (sprite0Present p) (spriteShifterPatternLo p)
  (spriteShifterPatternHi p) (spriteAttributes p) (spritePositions p)
  (mapper p) (mirroringMode p) (frameBuffer p) (nmiOutput p).
Definition set_secondaryOAM (x : gmap Z Z) (p : PPU) : PPU :=
  mkPPU (nametable p) (paletteRAM p) (oam p) (oamAddress p) (control p)
  (mask p) (status p) (vramAddress p) (tempVRAMAddress p) (fineX p)
  (writeLatch p) (readBuffer p) (scanline p) (cycle p) (frame p)
  (oddFrame p) (frameComplete p) (bgNextTileID p) (bgNextTileAttrib p)
  (bgNextTileLSB p) (bgNextTileMSB p) (bgShifterPatternLo p)
  (bgShifterPatternHi p) (bgShifterAttribLo p) (bgShifterAttribHi p) x
  (spriteCount p) (sprite0Present p) (spriteShifterPatternLo p)
  (spriteShifterPatternHi p) (spriteAttributes p) (spritePositions p)
  (mapper p) (mirroringMode p) (frameBuffer p) (nmiOutput p).
Definition set_spriteCount (x : Z) (p : PPU) : PPU :=
  mkPPU (nametable p) (paletteRAM p) (oam p) (oamAddress p) (control p)
  (mask p) (status p) (vramAddress p) (tempVRAMAddress p) (fineX p)
  (writeLatch p) (readBuffer p) (scanline p) (cycle p) (frame p)
  (oddFrame p) (frameComplete p) (bgNextTileID p) (bgNextTileAttrib p)
  (bgNextTileLSB p) (bgNextTileMSB p) (bgShifterPatternLo p)
  (bgShifterPatternHi p) (bgShifterAttribLo p) (bgShifterAttribHi p)
  (secondaryOAM p) x (sprite0Present p) (spriteShifterPatternLo p)
  (spriteShifterPatternHi p) (spriteAttributes p) (spritePositions p)
  (mapper p) (mirroringMode p) (frameBuffer p) (nmiOutput p).
Definition set_sprite0Present (x : bool) (p : PPU) : PPU :=
  mkPPU (nametable p) (paletteRAM p) (oam p) (oamAddress p) (control p)
  (mask p) (status p) (vramAddress p) (tempVRAMAddress p) (fineX p)
  (writeLatch p) (readBuffer p) (scanline p) (cycle p) (frame p)
  (oddFrame p) (frameComplete p) (bgNextTileID p) (bgNextTileAttrib p)
  (bgNextTileLSB p) (bgNextTileMSB p) (bgShifterPatternLo p)
  (bgShifterPatternHi p) (bgShifterAttribLo p) (bgShifterAttribHi p)
  (secondaryOAM p) (spriteCount p) x (spriteShifterPatternLo p)
  (spriteShifterPatternHi p) (spriteAttributes p) (spritePositions p)
  (mapper p) (mirroringMode p) (frameBuffer p) (nmiOutput p).
Definition set_spriteShifterPatternLo (x : gmap Z Z) (p : PPU) : PPU :=
  mkPPU (nametable p) (paletteRAM p) (oam p) (oamAddress p) (control p)
  (mask p) (status p) (vramAddress p) (tempVRAMAddress p) (fineX p)
  (writeLatch p) (readBuffer p) (scanline p) (cycle p) (frame p)
  (oddFrame p) (frameComplete p) (bgNextTileID p) (bgNextTileAttrib p)
  (bgNextTileLSB p) (bgNextTileMSB p) (bgShifterPatternLo p)
  (bgShifterPatternHi p) (bgShifterAttribLo p) (bgShifterAttribHi p)
  (secondaryOAM p) (spriteCount p) (sprite0Present p) x
  (spriteShifterPatternHi p) (spriteAttributes p) (spritePositions p)
  (mapper p) (mirroringMode p) (frameBuffer p) (nmiOutput p).
Definition set_spriteShifterPatternHi (x : gmap Z Z) (p : PPU) : PPU :=
  mkPPU (nametable p) (paletteRAM p) (oam p) (oamAddress p) (control p)
  (mask p) (status p) (vramAddress p) (tempVRAMAddress p) (fineX p)
  (writeLatch p) (readBuffer p) (scanline p) (cycle p) (frame p)
  (oddFrame p) (frameComplete p) (bgNextTileID p) (bgNextTileAttrib p)
  (bgNextTileLSB p) (bgNextTileMSB p) (bgShifterPatternLo p)
  (bgShifterPatternHi p) (bgShifterAttribLo p) (bgShifterAttribHi p)
  (secondaryOAM p) (spriteCount p) (sprite0Present p)
  (spriteShifterPatternLo p) x (spriteAttributes p) (spritePositions p)
  (mapper p) (mirroringMode p) (frameBuffer p) (nmiOutput p).
Definition set_spriteAttributes (x : gmap Z Z) (p : PPU) : PPU :=
  mkPPU (nametable p) (paletteRAM p) (oam p) (oamAddress p) (control p)
  (mask p) (status p) (vramAddress p) (tempVRAMAddress p) (fineX p)
  (writeLatch p) (readBuffer p) (scanline p) (cycle p) (frame p)
  (oddFrame p) (frameComplete p) (bgNextTileID p) (bgNextTileAttrib p)
  (bgNextTileLSB p) (bgNextTileMSB p) (bgShifterPatternLo p)
  (bgShifterPatternHi p) (bgShifterAttribLo p) (bgShifterAttribHi p)
  (secondaryOAM p) (spriteCount p) (sprite0Present p)
  (spriteShifterPatternLo p) (spriteShifterPatternHi p) x
  (spritePositions p) (mapper p) (mirroringMode p) (frameBuffer p)
  (nmiOutput p).
Definition set_spritePositions (x : gmap Z Z) (p : PPU) : PPU :=
  mkPPU (nametable p) (paletteRAM p) (oam p) (oamAddress p) (control p)
  (mask p) (status p) (vramAddress p) (tempVRAMAddress p) (fineX p)
  (writeLatch p) (readBuffer p) (scanline p) (cycle p) (frame p)
  (oddFrame p) (frameComplete p) (bgNextTileID p) (bgNextTileAttrib p)
  (bgNextTileLSB p) (bgNextTileMSB p) (bgShifterPatternLo p)
  (bgShifterPatternHi p) (bgShifterAttribLo p) (bgShifterAttribHi p)
  (secondaryOAM p) (spriteCount p) (sprite0Present p)
  (spriteShifterPatternLo p) (spriteShifterPatternHi p)
  (spriteAttributes p) x (mapper p) (mirroringMode p) (frameBuffer p)
  (nmiOutput p).
Definition set_mapper (x : option M) (p : PPU) : PPU :=
  mkPPU (nametable p) (paletteRAM p) (oam p) (oamAddress p) (control p)
  (mask p) (status p) (vramAddress p) (tempVRAMAddress p) (fineX p)
  (writeLatch p) (readBuffer p) (scanline p) (cycle p) (frame p)
  (oddFrame p) (frameComplete p) (bgNextTileID p) (bgNextTileAttrib p)
  (bgNextTileLSB p) (bgNextTileMSB p) (bgShifterPatternLo p)
  (bgShifterPatternHi p) (bgShifterAttribLo p) (bgShifterAttribHi p)
  (secondaryOAM p) (spriteCount p) (sprite0Present p)
  (spriteShifterPatternLo p) (spriteShifterPatternHi p)
  (spriteAttributes p) (spritePositions p) x (mirroringMode p)
  (frameBuffer p) (nmiOutput p).
Definition set_mirroringMode (x : Z) (p : PPU) : PPU :=
  mkPPU (nametable p) (paletteRAM p) (oam p) (oamAddress p) (control p)
  (mask p) (status p) (vramAddress p) (tempVRAMAddress p) (fineX p)
  (writeLatch p) (readBuffer p) (scanline p) (cycle p) (frame p)
  (oddFrame p) (frameComplete p) (bgNextTileID p) (bgNextTileAttrib p)
  (bgNextTileLSB p) (bgNextTileMSB p) (bgShifterPatternLo p)
  (bgShifterPatternHi p) (bgShifterAttribLo p) (bgShifterAttribHi p)
  (secondaryOAM p) (spriteCount p) (sprite0Present p)
  (spriteShifterPatternLo p) (spriteShifterPatternHi p)
  (spriteAttributes p) (spritePositions p) (mapper p) x (frameBuffer p)
  (nmiOutput p).
Definition set_frameBuffer (x : gmap Z Z) (p : PPU) : PPU :=
  mkPPU (nametable p) (paletteRAM p) (oam p) (oamAddress p) (control p)
  (mask p) (status p) (vramAddress p) (tempVRAMAddress p) (fineX p)
  (writeLatch p) (readBuffer p) (scanline p) (cycle p) (frame p)
  (oddFrame p) (frameComplete p) (bgNextTileID p) (bgNextTileAttrib p)
  (bgNextTileLSB p) (bgNextTileMSB p) (bgShifterPatternLo p)
  (bgShifterPatternHi p) (bgShifterAttribLo p) (bgShifterAttribHi p)
  (secondaryOAM p) (spriteCount p) (sprite0Present p)
  (spriteShifterPatternLo p) (spriteShifterPatternHi p)
  (spriteAttributes p) (spritePositions p) (mapper p) (mirroringMode p) x
  (nmiOutput p).
Definition set_nmiOutput (x : bool) (p : PPU) : PPU :=
  mkPPU (nametable p) (paletteRAM p) (oam p) (oamAddress p) (control p)
  (mask p) (status p) (vramAddress p) (tempVRAMAddress p) (fineX p)
  (writeLatch p) (readBuffer p) (scanline p) (cycle p) (frame p)
  (oddFrame p) (frameComplete p) (bgNextTileID p) (bgNextTileAttrib p)
  (bgNextTileLSB p) (bgNextTileMSB p) (bgShifterPatternLo p)
  (bgShifterPatternHi p) (bgShifterAttribLo p) (bgShifterAttribHi p)
  (secondaryOAM p) (spriteCount p) (sprite0Present p)
  (spriteShifterPatternLo p) (spriteShifterPatternHi p)
  (spriteAttributes p) (spritePositions p) (mapper p) (mirroringMode p)
  (frameBuffer p) x.

(** [NewPPU]: every field not named keeps Go's zero value. *)
Definition NewPPU : PPU :=
  mkPPU ∅ ∅ ∅ 0 0 0 0 0 0 0 false 0 0 0 0 false false 0 0 0 0 0 0 0 0
        ∅ 0 false ∅ ∅ ∅ ∅ None 0 ∅ false.

Definition SetMapper (m : option M) (p : PPU) : PPU := set_mapper m p.

Definition SetMirroring (mode : Z) (p : PPU) : PPU := set_mirroringMode mode p.

(** *** Internal PPU memory access *)

Definition mirrorNametableAddress (addr : Z) (p : PPU) : Z :=
  let addr := u16 (addr - 0x2000) mod 0x1000 in
  let table := addr / 0x0400 in
  let offset := addr mod 0x0400 in
  if mirroringMode p =? MirrorVertical then addr mod 0x0800
  else if mirroringMode p =? MirrorHorizontal then (table / 2) * 0x0400 + offset
  else if mirroringMode p =? MirrorSingleLow then offset
  else if mirroringMode p =? MirrorSingleHigh then 0x0400 + offset
  else if mirroringMode p =? MirrorFourScreen then addr
  else 0.

Definition mirrorPaletteAddress (addr : Z) : Z :=
  let addr := u16 (addr - 0x3F00) mod 32 in
  if (16 <=? addr) && (addr mod 4 =? 0) then addr - 16 else addr.

Definition ppuRead (addr : Z) (p : PPU) : option Z :=
  let addr := Z.land addr 0x3FFF in
  if addr <? 0x2000 then
    match mapper p with
    | Some m => ReadCHR addr m
    | None => Some 0
    end
  else if addr <? 0x3F00 then
    aget 2048 (nametable p) (mirrorNametableAddress addr p)
  else if addr <? 0x4000 then
    aget 32 (paletteRAM p) (mirrorPaletteAddress addr)
  else Some 0.

Definition ppuWrite (addr value : Z) (p : PPU) : option PPU :=
  let addr := Z.land addr 0x3FFF in
  if addr <? 0x2000 then
    match mapper p with
    | Some m => do m' <- WriteCHR addr value m; Some (set_mapper (Some m') p)
    | None => Some p
    end
  else if addr <? 0x3F00 then
    do n <- aset 2048 (nametable p) (mirrorNametableAddress addr p) value;
    Some (set_nametable n p)
  else if addr <? 0x4000 then
    do r <- aset 32 (paletteRAM p) (mirrorPaletteAddress addr) value;
    Some (set_paletteRAM r p)
  else Some p.

(** *** pkg/ppu/rendering.go *)

Definition loadBackgroundShifters (p : PPU) : PPU :=
  let p := set_bgShifterPatternLo
             (Z.lor (Z.land (bgShifterPatternLo p) 0xFF00) (bgNextTileLSB p)) p in
  let p := set_bgShifterPatternHi
             (Z.lor (Z.land (bgShifterPatternHi p) 0xFF00) (bgNextTileMSB p)) p in
  let p :=
    if negb (Z.land (bgNextTileAttrib p) 0x01 =? 0)
    then set_bgShifterAttribLo (Z.lor (Z.land (bgShifterAttribLo p) 0xFF00) 0x00FF) p
    else set_bgShifterAttribLo (Z.land (bgShifterAttribLo p) 0xFF00) p in
  if negb (Z.land (bgNextTileAttrib p) 0x02 =? 0)
  then set_bgShifterAttribHi (Z.lor (Z.land (bgShifterAttribHi p) 0xFF00) 0x00FF) p
  else set_bgShifterAttribHi (Z.land (bgShifterAttribHi p) 0xFF00) p.

Definition updateShifters (p : PPU) : PPU :=
  if PPUMask.RenderBackground (mask p) then
    let p := set_bgShifterPatternLo (u16 (Z.shiftl (bgShifterPatternLo p) 1)) p in
    let p := set_bgShifterPatternHi (u16 (Z.shiftl (bgShifterPatternHi p) 1)) p in
    let p := set_bgShifterAttribLo (u16 (Z.shiftl (bgShifterAttribLo p) 1)) p in
    set_bgShifterAttribHi (u16 (Z.shiftl (bgShifterAttribHi p) 1)) p
  else p.

(** *** pkg/ppu/sprites.go *)

(** [for i := range a { a[i] = v }] on an array of length [n]. *)
Definition afill (n v : Z) : gmap Z Z :=
  list_to_map ((fun i => (i, v)) <$> seqZ 0 n).

(** The scan over the 64 sprites of [spriteEvaluation]; [n] iterations
    remain and [i] is the loop variable. *)
Fixpoint spriteEvaluation_loop (n : nat) (i spriteHeight : Z) (p : PPU) : option PPU :=
  match n with
  | O => Some p
  | S n' =>
    let oamIndex := u16 (i * 4) in
    do spriteY <- aget 256 (oam p) oamIndex;
    let diff := u16 (u16 (scanline p) - spriteY) in
    if diff <? spriteHeight then
      if 8 <=? spriteCount p then
        Some (set_status (PPUStatus.SetSpriteOverflow true (status p)) p)
      else
        let secondaryIndex := u16 (spriteCount p * 4) in
        do b0 <- aget 256 (oam p) (oamIndex + 0);
        do s <- aset 32 (secondaryOAM p) (secondaryIndex + 0) b0;
        let p := set_secondaryOAM s p in
        do b1 <- aget 256 (oam p) (oamIndex + 1);
        do s <- aset 32 (secondaryOAM p) (secondaryIndex + 1) b1;
        let p := set_secondaryOAM s p in
        do b2 <- aget 256 (oam p) (oamIndex + 2);
        do s <- aset 32 (secondaryOAM p) (secondaryIndex + 2) b2;
        let p := set_secondaryOAM s p in
        do b3 <- aget 256 (oam p) (oamIndex + 3);
        do s <- aset 32 (secondaryOAM p) (secondaryIndex + 3) b3;
        let p := set_secondaryOAM s p in
        let p := if i =? 0 then set_sprite0Present true p else p in
        let p := set_spriteCount (u8 (spriteCount p + 1)) p in
        spriteEvaluation_loop n' (u8 (i + 1)) spriteHeight p
    else spriteEvaluation_loop n' (u8 (i + 1)) spriteHeight p
  end.

Definition spriteEvaluation (p : PPU) : option PPU :=
  let p := set_secondaryOAM (afill 32 0xFF) p in
  let p := set_spriteCount 0 p in
  let p := set_sprite0Present false p in
  if negb (PPUMask.IsRenderingEnabled (mask p)) then Some p
  else
    let spriteHeight := if negb (PPUControl.SpriteSize (control p) =? 0) then 16 else 8 in
    spriteEvaluation_loop 64 0 spriteHeight p.

Definition reverseByte (b : Z) : Z :=
  let b := Z.lor (Z.shiftr (Z.land b 0xF0) 4) (u8 (Z.shiftl (Z.land b 0x0F) 4)) in
  let b := Z.lor (Z.shiftr (Z.land b 0xCC) 2) (u8 (Z.shiftl (Z.land b 0x33) 2)) in
  let b := Z.lor (Z.shiftr (Z.land b 0xAA) 1) (u8 (Z.shiftl (Z.land b 0x55) 1)) in
  b.

(** The loop of [spriteFetching] over the sprites in secondary OAM. *)
Fixpoint spriteFetching_loop (n : nat) (i spriteHeight spritePatternTable : Z)
    (p : PPU) : option PPU :=
  match n with
  | O => Some p
  | S n' =>
    let secondaryIndex := u16 (i * 4) in
    do spriteY <- aget 32 (secondaryOAM p) (secondaryIndex + 0);
    do tileIndex <- aget 32 (secondaryOAM p) (secondaryIndex + 1);
    do attributes <- aget 32 (secondaryOAM p) (secondaryIndex + 2);
    do spriteX <- aget 32 (secondaryOAM p) (secondaryIndex + 3);
    do a <- aset 8 (spriteAttributes p) i attributes;
    let p := set_spriteAttributes a p in
    do a <- aset 8 (spritePositions p) i spriteX;
    let p := set_spritePositions a p in
    let spriteRow := u16 (u16 (scanline p) - spriteY) in
    let spriteRow :=
      if negb (Z.land attributes 0x80 =? 0)
      then u16 (spriteHeight - 1 - spriteRow) else spriteRow in
    let patternAddress :=
      if spriteHeight =? 16 then
        if spriteRow <? 8 then
          Z.lor (Z.lor (u16 (Z.shiftl (Z.land tileIndex 0x01) 12))
                       (u16 (Z.shiftl (Z.land tileIndex 0xFE) 4)))
                (Z.land spriteRow 0x07)
        else
          Z.lor (Z.lor (u16 (Z.shiftl (Z.land tileIndex 0x01) 12))
                       (u16 (Z.shiftl (u16 (Z.land tileIndex 0xFE + 1)) 4)))
                (Z.land (u16 (spriteRow - 8)) 0x07)
      else
        Z.lor (Z.lor (u16 (Z.shiftl spritePatternTable 12))
                     (u16 (Z.shiftl tileIndex 4)))
              (Z.land spriteRow 0x07) in
    do patternLow <- ppuRead patternAddress p;
    do patternHigh <- ppuRead (u16 (patternAddress + 8)) p;
    let flip := negb (Z.land attributes 0x40 =? 0) in
    let patternLow := if flip then reverseByte patternLow else patternLow in
    let patternHigh := if flip then reverseByte patternHigh else patternHigh in
    do a <- aset 8 (spriteShifterPatternLo p) i patternLow;
    let p := set_spriteShifterPatternLo a p in
    do a <- aset 8 (spriteShifterPatternHi p) i patternHigh;
    let p := set_spriteShifterPatternHi a p in
    spriteFetching_loop n' (u8 (i + 1)) spriteHeight spritePatternTable p
  end.

Definition spriteFetching (p : PPU) : option PPU :=
  let spritePatternTable := PPUControl.SpritePatternTable (control p) in
  let spriteHeight := if negb (PPUControl.SpriteSize (control p) =? 0) then 16 else 8 in
  spriteFetching_loop (Z.to_nat (spriteCount p)) 0 spriteHeight spritePatternTable p.

(** The loop of [renderSprites]: the first sprite whose window holds [x]
    and whose pixel is opaque decides the result. *)
Fixpoint renderSprites_loop (n : nat) (i x : Z) (p : PPU)
    : option (Z * Z * bool * bool) :=
  match n with
  | O => Some (0, 0, false, false)
  | S n' =>
    do pos <- aget 8 (spritePositions p) i;
    let offset := i16 x - i16 pos in
    if (0 <=? offset) && (offset <? 8) then
      let shift := u8 (7 - offset) in
      do lo <- aget 8 (spriteShifterPatternLo p) i;
      do hi <- aget 8 (spriteShifterPatternHi p) i;
      let pixelLow := Z.land (Z.shiftr lo shift) 0x01 in
      let pixelHigh := Z.land (Z.shiftr hi shift) 0x01 in
      let pixelValue := Z.lor (u8 (Z.shiftl pixelHigh 1)) pixelLow in
      if pixelValue =? 0 then renderSprites_loop n' (u8 (i + 1)) x p
      else
        do attr <- aget 8 (spriteAttributes p) i;
        let spritePalette := Z.land attr 0x03 in
        let spritePriority := Z.land attr 0x20 =? 0 in
        let sprite0 := (i =? 0) && sprite0Present p in
        Some (pixelValue, spritePalette, spritePriority, sprite0)
    else renderSprites_loop n' (u8 (i + 1)) x p
  end.

Definition renderSprites (x : Z) (p : PPU) : option (Z * Z * bool * bool) :=
  if negb (PPUMask.RenderSprites (mask p)) then Some (0, 0, false, false)
  else if (x <? 8) && negb (PPUMask.RenderSpritesLeft (mask p))
  then Some (0, 0, false, false)
  else renderSprites_loop (Z.to_nat (spriteCount p)) 0 x p.

(** *** pkg/ppu/rendering.go: pixel composition *)

(** The background pixel and palette taken from the shifters. *)
Definition backgroundPixel (p : PPU) : Z * Z :=
  if PPUMask.RenderBackground (mask p) then
    let bitMux := Z.shiftr 0x8000 (fineX p) in
    let p0 := if negb (Z.land (bgShifterPatternLo p) bitMux =? 0) then 1 else 0 in
    let p1 := if negb (Z.land (bgShifterPatternHi p) bitMux =? 0) then 1 else 0 in
    let pal0 := if negb (Z.land (bgShifterAttribLo p) bitMux =? 0) then 1 else 0 in
    let pal1 := if negb (Z.land (bgShifterAttribHi p) bitMux =? 0) then 1 else 0 in
    (Z.lor (u8 (Z.shiftl p1 1)) p0, Z.lor (u8 (Z.shiftl pal1 1)) pal0)
  else (0, 0).

Definition renderPixel (p : PPU) : option PPU :=
  let x := u16 (cycle p - 1) in
  let y := u16 (scanline p) in
  if (ScreenWidth <=? x) || (ScreenHeight <=? y) then Some p
  else if negb (PPUMask.IsRenderingEnabled (mask p)) then
    do c <- ppuRead 0x3F00 p;
    let backdropColor := Z.land c 0x3F in
    do f <- aset (ScreenWidth * ScreenHeight) (frameBuffer p)
                 (u16 (y * ScreenWidth + x)) backdropColor;
    Some (set_frameBuffer f p)
  else
    let '(bgPixel, bgPalette) := backgroundPixel p in
    do (spritePixel, spritePalette, spritePriority, isSprite0) <- renderSprites x p;
    let '(finalPixel, finalPalette, p) :=
      if (bgPixel =? 0) && (spritePixel =? 0) then (0, 0, p)
      else if (bgPixel =? 0) && (0 <? spritePixel) then
        (spritePixel, u8 (spritePalette + 4), p)
      else if (0 <? bgPixel) && (spritePixel =? 0) then (bgPixel, bgPalette, p)
      else
        let '(finalPixel, finalPalette) :=
          if spritePriority then (spritePixel, u8 (spritePalette + 4))
          else (bgPixel, bgPalette) in
        let p :=
          if isSprite0 && (x <? 255) && (1 <=? x) then
            if PPUMask.RenderBackground (mask p) && PPUMask.RenderSprites (mask p) then
              if PPUMask.RenderBackgroundLeft (mask p) || (8 <=? x)
              then set_status (PPUStatus.SetSprite0Hit true (status p)) p
              else p
            else p
          else p in
        (finalPixel, finalPalette, p) in
    let address := Z.lor (u8 (Z.shiftl finalPalette 2)) (Z.land finalPixel 0x03) in
    do c <- ppuRead (u16 (0x3F00 + address)) p;
    let colorIndex := Z.land c 0x3F in
    do f <- aset (ScreenWidth * ScreenHeight) (frameBuffer p)
                 (u16 (y * ScreenWidth + x)) colorIndex;
    Some (set_frameBuffer f p).

(** *** pkg/ppu/ppu.go: [Clock] *)

(** The eight-cycle background fetch pattern, [switch (p.cycle - 1) % 8]. *)
Definition backgroundFetch (p : PPU) : option PPU :=
  let phase := u16 (cycle p - 1) mod 8 in
  if phase =? 0 then
    let p := loadBackgroundShifters p in
    do b <- ppuRead (Z.lor 0x2000 (Z.land (vramAddress p) 0x0FFF)) p;
    Some (set_bgNextTileID b p)
  else if phase =? 2 then
    let v := vramAddress p in
    let address :=
      Z.lor (Z.lor (Z.lor (Z.lor 0x23C0
        (u16 (Z.shiftl (LoopyRegister.NametableY v) 11)))
        (u16 (Z.shiftl (LoopyRegister.NametableX v) 10)))
        (u16 (Z.shiftl (Z.shiftr (LoopyRegister.CoarseY v) 2) 3)))
        (Z.shiftr (LoopyRegister.CoarseX v) 2) in
    do b <- ppuRead address p;
    let p := set_bgNextTileAttrib b p in
    let p :=
      if negb (Z.land (LoopyRegister.CoarseY (vramAddress p)) 0x02 =? 0)
      then set_bgNextTileAttrib (Z.shiftr (bgNextTileAttrib p) 4) p else p in
    let p :=
      if negb (Z.land (LoopyRegister.CoarseX (vramAddress p)) 0x02 =? 0)
      then set_bgNextTileAttrib (Z.shiftr (bgNextTileAttrib p) 2) p else p in
    Some (set_bgNextTileAttrib (Z.land (bgNextTileAttrib p) 0x03) p)
  else if phase =? 4 then
    let table := PPUControl.BackgroundPatternTable (control p) in
    let tileID := bgNextTileID p in
    let fineY := LoopyRegister.FineY (vramAddress p) in
    let address := Z.lor (Z.lor table (u16 (Z.shiftl tileID 4))) fineY in
    do b <- ppuRead address p;
    Some (set_bgNextTileLSB b p)
  else if phase =? 6 then
    let table := PPUControl.BackgroundPatternTable (control p) in
    let tileID := bgNextTileID p in
    let fineY := LoopyRegister.FineY (vramAddress p) in
    let address := Z.lor (Z.lor table (u16 (Z.shiftl tileID 4))) fineY in
    do b <- ppuRead (u16 (address + 8)) p;
    Some (set_bgNextTileMSB b p)
  else if phase =? 7 then
    if PPUMask.IsRenderingEnabled (mask p)
    then Some (set_vramAddress (LoopyRegister.IncrementX (vramAddress p)) p)
    else Some p
  else Some p.

(** The blocks of the pre-render and visible scanlines, in the order of
    the source; each is one [if] statement of [Clock]. *)

(** Clear flags at start of pre-render scanline. *)
Definition clearFlags (p : PPU) : PPU :=
  if (scanline p =? -1) && (cycle p =? 1) then
    let p := set_status (PPUStatus.SetVBlank false (status p)) p in
    let p := set_status (PPUStatus.SetSprite0Hit false (status p)) p in
    let p := set_status (PPUStatus.SetSpriteOverflow false (status p)) p in
    set_frameComplete false p
  else p.

(** Background rendering cycles. *)
Definition backgroundCycles (p : PPU) : option PPU :=
  if ((2 <=? cycle p) && (cycle p <? 258)) || ((321 <=? cycle p) && (cycle p <? 338))
  then backgroundFetch (updateShifters p)
  else Some p.

(** End of visible scanline: increment vertical scroll. *)
Definition incrementVertical (p : PPU) : PPU :=
  if cycle p =? 256 then
    if PPUMask.IsRenderingEnabled (mask p)
    then set_vramAddress (LoopyRegister.IncrementY (vramAddress p)) p
    else p
  else p.

(** Reset horizontal position and start sprite fetching. *)
Definition resetHorizontal (p : PPU) : option PPU :=
  if cycle p =? 257 then
    let p := loadBackgroundShifters p in
    let p :=
      if PPUMask.IsRenderingEnabled (mask p)
      then set_vramAddress
             (LoopyRegister.TransferX (tempVRAMAddress p) (vramAddress p)) p
      else p in
    if (-1 <=? scanline p) && (scanline p <? 240)
    then spriteEvaluation p else Some p
  else Some p.

(** Sprite pattern fetching. *)
Definition spritePatternFetch (p : PPU) : option PPU :=
  if cycle p =? 320 then
    if (-1 <=? scanline p) && (scanline p <? 240)
    then spriteFetching p else Some p
  else Some p.

(** Superfluous nametable fetches at end of scanline. *)
Definition superfluousFetch (p : PPU) : option PPU :=
  if (cycle p =? 338) || (cycle p =? 340) then
    do b <- ppuRead (Z.lor 0x2000 (Z.land (vramAddress p) 0x0FFF)) p;
    Some (set_bgNextTileID b p)
  else Some p.

(** Pre-render scanline: restore vertical position. *)
Definition restoreVertical (p : PPU) : PPU :=
  if (scanline p =? -1) && (280 <=? cycle p) && (cycle p <? 305) then
    if PPUMask.IsRenderingEnabled (mask p)
    then set_vramAddress
           (LoopyRegister.TransferY (tempVRAMAddress p) (vramAddress p)) p
    else p
  else p.

(** Pre-render and visible scanlines (-1, 0-239). *)
Definition activeScanline (p : PPU) : option PPU :=
  let p := clearFlags p in
  do p <- backgroundCycles p;
  let p := incrementVertical p in
  do p <- resetHorizontal p;
  do p <- spritePatternFetch p;
  do p <- superfluousFetch p;
  Some (restoreVertical p).

(** VBlank scanlines (241-260): the flag and the NMI at scanline 241, cycle 1. *)
Definition vblankStart (p : PPU) : PPU :=
  if (scanline p =? 241) && (cycle p =? 1) then
    let p := set_status (PPUStatus.SetVBlank true (status p)) p in
    if PPUControl.EnableNMI (control p) then set_nmiOutput true p else p
  else p.

(** Advance timing. *)
Definition advanceTiming (p : PPU) : PPU :=
  let p := set_cycle (u16 (cycle p + 1)) p in
  if CyclesPerScanline <=? cycle p then
    let p := set_cycle 0 p in
    let p := set_scanline (i16 (scanline p + 1)) p in
    let p :=
      if (scanline p =? 0) && (Z.land (frame p) 1 =? 1)
         && PPUMask.IsRenderingEnabled (mask p)
      then set_cycle 1 p else p in
    if ScanlinesPerFrame <=? scanline p then
      let p := set_scanline (-1) p in
      let p := set_frameComplete true p in
      let p := set_frame ((frame p + 1) mod 2 ^ 64) p in
      set_oddFrame (negb (oddFrame p)) p
    else p
  else p.

Definition Clock (p : PPU) : option PPU :=
  do p <- (if (0 <=? scanline p) && (scanline p <? 240)
              && (1 <=? cycle p) && (cycle p <=? 256)
           then renderPixel p else Some p);
  do p <- (if (-1 <=? scanline p) && (scanline p <? 240)
           then activeScanline p else Some p);
  let p := vblankStart p in
  Some (advanceTiming p).

Definition GetNMI (p : PPU) : bool * PPU := (nmiOutput p, set_nmiOutput false p).

(** [GetFrameBuffer] returns a pointer to the array: its contents. *)
Definition GetFrameBuffer (p : PPU) : gmap Z Z := frameBuffer p.

Definition IsFrameComplete (p : PPU) : bool := frameComplete p.

Definition ClearFrameComplete (p : PPU) : PPU := set_frameComplete false p.

Definition Reset (p : PPU) : PPU :=
  let p := set_control 0 p in
  let p := set_mask 0 p in
  let p := set_status 0 p in
  let p := set_oamAddress 0 p in
  let p := set_writeLatch false p in
  let p := set_vramAddress (LoopyRegister.Set_ 0) p in
  let p := set_tempVRAMAddress (LoopyRegister.Set_ 0) p in
  let p := set_fineX 0 p in
  let p := set_readBuffer 0 p in
  let p := set_scanline 0 p in
  let p := set_cycle 0 p in
  set_nmiOutput false p.

(** *** CPU register interface ($2000-$2007) *)

Definition WriteCPURegister (addr value : Z) (p : PPU) : option PPU :=
  if addr =? 0x2000 then
    let p := set_control value p in
    let p := set_tempVRAMAddress
               (LoopyRegister.SetNametableX (PPUControl.NametableX (control p))
                  (tempVRAMAddress p)) p in
    Some (set_tempVRAMAddress
            (LoopyRegister.SetNametableY (PPUControl.NametableY (control p))
               (tempVRAMAddress p)) p)
  else if addr =? 0x2001 then Some (set_mask value p)
  else if addr =? 0x2003 then Some (set_oamAddress value p)
  else if addr =? 0x2004 then
    do o <- aset 256 (oam p) (oamAddress p) value;
    let p := set_oam o p in
    Some (set_oamAddress (u8 (oamAddress p + 1)) p)
  else if addr =? 0x2005 then
    if negb (writeLatch p) then
      let p := set_tempVRAMAddress
                 (LoopyRegister.SetCoarseX (Z.shiftr value 3) (tempVRAMAddress p)) p in
      let p := set_fineX (Z.land value 0x07) p in
      Some (set_writeLatch true p)
    else
      let p := set_tempVRAMAddress
                 (LoopyRegister.SetFineY (Z.land value 0x07) (tempVRAMAddress p)) p in
      let p := set_tempVRAMAddress
                 (LoopyRegister.SetCoarseY (Z.shiftr value 3) (tempVRAMAddress p)) p in
      Some (set_writeLatch false p)
  else if addr =? 0x2006 then
    if negb (writeLatch p) then
      let p := set_tempVRAMAddress
                 (LoopyRegister.Set_
                    (Z.lor (Z.land (tempVRAMAddress p) 0x00FF)
                           (u16 (Z.shiftl (Z.land value 0x3F) 8)))) p in
      Some (set_writeLatch true p)
    else
      let p := set_tempVRAMAddress
                 (LoopyRegister.Set_
                    (Z.lor (Z.land (tempVRAMAddress p) 0xFF00) value)) p in
      let p := set_vramAddress (LoopyRegister.Set_ (tempVRAMAddress p)) p in
      Some (set_writeLatch false p)
  else if addr =? 0x2007 then
    do p <- ppuWrite (vramAddress p) value p;
    Some (set_vramAddress
            (LoopyRegister.Set_
               (u16 (vramAddress p + PPUControl.IncrementMode (control p)))) p)
  else Some p.

Definition ReadCPURegister (addr : Z) (p : PPU) : option (Z * PPU) :=
  if addr =? 0x2002 then
    let value := status p in
    let p := set_status (PPUStatus.SetVBlank false (status p)) p in
    Some (value, set_writeLatch false p)
  else if addr =? 0x2004 then
    do value <- aget 256 (oam p) (oamAddress p);
    Some (value, p)
  else if addr =? 0x2007 then
    let value := readBuffer p in
    do b <- ppuRead (vramAddress p) p;
    let p := set_readBuffer b p in
    let value := if 0x3F00 <=? vramAddress p then readBuffer p else value in
    Some (value,
          set_vramAddress
            (LoopyRegister.Set_
               (u16 (vramAddress p + PPUControl.IncrementMode (control p)))) p)
  else Some (0, p).

End PPU.

Arguments PPU M : clear implicits.

(** ** pkg/ppu/palette.go *)

Module Palette.

Record Color : Type := mkColor { R : Z; G : Z; B : Z }.

(** The 64 colours of the hardware palette. *)
Definition HardwarePalette : list Color :=
  (fun c : Z * Z * Z => let '(r, g, b) := c in mkColor r g b) <$>
  [ (84, 84, 84); (0, 30, 116); (8, 16, 144); (48, 0, 136);
    (68, 0, 100); (92, 0, 48); (84, 4, 0); (60, 24, 0);
    (32, 42, 0); (8, 58, 0); (0, 64, 0); (0, 60, 0);
    (0, 50, 60); (0, 0, 0); (0, 0, 0); (0, 0, 0);

    (152, 150, 152); (8, 76, 196); (48, 50, 236); (92, 30, 228);
    (136, 20, 176); (160, 20, 100); (152, 34, 32); (120, 60, 0);
    (84, 90, 0); (40, 114, 0); (8, 124, 0); (0, 118, 40);
    (0, 102, 120); (0, 0, 0); (0, 0, 0); (0, 0, 0);

    (236, 238, 236); (76, 154, 236); (120, 124, 236); (176, 98, 236);
    (228, 84, 236); (236, 88, 180); (236, 106, 100); (212, 136, 32);
    (160, 170, 0); (116, 196, 0); (76, 208, 32); (56, 204, 108);
    (56, 180, 204); (60, 60, 60); (0, 0, 0); (0, 0, 0);

    (236, 238, 236); (168, 204, 236); (188, 188, 236); (212, 178, 236);
    (236, 174, 236); (236, 174, 212); (236, 180, 176); (228, 196, 144);
    (204, 210, 120); (180, 222, 120); (168, 226, 144); (152, 226, 180);
    (160, 214, 228); (160, 162, 160); (0, 0, 0); (0, 0, 0) ].

End Palette.

(** [HardwarePalette[colorIndex]]: an index past the table panics. *)
Definition GetColorFromPalette {M : Type} {mapperM : Mapper M}
    (paletteIndex pixelValue : Z) (p : PPU M) : option Palette.Color :=
  let address := u16 (Z.lor (u8 (Z.shiftl paletteIndex 2)) (Z.land pixelValue 0x03)) in
  do c <- ppuRead (u16 (0x3F00 + address)) p;
  let colorIndex := Z.land c 0x3F in
  if bool_decide (0 <= colorIndex < Z.of_nat (length Palette.HardwarePalette))
  then Palette.HardwarePalette !! Z.to_nat colorIndex else None.

(** ** pkg/bus/bus.go

    [NewFromCartridge] hands one mapper object to the PPU ([SetMapper])
    and to the bus ([NewNESBus]): [b.mapper] and [b.ppu.mapper] are the
    same pointer.  The object is kept once, in the PPU record, and the bus
    reaches it there; a call through a nil mapper panics. *)

Module Bus.

Section Bus.

Context {M : Type} {mapperM : Mapper M}.

Record NESBus : Type := mkNESBus {
  cpuRAM : gmap Z Z;
  ppu : PPU M;
  controller1 : Controller.t;
  controller2 : Controller.t;
  dmaPage : Z;
  dmaAddr : Z;
  dmaData : Z;
  dmaDummy : bool;
  dmaTransfer : bool
}.

Definition set_cpuRAM (x : gmap Z Z) (b : NESBus) : NESBus :=
  mkNESBus x (ppu b) (controller1 b) (controller2 b) (dmaPage b) (dmaAddr b)
  (dmaData b) (dmaDummy b) (dmaTransfer b).
Definition set_ppu (x : PPU M) (b : NESBus) : NESBus :=
  mkNESBus (cpuRAM b) x (controller1 b) (controller2 b) (dmaPage b)
  (dmaAddr b) (dmaData b) (dmaDummy b) (dmaTransfer b).
Definition set_controller1 (x : Controller.t) (b : NESBus) : NESBus :=
  mkNESBus (cpuRAM b) (ppu b) x (controller2 b) (dmaPage b) (dmaAddr b)
  (dmaData b) (dmaDummy b) (dmaTransfer b).
Definition set_controller2 (x : Controller.t) (b : NESBus) : NESBus :=
  mkNESBus (cpuRAM b) (ppu b) (controller1 b) x (dmaPage b) (dmaAddr b)
  (dmaData b) (dmaDummy b) (dmaTransfer b).
Definition set_dmaPage (x : Z) (b : NESBus) : NESBus :=
  mkNESBus (cpuRAM b) (ppu b) (controller1 b) (controller2 b) x (dmaAddr b)
  (dmaData b) (dmaDummy b) (dmaTransfer b).
Definition set_dmaAddr (x : Z) (b : NESBus) : NESBus :=
  mkNESBus (cpuRAM b) (ppu b) (controller1 b) (controller2 b) (dmaPage b) x
  (dmaData b) (dmaDummy b) (dmaTransfer b).
Definition set_dmaData (x : Z) (b : NESBus) : NESBus :=
  mkNESBus (cpuRAM b) (ppu b) (controller1 b) (controller2 b) (dmaPage b)
  (dmaAddr b) x (dmaDummy b) (dmaTransfer b).
Definition set_dmaDummy (x : bool) (b : NESBus) : NESBus :=
  mkNESBus (cpuRAM b) (ppu b) (controller1 b) (controller2 b) (dmaPage b)
  (dmaAddr b) (dmaData b) x (dmaTransfer b).
Definition set_dmaTransfer (x : bool) (b : NESBus) : NESBus :=
  mkNESBus (cpuRAM b) (ppu b) (controller1 b) (controller2 b) (dmaPage b)
  (dmaAddr b) (dmaData b) (dmaDummy b) x.

Definition NewNESBus (ppuUnit : PPU M) : NESBus :=
  mkNESBus ∅ ppuUnit Controller.NewController Controller.NewController
           0 0 0 false false.

Definition Read (addr : Z) (b : NESBus) : option (Z * NESBus) :=
  if addr <? 0x2000 then
    do v <- aget 2048 (cpuRAM b) (Z.land addr 0x07FF);
    Some (v, b)
  else if addr <? 0x4000 then
    do (v, p) <- ReadCPURegister (u16 (0x2000 + Z.land addr 0x0007)) (ppu b);
    Some (v, set_ppu p b)
  else if addr =? 0x4016 then
    do (v, c) <- Controller.Read (controller1 b);
    Some (v, set_controller1 c b)
  else if addr =? 0x4017 then
    do (v, c) <- Controller.Read (controller2 b);
    Some (v, set_controller2 c b)
  else if 0x4020 <=? addr then
    match mapper (ppu b) with
    | Some m => do v <- ReadPRG addr m; Some (v, b)
    | None => None
    end
  else Some (0, b).

Definition Write (addr data : Z) (b : NESBus) : option NESBus :=
  if addr <? 0x2000 then
    do r <- aset 2048 (cpuRAM b) (Z.land addr 0x07FF) data;
    Some (set_cpuRAM r b)
  else if addr <? 0x4000 then
    do p <- WriteCPURegister (u16 (0x2000 + Z.land addr 0x0007)) data (ppu b);
    Some (set_ppu p b)
  else if addr =? 0x4014 then
    let b := set_dmaPage data b in
    let b := set_dmaAddr 0x00 b in
    Some (set_dmaTransfer true b)
  else if addr =? 0x4016 then
    let b := set_controller1 (Controller.Write data (controller1 b)) b in
    Some (set_controller2 (Controller.Write data (controller2 b)) b)
  else if 0x4020 <=? addr then
    match mapper (ppu b) with
    | Some m =>
      do m' <- WritePRG addr data m;
      Some (set_ppu (set_mapper (Some m') (ppu b)) b)
    | None => None
    end
  else Some b.

Definition Clock (b : NESBus) : option NESBus :=
  do p <- Clock (ppu b);
  do p <- Clock p;
  do p <- Clock p;
  let b := set_ppu p b in
  if dmaTransfer b then
    if dmaDummy b then Some (set_dmaDummy false b)
    else
      do b <- (if dmaAddr b mod 2 =? 0 then
                 let addr := Z.lor (u16 (Z.shiftl (dmaPage b) 8)) (dmaAddr b) in
                 do (v, b) <- Read addr b;
                 Some (set_dmaData v b)
               else
                 do p <- WriteCPURegister 0x2004 (dmaData b) (ppu b);
                 Some (set_ppu p b));
      let b := set_dmaAddr (u8 (dmaAddr b + 1)) b in
      if dmaAddr b =? 0
      then Some (set_dmaDummy true (set_dmaTransfer false b))
      else Some b
  else Some b.

Definition IsNMI (b : NESBus) : bool * NESBus :=
  let '(nmi, p) := GetNMI (ppu b) in (nmi, set_ppu p b).

Definition GetPPU (b : NESBus) : PPU M := ppu b.

Definition GetController (num : Z) (b : NESBus) : Controller.t :=
  if num =? 0 then controller1 b else controller2 b.

End Bus.

Arguments NESBus M : clear implicits.

End Bus.

(** ** Running the clocks *)

(** [n] PPU ticks in a row. *)
Fixpoint Clocks {M : Type} {mapperM : Mapper M} (n : nat) (p : PPU M) : option (PPU M) :=
  match n with
  | O => Some p
  | S k => do p' <- Clock p; Clocks k p'
  end.

(** The bus is clocked until the DMA transfer has deactivated; the result
    carries the number of CPU cycles taken.  [fuel] bounds the loop. *)
Fixpoint clockUntilDMADone {M : Type} {mapperM : Mapper M} (fuel : nat)
    (b : Bus.NESBus M) : option (Z * Bus.NESBus M) :=
  if negb (Bus.dmaTransfer b) then Some (0, b)
  else
    match fuel with
    | O => None
    | S f =>
      do b' <- Bus.Clock b;
      do (k, b'') <- clockUntilDMADone f b';
      Some (k + 1, b'')
    end.

(** A sequence of CPU writes on the bus, and of MMC1 and MMC3 register
    writes. *)
Fixpoint busWrites {M : Type} {mapperM : Mapper M} (ws : list (Z * Z))
    (b : Bus.NESBus M) : option (Bus.NESBus M) :=
  match ws with
  | [] => Some b
  | (addr, data) :: ws' => do b' <- Bus.Write addr data b; busWrites ws' b'
  end.

Fixpoint mapperWrites {M : Type} {mapperM : Mapper M} (ws : list (Z * Z))
    (m : M) : option M :=
  match ws with
  | [] => Some m
  | (addr, data) :: ws' => do m' <- WritePRG addr data m; mapperWrites ws' m'
  end.

(** [n] reads of a controller: the values read, in order, and the
    controller afterwards. *)
Fixpoint controllerReads (n : nat) (c : Controller.t) : option (list Z * Controller.t) :=
  match n with
  | O => Some ([], c)
  | S k =>
    do (v, c') <- Controller.Read c;
    do (vs, c'') <- controllerReads k c';
    Some (v :: vs, c'')
  end.

(** The contents of a fixed-size array as a list. *)
Definition bytes (n : Z) (a : gmap Z Z) : list Z :=
  (fun i => default 0 (a !! i)) <$> seqZ 0 n.

(** A sequence of CPU writes to the PPU registers. *)
Fixpoint ppuWrites {M : Type} {mapperM : Mapper M} (ws : list (Z * Z))
    (p : PPU M) : option (PPU M) :=
  match ws with
  | [] => Some p
  | (addr, data) :: ws' => do p' <- WriteCPURegister addr data p; ppuWrites ws' p'
  end.

(** The position in the frame: scanline, cycle, frame counter and the
    frame-complete flag. *)
Definition timingOf {M : Type} (p : PPU M) : Z * Z * Z * bool :=
  (scanline p, cycle p, frame p, frameComplete p).

(** ** pkg/cartridge/cartridge.go: the iNES header *)

Module Cartridge.

Record inesHeader : Type := mkHeader {
  prgBanks : Z;
  chrBanks : Z;
  mapperID : Z;
  mirroring : Z;
  hasSaveRAM : bool;
  hasTrainer : bool;
  fourScreen : bool
}.

(** [LoadFromBytes] calls it on a buffer of at least sixteen bytes. *)
Definition parseINESHeader (data : list Z) : option inesHeader :=
  do b4 <- sget data 4;
  do b5 <- sget data 5;
  do flags6 <- sget data 6;
  do flags7 <- sget data 7;
  let mirroring0 := Z.land flags6 0x01 in
  let fourScreen0 := negb (Z.land flags6 0x08 =? 0) in
  let mirroring0 := if fourScreen0 then MirrorFourScreen else mirroring0 in
  let mapperLow := Z.shiftr (Z.land flags6 0xF0) 4 in
  let mapperHigh := Z.land flags7 0xF0 in
  Some (mkHeader b4 b5 (Z.lor mapperHigh mapperLow) mirroring0
          (negb (Z.land flags6 0x02 =? 0)) (negb (Z.land flags6 0x04 =? 0))
          fourScreen0).

Definition inesHeaderSize : Z := 16.
Definition prgROMBankSize : Z := 16384.
Definition chrROMBankSize : Z := 8192.

(** The magic number, the bytes of the string [NES] followed by $1A. *)
Definition inesMagic : list Z := [0x4E; 0x45; 0x53; 0x1A].

(** The errors [LoadFromBytes] and [createMapper] return, one for each
    message: file too small to be a valid iNES ROM; invalid iNES header
    magic (with the four bytes found); file too small for PRG-ROM data;
    file too small for CHR-ROM data; unsupported mapper (with its
    number). *)
Inductive error : Type :=
| FileTooSmall
| InvalidMagic (got : list Z)
| PRGTooSmall
| CHRTooSmall
| UnsupportedMapper (mapperID : Z).

(** The slice expression [s[lo:hi]].  Go checks the bounds against the
    capacity of [s], which is at least its length; the check here is
    against the length. *)
Definition slice (s : list Z) (lo hi : Z) : option (list Z) :=
  if bool_decide (0 <= lo /\ lo <= hi /\ hi <= len s)
  then Some (take (Z.to_nat (hi - lo)) (drop (Z.to_nat lo) s))
  else None.

Definition createMapper (mapperID : Z) (prgROM chrROM : list Z) (mirroring : Z)
    : error + AnyMapper :=
  if mapperID =? 0 then inr (IsMapper0 (Mapper0.NewMapper0 prgROM chrROM mirroring))
  else if mapperID =? 1 then inr (IsMapper1 (Mapper1.NewMapper1 prgROM chrROM mirroring))
  else if mapperID =? 2 then inr (IsMapper2 (Mapper2.NewMapper2 prgROM chrROM mirroring))
  else if mapperID =? 3 then inr (IsMapper3 (Mapper3.NewMapper3 prgROM chrROM mirroring))
  else if mapperID =? 4 then inr (IsMapper4 (Mapper4.NewMapper4 prgROM chrROM mirroring))
  else if mapperID =? 7 then inr (IsMapper7 (Mapper7.NewMapper7 prgROM chrROM mirroring))
  else inl (UnsupportedMapper mapperID).

(** The [Cartridge] struct.  Its fields have the names of the fields of
    [inesHeader] and live in a module of their own. *)
Module Cartridge.
Record t : Type := mk {
  mapper : AnyMapper;
  mapperID : Z;
  prgBanks : Z;
  chrBanks : Z;
  mirroring : Z;
  hasSaveRAM : bool;
  hasTrainer : bool
}.
End Cartridge.

(** [LoadFromBytes]: an error, or the cartridge; [None] is a panic. *)
Definition LoadFromBytes (data : list Z) : option (error + Cartridge.t) :=
  if len data <? inesHeaderSize then Some (inl FileTooSmall)
  else
    do magic <- slice data 0 4;
    if negb (bool_decide (magic = inesMagic)) then Some (inl (InvalidMagic magic))
    else
      do header <- parseINESHeader data;
      let offset := inesHeaderSize in
      let offset := if hasTrainer header then offset + 512 else offset in
      let prgSize := prgBanks header * prgROMBankSize in
      if len data <? offset + prgSize then Some (inl PRGTooSmall)
      else
        do prgROM <- slice data offset (offset + prgSize);
        let offset := offset + prgSize in
        let chrSize := chrBanks header * chrROMBankSize in
        let build (chrROM : list Z) : option (error + Cartridge.t) :=
          match createMapper (mapperID header) prgROM chrROM (mirroring header) with
          | inl err => Some (inl err)
          | inr mapper =>
            Some (inr (Cartridge.mk mapper (mapperID header) (prgBanks header)
                         (chrBanks header) (mirroring header)
                         (hasSaveRAM header) (hasTrainer header)))
          end in
        if 0 <? chrSize then
          if len data <? offset + chrSize then Some (inl CHRTooSmall)
          else do chrROM <- slice data offset (offset + chrSize); build chrROM
        else build [].

Definition GetMapper (c : Cartridge.t) : AnyMapper := Cartridge.mapper c.
Definition GetMapperID (c : Cartridge.t) : Z := Cartridge.mapperID c.
Definition GetMirroring (c : Cartridge.t) : Z := Cartridge.mirroring c.
Definition GetPRGBanks (c : Cartridge.t) : Z := Cartridge.prgBanks c.
Definition GetCHRBanks (c : Cartridge.t) : Z := Cartridge.chrBanks c.
Definition HasSaveRAM (c : Cartridge.t) : bool := Cartridge.hasSaveRAM c.

End Cartridge.

(** ** pkg/nes/nes.go

    [NewFromCartridge] builds the PPU and the bus around the mapper of
    the cartridge; the CPU it creates on top of the bus belongs to another
    package and acts on the system only through the bus. *)

Module NES.

Definition NewFromCartridge (cart : Cartridge.Cartridge.t) : Bus.NESBus AnyMapper :=
  let ppuUnit := NewPPU in
  let ppuUnit := SetMapper (Some (Cartridge.GetMapper cart)) ppuUnit in
  let ppuUnit := SetMirroring (Cartridge.GetMirroring cart) ppuUnit in
  Bus.NewNESBus ppuUnit.

End NES.

(** ** States the PPU can be in

    The states produced from [NewPPU] by the exported operations: the
    ticks, the CPU's register accesses and the set-up calls of the system
    ([SetMapper] also stands for a change of the shared mapper object by a
    CPU write to the cartridge). *)

Inductive reachable {M : Type} {mapperM : Mapper M} : PPU M -> Prop :=
| reach_NewPPU : reachable NewPPU
| reach_SetMapper (m : option M) (p : PPU M) :
    reachable p -> reachable (SetMapper m p)
| reach_SetMirroring (mode : Z) (p : PPU M) :
    reachable p -> reachable (SetMirroring mode p)
| reach_Reset (p : PPU M) : reachable p -> reachable (Reset p)
| reach_Clock (p p' : PPU M) :
    reachable p -> Clock p = Some p' -> reachable p'
| reach_Write (addr value : Z) (p p' : PPU M) :
    reachable p -> WriteCPURegister addr value p = Some p' -> reachable p'
| reach_Read (addr value : Z) (p p' : PPU M) :
    reachable p -> ReadCPURegister addr p = Some (value, p') -> reachable p'
| reach_GetNMI (p : PPU M) : reachable p -> reachable (snd (GetNMI p))
| reach_ClearFrameComplete (p : PPU M) :
    reachable p -> reachable (ClearFrameComplete p).

(** What a PPU tick leaves alone before it advances its counters: the
    position in the frame, the registers and memories written only by the
    CPU, and the cartridge. *)
Definition keeps {M : Type} (p p' : PPU M) : Prop :=
  scanline p' = scanline p /\ cycle p' = cycle p /\ frame p' = frame p /\
  oddFrame p' = oddFrame p /\
  control p' = control p /\ mask p' = mask p /\
  mapper p' = mapper p /\ mirroringMode p' = mirroringMode p /\
  nametable p' = nametable p /\ paletteRAM p' = paletteRAM p /\
  oam p' = oam p /\ oamAddress p' = oamAddress p /\
  tempVRAMAddress p' = tempVRAMAddress p /\ fineX p' = fineX p /\
  writeLatch p' = writeLatch p /\ readBuffer p' = readBuffer p.

(** ** Vocabulary of the statements *)

(** The positions of palette RAM folded onto the first sixteen. *)
Definition folded (k : Z) : Prop := k = 16 \/ k = 20 \/ k = 24 \/ k = 28.

(** The bit a controller read returns for a button. *)
Definition pressed (bs : gmap Z bool) (button : Z) : Z :=
  if default false (bs !! button) then 0x01 else 0x00.

(** The eight button bits in the order they are shifted out. *)
Definition buttonBits (bs : gmap Z bool) : list Z :=
  [pressed bs Controller.ButtonA; pressed bs Controller.ButtonB;
   pressed bs Controller.ButtonSelect; pressed bs Controller.ButtonStart;
   pressed bs Controller.ButtonUp; pressed bs Controller.ButtonDown;
   pressed bs Controller.ButtonLeft; pressed bs Controller.ButtonRight].

(** MMC1: the five-bit value assembled from five writes, first write in
    bit 0. *)
Definition assembled (v1 v2 v3 v4 v5 : Z) : Z :=
  Z.land v1 1 + 2 * Z.land v2 1 + 4 * Z.land v3 1 + 8 * Z.land v4 1
  + 16 * Z.land v5 1.

(** MMC1: a commit of [value] to the register chosen by address bits
    13-14: control, chr0, chr1, prg. *)
Definition commit (sel value : Z) (m : Mapper1.t) : Mapper1.t :=
  if sel =? 0 then
    Mapper1.set_chrMode (Z.land (Z.shiftr value 4) 0x01)
      (Mapper1.set_prgMode (Z.land (Z.shiftr value 2) 0x03)
        (Mapper1.set_mirroring (Z.land value 0x03) m))
  else if sel =? 1 then Mapper1.set_chrBank0 (Z.land value 0x1F) m
  else if sel =? 2 then Mapper1.set_chrBank1 (Z.land value 0x1F) m
  else Mapper1.set_prgRAMEnabled (Z.land value 0x10 =? 0)
         (Mapper1.set_prgBank (Z.land value 0x0F) m).

(** The condition under which [renderPixel] sets the sprite-0-hit bit,
    from the pixel's column [x], the background pixel [bg], the sprite
    pixel [sp] and whether that one comes from sprite 0. *)
Definition sprite0HitSet (msk x bg sp : Z) (isSprite0 : bool) : bool :=
  isSprite0 && negb (bg =? 0) && negb (sp =? 0)
  && (x <? 255) && (1 <=? x)
  && PPUMask.RenderBackground msk && PPUMask.RenderSprites msk
  && (PPUMask.RenderBackgroundLeft msk || (8 <=? x)).

(** ** Concrete machines *)

(** A cartridge whose pattern tables are all ones: every tile pixel is
    opaque. *)
Definition opaqueCartridge : Mapper0.t :=
  Mapper0.NewMapper0 (make 16384) (repeat 0xFF (Z.to_nat 8192)) MirrorHorizontal.

(** Sprite 0 at the top left corner, the other sprites off screen,
    background and sprites shown, the left column included. *)
Definition sprite0Setup : option (PPU Mapper0.t) :=
  ppuWrites ([(0x2003, 0x00)]
             ++ ((fun v => (0x2004, v)) <$> ([0; 0; 0; 0] ++ repeat 0xFF 252))
             ++ [(0x2001, 0x1E)])
            (SetMapper (Some opaqueCartridge) NewPPU).

(** What [renderPixel] is about to see: the position, PPUMASK, the
    status register, the sprite pixel and the background pixel. *)
Definition pixelInputs (p : PPU Mapper0.t)
    : Z * Z * Z * Z * option (Z * Z * bool * bool) * (Z * Z) :=
  (scanline p, cycle p, mask p, status p,
   renderSprites (u16 (cycle p - 1)) p, backgroundPixel p).

(** CPU page 2 holds the bytes 1, 2, ..., 255, 0; then $4014 <- 2. *)
Definition dmaSource : list Z := (fun i => u8 (i + 1)) <$> seqZ 0 256.

Definition dmaBus : option (Bus.NESBus Mapper0.t) :=
  busWrites (((fun i => (0x0200 + i, u8 (i + 1))) <$> seqZ 0 256) ++ [(0x4014, 0x02)])
            (Bus.NewNESBus (SetMapper (Some opaqueCartridge) NewPPU)).

(** The transfer run to its end: the CPU cycles it took, OAM afterwards
    and the transfer flag. *)
Definition dmaRun (b : Bus.NESBus Mapper0.t) : option (Z * list Z * bool) :=
  do (k, b') <- clockUntilDMADone 1000 b;
  Some (k, bytes 256 (oam (Bus.ppu b')), Bus.dmaTransfer b').

(** A second transfer of the same page after the first. *)
Definition dmaRunAgain (b : Bus.NESBus Mapper0.t) : option (Z * list Z * bool) :=
  do (_, b') <- clockUntilDMADone 1000 b;
  do b'' <- Bus.Write 0x4014 0x02 b';
  dmaRun b''.

(** An MMC3 cartridge after $C000 <- 4 (latch), $C001 <- 0 (reload) and
    $E001 <- 0 (enable), in a PPU with PPUMASK = $18: background and
    sprites rendered. *)
Definition irqCartridge : Mapper4.t :=
  Mapper4.set_irqEnabled true
    (Mapper4.set_irqReloadFlag true
      (Mapper4.set_irqCounter 0
        (Mapper4.set_irqLatch 4
          (Mapper4.NewMapper4 (make 32768) [] MirrorHorizontal)))).

Definition irqPPU : PPU Mapper4.t :=
  set_mask 0x18 (SetMapper (Some irqCartridge) NewPPU).

(** Whether a computation ended without a panic. *)
Definition ok {A : Type} (o : option A) : bool :=
  match o with
  | Some _ => true
  | None => false
  end.

(** An iNES header with flags6 bit 3 set (four-screen), and the PPU set
    up from it as [NewFromCartridge] does, with the VRAM address at
    $2800. *)
Definition fourScreenHeader : list Z :=
  [0x4E; 0x45; 0x53; 0x1A; 0x02; 0x01; 0x08; 0x00; 0; 0; 0; 0; 0; 0; 0; 0].

Definition fourScreenPPU : option (PPU Mapper0.t) :=
  do h <- Cartridge.parseINESHeader fourScreenHeader;
  ppuWrites [(0x2006, 0x28); (0x2006, 0x00)]
            (SetMirroring (Cartridge.mirroring h)
               (SetMapper (Some opaqueCartridge) NewPPU)).

(** ** Vocabulary of the further properties *)

(** The five fields of a loopy register: coarse X, coarse Y, nametable
    X, nametable Y and fine Y. *)
Definition loopyFields (l : Z) : Z * Z * Z * Z * Z :=
  (LoopyRegister.CoarseX l, LoopyRegister.CoarseY l, LoopyRegister.NametableX l,
   LoopyRegister.NametableY l, LoopyRegister.FineY l).

(** The three flags of PPUSTATUS and its five unused bits. *)
Definition statusFlags (s : Z) : bool * bool * bool * Z :=
  (PPUStatus.VBlank s, PPUStatus.Sprite0Hit s, PPUStatus.SpriteOverflow s,
   Z.land s 0x1F).

(** [P] holds of the [n] integers from [i] on. *)
Fixpoint allFrom (P : Z -> bool) (n : nat) (i : Z) : bool :=
  match n with
  | O => true
  | S k => P i && allFrom P k (i + 1)
  end.

(** The check that [IncrementX] advances the horizontal tile position by
    one modulo 64 and leaves the vertical fields alone. *)
Definition incrementX_ok (l : Z) : bool :=
  let l' := LoopyRegister.IncrementX l in
  (LoopyRegister.NametableX l' * 32 + LoopyRegister.CoarseX l' =?
     (LoopyRegister.NametableX l * 32 + LoopyRegister.CoarseX l + 1) mod 64)
  && (LoopyRegister.CoarseY l' =? LoopyRegister.CoarseY l)
  && (LoopyRegister.NametableY l' =? LoopyRegister.NametableY l)
  && (LoopyRegister.FineY l' =? LoopyRegister.FineY l)
  && (0 <=? l') && (l' <? 0x8000).

(** The check that [IncrementY] advances the pixel row by one, modulo
    240 below row 240 (switching the vertical nametable after row 239)
    and modulo 256 from row 240 on. *)
Definition incrementY_ok (l : Z) : bool :=
  let l' := LoopyRegister.IncrementY l in
  let row := LoopyRegister.CoarseY l * 8 + LoopyRegister.FineY l in
  let row' := LoopyRegister.CoarseY l' * 8 + LoopyRegister.FineY l' in
  (if row <? 240
   then (row' =? (row + 1) mod 240)
        && (LoopyRegister.NametableY l' =?
              (if row =? 239 then 1 - LoopyRegister.NametableY l
               else LoopyRegister.NametableY l))
   else (row' =? (row + 1) mod 256)
        && (LoopyRegister.NametableY l' =? LoopyRegister.NametableY l))
  && (LoopyRegister.CoarseX l' =? LoopyRegister.CoarseX l)
  && (LoopyRegister.NametableX l' =? LoopyRegister.NametableX l)
  && (0 <=? l') && (l' <? 0x8000).

(** Whether two addresses of the nametable space $2000-$2FFF name the
    same byte under a mirroring mode: vertical mirroring identifies the
    tables 0 and 2 and the tables 1 and 3, horizontal mirroring the
    tables 0 and 1 and the tables 2 and 3, single-screen all four. *)
Definition sameCell (mode a b : Z) : bool :=
  let x := a - 0x2000 in
  let y := b - 0x2000 in
  if mode =? MirrorVertical then x mod 0x0800 =? y mod 0x0800
  else if mode =? MirrorHorizontal
  then (x mod 0x0400 =? y mod 0x0400) && (x / 0x0800 =? y / 0x0800)
  else x mod 0x0400 =? y mod 0x0400.

(** CPU reads at the addresses of a list, in order: the values read and
    the bus afterwards. *)
Fixpoint busReads {M : Type} {mapperM : Mapper M} (addrs : list Z)
    (b : Bus.NESBus M) : option (list Z * Bus.NESBus M) :=
  match addrs with
  | [] => Some ([], b)
  | addr :: addrs' =>
    do (v, b') <- Bus.Read addr b;
    do (vs, b'') <- busReads addrs' b';
    Some (v :: vs, b'')
  end.


(** An iNES image: the magic number, the two bank counts, the two flag
    bytes, the eight bytes that end the header, then the trainer, the
    PRG-ROM, the CHR-ROM and whatever follows. *)
Definition inesImage (prgBanks chrBanks flags6 flags7 : Z)
    (pad trainer prg chr rest : list Z) : list Z :=
  [0x4E; 0x45; 0x53; 0x1A; prgBanks; chrBanks; flags6; flags7]
  ++ pad ++ trainer ++ prg ++ chr ++ rest.

(** The mapper numbers [createMapper] knows. *)
Definition supportedMapper (id : Z) : bool :=
  (id =? 0) || (id =? 1) || (id =? 2) || (id =? 3) || (id =? 4) || (id =? 7).

(** A list of bytes. *)
Definition bytesOnly (data : list Z) : Prop := Forall (fun b : Z => 0 <= b < 256) data.

(** The states a mapper goes through from [m0]: the CPU writes bytes to
    it at 16-bit addresses, the PPU writes bytes to its CHR space, and
    its scanline hook may be called. *)
Inductive driven {M : Type} {mapperM : Mapper M} (m0 : M) : M -> Prop :=
| driven_new : driven m0 m0
| driven_WritePRG (addr value : Z) (m m' : M) :
    driven m0 m -> 0 <= addr < 0x10000 -> 0 <= value < 256 ->
    WritePRG addr value m = Some m' -> driven m0 m'
| driven_WriteCHR (addr value : Z) (m m' : M) :
    driven m0 m -> 0 <= addr < 0x10000 -> 0 <= value < 256 ->
    WriteCHR addr value m = Some m' -> driven m0 m'
| driven_Scanline (m : M) : driven m0 m -> driven m0 (Scanline m).

(** What the mapper code relies on without testing it: the PRG-RAM of
    the MMC1 and MMC3 keeps its 8 KiB, the bank numbers are not negative,
    and the MMC3 register selector stays below 8. *)
Definition Mapper1_ok (m : Mapper1.t) : Prop :=
  len (Mapper1.prgRAM m) = 8192 /\ 0 <= Mapper1.prgBank m /\
  0 <= Mapper1.chrBank0 m /\ 0 <= Mapper1.chrBank1 m.

Definition Mapper4_ok (m : Mapper4.t) : Prop :=
  len (Mapper4.prgRAM m) = 8192 /\ 0 <= Mapper4.bankSelect m < 8 /\
  forall i v : Z, Mapper4.registers m !! i = Some v -> 0 <= v.

Definition mapper_ok (a : AnyMapper) : Prop :=
  match a with
  | IsMapper0 _ => True
  | IsMapper1 m => Mapper1_ok m
  | IsMapper2 m => 0 <= Mapper2.prgBank m
  | IsMapper3 m => 0 <= Mapper3.chrBank m
  | IsMapper4 m => Mapper4_ok m
  | IsMapper7 m => 0 <= Mapper7.prgBank m
  end.

(** None of the four accesses of a mapper panics. *)
Definition accessOk {M : Type} {mapperM : Mapper M} (addr value : Z) (m : M) : bool :=
  ok (ReadPRG addr m) && ok (ReadCHR addr m)
  && ok (WritePRG addr value m) && ok (WriteCHR addr value m).

(** The pattern tables can be read: no mapper is attached, or its CHR
    reads return. *)
Definition chrTotal {M : Type} {mapperM : Mapper M} (p : PPU M) : Prop :=
  match mapper p with
  | Some m => forall addr : Z, 0 <= addr -> exists v : Z, ReadCHR addr m = Some v
  | None => True
  end.

(** Every pixel of the frame buffer is an index into the 64-entry
    hardware palette. *)
Definition pixelsOk {M : Type} (p : PPU M) : Prop :=
  forall i v : Z, frameBuffer p !! i = Some v -> 0 <= v < 64.

(** What the rendering code relies on without testing it: at most eight
    sprites are counted for a scanline. *)
Definition bounded {M : Type} (p : PPU M) : Prop :=
  0 <= spriteCount p <= 8 /\ pixelsOk p.

(** The PPU's address space can be read: the pattern tables can, and the
    nametable mirroring is not four-screen, whose index leaves the 2 KiB
    nametable array. *)
Definition readable {M : Type} {mapperM : Mapper M} (p : PPU M) : Prop :=
  mirroringMode p <> MirrorFourScreen /\ chrTotal p.

(** The states of the console: what the CPU (reads and writes of bytes
    at 16-bit addresses), the main loop ([Clock], [IsNMI], the PPU's
    [Reset] and [ClearFrameComplete]) and the front end (the buttons of
    the two controllers) make of the bus [b0]. *)
Inductive running {M : Type} {mapperM : Mapper M} (b0 : Bus.NESBus M)
    : Bus.NESBus M -> Prop :=
| run_start : running b0 b0
| run_Read (addr v : Z) (b b' : Bus.NESBus M) :
    running b0 b -> 0 <= addr < 0x10000 ->
    Bus.Read addr b = Some (v, b') -> running b0 b'
| run_Write (addr data : Z) (b b' : Bus.NESBus M) :
    running b0 b -> 0 <= addr < 0x10000 -> 0 <= data < 256 ->
    Bus.Write addr data b = Some b' -> running b0 b'
| run_Clock (b b' : Bus.NESBus M) :
    running b0 b -> Bus.Clock b = Some b' -> running b0 b'
| run_IsNMI (b : Bus.NESBus M) : running b0 b -> running b0 (snd (Bus.IsNMI b))
| run_Reset (b : Bus.NESBus M) :
    running b0 b -> running b0 (Bus.set_ppu (Reset (Bus.ppu b)) b)
| run_ClearFrameComplete (b : Bus.NESBus M) :
    running b0 b -> running b0 (Bus.set_ppu (ClearFrameComplete (Bus.ppu b)) b)
| run_SetButton1 (button : Z) (pressed : bool) (b : Bus.NESBus M) (c : Controller.t) :
    running b0 b -> 0 <= button < 256 ->
    Controller.SetButton button pressed (Bus.GetController 0 b) = Some c ->
    running b0 (Bus.set_controller1 c b)
| run_SetButton2 (button : Z) (pressed : bool) (b : Bus.NESBus M) (c : Controller.t) :
    running b0 b -> 0 <= button < 256 ->
    Controller.SetButton button pressed (Bus.GetController 1 b) = Some c ->
    running b0 (Bus.set_controller2 c b).

(** What the console relies on without testing it: a cartridge is
    attached and its mapper is in order, the nametable mirroring is not
    four-screen, the OAM address is a byte, and the read positions of the
    controllers are not negative. *)
Definition consoleOk (b : Bus.NESBus AnyMapper) : Prop :=
  (exists a : AnyMapper, mapper (Bus.ppu b) = Some a /\ mapper_ok a) /\
  mirroringMode (Bus.ppu b) <> MirrorFourScreen /\
  bounded (Bus.ppu b) /\
  0 <= oamAddress (Bus.ppu b) < 256 /\
  0 <= Controller.index (Bus.controller1 b) /\
  0 <= Controller.index (Bus.controller2 b).

(** The same of the PPU alone. *)
Definition ppuOk (p : PPU AnyMapper) : Prop :=
  (exists a : AnyMapper, mapper p = Some a /\ mapper_ok a) /\
  mirroringMode p <> MirrorFourScreen /\
  bounded p /\
  0 <= oamAddress p < 256.

(** The VBlank flag and the NMI line are the same in [p'] as in [p]. *)
Definition sameVBlank {M : Type} (p p' : PPU M) : Prop :=
  PPUStatus.VBlank (status p') = PPUStatus.VBlank (status p) /\
  nmiOutput p' = nmiOutput p.

(** The palette-RAM position of pixel value [pixelValue] of palette
    [paletteIndex]: four bytes for each palette, and the first byte of
    each of the sprite palettes 4 to 7 is the one of the background
    palette four below. *)
Definition paletteSlot (paletteIndex pixelValue : Z) : Z :=
  if (4 <=? paletteIndex) && (pixelValue =? 0)
  then 4 * paletteIndex - 16
  else 4 * paletteIndex + pixelValue.

(** Sprite [i] of OAM covers the scanline: the scanline minus the
    sprite's Y byte, as unsigned 16-bit numbers, is below the sprite
    height. *)
Definition spriteInRange (oam : gmap Z Z) (scanline h i : Z) : bool :=
  u16 (u16 scanline - default 0 (oam !! (i * 4))) <? h.

(** The sprites that cover the scanline, in OAM order. *)
Definition spritesInRange (oam : gmap Z Z) (scanline h : Z) : list Z :=
  List.filter (spriteInRange oam scanline h) (seqZ 0 64).

(** * Properties *)

(** ** Basic facts *)

Lemma bind_Some {A B : Type} (m : option A) (f : A -> option B) (b : B) :
  bind m f = Some b -> exists a, m = Some a /\ f a = Some b.
Proof. destruct m as [a|]; simpl; [eauto | discriminate]. Qed.

Lemma aget_aset_eq n a i v a' :
  aset n a i v = Some a' -> aget n a' i = Some v.
Proof.
  unfold aset, aget. case_bool_decide; [|discriminate].
  intros [= <-]. by rewrite lookup_insert_eq.
Qed.

Lemma aget_aset_ne n a i j v a' :
  i <> j -> aset n a i v = Some a' -> aget n a' j = aget n a j.
Proof.
  unfold aset, aget. intros Hne. case_bool_decide; [|discriminate].
  intros [= <-]. by rewrite lookup_insert_ne.
Qed.

Lemma aget_in_range n a i : 0 <= i < n -> aget n a i = Some (default 0 (a !! i)).
Proof. intros H. unfold aget. by rewrite bool_decide_eq_true_2. Qed.

Lemma aset_in_range n a i v : 0 <= i < n -> aset n a i v = Some (<[i := v]> a).
Proof. intros H. unfold aset. by rewrite bool_decide_eq_true_2. Qed.


(** A property of the integers below [n], checked by running through them. *)
Lemma forall_below (n : Z) (P : Z -> bool) :
  forallb P (seqZ 0 n) = true -> forall a : Z, 0 <= a < n -> P a = true.
Proof.
  intros H a Ha. rewrite forallb_forall in H. apply H.
  apply list_elem_of_In. apply elem_of_seqZ. lia.
Qed.

Lemma land_3FFF (addr : Z) : 0 <= addr < 0x4000 -> Z.land addr 0x3FFF = addr.
Proof.
  intros H. change 0x3FFF with (Z.ones 14). rewrite Z.land_ones by lia.
  apply Z.mod_small. lia.
Qed.

Lemma land_FF_range (x : Z) : 0 <= Z.land x 0x00FF < 256.
Proof.
  change 0x00FF with (Z.ones 8). rewrite Z.land_ones by lia.
  apply Z.mod_pos_bound. lia.
Qed.

Lemma land_1_cases (v : Z) : Z.land v 1 = 0 \/ Z.land v 1 = 1.
Proof.
  replace (Z.land v 1) with (v mod 2).
  - pose proof (Z.mod_pos_bound v 2). lia.
  - change 1 with (Z.ones 1). rewrite Z.land_ones by lia. reflexivity.
Qed.

Lemma land_shiftr_1 (c n : Z) :
  0 <= n -> Z.land (Z.shiftr c n) 1 = Z.b2z (Z.testbit c n).
Proof.
  intros Hn. change 1 with (Z.ones 1). rewrite Z.land_ones by lia.
  change (2 ^ 1) with 2. rewrite <- Z.bit0_mod.
  rewrite Z.shiftr_spec by lia. reflexivity.
Qed.

(** ** Registers *)

Lemma IncrementMode_bit2 (c : Z) :
  PPUControl.IncrementMode c = if Z.testbit c 2 then 32 else 1.
Proof.
  unfold PPUControl.IncrementMode. rewrite land_shiftr_1 by lia.
  destruct (Z.testbit c 2); reflexivity.
Qed.

(** [v] keeps fifteen bits: [Set] after a 16-bit addition is addition
    modulo 2^15. *)
Lemma Set_u16 (x : Z) : LoopyRegister.Set_ (u16 x) = x mod 0x8000.
Proof.
  unfold LoopyRegister.Set_, u16. change 0x7FFF with (Z.ones 15).
  rewrite Z.land_ones by lia. change (2 ^ 15) with 0x8000.
  apply Z.mod_mod_divide. exists 2. reflexivity.
Qed.

(** The two PPUADDR writes $20, $00 leave [t] at $2000 whatever it held. *)
Lemma PPUADDR_2000 (t : Z) :
  LoopyRegister.Set_
    (Z.lor (Z.land (LoopyRegister.Set_
                      (Z.lor (Z.land t 0x00FF) (u16 (Z.shiftl (Z.land 0x20 0x3F) 8))))
                   0xFF00) 0x00) = 0x2000.
Proof.
  pose proof (land_FF_range t) as Hr. revert Hr.
  generalize (Z.land t 0x00FF). intros a Ha.
  apply Z.eqb_eq.
  apply (forall_below 256
           (fun a => LoopyRegister.Set_
              (Z.lor (Z.land (LoopyRegister.Set_
                                (Z.lor a (u16 (Z.shiftl (Z.land 0x20 0x3F) 8))))
                             0xFF00) 0x00) =? 0x2000));
    [vm_compute; reflexivity | exact Ha].
Qed.

(** ** The PPU bus *)

Section PPUBus.

Context {M : Type} {mapperM : Mapper M}.

Lemma ppuRead_palette (addr : Z) (p : PPU M) :
  0x3F00 <= addr < 0x4000 ->
  ppuRead addr p = aget 32 (paletteRAM p) (mirrorPaletteAddress addr).
Proof.
  intros H. unfold ppuRead. rewrite land_3FFF by lia.
  destruct (Z.ltb_spec addr 0x2000); [lia|].
  destruct (Z.ltb_spec addr 0x3F00); [lia|].
  destruct (Z.ltb_spec addr 0x4000); [|lia]. reflexivity.
Qed.

Lemma ppuWrite_palette (addr value : Z) (p : PPU M) :
  0x3F00 <= addr < 0x4000 ->
  ppuWrite addr value p =
  do r <- aset 32 (paletteRAM p) (mirrorPaletteAddress addr) value;
  Some (set_paletteRAM r p).
Proof.
  intros H. unfold ppuWrite. rewrite land_3FFF by lia.
  destruct (Z.ltb_spec addr 0x2000); [lia|].
  destruct (Z.ltb_spec addr 0x3F00); [lia|].
  destruct (Z.ltb_spec addr 0x4000); [|lia]. reflexivity.
Qed.

Lemma ppuRead_nametable (addr : Z) (p : PPU M) :
  0x2000 <= addr < 0x3F00 ->
  ppuRead addr p = aget 2048 (nametable p) (mirrorNametableAddress addr p).
Proof.
  intros H. unfold ppuRead. rewrite land_3FFF by lia.
  destruct (Z.ltb_spec addr 0x2000); [lia|].
  destruct (Z.ltb_spec addr 0x3F00); [|lia]. reflexivity.
Qed.

Lemma ppuWrite_nametable (addr value : Z) (p : PPU M) :
  0x2000 <= addr < 0x3F00 ->
  ppuWrite addr value p =
  do n <- aset 2048 (nametable p) (mirrorNametableAddress addr p) value;
  Some (set_nametable n p).
Proof.
  intros H. unfold ppuWrite. rewrite land_3FFF by lia.
  destruct (Z.ltb_spec addr 0x2000); [lia|].
  destruct (Z.ltb_spec addr 0x3F00); [|lia]. reflexivity.
Qed.

Lemma mirrorPaletteAddress_range (addr : Z) :
  0 <= mirrorPaletteAddress addr < 32.
Proof.
  unfold mirrorPaletteAddress, u16.
  pose proof (Z.mod_pos_bound ((addr - 0x3F00) mod 65536) 32 ltac:(lia)).
  destruct (_ && _) eqn:E; [|lia].
  apply andb_true_iff in E as [E1 E2]. apply Z.leb_le in E1. lia.
Qed.

Lemma mirrorPaletteAddress_folded (k : Z) :
  folded k ->
  mirrorPaletteAddress (0x3F00 + k) = mirrorPaletteAddress (0x3F00 + (k - 16))
  /\ mirrorPaletteAddress (0x3F00 + k) = k - 16.
Proof. intros [->|[->|[->| ->]]]; split; reflexivity. Qed.

(** A palette read never fails. *)
Lemma ppuRead_palette_total (addr : Z) (p : PPU M) :
  0x3F00 <= addr < 0x4000 -> exists b : Z, ppuRead addr p = Some b.
Proof.
  intros H. rewrite ppuRead_palette by exact H.
  rewrite aget_in_range by apply mirrorPaletteAddress_range. eauto.
Qed.

(** C7: palette positions 16, 20, 24 and 28 are folded onto 0, 4, 8 and
    12 for reads and for writes: a read at $3F10/$3F14/$3F18/$3F1C gives
    the byte read at $3F00/$3F04/$3F08/$3F0C, and a byte written at a
    folded position, $3F10 in particular, is read back at its partner. *)
Theorem C7_palette_mirroring (p : PPU M) :
  (mirrorPaletteAddress 0x3F10 = 0 /\ mirrorPaletteAddress 0x3F14 = 4 /\
   mirrorPaletteAddress 0x3F18 = 8 /\ mirrorPaletteAddress 0x3F1C = 12) /\
  (ppuRead 0x3F10 p = ppuRead 0x3F00 p /\ ppuRead 0x3F14 p = ppuRead 0x3F04 p /\
   ppuRead 0x3F18 p = ppuRead 0x3F08 p /\ ppuRead 0x3F1C p = ppuRead 0x3F0C p) /\
  (forall k : Z, folded k -> exists b : Z,
     ppuRead (0x3F00 + k) p = Some b /\ ppuRead (0x3F00 + (k - 16)) p = Some b) /\
  (forall k B : Z, folded k -> exists p' : PPU M,
     ppuWrite (0x3F00 + k) B p = Some p' /\
     ppuRead (0x3F00 + (k - 16)) p' = Some B /\ ppuRead (0x3F00 + k) p' = Some B) /\
  (forall B : Z, exists p' : PPU M,
     ppuWrite 0x3F10 B p = Some p' /\ ppuRead 0x3F00 p' = Some B).
Proof.
  split; [repeat split; reflexivity|].
  split; [repeat split; reflexivity|].
  assert (W : forall k B : Z, folded k -> exists p' : PPU M,
     ppuWrite (0x3F00 + k) B p = Some p' /\
     ppuRead (0x3F00 + (k - 16)) p' = Some B /\ ppuRead (0x3F00 + k) p' = Some B).
  { intros k B Hk.
    destruct (mirrorPaletteAddress_folded k Hk) as [E1 E2].
    assert (R1 : 0x3F00 <= 0x3F00 + k < 0x4000) by (unfold folded in Hk; lia).
    assert (R2 : 0x3F00 <= 0x3F00 + (k - 16) < 0x4000) by (unfold folded in Hk; lia).
    rewrite ppuWrite_palette by exact R1.
    pose proof (mirrorPaletteAddress_range (0x3F00 + k)) as Hr.
    rewrite (aset_in_range _ _ _ _ Hr). simpl.
    eexists; split; [reflexivity|].
    rewrite !ppuRead_palette by assumption. rewrite <- E1. simpl.
    split; apply (aget_aset_eq 32 (paletteRAM p)); apply aset_in_range, Hr. }
  split; [|split; [exact W|]].
  - intros k Hk.
    destruct (mirrorPaletteAddress_folded k Hk) as [E1 E2].
    assert (R1 : 0x3F00 <= 0x3F00 + k < 0x4000) by (unfold folded in Hk; lia).
    assert (R2 : 0x3F00 <= 0x3F00 + (k - 16) < 0x4000) by (unfold folded in Hk; lia).
    rewrite !ppuRead_palette by assumption. rewrite <- E1.
    rewrite aget_in_range by apply mirrorPaletteAddress_range. eauto.
  - intros B. destruct (W 16 B) as (p' & H1 & H2 & _); [left; reflexivity|].
    exists p'. split; [exact H1 | exact H2].
Qed.

(** With every mode but four-screen the nametable index stays inside the
    2 KiB array, for any address. *)
Lemma mirrorNametableAddress_bound (addr : Z) (p : PPU M) :
  mirroringMode p <> MirrorFourScreen ->
  0 <= mirrorNametableAddress addr p <= 2047.
Proof.
  intros Hm. unfold mirrorNametableAddress.
  set (a := u16 (addr - 0x2000) mod 0x1000).
  assert (Ha : 0 <= a < 0x1000) by (apply Z.mod_pos_bound; lia).
  pose proof (Z.mod_pos_bound a 0x0800 ltac:(lia)).
  pose proof (Z.mod_pos_bound a 0x0400 ltac:(lia)).
  assert (0 <= a / 0x0400 / 2 <= 1).
  { rewrite Z.div_div by lia. split; [apply Z.div_pos; lia|].
    apply Z.lt_succ_r. apply Z.div_lt_upper_bound; lia. }
  repeat match goal with
         | |- context [?x =? ?y] => destruct (Z.eqb_spec x y)
         end; try lia; try nia.
Qed.

(** So nametable reads and writes do not fail then. *)
Lemma nametable_access_total (addr value : Z) (p : PPU M) :
  mirroringMode p <> MirrorFourScreen ->
  0x2000 <= addr <= 0x3EFF ->
  (exists b : Z, ppuRead addr p = Some b) /\
  (exists p' : PPU M, ppuWrite addr value p = Some p').
Proof.
  intros Hm Ha.
  pose proof (mirrorNametableAddress_bound addr p Hm) as Hr.
  rewrite ppuRead_nametable, ppuWrite_nametable by lia.
  rewrite aget_in_range, aset_in_range by lia. simpl. eauto.
Qed.

Lemma fourscreen_index (addr : Z) (p : PPU M) :
  mirroringMode p = MirrorFourScreen ->
  0x2000 <= addr < 0x3000 ->
  mirrorNametableAddress addr p = addr - 0x2000.
Proof.
  intros Hm Ha. unfold mirrorNametableAddress. rewrite Hm. simpl.
  unfold u16. rewrite (Z.mod_small (addr - 0x2000)) by lia.
  apply Z.mod_small. lia.
Qed.

(** C3 fails on the code.  In four-screen mode the mirroring function
    returns the 12-bit offset itself: for every address of the upper two
    nametables ($2800-$2FFF) the index is above 2047, and the read and
    the write of the 2 KiB array both stop with a run-time panic. *)
Theorem C3_fourscreen_index_out_of_bounds (p : PPU M) (addr value : Z) :
  mirroringMode p = MirrorFourScreen ->
  0x2800 <= addr <= 0x2FFF ->
  2047 < mirrorNametableAddress addr p /\
  ppuRead addr p = None /\
  ppuWrite addr value p = None.
Proof.
  intros Hm Ha.
  rewrite ppuRead_nametable, ppuWrite_nametable by lia.
  rewrite fourscreen_index by (assumption || lia).
  unfold aget, aset.
  rewrite bool_decide_eq_false_2 by lia.
  split; [lia|]. split; reflexivity.
Qed.

Lemma mirrorNametableAddress_low (p : PPU M) (addr : Z) :
  0x2000 <= addr < 0x2400 ->
  0 <= mirrorNametableAddress addr p < 2048.
Proof.
  intros Ha. unfold mirrorNametableAddress, u16.
  rewrite (Z.mod_small (addr - 0x2000) 65536) by lia.
  rewrite (Z.mod_small (addr - 0x2000) 0x1000) by lia.
  rewrite (Z.mod_small (addr - 0x2000) 0x0800) by lia.
  rewrite (Z.mod_small (addr - 0x2000) 0x0400) by lia.
  rewrite (Z.div_small (addr - 0x2000) 0x0400) by lia.
  repeat match goal with
         | |- context [?x =? ?y] => destruct (Z.eqb_spec x y)
         end; rewrite ?Z.div_0_l by lia; lia.
Qed.

Lemma ReadCPURegister_2007 (p : PPU M) (b : Z) :
  ppuRead (vramAddress p) p = Some b ->
  ReadCPURegister 0x2007 p =
  Some (if 0x3F00 <=? vramAddress p then b else readBuffer p,
        set_vramAddress
          (LoopyRegister.Set_
             (u16 (vramAddress p + PPUControl.IncrementMode (control p))))
          (set_readBuffer b p)).
Proof. intros H. unfold ReadCPURegister. simpl. rewrite H. reflexivity. Qed.

(** When the PPU-bus read at [v] returns, a CPU read of $2007 returns
    the read buffer when [v < 0x3F00] and the byte just fetched when
    [v >= 0x3F00]; the buffer is refilled from the PPU bus at [v], and [v]
    advances by 1 or by 32 according to PPUCTRL bit 2 (within its fifteen
    bits).  After $2006 <- $20, $00 (the write latch clear, PPUCTRL bit 2
    clear) the second of two $2007 reads returns the byte at PPU address
    $2000 and leaves [v = 0x2002]. *)
Lemma ppudata_read (p : PPU M) :
  (forall b : Z,
     ppuRead (vramAddress p) p = Some b ->
     exists p' : PPU M,
       ReadCPURegister 0x2007 p =
         Some (if vramAddress p <? 0x3F00 then readBuffer p else b, p') /\
       readBuffer p' = b /\
       vramAddress p' =
         (vramAddress p + (if Z.testbit (control p) 2 then 32 else 1)) mod 0x8000) /\
  (writeLatch p = false ->
   Z.testbit (control p) 2 = false ->
   exists (p1 p2 p3 p4 : PPU M) (v1 v2 : Z),
     WriteCPURegister 0x2006 0x20 p = Some p1 /\
     WriteCPURegister 0x2006 0x00 p1 = Some p2 /\
     ReadCPURegister 0x2007 p2 = Some (v1, p3) /\
     ReadCPURegister 0x2007 p3 = Some (v2, p4) /\
     ppuRead 0x2000 p = Some v2 /\
     vramAddress p4 = 0x2002).
Proof.
  split.
  - intros b Hb. rewrite (ReadCPURegister_2007 p b Hb).
    eexists. split; [|split].
    + rewrite Z.leb_antisym. destruct (vramAddress p <? 0x3F00); reflexivity.
    + reflexivity.
    + simpl. rewrite Set_u16, IncrementMode_bit2. reflexivity.
  - intros Hl Hc.
    pose proof (mirrorNametableAddress_low p 0x2000 ltac:(lia)) as R0.
    pose proof (mirrorNametableAddress_low p 0x2001 ltac:(lia)) as R1.
    assert (Hinc : PPUControl.IncrementMode (control p) = 1)
      by (rewrite IncrementMode_bit2, Hc; reflexivity).
    set (p1 := set_writeLatch true
                 (set_tempVRAMAddress
                    (LoopyRegister.Set_
                       (Z.lor (Z.land (tempVRAMAddress p) 0x00FF)
                              (u16 (Z.shiftl (Z.land 0x20 0x3F) 8)))) p)).
    set (p2 := set_writeLatch false
                 (set_vramAddress 0x2000 (set_tempVRAMAddress 0x2000 p1))).
    set (v := default 0 (nametable p !! mirrorNametableAddress 0x2000 p)).
    set (v' := default 0 (nametable p !! mirrorNametableAddress 0x2001 p)).
    set (p3 := set_vramAddress 0x2001 (set_readBuffer v p2)).
    set (p4 := set_vramAddress 0x2002 (set_readBuffer v' p3)).
    exists p1, p2, p3, p4, (readBuffer p), v.
    assert (E1 : WriteCPURegister 0x2006 0x20 p = Some p1).
    { unfold WriteCPURegister. simpl. rewrite Hl. reflexivity. }
    assert (E2 : WriteCPURegister 0x2006 0x00 p1 = Some p2).
    { unfold WriteCPURegister. simpl. unfold p2.
      rewrite (PPUADDR_2000 (tempVRAMAddress p)). reflexivity. }
    assert (N0 : ppuRead 0x2000 p = Some v).
    { rewrite ppuRead_nametable by lia. apply aget_in_range, R0. }
    assert (E3 : ReadCPURegister 0x2007 p2 = Some (readBuffer p, p3)).
    { rewrite (ReadCPURegister_2007 p2 v).
      - simpl. rewrite Hinc. reflexivity.
      - exact N0. }
    assert (E4 : ReadCPURegister 0x2007 p3 = Some (v, p4)).
    { rewrite (ReadCPURegister_2007 p3 v').
      - simpl. rewrite Hinc. reflexivity.
      - change (ppuRead 0x2001 p = Some v').
        rewrite ppuRead_nametable by lia. apply aget_in_range, R1. }
    repeat split; assumption || reflexivity.
Qed.

(** C6 fails on the code.  A CPU read of $2007 refills the read buffer
    through [ppuRead] at [v]; in four-screen mode, with [v] in the upper
    two nametables ($2800-$2FFF), that read indexes the 2 KiB nametable
    array out of range: the $2007 read stops with a run-time panic and
    returns no byte, not the read buffer. *)
Theorem C6_ppudata_read_fourscreen_panics (p : PPU M) :
  mirroringMode p = MirrorFourScreen ->
  0x2800 <= vramAddress p <= 0x2FFF ->
  ppuRead (vramAddress p) p = None /\
  ReadCPURegister 0x2007 p = None.
Proof.
  intros Hm Ha.
  assert (Hr : ppuRead (vramAddress p) p = None).
  { rewrite ppuRead_nametable by lia.
    rewrite fourscreen_index by (assumption || lia).
    unfold aget. rewrite bool_decide_eq_false_2 by lia. reflexivity. }
  split; [exact Hr|].
  unfold ReadCPURegister. simpl. rewrite Hr. reflexivity.
Qed.

End PPUBus.

(** A byte written at $3F10 of a fresh PPU: position 16 is folded. *)
Lemma C7_palette_mirroring_witness :
  folded 16 /\
  exists p' : PPU Mapper0.t,
    ppuWrite (0x3F00 + 16) 0x2A NewPPU = Some p' /\
    ppuRead (0x3F00 + (16 - 16)) p' = Some 0x2A /\
    ppuRead (0x3F00 + 16) p' = Some 0x2A.
Proof.
  split; [left; reflexivity|].
  destruct (C7_palette_mirroring (NewPPU : PPU Mapper0.t)) as (_ & _ & _ & W & _).
  apply W. left. reflexivity.
Defined.

(** E2 of the specification: $2006 <- $3F, $00 and $2007 <- $2A make the
    byte visible at $3F00 and at its mirror $3F10. *)
Lemma palette_write_visible :
  (do p <- ppuWrites [(0x2006, 0x3F); (0x2006, 0x00); (0x2007, 0x2A)]
                     (NewPPU : PPU Mapper0.t);
   Some (ppuRead 0x3F00 p, ppuRead 0x3F10 p))
  = Some (Some 0x2A, Some 0x2A).
Proof. vm_compute. reflexivity. Qed.

(** The four-screen PPU built from an iNES header with flags6 bit 3 set:
    the address is in range and the hypotheses of C3 hold of it. *)
Lemma C3_fourscreen_witness :
  exists p : PPU Mapper0.t,
    fourScreenPPU = Some p /\
    mirroringMode p = MirrorFourScreen /\
    vramAddress p = 0x2800 /\
    2047 < mirrorNametableAddress 0x2800 p /\
    ppuRead 0x2800 p = None /\
    ppuWrite 0x2800 0x55 p = None.
Proof.
  eexists. split; [reflexivity|].
  split; [reflexivity|]. split; [reflexivity|].
  apply C3_fourscreen_index_out_of_bounds; [reflexivity | lia].
Defined.

(** On that machine the CPU's own access through $2007 panics. *)
Lemma fourscreen_ppudata_panics :
  (do p <- fourScreenPPU; Some (ReadCPURegister 0x2007 p, WriteCPURegister 0x2007 0x55 p))
  = Some (None, None).
Proof. vm_compute. reflexivity. Qed.

(** The four-screen PPU built from an iNES header with flags6 bit 3 set,
    after $2006 <- $28, $00: a state the exported operations reach from
    [NewPPU], in which the $2007 read panics. *)
Lemma C6_ppudata_read_fourscreen_witness :
  exists p : PPU Mapper0.t,
    fourScreenPPU = Some p /\
    reachable p /\
    mirroringMode p = MirrorFourScreen /\
    vramAddress p = 0x2800 /\
    ppuRead (vramAddress p) p = None /\
    ReadCPURegister 0x2007 p = None.
Proof.
  pose (p0 := SetMirroring MirrorFourScreen
                (SetMapper (Some opaqueCartridge) (NewPPU : PPU Mapper0.t))).
  evar (p1 : PPU Mapper0.t).
  assert (E1 : WriteCPURegister 0x2006 0x28 p0 = Some p1)
    by (subst p1 p0; vm_compute; reflexivity).
  evar (p2 : PPU Mapper0.t).
  assert (E2 : WriteCPURegister 0x2006 0x00 p1 = Some p2)
    by (subst p2 p1; vm_compute; reflexivity).
  exists p2.
  split; [vm_compute; reflexivity|].
  split.
  { apply (reach_Write 0x2006 0x00 p1 p2); [|exact E2].
    apply (reach_Write 0x2006 0x28 p0 p1); [|exact E1].
    apply reach_SetMirroring, reach_SetMapper, reach_NewPPU. }
  split; [vm_compute; reflexivity|]. split; [vm_compute; reflexivity|].
  apply C6_ppudata_read_fourscreen_panics; [vm_compute; reflexivity|].
  vm_compute. split; discriminate.
Defined.

(** A PPU with one byte in the first nametable and another in the read
    buffer: the hypotheses of [ppudata_read] hold of it. *)
Lemma ppudata_read_example :
  let p : PPU Mapper0.t :=
    set_readBuffer 0x11 (set_nametable (<[0 := 0x42]> ∅) NewPPU) in
  (exists p' : PPU Mapper0.t,
     ReadCPURegister 0x2007 p = Some (0x11, p') /\
     readBuffer p' = 0 /\ vramAddress p' = 1) /\
  (exists (p1 p2 p3 p4 : PPU Mapper0.t) (v1 v2 : Z),
     WriteCPURegister 0x2006 0x20 p = Some p1 /\
     WriteCPURegister 0x2006 0x00 p1 = Some p2 /\
     ReadCPURegister 0x2007 p2 = Some (v1, p3) /\
     ReadCPURegister 0x2007 p3 = Some (v2, p4) /\
     ppuRead 0x2000 p = Some v2 /\
     vramAddress p4 = 0x2002).
Proof.
  intros p. destruct (ppudata_read p) as [H1 H2]. split.
  - destruct (H1 0 eq_refl) as (p' & E & Hb & Hv).
    exists p'. split; [exact E|]. split; [exact Hb | exact Hv].
  - apply H2; reflexivity.
Qed.

(** ** Controller *)

Lemma strobe_pulse (bs : gmap Z bool) (s0 : bool) (i0 : Z) :
  Controller.Write 0 (Controller.Write 1 (Controller.mk bs s0 i0)) =
  Controller.mk bs false 0.
Proof. destruct s0; reflexivity. Qed.

Lemma read_shift (bs : gmap Z bool) (i : Z) :
  0 <= i < 8 ->
  Controller.Read (Controller.mk bs false i) =
  Some (pressed bs i, Controller.mk bs false (i + 1)).
Proof.
  intros Hi. unfold Controller.Read. simpl.
  destruct (Z.ltb_spec i 8); [|lia].
  unfold bget. rewrite bool_decide_eq_true_2 by lia. simpl.
  unfold u8. rewrite Z.mod_small by lia.
  destruct (Z.ltb_spec 23 (i + 1)); [lia|]. reflexivity.
Qed.

(** Past the eighth read the index stays in 8..23 and the read gives 1. *)
Lemma read_exhausted (bs : gmap Z bool) (i : Z) :
  8 <= i <= 23 ->
  exists i' : Z, 8 <= i' <= 23 /\
    Controller.Read (Controller.mk bs false i) = Some (0x01, Controller.mk bs false i').
Proof.
  intros Hi. unfold Controller.Read. simpl.
  destruct (Z.ltb_spec i 8); [lia|]. simpl.
  unfold u8. rewrite Z.mod_small by lia.
  destruct (Z.ltb_spec 23 (i + 1)); eexists; (split; [|reflexivity]); lia.
Qed.

Lemma reads_exhausted (bs : gmap Z bool) (n : nat) :
  forall i : Z, 8 <= i <= 23 ->
  exists i' : Z, 8 <= i' <= 23 /\
    controllerReads n (Controller.mk bs false i) =
    Some (repeat 0x01 n, Controller.mk bs false i').
Proof.
  induction n as [|n IH]; intros i Hi.
  - exists i. split; [exact Hi | reflexivity].
  - destruct (read_exhausted bs i Hi) as (i1 & Hi1 & E1).
    destruct (IH i1 Hi1) as (i2 & Hi2 & E2).
    exists i2. split; [exact Hi2|].
    simpl. rewrite E1. simpl. rewrite E2. reflexivity.
Qed.

Lemma controllerReads_app (a b : nat) (c : Controller.t) :
  controllerReads (a + b) c =
  do (l1, c1) <- controllerReads a c;
  do (l2, c2) <- controllerReads b c1;
  Some (l1 ++ l2, c2).
Proof.
  revert c. induction a as [|a IH]; intros c; simpl.
  - destruct (controllerReads b c) as [[l2 c2]|]; reflexivity.
  - destruct (Controller.Read c) as [[v c']|]; simpl; [|reflexivity].
    rewrite IH. destruct (controllerReads a c') as [[l1 c1]|]; simpl; [|reflexivity].
    destruct (controllerReads b c1) as [[l2 c2]|]; reflexivity.
Qed.

Lemma reads_step (bs : gmap Z bool) (i : Z) (n : nat) :
  0 <= i < 8 ->
  controllerReads (S n) (Controller.mk bs false i) =
  do (vs, c) <- controllerReads n (Controller.mk bs false (i + 1));
  Some (pressed bs i :: vs, c).
Proof.
  intros Hi.
  change (controllerReads (S n) (Controller.mk bs false i))
    with (do (v, c') <- Controller.Read (Controller.mk bs false i);
          do (vs, c'') <- controllerReads n c';
          Some (v :: vs, c'')).
  rewrite read_shift by exact Hi. reflexivity.
Qed.

Lemma reads_eight (bs : gmap Z bool) :
  controllerReads 8 (Controller.mk bs false 0) =
  Some (buttonBits bs, Controller.mk bs false 8).
Proof. do 8 (rewrite reads_step by lia). reflexivity. Qed.

Lemma reads_strobed (bs : gmap Z bool) (i : Z) (n : nat) :
  controllerReads n (Controller.mk bs true i) =
  Some (repeat (pressed bs Controller.ButtonA) n, Controller.mk bs true i).
Proof.
  induction n as [|n IH]; [reflexivity|].
  change (controllerReads (S n) (Controller.mk bs true i))
    with (do (v, c') <- Controller.Read (Controller.mk bs true i);
          do (vs, c'') <- controllerReads n c';
          Some (v :: vs, c'')).
  assert (E : Controller.Read (Controller.mk bs true i) =
              Some (pressed bs Controller.ButtonA, Controller.mk bs true i))
    by reflexivity.
  rewrite E. simpl. rewrite IH. reflexivity.
Qed.

(** A write with bit 0 set raises the strobe and changes nothing else. *)
Lemma Write_strobe_high (value : Z) (c : Controller.t) :
  Z.land value 0x01 <> 0 ->
  Controller.Write value c =
  Controller.mk (Controller.buttons c) true (Controller.index c).
Proof.
  intros H. unfold Controller.Write. simpl.
  destruct (Z.eqb_spec (Z.land value 1) 0) as [E|_]; [contradiction|].
  simpl. rewrite andb_false_r. reflexivity.
Qed.

(** A write with bit 0 clear lowers the strobe, and resets the read
    position when the strobe was high. *)
Lemma Write_strobe_low (value : Z) (c : Controller.t) :
  Z.land value 0x01 = 0 ->
  Controller.Write value c =
  Controller.mk (Controller.buttons c) false
    (if Controller.strobe c then 0 else Controller.index c).
Proof.
  intros H. unfold Controller.Write. simpl. rewrite H. simpl.
  rewrite andb_true_r. destruct c as [bs s i]. destruct s; reflexivity.
Qed.

Lemma SetButton_A (a : bool) (bs : gmap Z bool) (s : bool) (i : Z) :
  Controller.SetButton Controller.ButtonA a (Controller.mk bs s i) =
  Some (Controller.mk (<[Controller.ButtonA := a]> bs) s i).
Proof. reflexivity. Qed.

Lemma pressed_A_insert (a : bool) (bs : gmap Z bool) :
  pressed (<[Controller.ButtonA := a]> bs) Controller.ButtonA = if a then 0x01 else 0x00.
Proof. unfold pressed. rewrite lookup_insert_eq. reflexivity. Qed.

(** C8: whatever the eight buttons hold and whatever the controller did
    before, after the writes 1 then 0 the first eight reads give the
    button bits in the order A, B, Select, Start, Up, Down, Left, Right,
    and every later read gives 1.  A write with bit 0 set raises the
    strobe and keeps the buttons and the read position; from then on
    (the strobe held at 1) every read gives the A bit and changes
    nothing, so the reads follow the A button when it is pressed or
    released in between.  A write with bit 0 clear lowers the strobe and
    resets the read position exactly when the strobe was high.  In any
    state with the strobe set every read gives the A bit. *)
Theorem C8_controller_protocol (bs : gmap Z bool) (s0 : bool) (i0 : Z) :
  let c0 := Controller.mk bs s0 i0 in
  let c := Controller.Write 0 (Controller.Write 1 c0) in
  (exists c8 : Controller.t, controllerReads 8 c = Some (buttonBits bs, c8)) /\
  (forall n : nat, exists c' : Controller.t,
     controllerReads (8 + n) c = Some (buttonBits bs ++ repeat 0x01 n, c')) /\
  (forall (value : Z) (n : nat),
     Z.land value 0x01 <> 0 ->
     Controller.Write value c0 = Controller.mk bs true i0 /\
     controllerReads n (Controller.Write value c0) =
     Some (repeat (pressed bs Controller.ButtonA) n, Controller.Write value c0)) /\
  (forall (value : Z) (a : bool) (n m : nat),
     Z.land value 0x01 <> 0 ->
     exists c1 c2 : Controller.t,
       controllerReads n (Controller.Write value c0) =
         Some (repeat (pressed bs Controller.ButtonA) n, c1) /\
       Controller.SetButton Controller.ButtonA a c1 = Some c2 /\
       controllerReads m c2 = Some (repeat (if a then 0x01 else 0x00) m, c2)) /\
  (forall value : Z,
     Z.land value 0x01 = 0 ->
     Controller.Write value c0 = Controller.mk bs false (if s0 then 0 else i0)) /\
  (forall (i : Z) (n : nat),
     controllerReads n (Controller.mk bs true i) =
     Some (repeat (pressed bs Controller.ButtonA) n, Controller.mk bs true i)).
Proof.
  intros c0 c. subst c c0. rewrite strobe_pulse.
  split; [|split; [|split; [|split; [|split]]]].
  - eexists. apply reads_eight.
  - intros n. rewrite controllerReads_app, reads_eight. simpl bind.
    destruct (reads_exhausted bs n 8 ltac:(lia)) as (i' & _ & E).
    rewrite E. eexists. reflexivity.
  - intros value n Hv. rewrite (Write_strobe_high value _ Hv). simpl.
    split; [reflexivity | apply reads_strobed].
  - intros value a n m Hv. rewrite (Write_strobe_high value _ Hv). simpl.
    exists (Controller.mk bs true i0),
           (Controller.mk (<[Controller.ButtonA := a]> bs) true i0).
    split; [apply reads_strobed|]. split; [apply SetButton_A|].
    rewrite reads_strobed, pressed_A_insert. reflexivity.
  - intros value Hv. apply (Write_strobe_low value (Controller.mk bs s0 i0) Hv).
  - intros i n. apply reads_strobed.
Qed.

(** A and Start held, on a controller that has been read three times:
    after the write of 1, which leaves the read position at 3, three
    reads give the A bit, 1; when A is then released two more reads give
    0. *)
Lemma C8_controller_protocol_witness :
  let bs : gmap Z bool :=
    <[Controller.ButtonA := true]> (<[Controller.ButtonStart := true]> ∅) in
  let c0 := Controller.mk bs false 3 in
  Z.land 1 0x01 <> 0 /\
  Controller.Write 1 c0 = Controller.mk bs true 3 /\
  controllerReads 3 (Controller.Write 1 c0) =
    Some (repeat (pressed bs Controller.ButtonA) 3, Controller.Write 1 c0) /\
  pressed bs Controller.ButtonA = 1 /\
  exists c1 c2 : Controller.t,
    controllerReads 3 (Controller.Write 1 c0) =
      Some (repeat (pressed bs Controller.ButtonA) 3, c1) /\
    Controller.SetButton Controller.ButtonA false c1 = Some c2 /\
    controllerReads 2 c2 = Some (repeat 0x00 2, c2).
Proof.
  intros bs c0.
  assert (Hv : Z.land 1 0x01 <> 0) by discriminate.
  destruct (C8_controller_protocol bs false 3) as (_ & _ & H3 & H4 & _).
  split; [exact Hv|].
  destruct (H3 1 3%nat Hv) as [Hw Hr].
  split; [exact Hw|]. split; [exact Hr|]. split; [reflexivity|].
  apply (H4 1 false 3%nat 2%nat Hv).
Defined.

(** E4 of the specification: A and Start held. *)
Lemma controller_A_Start :
  exists c : Controller.t,
    controllerReads 10
      (Controller.Write 0 (Controller.Write 1
         (Controller.mk (<[Controller.ButtonA := true]>
                           (<[Controller.ButtonStart := true]> ∅)) false 0)))
    = Some ([1; 0; 0; 1; 0; 0; 0; 0; 1; 1], c).
Proof. eexists. vm_compute. reflexivity. Qed.

(** ** MMC1 *)

Lemma Mapper1_WritePRG_reset (m : Mapper1.t) (addr value : Z) :
  0x8000 <= addr -> Z.land value 0x80 <> 0 ->
  Mapper1.WritePRG addr value m =
  Some (Mapper1.set_prgMode 3
          (Mapper1.set_shiftCount 0 (Mapper1.set_shiftRegister 0x10 m))).
Proof.
  intros Ha Hv. unfold Mapper1.WritePRG.
  destruct (Z.leb_spec 0x6000 addr); [|lia].
  destruct (Z.ltb_spec addr 0x8000); [lia|]. simpl.
  destruct (Z.leb_spec 0x8000 addr); [|lia].
  destruct (Z.eqb_spec (Z.land value 0x80) 0); [contradiction|]. reflexivity.
Qed.

Lemma Mapper1_WritePRG_shift (m : Mapper1.t) (addr value : Z) :
  0x8000 <= addr -> Z.land value 0x80 = 0 ->
  Mapper1.WritePRG addr value m =
  let s := Z.lor (Z.shiftr (Mapper1.shiftRegister m) 1)
                 (u8 (Z.shiftl (Z.land value 1) 4)) in
  let k := u8 (Mapper1.shiftCount m + 1) in
  if k =? 5
  then Some (Mapper1.set_shiftCount 0 (Mapper1.set_shiftRegister 0x10
               (Mapper1.writeRegister addr s
                  (Mapper1.set_shiftCount k (Mapper1.set_shiftRegister s m)))))
  else Some (Mapper1.set_shiftCount k (Mapper1.set_shiftRegister s m)).
Proof.
  intros Ha Hv. unfold Mapper1.WritePRG.
  destruct (Z.leb_spec 0x6000 addr); [|lia].
  destruct (Z.ltb_spec addr 0x8000); [lia|]. simpl.
  destruct (Z.leb_spec 0x8000 addr); [|lia].
  rewrite Hv. simpl. reflexivity.
Qed.

(** The address ranges of [writeRegister] are the values of address bits
    13-14. *)
Lemma writeRegister_select (m : Mapper1.t) (addr value : Z) :
  0x8000 <= addr <= 0xFFFF ->
  Mapper1.writeRegister addr value m = commit (Z.land (Z.shiftr addr 13) 3) value m.
Proof.
  intros Ha.
  assert (Es : Z.land (Z.shiftr addr 13) 3 = (addr / 8192) mod 4).
  { rewrite Z.shiftr_div_pow2 by lia. change 3 with (Z.ones 2).
    rewrite Z.land_ones by lia. reflexivity. }
  rewrite Es. unfold Mapper1.writeRegister, commit.
  destruct (Z.leb_spec 0x8000 addr); [|lia].
  destruct (Z.ltb_spec addr 0xA000); simpl.
  { assert (E : addr / 8192 = 4) by (Z.to_euclidean_division_equations; lia).
    rewrite E. reflexivity. }
  destruct (Z.leb_spec 0xA000 addr); [|lia].
  destruct (Z.ltb_spec addr 0xC000); simpl.
  { assert (E : addr / 8192 = 5) by (Z.to_euclidean_division_equations; lia).
    rewrite E. reflexivity. }
  destruct (Z.leb_spec 0xC000 addr); [|lia].
  destruct (Z.ltb_spec addr 0xE000); simpl.
  { assert (E : addr / 8192 = 6) by (Z.to_euclidean_division_equations; lia).
    rewrite E. reflexivity. }
  destruct (Z.leb_spec 0xE000 addr); [|lia].
  assert (E : addr / 8192 = 7) by (Z.to_euclidean_division_equations; lia).
  rewrite E. reflexivity.
Qed.

Lemma five_writes (m : Mapper1.t) (a1 a2 a3 a4 a5 v1 v2 v3 v4 v5 : Z) :
  Mapper1.shiftRegister m = 0x10 -> Mapper1.shiftCount m = 0 ->
  0x8000 <= a1 -> 0x8000 <= a2 -> 0x8000 <= a3 -> 0x8000 <= a4 ->
  0x8000 <= a5 <= 0xFFFF ->
  Z.land v1 0x80 = 0 -> Z.land v2 0x80 = 0 -> Z.land v3 0x80 = 0 ->
  Z.land v4 0x80 = 0 -> Z.land v5 0x80 = 0 ->
  mapperWrites [(a1, v1); (a2, v2); (a3, v3); (a4, v4); (a5, v5)] m =
  Some (Mapper1.set_shiftCount 0 (Mapper1.set_shiftRegister 0x10
          (commit (Z.land (Z.shiftr a5 13) 3) (assembled v1 v2 v3 v4 v5) m))).
Proof.
  intros Hs Hk A1 A2 A3 A4 A5 B1 B2 B3 B4 B5.
  unfold mapperWrites.
  change (@WritePRG Mapper1.t Mapper1_Mapper) with Mapper1.WritePRG.
  rewrite (Mapper1_WritePRG_shift m a1 v1 A1 B1). simpl. rewrite Hs, Hk.
  unfold assembled.
  destruct (land_1_cases v1) as [-> | ->]; simpl.
  all: rewrite Mapper1_WritePRG_shift by (assumption || lia); simpl.
  all: destruct (land_1_cases v2) as [-> | ->]; simpl.
  all: rewrite Mapper1_WritePRG_shift by (assumption || lia); simpl.
  all: destruct (land_1_cases v3) as [-> | ->]; simpl.
  all: rewrite Mapper1_WritePRG_shift by (assumption || lia); simpl.
  all: destruct (land_1_cases v4) as [-> | ->]; simpl.
  all: rewrite Mapper1_WritePRG_shift by (assumption || lia); simpl.
  all: destruct (land_1_cases v5) as [-> | ->]; simpl.
  all: rewrite writeRegister_select by assumption.
  all: generalize (Z.land (Z.shiftr a5 13) 3); intros sel; unfold commit.
  all: destruct (sel =? 0); [reflexivity|].
  all: destruct (sel =? 1); [reflexivity|].
  all: destruct (sel =? 2); reflexivity.
Qed.

(** C9: an MMC1 write to $8000-$FFFF with bit 7 set puts the shift
    register at 0b10000, the write count at 0 and the PRG mode at 3; a
    write with bit 7 clear shifts bit 0 of the value in at bit 4, and the
    fifth one commits the five bits, first write lowest, to the register
    chosen by address bits 13-14 and resets the shift register.  After
    $8000 <- $80, five writes of $01 to $8000 commit $1F to control:
    mirroring field 3 (horizontal), PRG mode 3, CHR mode 1. *)
Theorem C9_mmc1_shift_register (m : Mapper1.t) :
  (forall addr value : Z,
     0x8000 <= addr -> Z.land value 0x80 <> 0 ->
     exists m' : Mapper1.t,
       Mapper1.WritePRG addr value m = Some m' /\
       Mapper1.shiftRegister m' = 0x10 /\ Mapper1.shiftCount m' = 0 /\
       Mapper1.prgMode m' = 3) /\
  (forall addr value : Z,
     0x8000 <= addr -> Z.land value 0x80 = 0 ->
     0 <= Mapper1.shiftCount m < 4 ->
     exists m' : Mapper1.t,
       Mapper1.WritePRG addr value m = Some m' /\
       Mapper1.shiftRegister m' =
         Z.lor (Z.shiftr (Mapper1.shiftRegister m) 1) (Z.shiftl (Z.land value 1) 4) /\
       Mapper1.shiftCount m' = Mapper1.shiftCount m + 1) /\
  (forall a1 a2 a3 a4 a5 v1 v2 v3 v4 v5 : Z,
     Mapper1.shiftRegister m = 0x10 -> Mapper1.shiftCount m = 0 ->
     0x8000 <= a1 -> 0x8000 <= a2 -> 0x8000 <= a3 -> 0x8000 <= a4 ->
     0x8000 <= a5 <= 0xFFFF ->
     Z.land v1 0x80 = 0 -> Z.land v2 0x80 = 0 -> Z.land v3 0x80 = 0 ->
     Z.land v4 0x80 = 0 -> Z.land v5 0x80 = 0 ->
     mapperWrites [(a1, v1); (a2, v2); (a3, v3); (a4, v4); (a5, v5)] m =
     Some (Mapper1.set_shiftCount 0 (Mapper1.set_shiftRegister 0x10
             (commit (Z.land (Z.shiftr a5 13) 3) (assembled v1 v2 v3 v4 v5) m)))) /\
  (exists m' : Mapper1.t,
     mapperWrites [(0x8000, 0x80); (0x8000, 0x01); (0x8000, 0x01); (0x8000, 0x01);
                   (0x8000, 0x01); (0x8000, 0x01)] m = Some m' /\
     Mapper1.mirroring m' = 3 /\ Mapper1.prgMode m' = 3 /\ Mapper1.chrMode m' = 1 /\
     Mapper1.GetMirroring m' = MirrorHorizontal /\
     Mapper1.shiftRegister m' = 0x10 /\ Mapper1.shiftCount m' = 0).
Proof.
  split; [|split; [|split]].
  - intros addr value Ha Hv. rewrite Mapper1_WritePRG_reset by assumption.
    eexists. split; [reflexivity|]. repeat split; reflexivity.
  - intros addr value Ha Hv Hk. rewrite Mapper1_WritePRG_shift by assumption.
    cbv zeta. unfold u8. rewrite (Z.mod_small (Mapper1.shiftCount m + 1)) by lia.
    destruct (Z.eqb_spec (Mapper1.shiftCount m + 1) 5); [lia|].
    eexists. split; [reflexivity|]. simpl. split; [|reflexivity].
    destruct (land_1_cases value) as [-> | ->]; reflexivity.
  - intros. apply five_writes; assumption.
  - eexists. split; [vm_compute; reflexivity|]. repeat split; reflexivity.
Qed.

(** A fresh MMC1 cartridge: the hypotheses of C9 hold of it and of the
    writes $80 (reset), $01 (one shift) and five times $01 to $8000. *)
Lemma C9_mmc1_shift_register_witness :
  let m := Mapper1.NewMapper1 (make 32768) [] MirrorHorizontal in
  (exists m' : Mapper1.t,
     Mapper1.WritePRG 0x8000 0x80 m = Some m' /\ Mapper1.prgMode m' = 3) /\
  (exists m' : Mapper1.t,
     Mapper1.WritePRG 0x8000 0x01 m = Some m' /\ Mapper1.shiftCount m' = 1) /\
  mapperWrites [(0x8000, 0x01); (0xA000, 0x00); (0xC000, 0x01); (0xE000, 0x00);
                (0xE000, 0x01)] m =
  Some (Mapper1.set_shiftCount 0 (Mapper1.set_shiftRegister 0x10
          (commit 3 (assembled 0x01 0x00 0x01 0x00 0x01) m))).
Proof.
  intros m. destruct (C9_mmc1_shift_register m) as (H1 & H2 & H3 & _).
  split; [|split].
  - destruct (H1 0x8000 0x80) as (m' & E & _ & _ & Hp); [lia | discriminate |].
    exists m'. split; [exact E | exact Hp].
  - destruct (H2 0x8000 0x01) as (m' & E & _ & Hk); [lia | reflexivity | simpl; lia |].
    exists m'. split; [exact E | exact Hk].
  - apply (H3 0x8000 0xA000 0xC000 0xE000 0xE000 0x01 0x00 0x01 0x00 0x01);
      first [reflexivity | lia].
Defined.

(** ** MMC3 *)

Lemma Scanline_fields (m : Mapper4.t) :
  let m' := Mapper4.Scanline m in
  let reload := (Mapper4.irqCounter m =? 0) || Mapper4.irqReloadFlag m in
  Mapper4.irqCounter m' =
    (if reload then Mapper4.irqLatch m else u8 (Mapper4.irqCounter m - 1)) /\
  Mapper4.irqReloadFlag m' = (if reload then false else Mapper4.irqReloadFlag m) /\
  Mapper4.irqPending m' =
    (if (Mapper4.irqCounter m' =? 0) && Mapper4.irqEnabled m
     then true else Mapper4.irqPending m) /\
  Mapper4.irqLatch m' = Mapper4.irqLatch m /\
  Mapper4.irqEnabled m' = Mapper4.irqEnabled m.
Proof.
  unfold Mapper4.Scanline.
  destruct ((Mapper4.irqCounter m =? 0) || Mapper4.irqReloadFlag m); simpl.
  - destruct ((Mapper4.irqLatch m =? 0) && Mapper4.irqEnabled m) eqn:E; simpl;
      rewrite ?E; repeat split; reflexivity.
  - destruct ((u8 (Mapper4.irqCounter m - 1) =? 0) && Mapper4.irqEnabled m) eqn:E;
      simpl; rewrite ?E; repeat split; reflexivity.
Qed.

(** C10: each MMC3 [Scanline] call reloads the counter from the latch
    and clears the reload flag when the counter is 0 or the flag is set,
    and decrements the counter otherwise; then, the counter being 0 and
    IRQ enabled, the pending flag is set.  After $C000 <- 4, $C001 <- any,
    $E001 <- any (no IRQ pending before), the flag is clear after each of
    the first four calls and set by the fifth, and [ClearIRQ] clears it. *)
Theorem C10_mmc3_irq (m : Mapper4.t) :
  (0 <= Mapper4.irqCounter m < 256 ->
   let m' := Mapper4.Scanline m in
   (if (Mapper4.irqCounter m =? 0) || Mapper4.irqReloadFlag m
    then Mapper4.irqCounter m' = Mapper4.irqLatch m /\ Mapper4.irqReloadFlag m' = false
    else Mapper4.irqCounter m' = Mapper4.irqCounter m - 1 /\
         Mapper4.irqReloadFlag m' = Mapper4.irqReloadFlag m) /\
   Mapper4.irqPending m' =
     (if (Mapper4.irqCounter m' =? 0) && Mapper4.irqEnabled m
      then true else Mapper4.irqPending m)) /\
  (forall v1 v2 : Z,
     Mapper4.irqPending m = false ->
     exists m3 : Mapper4.t,
       mapperWrites [(0xC000, 4); (0xC001, v1); (0xE001, v2)] m = Some m3 /\
       Mapper4.IRQPending m3 = false /\
       Mapper4.IRQPending (Nat.iter 1 Mapper4.Scanline m3) = false /\
       Mapper4.IRQPending (Nat.iter 2 Mapper4.Scanline m3) = false /\
       Mapper4.IRQPending (Nat.iter 3 Mapper4.Scanline m3) = false /\
       Mapper4.IRQPending (Nat.iter 4 Mapper4.Scanline m3) = false /\
       Mapper4.IRQPending (Nat.iter 5 Mapper4.Scanline m3) = true /\
       Mapper4.IRQPending (Mapper4.ClearIRQ (Nat.iter 5 Mapper4.Scanline m3)) = false).
Proof.
  split.
  - intros Hc m'. destruct (Scanline_fields m) as (E1 & E2 & E3 & _).
    fold m' in E1, E2, E3.
    split; [|exact E3].
    destruct ((Mapper4.irqCounter m =? 0) || Mapper4.irqReloadFlag m) eqn:Er.
    + split; assumption.
    + split; [|assumption]. rewrite E1.
      apply orb_false_iff in Er as [Er _]. apply Z.eqb_neq in Er.
      unfold u8. apply Z.mod_small. lia.
  - intros v1 v2 Hp.
    eexists. split; [reflexivity|].
    unfold Mapper4.IRQPending.
    repeat split; vm_compute; try reflexivity; exact Hp.
Qed.

(** A fresh MMC3 cartridge: the hypotheses of C10 hold of it. *)
Lemma C10_mmc3_irq_witness :
  let m := Mapper4.NewMapper4 (make 32768) [] MirrorHorizontal in
  Mapper4.irqCounter (Mapper4.Scanline m) = Mapper4.irqLatch m /\
  exists m3 : Mapper4.t,
    mapperWrites [(0xC000, 4); (0xC001, 0); (0xE001, 0)] m = Some m3 /\
    Mapper4.IRQPending (Nat.iter 4 Mapper4.Scanline m3) = false /\
    Mapper4.IRQPending (Nat.iter 5 Mapper4.Scanline m3) = true.
Proof.
  intros m.
  destruct (C10_mmc3_irq m) as [H0 H]. split.
  - destruct H0 as [H0 _]; [simpl; lia|]. apply H0.
  - destruct (H 0 0 eq_refl) as (m3 & E & _ & _ & _ & _ & H4 & H5 & _).
    exists m3. repeat split; assumption.
Defined.

(** ** What a tick leaves alone *)

Ltac step_some :=
  match goal with
  | H : bind ?m _ = Some _ |- _ =>
      let E := fresh "E" in destruct m eqn:E; simpl in H; [|discriminate H]
  | H : (if ?c then _ else _) = Some _ |- _ => destruct c eqn:?
  | H : (let '(_, _) := ?x in _) = Some _ |- _ => destruct x eqn:?
  | H : match ?x with Some _ => _ | None => _ end = Some _ |- _ => destruct x eqn:?
  | H : Some _ = Some _ |- _ => injection H as <-
  | H : None = Some _ |- _ => discriminate H
  | H : (if ?c then _ else _) = (_, _) |- _ => destruct c eqn:?
  | H : (let '(_, _) := ?x in _) = (_, _) |- _ => destruct x eqn:?
  | H : (_, _) = (_, _) |- _ => injection H as ? ?; subst
  end.

Ltac keeps_done :=
  unfold loadBackgroundShifters, updateShifters in *;
  repeat match goal with
         | |- context [if ?c then _ else _] => destruct c
         end;
  unfold keeps; simpl; repeat split; reflexivity.

Section Frame.

Context {M : Type} {mapperM : Mapper M}.

Lemma keeps_refl (p : PPU M) : keeps p p.
Proof. unfold keeps. repeat split; reflexivity. Qed.

Lemma keeps_trans (p q r : PPU M) : keeps p q -> keeps q r -> keeps p r.
Proof. unfold keeps. intros Hpq Hqr. intuition congruence. Qed.

Lemma keeps_bind (p p' : PPU M) (m : option (PPU M)) (f : PPU M -> option (PPU M)) :
  (forall q, m = Some q -> keeps p q) ->
  (forall q, f q = Some p' -> keeps q p') ->
  bind m f = Some p' -> keeps p p'.
Proof.
  intros Hm Hf H. apply bind_Some in H as (q & Eq & Ef).
  eapply keeps_trans; [apply Hm | apply Hf]; eassumption.
Qed.

Lemma spriteEvaluation_loop_keeps (n : nat) :
  forall (i h : Z) (p p' : PPU M),
  spriteEvaluation_loop n i h p = Some p' -> keeps p p'.
Proof.
  induction n as [|n IH]; intros i h p p' H; simpl in H.
  - injection H as <-. apply keeps_refl.
  - repeat step_some; try keeps_done.
    all: match goal with
         | H : spriteEvaluation_loop _ _ _ _ = Some _ |- _ => apply IH in H
         end.
    all: eapply keeps_trans; [|eassumption]; keeps_done.
Qed.

Lemma spriteEvaluation_keeps (p p' : PPU M) :
  spriteEvaluation p = Some p' -> keeps p p'.
Proof.
  unfold spriteEvaluation. intros H.
  repeat step_some; try keeps_done.
  apply spriteEvaluation_loop_keeps in H.
  eapply keeps_trans; [|eassumption]; keeps_done.
Qed.

Lemma spriteFetching_loop_keeps (n : nat) :
  forall (i h t : Z) (p p' : PPU M),
  spriteFetching_loop n i h t p = Some p' -> keeps p p'.
Proof.
  induction n as [|n IH]; intros i h t p p' H; simpl in H.
  - injection H as <-. apply keeps_refl.
  - repeat step_some.
    all: match goal with
         | H : spriteFetching_loop _ _ _ _ _ = Some _ |- _ => apply IH in H
         end.
    all: eapply keeps_trans; [|eassumption]; keeps_done.
Qed.

Lemma spriteFetching_keeps (p p' : PPU M) :
  spriteFetching p = Some p' -> keeps p p'.
Proof. unfold spriteFetching. apply spriteFetching_loop_keeps. Qed.

Lemma renderPixel_keeps (p p' : PPU M) :
  renderPixel p = Some p' -> keeps p p'.
Proof.
  unfold renderPixel. intros H.
  repeat step_some; try keeps_done.
Qed.

Lemma backgroundFetch_keeps (p p' : PPU M) :
  backgroundFetch p = Some p' -> keeps p p'.
Proof.
  unfold backgroundFetch. intros H.
  repeat step_some; try keeps_done.
Qed.

Lemma clearFlags_keeps (p : PPU M) : keeps p (clearFlags p).
Proof. unfold clearFlags. keeps_done. Qed.

Lemma incrementVertical_keeps (p : PPU M) : keeps p (incrementVertical p).
Proof. unfold incrementVertical. keeps_done. Qed.

Lemma restoreVertical_keeps (p : PPU M) : keeps p (restoreVertical p).
Proof. unfold restoreVertical. keeps_done. Qed.

Lemma vblankStart_keeps (p : PPU M) : keeps p (vblankStart p).
Proof. unfold vblankStart. keeps_done. Qed.

Lemma backgroundCycles_keeps (p p' : PPU M) :
  backgroundCycles p = Some p' -> keeps p p'.
Proof.
  unfold backgroundCycles. intros H. step_some.
  - apply backgroundFetch_keeps in H.
    eapply keeps_trans; [|exact H]. keeps_done.
  - step_some. apply keeps_refl.
Qed.

Lemma resetHorizontal_keeps (p p' : PPU M) :
  resetHorizontal p = Some p' -> keeps p p'.
Proof.
  unfold resetHorizontal. intros H. repeat step_some; try apply keeps_refl.
  - apply spriteEvaluation_keeps in H.
    eapply keeps_trans; [|exact H]. keeps_done.
  - keeps_done.
Qed.

Lemma spritePatternFetch_keeps (p p' : PPU M) :
  spritePatternFetch p = Some p' -> keeps p p'.
Proof.
  unfold spritePatternFetch. intros H. repeat step_some; try apply keeps_refl.
  apply spriteFetching_keeps. exact H.
Qed.

Lemma superfluousFetch_keeps (p p' : PPU M) :
  superfluousFetch p = Some p' -> keeps p p'.
Proof.
  unfold superfluousFetch. intros H. repeat step_some; try apply keeps_refl.
  keeps_done.
Qed.

Lemma activeScanline_keeps (p p' : PPU M) :
  activeScanline p = Some p' -> keeps p p'.
Proof.
  unfold activeScanline. intros H.
  eapply keeps_trans; [apply clearFlags_keeps|].
  revert H. apply keeps_bind; [apply backgroundCycles_keeps|]. intros q1 H.
  eapply keeps_trans; [apply incrementVertical_keeps|].
  revert H. apply keeps_bind; [apply resetHorizontal_keeps|]. intros q2.
  apply keeps_bind; [apply spritePatternFetch_keeps|]. intros q3.
  apply keeps_bind; [apply superfluousFetch_keeps|]. intros q4 H.
  injection H as <-. apply restoreVertical_keeps.
Qed.

(** A tick is [advanceTiming] of a state that agrees with the one before
    on everything [keeps] names. *)
Lemma Clock_inv (p p' : PPU M) :
  Clock p = Some p' ->
  exists q : PPU M, keeps p q /\ p' = advanceTiming q.
Proof.
  unfold Clock. intros H.
  apply bind_Some in H as (q1 & H1 & H).
  apply bind_Some in H as (q2 & H2 & H).
  injection H as <-.
  assert (K1 : keeps p q1).
  { destruct (_ && _) in H1;
      [apply renderPixel_keeps, H1 | injection H1 as <-; apply keeps_refl]. }
  assert (K2 : keeps q1 q2).
  { destruct (_ && _) in H2;
      [apply activeScanline_keeps, H2 | injection H2 as <-; apply keeps_refl]. }
  exists (vblankStart q2). split; [|reflexivity].
  eapply keeps_trans; [exact K1|]. eapply keeps_trans; [exact K2|].
  apply vblankStart_keeps.
Qed.

(** A tick never touches the cartridge: neither the mapper's [Scanline]
    nor any other method that changes it is called. *)
Lemma Clock_mapper (p p' : PPU M) : Clock p = Some p' -> mapper p' = mapper p.
Proof.
  intros H. apply Clock_inv in H as (q & K & ->).
  destruct K as (_ & _ & _ & _ & _ & _ & Km & _).
  rewrite <- Km. unfold advanceTiming.
  repeat match goal with |- context [if ?c then _ else _] => destruct c end;
    reflexivity.
Qed.

Lemma Clocks_mapper (n : nat) :
  forall p p' : PPU M, Clocks n p = Some p' -> mapper p' = mapper p.
Proof.
  induction n as [|n IH]; intros p p' H; simpl in H.
  - injection H as <-. reflexivity.
  - apply bind_Some in H as (q & Hq & H).
    rewrite (IH _ _ H). apply Clock_mapper, Hq.
Qed.

(** Nor does it touch OAM, the OAM address, the nametables or the
    palette. *)
Lemma Clock_memory (p p' : PPU M) :
  Clock p = Some p' ->
  oam p' = oam p /\ oamAddress p' = oamAddress p /\
  nametable p' = nametable p /\ paletteRAM p' = paletteRAM p.
Proof.
  intros H. apply Clock_inv in H as (q & K & ->).
  destruct K as (_ & _ & _ & _ & _ & _ & _ & _ & Kn & Kp & Ko & Ka & _).
  rewrite <- Kn, <- Kp, <- Ko, <- Ka. unfold advanceTiming.
  repeat match goal with |- context [if ?c then _ else _] => destruct c end;
    repeat split; reflexivity.
Qed.

(** *** The position in the frame *)

Lemma advanceTiming_bounds (q : PPU M) :
  -1 <= scanline q <= 261 -> 0 <= cycle q <= 340 ->
  -1 <= scanline (advanceTiming q) <= 261 /\ 0 <= cycle (advanceTiming q) <= 340.
Proof.
  intros Hs Hc. unfold advanceTiming, CyclesPerScanline, ScanlinesPerFrame, u16, i16.
  simpl.
  rewrite (Z.mod_small (cycle q + 1)) by lia.
  destruct (Z.leb_spec 341 (cycle q + 1)); simpl; [|lia].
  rewrite (Z.mod_small (scanline q + 1)) by lia.
  destruct (Z.ltb_spec (scanline q + 1) 32768); [|lia].
  destruct ((scanline q + 1 =? 0) && _ && _); simpl;
    destruct (Z.leb_spec 262 (scanline q + 1)); simpl; lia.
Qed.

Lemma Clock_bounds (p p' : PPU M) :
  Clock p = Some p' ->
  -1 <= scanline p <= 261 -> 0 <= cycle p <= 340 ->
  -1 <= scanline p' <= 261 /\ 0 <= cycle p' <= 340.
Proof.
  intros H Hs Hc. apply Clock_inv in H as (q & K & ->).
  destruct K as (Ks & Kc & _).
  apply advanceTiming_bounds; [rewrite Ks | rewrite Kc]; assumption.
Qed.

Lemma ppuWrite_timing (addr value : Z) (p p' : PPU M) :
  ppuWrite addr value p = Some p' ->
  scanline p' = scanline p /\ cycle p' = cycle p.
Proof.
  unfold ppuWrite. intros H. repeat step_some; split; reflexivity.
Qed.

Lemma WriteCPURegister_timing (addr value : Z) (p p' : PPU M) :
  WriteCPURegister addr value p = Some p' ->
  scanline p' = scanline p /\ cycle p' = cycle p.
Proof.
  unfold WriteCPURegister. intros H. repeat step_some; try (split; reflexivity).
  simpl. eapply ppuWrite_timing. eassumption.
Qed.

Lemma ReadCPURegister_timing (addr value : Z) (p p' : PPU M) :
  ReadCPURegister addr p = Some (value, p') ->
  scanline p' = scanline p /\ cycle p' = cycle p.
Proof.
  unfold ReadCPURegister. intros H.
  destruct (addr =? 0x2002); [injection H as _ <-; split; reflexivity|].
  destruct (addr =? 0x2004).
  { apply bind_Some in H as (v & _ & H). injection H as _ <-. split; reflexivity. }
  destruct (addr =? 0x2007).
  { apply bind_Some in H as (v & _ & H). injection H as _ <-. split; reflexivity. }
  injection H as _ <-. split; reflexivity.
Qed.

(** The bounds the code keeps in every state the PPU can be in: the
    cycle stays in 0..340, the scanline in -1..261. *)
Lemma reachable_bounds (p : PPU M) :
  reachable p -> -1 <= scanline p <= 261 /\ 0 <= cycle p <= 340.
Proof.
  induction 1 as [ | m p _ IH | mode p _ IH | p _ IH | p p' _ IH HC
                 | addr value p p' _ IH HW | addr value p p' _ IH HR
                 | p _ IH | p _ IH ]; simpl; try exact IH; try lia.
  - eapply Clock_bounds; [exact HC | apply IH | apply IH].
  - destruct (WriteCPURegister_timing _ _ _ _ HW) as [-> ->]. exact IH.
  - destruct (ReadCPURegister_timing _ _ _ _ HR) as [-> ->]. exact IH.
Qed.

Lemma Clocks_reachable (n : nat) :
  forall p p' : PPU M, reachable p -> Clocks n p = Some p' -> reachable p'.
Proof.
  induction n as [|n IH]; intros p p' Hp H; simpl in H.
  - injection H as <-. exact Hp.
  - apply bind_Some in H as (q & Hq & H).
    apply (IH q p'); [eapply reach_Clock; eassumption | exact H].
Qed.

End Frame.

(** C1 fails on the code.  [Clock] wraps the scanline only when it
    reaches [ScanlinesPerFrame] = 262, and the pre-render line is -1: from
    power-on, after the 341 cycles of each of the scanlines 0..260 the
    scanline is 261 (not -1) and the frame is not complete; only 341
    ticks later does the scanline become -1.  So a state with scanline 261
    is one the PPU can be in. *)
Theorem C1_scanline_261_reached :
  option_map timingOf (Clocks (Z.to_nat (341 * 261)) (NewPPU : PPU Mapper0.t))
  = Some (261, 0, 0, false) /\
  option_map timingOf (Clocks (Z.to_nat (341 * 262)) (NewPPU : PPU Mapper0.t))
  = Some (-1, 0, 1, true) /\
  exists p : PPU Mapper0.t, reachable p /\ scanline p = 261 /\ cycle p = 0.
Proof.
  assert (H : option_map timingOf
                (Clocks (Z.to_nat (341 * 261)) (NewPPU : PPU Mapper0.t))
              = Some (261, 0, 0, false)) by (vm_compute; reflexivity).
  split; [exact H|]. split; [vm_compute; reflexivity|].
  destruct (Clocks (Z.to_nat (341 * 261)) (NewPPU : PPU Mapper0.t)) as [p|] eqn:E;
    [|discriminate H].
  exists p. split.
  - eapply Clocks_reachable; [apply reach_NewPPU | exact E].
  - simpl in H. injection H as Hs Hc _ _. split; assumption.
Qed.

(** C4 fails on the code.  However many ticks the PPU is clocked
    through, the mapper object is the one it started with: [Clock] never
    calls its [Scanline], so the counter of an MMC3 never moves and its
    pending flag never changes. *)
Theorem C4_clock_never_calls_scanline (n : nat) (p p' : PPU Mapper4.t)
    (m : Mapper4.t) :
  mapper p = Some m ->
  Clocks n p = Some p' ->
  mapper p' = Some m /\
  option_map Mapper4.IRQPending (mapper p') = Some (Mapper4.IRQPending m) /\
  option_map Mapper4.irqCounter (mapper p') = Some (Mapper4.irqCounter m).
Proof.
  intros Hm H. rewrite (Clocks_mapper n p p' H), Hm. repeat split; reflexivity.
Qed.

(** The cartridge and PPU of the IRQ scenario are what the register
    writes produce. *)
Lemma irqCartridge_writes :
  mapperWrites [(0xC000, 4); (0xC001, 0); (0xE001, 0)]
               (Mapper4.NewMapper4 (make 32768) [] MirrorHorizontal)
  = Some irqCartridge /\
  WriteCPURegister 0x2001 0x18 (SetMapper (Some irqCartridge) NewPPU) = Some irqPPU.
Proof. split; reflexivity. Qed.

(** Eight scanlines of rendering with the MMC3 set for an IRQ after four:
    the ticks run, no IRQ is pending after them, and five [Scanline]
    calls would have raised it. *)
Lemma C4_clock_never_calls_scanline_witness :
  exists p' : PPU Mapper4.t,
    Clocks (Z.to_nat (341 * 8)) irqPPU = Some p' /\
    mapper p' = Some irqCartridge /\
    option_map Mapper4.IRQPending (mapper p') = Some false /\
    Mapper4.IRQPending (Nat.iter 5 Mapper4.Scanline irqCartridge) = true.
Proof.
  assert (Hok : ok (Clocks (Z.to_nat (341 * 8)) irqPPU) = true)
    by (vm_compute; reflexivity).
  destruct (Clocks (Z.to_nat (341 * 8)) irqPPU) as [p'|] eqn:E; [|discriminate Hok].
  exists p'. split; [reflexivity|].
  destruct (C4_clock_never_calls_scanline (Z.to_nat (341 * 8)) irqPPU p' irqCartridge
              eq_refl E) as (H1 & H2 & _).
  split; [exact H1|]. split; [exact H2 | reflexivity].
Defined.

(** ** Sprite-0 hit *)

Section Sprite0.

Context {M : Type} {mapperM : Mapper M}.

Lemma backgroundPixel_range (p : PPU M) (bg bpal : Z) :
  backgroundPixel p = (bg, bpal) -> 0 <= bg <= 3.
Proof.
  unfold backgroundPixel. intros H.
  destruct (PPUMask.RenderBackground (mask p)); [|injection H as <- _; lia].
  repeat match type of H with
         | context [if ?c then _ else _] => destruct c
         end; injection H as <- _; vm_compute; split; discriminate.
Qed.

Lemma renderSprites_loop_range (n : nat) :
  forall (i x : Z) (p : PPU M) (sp spal : Z) (prio is0 : bool),
  renderSprites_loop n i x p = Some (sp, spal, prio, is0) -> 0 <= sp <= 3.
Proof.
  induction n as [|n IH]; intros i x p sp spal prio is0 H; simpl in H.
  - injection H as <- _ _ _. lia.
  - apply bind_Some in H as (pos & _ & H).
    destruct (_ && _) in H; [|eapply IH; exact H].
    apply bind_Some in H as (lo & _ & H).
    apply bind_Some in H as (hi & _ & H).
    revert H.
    destruct (land_1_cases (Z.shiftr lo (u8 (7 - (i16 x - i16 pos))))) as [-> | ->];
    destruct (land_1_cases (Z.shiftr hi (u8 (7 - (i16 x - i16 pos))))) as [-> | ->];
    simpl; intros H; try (eapply IH; exact H).
    all: apply bind_Some in H as (attr & _ & H); injection H as <- _ _ _;
      vm_compute; split; discriminate.
Qed.

Lemma renderSprites_range (x : Z) (p : PPU M) (sp spal : Z) (prio is0 : bool) :
  renderSprites x p = Some (sp, spal, prio, is0) -> 0 <= sp <= 3.
Proof.
  unfold renderSprites. intros H.
  destruct (negb _) in H; [injection H as <- _ _ _; lia|].
  destruct (_ && _) in H; [injection H as <- _ _ _; lia|].
  eapply renderSprites_loop_range. exact H.
Qed.

Lemma ltb_pos (z : Z) : 0 <= z -> (0 <? z) = negb (z =? 0).
Proof.
  intros H. destruct (Z.ltb_spec 0 z); destruct (Z.eqb_spec z 0); simpl; lia.
Qed.

(** What [renderPixel] does to the status register on a visible
    scanline: it sets the sprite-0-hit bit exactly under [sprite0HitSet],
    and changes nothing else of it. *)
Lemma renderPixel_status (p p' : PPU M) (bg bpal sp spal : Z) (prio is0 : bool) :
  u16 (scanline p) < ScreenHeight ->
  backgroundPixel p = (bg, bpal) ->
  renderSprites (u16 (cycle p - 1)) p = Some (sp, spal, prio, is0) ->
  renderPixel p = Some p' ->
  status p' =
    if sprite0HitSet (mask p) (u16 (cycle p - 1)) bg sp is0
    then Z.lor (status p) 0x40 else status p.
Proof.
  intros Hy Hbg Hsp H.
  pose proof (backgroundPixel_range p bg bpal Hbg) as Rb.
  pose proof (renderSprites_range _ p sp spal prio is0 Hsp) as Rs.
  unfold renderPixel in H. rewrite Hbg, Hsp in H.
  cbv beta iota zeta delta [bind] in H.
  set (x := u16 (cycle p - 1)) in *.
  unfold sprite0HitSet.
  destruct (Z.leb_spec ScreenHeight (u16 (scanline p))) as [Hy'|_]; [lia|].
  rewrite orb_false_r in H.
  destruct (Z.leb_spec ScreenWidth x) as [Hx|Hx].
  { injection H as <-. unfold ScreenWidth in Hx.
    destruct (Z.ltb_spec x 255); [lia|].
    rewrite !andb_false_r. reflexivity. }
  rewrite (ltb_pos bg), (ltb_pos sp) in H by lia.
  unfold PPUMask.IsRenderingEnabled in H.
  unfold PPUStatus.SetSprite0Hit in H.
  destruct (PPUMask.RenderBackground (mask p)) eqn:RB;
  destruct (PPUMask.RenderSprites (mask p)) eqn:RS;
  destruct (bg =? 0) eqn:Eb; destruct (sp =? 0) eqn:Es;
  destruct is0; destruct (x <? 255); destruct (1 <=? x);
  destruct (PPUMask.RenderBackgroundLeft (mask p));
  destruct (8 <=? x); destruct prio;
  simpl in H; rewrite ?RB, ?RS in H; simpl in H;
  repeat step_some; reflexivity.
Qed.

End Sprite0.

(** C5 fails on the code.  On the machine of [sprite0Setup], at scanline
    1, cycle 1 (x = 0), the sprite pixel comes from sprite 0, the
    background and sprite pixels are both 3, PPUMASK = $1E renders both
    and masks neither left edge: every condition the specification names holds.
    [renderPixel] requires [x >= 1] as well: the tick leaves the
    sprite-0-hit bit clear, and only the next pixel (x = 1) sets it. *)
Theorem C5_sprite0_hit_missed_at_x0 :
  (do p <- sprite0Setup; do p <- Clocks 342 p; Some (pixelInputs p))
  = Some (1, 1, 0x1E, 0x00, Some (3, 0, true, true), (3, 0)) /\
  (do p <- sprite0Setup; do p <- Clocks 343 p; Some (pixelInputs p))
  = Some (1, 2, 0x1E, 0x00, Some (3, 0, true, true), (3, 0)) /\
  (do p <- sprite0Setup; do p <- Clocks 344 p; Some (scanline p, cycle p, status p))
  = Some (1, 3, 0x40).
Proof. repeat split; vm_compute; reflexivity. Qed.

(** ** OAM DMA *)

Section DMA.

Context {M : Type} {mapperM : Mapper M}.

(** A CPU read leaves the DMA state of the bus alone. *)
Lemma Bus_Read_dma (addr v : Z) (b b' : Bus.NESBus M) :
  Bus.Read addr b = Some (v, b') ->
  Bus.dmaPage b' = Bus.dmaPage b /\ Bus.dmaAddr b' = Bus.dmaAddr b /\
  Bus.dmaDummy b' = Bus.dmaDummy b /\ Bus.dmaTransfer b' = Bus.dmaTransfer b.
Proof.
  unfold Bus.Read. intros H.
  repeat match type of H with
         | (if ?c then _ else _) = _ => destruct c
         | bind ?m _ = _ =>
             let E := fresh "E" in destruct m as [[? ?]|] eqn:E; simpl in H;
             [|discriminate H]
         | bind ?m _ = _ =>
             let E := fresh "E" in destruct m eqn:E; simpl in H; [|discriminate H]
         | match ?x with Some _ => _ | None => _ end = _ => destruct x
         end;
  try discriminate H; injection H as _ <-; repeat split; reflexivity.
Qed.

(** One CPU cycle of an active transfer past the alignment cycle: the
    byte index advances by one, whether the cycle read or wrote, and the
    transfer ends when the index wraps to zero. *)
Lemma Bus_Clock_dma (b b' : Bus.NESBus M) :
  Bus.Clock b = Some b' ->
  Bus.dmaTransfer b = true -> Bus.dmaDummy b = false ->
  Bus.dmaAddr b' = u8 (Bus.dmaAddr b + 1) /\
  Bus.dmaTransfer b' = negb (u8 (Bus.dmaAddr b + 1) =? 0) /\
  Bus.dmaDummy b' = (u8 (Bus.dmaAddr b + 1) =? 0).
Proof.
  unfold Bus.Clock. intros H Ht Hd.
  apply bind_Some in H as (p1 & _ & H).
  apply bind_Some in H as (p2 & _ & H).
  apply bind_Some in H as (p3 & _ & H).
  cbv zeta in H. simpl in H. rewrite Ht, Hd in H.
  apply bind_Some in H as (b1 & H1 & H).
  assert (E1 : Bus.dmaAddr b1 = Bus.dmaAddr b /\ Bus.dmaDummy b1 = false /\
               Bus.dmaTransfer b1 = true).
  { destruct (_ =? 0) in H1.
    - apply bind_Some in H1 as ([v b2] & Hr & H1). injection H1 as <-.
      apply Bus_Read_dma in Hr. simpl in Hr. simpl.
      destruct Hr as (_ & -> & -> & ->). repeat split; assumption.
    - apply bind_Some in H1 as (q & _ & H1). injection H1 as <-. simpl.
      repeat split; assumption. }
  destruct E1 as (Ea & Ed & Et). simpl in H. rewrite Ea in H.
  destruct (u8 (Bus.dmaAddr b + 1) =? 0); injection H as <-; simpl;
    repeat split; assumption || reflexivity.
Qed.

(** The alignment cycle: nothing but the flag changes. *)
Lemma Bus_Clock_dma_dummy (b b' : Bus.NESBus M) :
  Bus.Clock b = Some b' ->
  Bus.dmaTransfer b = true -> Bus.dmaDummy b = true ->
  Bus.dmaAddr b' = Bus.dmaAddr b /\ Bus.dmaTransfer b' = true /\
  Bus.dmaDummy b' = false.
Proof.
  unfold Bus.Clock. intros H Ht Hd.
  apply bind_Some in H as (p1 & _ & H).
  apply bind_Some in H as (p2 & _ & H).
  apply bind_Some in H as (p3 & _ & H).
  cbv zeta in H. simpl in H. rewrite Ht, Hd in H.
  injection H as <-. simpl. repeat split; assumption.
Qed.

(** From byte index [a] the transfer ends after exactly [256 - a] CPU
    cycles. *)
Lemma dma_remaining (fuel : nat) :
  forall (b b' : Bus.NESBus M) (n : Z),
  Bus.dmaTransfer b = true -> Bus.dmaDummy b = false ->
  0 <= Bus.dmaAddr b <= 255 ->
  clockUntilDMADone fuel b = Some (n, b') ->
  n = 256 - Bus.dmaAddr b.
Proof.
  induction fuel as [|fuel IH]; intros b b' n Ht Hd Ha H; simpl in H;
    rewrite Ht in H; simpl in H; [discriminate H|].
  apply bind_Some in H as (b1 & Hc & H).
  apply bind_Some in H as ([k b2] & Hk & H). injection H as <- <-.
  destruct (Bus_Clock_dma b b1 Hc Ht Hd) as (Ea & Et & Ed).
  unfold u8 in Ea, Et, Ed.
  destruct (Z.eq_dec (Bus.dmaAddr b) 255) as [E255|N255].
  - rewrite E255 in Et. change ((255 + 1) mod 256 =? 0) with true in Et. simpl in Et.
    destruct fuel; simpl in Hk; rewrite Et in Hk; simpl in Hk;
      injection Hk as <- _; lia.
  - rewrite Z.mod_small in Ea, Et, Ed by lia.
    destruct (Z.eqb_spec (Bus.dmaAddr b + 1) 0); [lia|]. simpl in Et.
    rewrite (IH b1 b2 k Et Ed) by (assumption || lia). lia.
Qed.

(** Whatever the page and whatever the machine: a transfer started by a
    write to $4014 ends after 256 CPU cycles, or 257 with the alignment
    cycle; never 513 or 514. *)
Lemma oam_dma_duration (fuel : nat) (page n : Z) (b b1 b' : Bus.NESBus M) :
  Bus.Write 0x4014 page b = Some b1 ->
  clockUntilDMADone fuel b1 = Some (n, b') ->
  n = if Bus.dmaDummy b then 257 else 256.
Proof.
  intros Hw H.
  assert (E : Bus.dmaTransfer b1 = true /\ Bus.dmaAddr b1 = 0 /\
              Bus.dmaDummy b1 = Bus.dmaDummy b).
  { unfold Bus.Write in Hw. simpl in Hw. injection Hw as <-. repeat split; reflexivity. }
  destruct E as (Et & Ea & Ed).
  destruct (Bus.dmaDummy b) eqn:Hd.
  - destruct fuel as [|fuel]; simpl in H; rewrite Et in H; simpl in H; [discriminate H|].
    apply bind_Some in H as (b2 & Hc & H).
    apply bind_Some in H as ([k b3] & Hk & H). injection H as <- <-.
    destruct (Bus_Clock_dma_dummy b1 b2 Hc Et Ed) as (Ea2 & Et2 & Ed2).
    rewrite (dma_remaining fuel b2 b3 k Et2 Ed2) by (assumption || lia). lia.
  - rewrite (dma_remaining fuel b1 b' n Et Ed) by (assumption || lia). lia.
Qed.

End DMA.

(** C2 fails on the code.  With the bytes 1, 2, ..., 255, 0 in CPU page 2
    and $4014 <- 2 on a fresh bus, the transfer deactivates after 256 CPU
    cycles: the read cycles fall on the even indices only, so OAM holds
    the 128 bytes of even index, 1, 3, ..., 255, in its first half and
    its second half is untouched.  A second transfer takes 257 cycles and
    appends the same 128 bytes. *)
Theorem C2_oam_dma_copies_half :
  (do b <- dmaBus; dmaRun b)
  = Some (256, ((fun k => u8 (2 * k + 1)) <$> seqZ 0 128) ++ repeat 0 128, false) /\
  (do b <- dmaBus; dmaRunAgain b)
  = Some (257, ((fun k => u8 (2 * k + 1)) <$> seqZ 0 128)
               ++ ((fun k => u8 (2 * k + 1)) <$> seqZ 0 128), false) /\
  ((fun k => u8 (2 * k + 1)) <$> seqZ 0 128) ++ repeat 0 128 <> dmaSource.
Proof.
  split; [vm_compute; reflexivity|].
  split; [vm_compute; reflexivity|].
  vm_compute. discriminate.
Qed.

(** * Further properties of the code *)

Lemma allFrom_spec (P : Z -> bool) (n : nat) :
  forall i : Z, allFrom P n i = true ->
  forall a : Z, i <= a < i + Z.of_nat n -> P a = true.
Proof.
  induction n as [|n IH]; intros i H a Ha; [lia|].
  simpl in H. apply andb_true_iff in H as [H1 H2].
  destruct (Z.eq_dec a i) as [->|Hne]; [exact H1|].
  apply (IH (i + 1) H2). lia.
Qed.

(** A property of the integers below [n], checked by running through
    them. *)
Lemma all_below (n : Z) (P : Z -> bool) :
  allFrom P (Z.to_nat n) 0 = true -> forall a : Z, 0 <= a < n -> P a = true.
Proof. intros H a Ha. apply (allFrom_spec P (Z.to_nat n) 0 H). lia. Qed.

(** ** Bitwise equalities

    Two integers built from masks and shifts by literals are equal when
    they agree at every bit: the bits 0..31 are compared one by one, and
    from bit 32 on every literal is zero. *)

Lemma testbit_literal_high (c i : Z) :
  0 <= c -> (c <? 2 ^ 16) = true -> 16 <= i -> Z.testbit c i = false.
Proof.
  intros H0 H1 Hi. apply Z.ltb_lt in H1.
  destruct (Z.eq_dec c 0) as [->|Hc]; [apply Z.testbit_0_l|].
  apply Z.bits_above_log2; [lia|].
  assert (Z.log2 c < 16) by (apply Z.log2_lt_pow2; lia). lia.
Qed.

Lemma u16_land (x : Z) : u16 x = Z.land x 0xFFFF.
Proof.
  unfold u16. change 0xFFFF with (Z.ones 16). rewrite Z.land_ones by lia.
  reflexivity.
Qed.

Lemma u8_land (x : Z) : u8 x = Z.land x 0xFF.
Proof.
  unfold u8. change 0xFF with (Z.ones 8). rewrite Z.land_ones by lia.
  reflexivity.
Qed.

Ltac bits_push :=
  repeat first
    [ rewrite Z.land_spec | rewrite Z.lor_spec | rewrite Z.lxor_spec
    | rewrite Z.shiftr_spec by lia | rewrite Z.shiftl_spec by lia ].

Ltac bits_index :=
  repeat match goal with
         | |- context [Z.testbit _ ?i] =>
             lazymatch i with
             | Z0 => fail | Zpos _ => fail | Zneg _ => fail
             | _ => let i' := eval vm_compute in i in change i with i'
             end
         end.

Ltac bits_literal :=
  repeat match goal with
         | |- context [Z.testbit ?a (Zneg ?i)] =>
             change (Z.testbit a (Zneg i)) with false
         | |- context [Z.testbit (Zpos ?c) ?i] =>
             let b := eval vm_compute in (Z.testbit (Zpos c) i) in
             change (Z.testbit (Zpos c) i) with b
         | |- context [Z.testbit Z0 ?i] =>
             let b := eval vm_compute in (Z.testbit Z0 i) in
             change (Z.testbit Z0 i) with b
         end.

Ltac bits_high :=
  repeat match goal with
         | |- context [Z.testbit (Zpos ?c) ?i] =>
             rewrite (testbit_literal_high (Zpos c) i) by (reflexivity || lia)
         | |- context [Z.testbit Z0 ?i] => rewrite (Z.testbit_0_l i)
         end;
  rewrite ?andb_false_r, ?andb_false_l, ?orb_false_r, ?orb_false_l;
  try reflexivity.

Ltac bits_case n k :=
  lazymatch k with
  | O => idtac
  | S ?k' =>
      let E := fresh "E" in
      destruct (Z.eq_dec n (Z.of_nat k')) as [E|E];
      [ vm_compute in E; subst n;
        repeat (progress (bits_index; bits_literal; bits_push));
        try reflexivity; try btauto
      | bits_case n k' ]
  end.

Ltac tuple_eq :=
  repeat match goal with |- (_, _) = (_, _) => f_equal end.

Ltac bits :=
  rewrite ?u16_land, ?u8_land;
  apply Z.bits_inj'; let n := fresh "n" in let Hn := fresh "Hn" in
  intros n Hn; bits_push;
  destruct (Z_lt_le_dec n 32);
  [ bits_case n 32%nat; exfalso; lia
  | bits_push; bits_high ].

(** ** The loopy register *)

Lemma SetCoarseX_fields (v l : Z) :
  loopyFields (LoopyRegister.SetCoarseX v l) =
  (Z.land v 0x1F, LoopyRegister.CoarseY l, LoopyRegister.NametableX l,
   LoopyRegister.NametableY l, LoopyRegister.FineY l).
Proof.
  unfold loopyFields, LoopyRegister.CoarseX, LoopyRegister.CoarseY,
    LoopyRegister.NametableX, LoopyRegister.NametableY, LoopyRegister.FineY,
    LoopyRegister.SetCoarseX.
  tuple_eq; bits.
Qed.

Lemma SetCoarseY_fields (v l : Z) :
  loopyFields (LoopyRegister.SetCoarseY v l) =
  (LoopyRegister.CoarseX l, Z.land v 0x1F, LoopyRegister.NametableX l,
   LoopyRegister.NametableY l, LoopyRegister.FineY l).
Proof.
  unfold loopyFields, LoopyRegister.CoarseX, LoopyRegister.CoarseY,
    LoopyRegister.NametableX, LoopyRegister.NametableY, LoopyRegister.FineY,
    LoopyRegister.SetCoarseY.
  tuple_eq; bits.
Qed.

Lemma SetFineY_fields (v l : Z) :
  loopyFields (LoopyRegister.SetFineY v l) =
  (LoopyRegister.CoarseX l, LoopyRegister.CoarseY l, LoopyRegister.NametableX l,
   LoopyRegister.NametableY l, Z.land v 0x07).
Proof.
  unfold loopyFields, LoopyRegister.CoarseX, LoopyRegister.CoarseY,
    LoopyRegister.NametableX, LoopyRegister.NametableY, LoopyRegister.FineY,
    LoopyRegister.SetFineY.
  tuple_eq; bits.
Qed.

Lemma SetNametableX_fields (v l : Z) :
  loopyFields (LoopyRegister.SetNametableX v l) =
  (LoopyRegister.CoarseX l, LoopyRegister.CoarseY l, (if v =? 0 then 0 else 1),
   LoopyRegister.NametableY l, LoopyRegister.FineY l).
Proof.
  unfold loopyFields, LoopyRegister.CoarseX, LoopyRegister.CoarseY,
    LoopyRegister.NametableX, LoopyRegister.NametableY, LoopyRegister.FineY,
    LoopyRegister.SetNametableX.
  change (not16 0x0400) with 0xFBFF.
  destruct (v =? 0); simpl negb; cbv iota; tuple_eq; bits.
Qed.

Lemma SetNametableY_fields (v l : Z) :
  loopyFields (LoopyRegister.SetNametableY v l) =
  (LoopyRegister.CoarseX l, LoopyRegister.CoarseY l, LoopyRegister.NametableX l,
   (if v =? 0 then 0 else 1), LoopyRegister.FineY l).
Proof.
  unfold loopyFields, LoopyRegister.CoarseX, LoopyRegister.CoarseY,
    LoopyRegister.NametableX, LoopyRegister.NametableY, LoopyRegister.FineY,
    LoopyRegister.SetNametableY.
  change (not16 0x0800) with 0xF7FF.
  destruct (v =? 0); simpl negb; cbv iota; tuple_eq; bits.
Qed.

Lemma TransferX_fields (s l : Z) :
  loopyFields (LoopyRegister.TransferX s l) =
  (LoopyRegister.CoarseX s, LoopyRegister.CoarseY l, LoopyRegister.NametableX s,
   LoopyRegister.NametableY l, LoopyRegister.FineY l).
Proof.
  unfold loopyFields, LoopyRegister.CoarseX, LoopyRegister.CoarseY,
    LoopyRegister.NametableX, LoopyRegister.NametableY, LoopyRegister.FineY,
    LoopyRegister.TransferX.
  tuple_eq; bits.
Qed.

Lemma TransferY_fields (s l : Z) :
  loopyFields (LoopyRegister.TransferY s l) =
  (LoopyRegister.CoarseX l, LoopyRegister.CoarseY s, LoopyRegister.NametableX l,
   LoopyRegister.NametableY s, LoopyRegister.FineY s).
Proof.
  unfold loopyFields, LoopyRegister.CoarseX, LoopyRegister.CoarseY,
    LoopyRegister.NametableX, LoopyRegister.NametableY, LoopyRegister.FineY,
    LoopyRegister.TransferY.
  tuple_eq; bits.
Qed.

Lemma Transfer_both (s l : Z) :
  LoopyRegister.TransferY s (LoopyRegister.TransferX s l) = LoopyRegister.Set_ s.
Proof.
  unfold LoopyRegister.TransferY, LoopyRegister.TransferX, LoopyRegister.Set_. bits.
Qed.

Lemma loopy_layout (l : Z) :
  LoopyRegister.Set_ l =
  Z.lor (Z.lor (Z.lor (Z.lor (LoopyRegister.CoarseX l)
                             (Z.shiftl (LoopyRegister.CoarseY l) 5))
                      (Z.shiftl (LoopyRegister.NametableX l) 10))
               (Z.shiftl (LoopyRegister.NametableY l) 11))
        (Z.shiftl (LoopyRegister.FineY l) 12).
Proof.
  unfold LoopyRegister.Set_, LoopyRegister.CoarseX, LoopyRegister.CoarseY,
    LoopyRegister.NametableX, LoopyRegister.NametableY, LoopyRegister.FineY.
  bits.
Qed.

(** X1: the five fields of a loopy register are disjoint and make up its
    fifteen bits: each setter writes its own field (coarse X and Y from
    the low five bits of the value, fine Y from the low three, a
    nametable bit from whether the value is nonzero) and leaves the other
    four alone; [TransferX] copies coarse X and nametable X from the
    source, [TransferY] the other three fields, and both together copy
    the source register. *)
Theorem X1_loopy_fields (v s l : Z) :
  loopyFields (LoopyRegister.SetCoarseX v l) =
    (Z.land v 0x1F, LoopyRegister.CoarseY l, LoopyRegister.NametableX l,
     LoopyRegister.NametableY l, LoopyRegister.FineY l) /\
  loopyFields (LoopyRegister.SetCoarseY v l) =
    (LoopyRegister.CoarseX l, Z.land v 0x1F, LoopyRegister.NametableX l,
     LoopyRegister.NametableY l, LoopyRegister.FineY l) /\
  loopyFields (LoopyRegister.SetFineY v l) =
    (LoopyRegister.CoarseX l, LoopyRegister.CoarseY l, LoopyRegister.NametableX l,
     LoopyRegister.NametableY l, Z.land v 0x07) /\
  loopyFields (LoopyRegister.SetNametableX v l) =
    (LoopyRegister.CoarseX l, LoopyRegister.CoarseY l, (if v =? 0 then 0 else 1),
     LoopyRegister.NametableY l, LoopyRegister.FineY l) /\
  loopyFields (LoopyRegister.SetNametableY v l) =
    (LoopyRegister.CoarseX l, LoopyRegister.CoarseY l, LoopyRegister.NametableX l,
     (if v =? 0 then 0 else 1), LoopyRegister.FineY l) /\
  loopyFields (LoopyRegister.TransferX s l) =
    (LoopyRegister.CoarseX s, LoopyRegister.CoarseY l, LoopyRegister.NametableX s,
     LoopyRegister.NametableY l, LoopyRegister.FineY l) /\
  loopyFields (LoopyRegister.TransferY s l) =
    (LoopyRegister.CoarseX l, LoopyRegister.CoarseY s, LoopyRegister.NametableX l,
     LoopyRegister.NametableY s, LoopyRegister.FineY s) /\
  LoopyRegister.TransferY s (LoopyRegister.TransferX s l) = LoopyRegister.Set_ s /\
  LoopyRegister.Set_ l =
    Z.lor (Z.lor (Z.lor (Z.lor (LoopyRegister.CoarseX l)
                               (Z.shiftl (LoopyRegister.CoarseY l) 5))
                        (Z.shiftl (LoopyRegister.NametableX l) 10))
                 (Z.shiftl (LoopyRegister.NametableY l) 11))
          (Z.shiftl (LoopyRegister.FineY l) 12).
Proof.
  split; [apply SetCoarseX_fields|]. split; [apply SetCoarseY_fields|].
  split; [apply SetFineY_fields|]. split; [apply SetNametableX_fields|].
  split; [apply SetNametableY_fields|]. split; [apply TransferX_fields|].
  split; [apply TransferY_fields|]. split; [apply Transfer_both|].
  apply loopy_layout.
Qed.

(** *** The scroll increments *)

Lemma incrementX_checked : allFrom incrementX_ok (Z.to_nat 0x8000) 0 = true.
Proof. vm_compute. reflexivity. Qed.

Lemma incrementY_checked : allFrom incrementY_ok (Z.to_nat 0x8000) 0 = true.
Proof. vm_compute. reflexivity. Qed.

(** X2: on a fifteen-bit register [IncrementX] advances the horizontal
    tile position, nametable X and coarse X taken as one six-bit counter,
    by one modulo 64; [IncrementY] advances the pixel row, coarse Y and
    fine Y taken as one counter, from 239 to 0 with nametable Y flipped,
    and from the rows 240..255 (coarse Y 30 and 31) on to 0 without the
    flip.  Neither touches the other axis, and the result keeps fifteen
    bits. *)
Theorem X2_loopy_increments (l : Z) :
  0 <= l < 0x8000 ->
  (let l' := LoopyRegister.IncrementX l in
   LoopyRegister.NametableX l' * 32 + LoopyRegister.CoarseX l' =
     (LoopyRegister.NametableX l * 32 + LoopyRegister.CoarseX l + 1) mod 64 /\
   LoopyRegister.CoarseY l' = LoopyRegister.CoarseY l /\
   LoopyRegister.NametableY l' = LoopyRegister.NametableY l /\
   LoopyRegister.FineY l' = LoopyRegister.FineY l /\
   0 <= l' < 0x8000) /\
  (let l' := LoopyRegister.IncrementY l in
   let row := LoopyRegister.CoarseY l * 8 + LoopyRegister.FineY l in
   let row' := LoopyRegister.CoarseY l' * 8 + LoopyRegister.FineY l' in
   (row < 240 ->
    row' = (row + 1) mod 240 /\
    LoopyRegister.NametableY l' =
      (if row =? 239 then 1 - LoopyRegister.NametableY l
       else LoopyRegister.NametableY l)) /\
   (240 <= row ->
    row' = (row + 1) mod 256 /\
    LoopyRegister.NametableY l' = LoopyRegister.NametableY l) /\
   LoopyRegister.CoarseX l' = LoopyRegister.CoarseX l /\
   LoopyRegister.NametableX l' = LoopyRegister.NametableX l /\
   0 <= l' < 0x8000).
Proof.
  intros Hl. split.
  - pose proof (all_below 0x8000 incrementX_ok incrementX_checked l Hl) as H.
    unfold incrementX_ok in H. cbv zeta in *.
    repeat (apply andb_true_iff in H as [H ?]).
    repeat match goal with
           | H : (_ =? _) = true |- _ => apply Z.eqb_eq in H
           | H : (_ <=? _) = true |- _ => apply Z.leb_le in H
           | H : (_ <? _) = true |- _ => apply Z.ltb_lt in H
           end.
    repeat split; assumption.
  - pose proof (all_below 0x8000 incrementY_ok incrementY_checked l Hl) as H.
    unfold incrementY_ok in H. cbv zeta in *.
    repeat (apply andb_true_iff in H as [H ?]).
    repeat match goal with
           | H : (_ <=? _) = true |- _ => apply Z.leb_le in H
           | H : (_ <? _) = true |- _ => apply Z.ltb_lt in H
           end.
    repeat match goal with
           | H : (LoopyRegister.CoarseX _ =? _) = true |- _ => apply Z.eqb_eq in H
           | H : (LoopyRegister.NametableX _ =? _) = true |- _ => apply Z.eqb_eq in H
           end.
    split; [|split; [|repeat split; assumption]].
    + intros Hr. destruct (Z.ltb_spec (LoopyRegister.CoarseY l * 8 + LoopyRegister.FineY l) 240);
        [|lia].
      apply andb_true_iff in H as [Ha Hb].
      apply Z.eqb_eq in Ha, Hb. split; assumption.
    + intros Hr. destruct (Z.ltb_spec (LoopyRegister.CoarseY l * 8 + LoopyRegister.FineY l) 240);
        [lia|].
      apply andb_true_iff in H as [Ha Hb].
      apply Z.eqb_eq in Ha, Hb. split; assumption.
Qed.

Lemma X2_loopy_increments_witness :
  0 <= 0x03BF < 0x8000 /\
  LoopyRegister.CoarseY (LoopyRegister.IncrementX 0x03BF) = LoopyRegister.CoarseY 0x03BF /\
  LoopyRegister.CoarseX (LoopyRegister.IncrementY 0x73BF) = LoopyRegister.CoarseX 0x73BF.
Proof.
  split; [lia|].
  split.
  - destruct (X2_loopy_increments 0x03BF ltac:(lia)) as [(_ & H & _) _]. exact H.
  - destruct (X2_loopy_increments 0x73BF ltac:(lia)) as [_ (_ & _ & H & _)]. exact H.
Defined.

(** ** PPUSTATUS *)

Lemma flag_bit (s n : Z) (b : bool) :
  Z.land (Z.shiftr s n) 0x01 = (if b then 1 else 0) ->
  negb (Z.land (Z.shiftr s n) 0x01 =? 0) = b.
Proof. intros ->. destruct b; reflexivity. Qed.

Lemma flag_bit_eq (s s' n : Z) :
  Z.land (Z.shiftr s' n) 0x01 = Z.land (Z.shiftr s n) 0x01 ->
  negb (Z.land (Z.shiftr s' n) 0x01 =? 0) = negb (Z.land (Z.shiftr s n) 0x01 =? 0).
Proof. intros ->. reflexivity. Qed.

Ltac flags :=
  unfold statusFlags, PPUStatus.VBlank, PPUStatus.Sprite0Hit,
    PPUStatus.SpriteOverflow, PPUStatus.SetVBlank, PPUStatus.SetSprite0Hit,
    PPUStatus.SetSpriteOverflow;
  change (not8 0x80) with 0x7F; change (not8 0x40) with 0xBF;
  change (not8 0x20) with 0xDF;
  tuple_eq; first [apply flag_bit_eq | apply flag_bit | idtac]; bits.

Lemma SetVBlank_flags (b : bool) (s : Z) :
  statusFlags (PPUStatus.SetVBlank b s) =
  (b, PPUStatus.Sprite0Hit s, PPUStatus.SpriteOverflow s, Z.land s 0x1F).
Proof. destruct b; flags. Qed.

Lemma SetSprite0Hit_flags (b : bool) (s : Z) :
  statusFlags (PPUStatus.SetSprite0Hit b s) =
  (PPUStatus.VBlank s, b, PPUStatus.SpriteOverflow s, Z.land s 0x1F).
Proof. destruct b; flags. Qed.

Lemma SetSpriteOverflow_flags (b : bool) (s : Z) :
  statusFlags (PPUStatus.SetSpriteOverflow b s) =
  (PPUStatus.VBlank s, PPUStatus.Sprite0Hit s, b, Z.land s 0x1F).
Proof. destruct b; flags. Qed.

Lemma status_byte (b : bool) (s : Z) :
  0 <= s < 256 ->
  0 <= PPUStatus.SetVBlank b s < 256 /\
  0 <= PPUStatus.SetSprite0Hit b s < 256 /\
  0 <= PPUStatus.SetSpriteOverflow b s < 256.
Proof.
  intros Hs.
  pose (ok := fun s : Z =>
    forallb (fun b : bool =>
      forallb (fun v : Z => (0 <=? v) && (v <? 256))
        [PPUStatus.SetVBlank b s; PPUStatus.SetSprite0Hit b s;
         PPUStatus.SetSpriteOverflow b s]) [true; false]).
  assert (H : ok s = true).
  { apply (all_below 256 ok); [vm_compute; reflexivity | exact Hs]. }
  unfold ok in H. simpl in H.
  destruct b; repeat (apply andb_true_iff in H as [H ?]);
    repeat match goal with
           | H : (_ && _) = true |- _ => apply andb_true_iff in H as [? ?]
           end;
    repeat match goal with
           | H : (_ <=? _) = true |- _ => apply Z.leb_le in H
           | H : (_ <? _) = true |- _ => apply Z.ltb_lt in H
           end; repeat split; assumption.
Qed.

(** ** The CPU's register ports *)

Section Ports.

Context {M : Type} {mapperM : Mapper M}.

(** X3: each PPUSTATUS setter sets or clears its own flag and leaves the
    other two flags and the five unused bits as they were, and the
    register stays a byte.  A CPU read of $2002 returns the register,
    then clears the VBlank flag alone, and clears the write latch. *)
Theorem X3_ppustatus (p : PPU M) (b : bool) (s : Z) :
  statusFlags (PPUStatus.SetVBlank b s) =
    (b, PPUStatus.Sprite0Hit s, PPUStatus.SpriteOverflow s, Z.land s 0x1F) /\
  statusFlags (PPUStatus.SetSprite0Hit b s) =
    (PPUStatus.VBlank s, b, PPUStatus.SpriteOverflow s, Z.land s 0x1F) /\
  statusFlags (PPUStatus.SetSpriteOverflow b s) =
    (PPUStatus.VBlank s, PPUStatus.Sprite0Hit s, b, Z.land s 0x1F) /\
  (0 <= s < 256 ->
   0 <= PPUStatus.SetVBlank b s < 256 /\
   0 <= PPUStatus.SetSprite0Hit b s < 256 /\
   0 <= PPUStatus.SetSpriteOverflow b s < 256) /\
  exists p' : PPU M,
    ReadCPURegister 0x2002 p = Some (status p, p') /\
    statusFlags (status p') =
      (false, PPUStatus.Sprite0Hit (status p), PPUStatus.SpriteOverflow (status p),
       Z.land (status p) 0x1F) /\
    writeLatch p' = false /\
    p' = set_writeLatch false (set_status (status p') p).
Proof.
  split; [apply SetVBlank_flags|]. split; [apply SetSprite0Hit_flags|].
  split; [apply SetSpriteOverflow_flags|]. split; [apply status_byte|].
  eexists. split; [reflexivity|]. simpl.
  split; [apply (SetVBlank_flags false)|]. split; reflexivity.
Qed.

Lemma Set_idem (x : Z) : LoopyRegister.Set_ (LoopyRegister.Set_ x) = LoopyRegister.Set_ x.
Proof. unfold LoopyRegister.Set_. bits. Qed.

Lemma PPUADDR_pair (t hi lo : Z) :
  LoopyRegister.Set_
    (Z.lor (Z.land (LoopyRegister.Set_
                      (Z.lor (Z.land t 0x00FF) (u16 (Z.shiftl (Z.land hi 0x3F) 8))))
                   0xFF00) lo)
  = LoopyRegister.Set_ (Z.lor (Z.shiftl (Z.land hi 0x3F) 8) lo).
Proof. unfold LoopyRegister.Set_. bits. Qed.

Lemma bit_of_control (c n : Z) :
  (if Z.land (Z.shiftr c n) 0x01 =? 0 then 0 else 1) = Z.land (Z.shiftr c n) 0x01.
Proof. destruct (land_1_cases (Z.shiftr c n)) as [-> | ->]; reflexivity. Qed.

(** X4: how the CPU programs the scroll registers.  A write to $2000
    copies bits 0 and 1 of the value into the nametable bits of [t].
    With the write latch clear (as a read of $2002 leaves it), two writes
    to $2005 put bits 3-7 of the first value in coarse X, its bits 0-2 in
    fine X, bits 3-7 of the second value in coarse Y and its bits 0-2 in
    fine Y, and leave [v] alone; two writes to $2006 put
    ((hi & 0x3F) << 8) | lo in [t] and copy it to [v].  Either pair
    leaves the latch clear again. *)
Theorem X4_scroll_registers (p : PPU M) (c x y hi lo : Z) :
  (exists p' : PPU M,
     WriteCPURegister 0x2000 c p = Some p' /\
     control p' = c /\
     loopyFields (tempVRAMAddress p') =
       (LoopyRegister.CoarseX (tempVRAMAddress p),
        LoopyRegister.CoarseY (tempVRAMAddress p),
        Z.land c 0x01, Z.land (Z.shiftr c 1) 0x01,
        LoopyRegister.FineY (tempVRAMAddress p)) /\
     vramAddress p' = vramAddress p /\ writeLatch p' = writeLatch p) /\
  (writeLatch p = false ->
   (exists p' : PPU M,
      ppuWrites [(0x2005, x); (0x2005, y)] p = Some p' /\
      fineX p' = Z.land x 0x07 /\
      loopyFields (tempVRAMAddress p') =
        (Z.land (Z.shiftr x 3) 0x1F, Z.land (Z.shiftr y 3) 0x1F,
         LoopyRegister.NametableX (tempVRAMAddress p),
         LoopyRegister.NametableY (tempVRAMAddress p), Z.land y 0x07) /\
      vramAddress p' = vramAddress p /\ writeLatch p' = false) /\
   (exists p' : PPU M,
      ppuWrites [(0x2006, hi); (0x2006, lo)] p = Some p' /\
      tempVRAMAddress p' =
        LoopyRegister.Set_ (Z.lor (Z.shiftl (Z.land hi 0x3F) 8) lo) /\
      vramAddress p' = tempVRAMAddress p' /\
      fineX p' = fineX p /\ writeLatch p' = false)).
Proof.
  split.
  - eexists. split; [reflexivity|]. simpl.
    split; [reflexivity|]. split; [|split; reflexivity].
    rewrite SetNametableY_fields.
    pose proof (SetNametableX_fields (PPUControl.NametableX c) (tempVRAMAddress p)) as H.
    unfold loopyFields in H. injection H as -> -> -> _ ->.
    unfold PPUControl.NametableX, PPUControl.NametableY.
    rewrite !bit_of_control. rewrite Z.shiftr_0_r. reflexivity.
  - intros Hl. split.
    + unfold ppuWrites, WriteCPURegister. simpl. rewrite Hl. simpl.
      eexists. split; [reflexivity|]. simpl.
      split; [reflexivity|]. split; [|split; reflexivity].
      rewrite SetCoarseY_fields.
      pose proof (SetFineY_fields (Z.land y 0x07)
                    (LoopyRegister.SetCoarseX (Z.shiftr x 3) (tempVRAMAddress p))) as H.
      unfold loopyFields in H. injection H as -> _ -> -> ->.
      pose proof (SetCoarseX_fields (Z.shiftr x 3) (tempVRAMAddress p)) as H.
      unfold loopyFields in H. injection H as -> _ -> -> _.
      tuple_eq; try reflexivity. bits.
    + unfold ppuWrites, WriteCPURegister. simpl. rewrite Hl. simpl.
      eexists. split; [reflexivity|]. simpl.
      rewrite PPUADDR_pair, Set_idem. repeat split; reflexivity.
Qed.

End Ports.

(** After a read of $2002 the latch is clear: the scroll $7D, $5E and the
    address $23C5 are set as the theorem says. *)
Lemma X4_scroll_registers_witness :
  exists (st : Z) (p0 p1 p2 : PPU Mapper0.t),
    ReadCPURegister 0x2002 (set_writeLatch true NewPPU) = Some (st, p0) /\
    writeLatch p0 = false /\
    ppuWrites [(0x2005, 0x7D); (0x2005, 0x5E)] p0 = Some p1 /\
    fineX p1 = 5 /\ loopyFields (tempVRAMAddress p1) = (15, 11, 0, 0, 6) /\
    ppuWrites [(0x2006, 0x23); (0x2006, 0xC5)] p0 = Some p2 /\
    vramAddress p2 = 0x23C5.
Proof.
  set (p0 := set_writeLatch false
                (set_status (PPUStatus.SetVBlank false 0)
                   (set_writeLatch true (NewPPU : PPU Mapper0.t)))).
  destruct (X4_scroll_registers p0 0 0x7D 0x5E 0x23 0xC5) as (_ & H).
  destruct (H eq_refl) as ((p1 & E1 & Hx & Hf & _) & (p2 & E2 & Ht & Hv & _)).
  exists 0, p0, p1, p2.
  split; [reflexivity|]. split; [reflexivity|]. split; [exact E1|].
  split; [exact Hx|]. split; [rewrite Hf; reflexivity|].
  split; [exact E2|]. rewrite Hv, Ht. reflexivity.
Defined.

(** The setters at the byte $E5, and the read of $2002 on a fresh PPU. *)
Lemma X3_ppustatus_witness :
  0 <= 0xE5 < 256 /\
  0 <= PPUStatus.SetVBlank false 0xE5 < 256 /\
  statusFlags (PPUStatus.SetVBlank false 0xE5) = (false, true, true, 5).
Proof.
  destruct (X3_ppustatus (NewPPU : PPU Mapper0.t) false 0xE5) as (H1 & _ & _ & H2 & _).
  split; [lia|]. split; [apply H2; lia|]. rewrite H1. reflexivity.
Defined.

Section Memory.

Context {M : Type} {mapperM : Mapper M}.

(** X5: the OAM port.  After $2003 <- a, a write of [v] to $2004 stores
    [v] at OAM[a], changes no other byte of OAM and moves the OAM address
    to a + 1 modulo 256; a read of $2004 returns the byte at the OAM
    address and changes nothing, the address included. *)
Theorem X5_oam_port (p : PPU M) (a v : Z) :
  0 <= a < 256 ->
  (exists p1 p2 : PPU M,
     WriteCPURegister 0x2003 a p = Some p1 /\
     WriteCPURegister 0x2004 v p1 = Some p2 /\
     oamAddress p2 = (a + 1) mod 256 /\
     aget 256 (oam p2) a = Some v /\
     (forall j : Z, j <> a -> aget 256 (oam p2) j = aget 256 (oam p) j)) /\
  (oamAddress p = a ->
   ReadCPURegister 0x2004 p = Some (default 0 (oam p !! a), p)).
Proof.
  intros Ha. split.
  - exists (set_oamAddress a p).
    assert (E : WriteCPURegister 0x2004 v (set_oamAddress a p) =
                Some (set_oamAddress (u8 (a + 1))
                        (set_oam (<[a := v]> (oam p)) (set_oamAddress a p)))).
    { unfold WriteCPURegister. simpl.
      rewrite (aset_in_range 256 (oam p) a v Ha). reflexivity. }
    eexists. split; [reflexivity|]. split; [exact E|]. simpl.
    split; [reflexivity|]. split.
    + apply (aget_aset_eq 256 (oam p)). apply aset_in_range, Ha.
    + intros j Hj. apply (aget_aset_ne 256 (oam p) a j v); [congruence|].
      apply aset_in_range, Ha.
  - intros E. unfold ReadCPURegister. simpl. rewrite E.
    rewrite (aget_in_range 256 (oam p) a Ha). reflexivity.
Qed.


(** *** The PPU address space *)

Lemma land_3FFF_mod (addr : Z) : Z.land addr 0x3FFF = addr mod 0x4000.
Proof. change 0x3FFF with (Z.ones 14). rewrite Z.land_ones by lia. reflexivity. Qed.

Lemma mirrorNametableAddress_3000 (addr : Z) (p : PPU M) :
  0x3000 <= addr < 0x4000 ->
  mirrorNametableAddress addr p = mirrorNametableAddress (addr - 0x1000) p.
Proof.
  intros Ha. unfold mirrorNametableAddress.
  assert (E : u16 (addr - 0x2000) mod 0x1000 = u16 (addr - 0x1000 - 0x2000) mod 0x1000).
  { unfold u16.
    rewrite (Z.mod_small (addr - 0x2000) 65536) by lia.
    rewrite (Z.mod_small (addr - 0x1000 - 0x2000) 65536) by lia.
    replace (addr - 0x2000) with (addr - 0x1000 - 0x2000 + 1 * 0x1000) by lia.
    apply Z.mod_add. lia. }
  rewrite E. reflexivity.
Qed.

Lemma mirrorPaletteAddress_32 (addr : Z) :
  0x3F00 <= addr < 0x4000 ->
  mirrorPaletteAddress addr = mirrorPaletteAddress (0x3F00 + (addr - 0x3F00) mod 32).
Proof.
  intros Ha. unfold mirrorPaletteAddress.
  pose proof (Z.mod_pos_bound (addr - 0x3F00) 32 ltac:(lia)).
  assert (E : u16 (addr - 0x3F00) mod 32 =
              u16 (0x3F00 + (addr - 0x3F00) mod 32 - 0x3F00) mod 32).
  { unfold u16.
    replace (0x3F00 + (addr - 0x3F00) mod 32 - 0x3F00) with ((addr - 0x3F00) mod 32) by lia.
    rewrite (Z.mod_small (addr - 0x3F00) 65536) by lia.
    rewrite (Z.mod_small ((addr - 0x3F00) mod 32) 65536) by lia.
    rewrite Z.mod_mod by lia. reflexivity. }
  rewrite E. reflexivity.
Qed.

(** X6: the mirrors of the PPU address space.  Only the low fourteen
    bits of an address count; $3000-$3EFF is a mirror of $2000-$2EFF, and
    the 32 palette bytes repeat through $3F00-$3FFF, for reads and for
    writes alike. *)
Theorem X6_ppu_address_mirrors (p : PPU M) (addr value : Z) :
  (0 <= addr < 0x10000 ->
   ppuRead addr p = ppuRead (addr mod 0x4000) p /\
   ppuWrite addr value p = ppuWrite (addr mod 0x4000) value p) /\
  (0x3000 <= addr < 0x3F00 ->
   ppuRead addr p = ppuRead (addr - 0x1000) p /\
   ppuWrite addr value p = ppuWrite (addr - 0x1000) value p) /\
  (0x3F00 <= addr < 0x4000 ->
   ppuRead addr p = ppuRead (0x3F00 + (addr - 0x3F00) mod 32) p /\
   ppuWrite addr value p = ppuWrite (0x3F00 + (addr - 0x3F00) mod 32) value p).
Proof.
  split; [|split].
  - intros Ha. unfold ppuRead, ppuWrite. rewrite !land_3FFF_mod.
    rewrite Z.mod_mod by lia. split; reflexivity.
  - intros Ha.
    rewrite !ppuRead_nametable, !ppuWrite_nametable by lia.
    rewrite mirrorNametableAddress_3000 by lia. split; reflexivity.
  - intros Ha.
    pose proof (Z.mod_pos_bound (addr - 0x3F00) 32 ltac:(lia)).
    rewrite !ppuRead_palette, !ppuWrite_palette by lia.
    rewrite (mirrorPaletteAddress_32 addr) by lia. split; reflexivity.
Qed.


(** *** Nametable mirroring *)

Lemma mirrorNametableAddress_cell (p : PPU M) (a b : Z) :
  0 <= mirroringMode p <= 3 ->
  0x2000 <= a < 0x3000 -> 0x2000 <= b < 0x3000 ->
  (mirrorNametableAddress a p =? mirrorNametableAddress b p)
  = sameCell (mirroringMode p) a b.
Proof.
  intros Hm Ha Hb. unfold mirrorNametableAddress, sameCell, u16,
    MirrorVertical, MirrorHorizontal, MirrorSingleLow, MirrorSingleHigh,
    MirrorFourScreen.
  rewrite (Z.mod_small (a - 0x2000) 65536), (Z.mod_small (b - 0x2000) 65536) by lia.
  rewrite (Z.mod_small (a - 0x2000) 0x1000), (Z.mod_small (b - 0x2000) 0x1000) by lia.
  set (x := a - 0x2000). set (y := b - 0x2000).
  assert (Hx : 0 <= x < 0x1000) by (unfold x; lia).
  assert (Hy : 0 <= y < 0x1000) by (unfold y; lia).
  rewrite !Z.div_div by lia. change (0x0400 * 2) with 0x0800.
  pose proof (Z.mod_pos_bound x 0x0400 ltac:(lia)).
  pose proof (Z.mod_pos_bound y 0x0400 ltac:(lia)).
  assert (0 <= x / 0x0800 <= 1).
  { split; [apply Z.div_pos; lia|]. apply Z.lt_succ_r, Z.div_lt_upper_bound; lia. }
  assert (0 <= y / 0x0800 <= 1).
  { split; [apply Z.div_pos; lia|]. apply Z.lt_succ_r, Z.div_lt_upper_bound; lia. }
  destruct (Z.eqb_spec (mirroringMode p) 1); [reflexivity|].
  destruct (Z.eqb_spec (mirroringMode p) 0).
  { destruct (Z.eqb_spec (x mod 0x0400) (y mod 0x0400));
    destruct (Z.eqb_spec (x / 0x0800) (y / 0x0800)); simpl;
    match goal with |- (?u =? ?w) = _ => destruct (Z.eqb_spec u w) end;
    try reflexivity; exfalso; lia. }
  destruct (Z.eqb_spec (mirroringMode p) 2); [reflexivity|].
  destruct (Z.eqb_spec (mirroringMode p) 3); [|lia].
  destruct (Z.eqb_spec (x mod 0x0400) (y mod 0x0400));
    match goal with |- (?u =? ?w) = _ => destruct (Z.eqb_spec u w) end;
    try reflexivity; exfalso; lia.
Qed.

(** X7: nametable mirroring as the CPU sees it.  In the modes
    horizontal, vertical and single-screen a byte written at an address of
    $2000-$2FFF is read back at exactly the addresses that name the same
    byte under the mode ([sameCell]); every other address reads what it
    read before. *)
Theorem X7_nametable_mirroring (p : PPU M) (a b v : Z) :
  0 <= mirroringMode p <= 3 ->
  0x2000 <= a < 0x3000 -> 0x2000 <= b < 0x3000 ->
  exists p' : PPU M,
    ppuWrite a v p = Some p' /\
    ppuRead b p' = if sameCell (mirroringMode p) a b then Some v else ppuRead b p.
Proof.
  intros Hm Ha Hb.
  assert (Hn : mirroringMode p <> MirrorFourScreen) by (unfold MirrorFourScreen; lia).
  pose proof (mirrorNametableAddress_bound a p Hn) as Ra.
  pose proof (mirrorNametableAddress_bound b p Hn) as Rb.
  rewrite ppuWrite_nametable by lia.
  rewrite (aset_in_range 2048) by lia. simpl.
  eexists. split; [reflexivity|].
  rewrite !ppuRead_nametable by lia.
  rewrite <- mirrorNametableAddress_cell by assumption.
  change (mirrorNametableAddress b (set_nametable ?n p))
    with (mirrorNametableAddress b p).
  simpl nametable.
  destruct (Z.eqb_spec (mirrorNametableAddress a p) (mirrorNametableAddress b p)) as [E|E].
  - rewrite <- E. apply (aget_aset_eq 2048 (nametable p)). apply aset_in_range. lia.
  - rewrite (aget_aset_ne 2048 (nametable p) (mirrorNametableAddress a p)
               (mirrorNametableAddress b p) v _ E); [reflexivity|].
    apply aset_in_range. lia.
Qed.

End Memory.

(** On a fresh PPU: OAM[$FF] <- $42 moves the OAM address on to 0. *)
Lemma X5_oam_port_witness :
  exists p1 p2 : PPU Mapper0.t,
    WriteCPURegister 0x2003 0xFF NewPPU = Some p1 /\
    WriteCPURegister 0x2004 0x42 p1 = Some p2 /\
    oamAddress p2 = 0 /\
    aget 256 (oam p2) 0xFF = Some 0x42.
Proof.
  destruct (X5_oam_port (NewPPU : PPU Mapper0.t) 0xFF 0x42 ltac:(lia))
    as ((p1 & p2 & E1 & E2 & Ha & Hv & _) & _).
  exists p1, p2. repeat split; assumption.
Defined.

Lemma X6_ppu_address_mirrors_witness :
  ppuRead 0xA123 (NewPPU : PPU Mapper0.t) = ppuRead (0xA123 mod 0x4000) NewPPU /\
  ppuRead 0x3123 (NewPPU : PPU Mapper0.t) = ppuRead (0x3123 - 0x1000) NewPPU /\
  ppuWrite 0x3FE5 7 (NewPPU : PPU Mapper0.t) =
    ppuWrite (0x3F00 + (0x3FE5 - 0x3F00) mod 32) 7 NewPPU.
Proof.
  split; [|split].
  - destruct (X6_ppu_address_mirrors (NewPPU : PPU Mapper0.t) 0xA123 0) as (H & _).
    apply H. lia.
  - destruct (X6_ppu_address_mirrors (NewPPU : PPU Mapper0.t) 0x3123 0) as (_ & H & _).
    apply H. lia.
  - destruct (X6_ppu_address_mirrors (NewPPU : PPU Mapper0.t) 0x3FE5 7) as (_ & _ & H).
    apply H. lia.
Defined.

(** Horizontal mirroring (mode 0, the mode of a fresh PPU): a byte
    written at $2005 shows at $2405 and not at $2805. *)
Lemma X7_nametable_mirroring_witness :
  exists p' : PPU Mapper0.t,
    ppuWrite 0x2005 0x42 NewPPU = Some p' /\
    ppuRead 0x2405 p' = Some 0x42 /\
    ppuRead 0x2805 p' = Some 0.
Proof.
  destruct (X7_nametable_mirroring (NewPPU : PPU Mapper0.t) 0x2005 0x2405 0x42)
    as (p' & E & H1); [simpl; lia | lia | lia |].
  exists p'. split; [exact E|]. split; [exact H1|].
  injection E as <-. reflexivity.
Defined.

(** ** Controller *)

(** X8: the button array.  [SetButton] with a button number below 8
    makes [IsPressed] of that button return the state set and changes no
    other button, nor the strobe or the read index; with a number from 8
    on it changes nothing, and [IsPressed] is false there.  [Reset] keeps
    the buttons. *)
Theorem X8_controller_buttons (c : Controller.t) (button other : Z) (state : bool) :
  0 <= button -> 0 <= other ->
  (button < 8 ->
   exists c' : Controller.t,
     Controller.SetButton button state c = Some c' /\
     Controller.IsPressed button c' = Some state /\
     (other <> button -> Controller.IsPressed other c' = Controller.IsPressed other c) /\
     Controller.strobe c' = Controller.strobe c /\
     Controller.index c' = Controller.index c) /\
  (8 <= button ->
   Controller.SetButton button state c = Some c /\
   Controller.IsPressed button c = Some false) /\
  Controller.buttons (Controller.Reset c) = Controller.buttons c.
Proof.
  intros Hb Ho. split; [|split; [|reflexivity]].
  - intros H8. unfold Controller.SetButton, Controller.IsPressed.
    destruct (Z.ltb_spec button 8); [|lia].
    unfold bset. rewrite bool_decide_eq_true_2 by lia. simpl.
    eexists. split; [reflexivity|]. simpl.
    split; [|split; [|split; reflexivity]].
    + unfold bget. rewrite bool_decide_eq_true_2 by lia.
      rewrite lookup_insert_eq. reflexivity.
    + intros Hne. destruct (Z.ltb_spec other 8); [|reflexivity].
      unfold bget. rewrite bool_decide_eq_true_2 by lia.
      rewrite lookup_insert_ne by congruence. reflexivity.
  - intros H8. unfold Controller.SetButton, Controller.IsPressed.
    destruct (Z.ltb_spec button 8); [lia|]. split; reflexivity.
Qed.

Lemma X8_controller_buttons_witness :
  exists c' : Controller.t,
    Controller.SetButton Controller.ButtonStart true Controller.NewController = Some c' /\
    Controller.IsPressed Controller.ButtonStart c' = Some true /\
    Controller.SetButton 8 true c' = Some c'.
Proof.
  destruct (X8_controller_buttons Controller.NewController Controller.ButtonStart
              Controller.ButtonA true) as ((c' & E & H & _) & _ & _);
    [unfold Controller.ButtonStart; lia | unfold Controller.ButtonA; lia
    | unfold Controller.ButtonStart; lia |].
  exists c'. split; [exact E|]. split; [exact H|].
  destruct (X8_controller_buttons c' 8 0 true) as (_ & H8 & _); [lia | lia |].
  apply H8. lia.
Defined.

(** ** The CPU's memory map *)

Section CPUMap.

Context {M : Type} {mapperM : Mapper M}.

Lemma land_07FF (addr : Z) : Z.land addr 0x07FF = addr mod 0x0800.
Proof. change 0x07FF with (Z.ones 11). rewrite Z.land_ones by lia. reflexivity. Qed.

Lemma land_0007 (addr : Z) : Z.land addr 0x0007 = addr mod 8.
Proof. change 0x0007 with (Z.ones 3). rewrite Z.land_ones by lia. reflexivity. Qed.

(** X9: the 2 KiB of CPU RAM fill $0000-$1FFF four times over.  A byte
    written at an address below $2000 is read back at the addresses that
    differ from it by a multiple of $0800, and nowhere else; the write
    touches nothing but the RAM, and a read touches nothing at all. *)
Theorem X9_cpu_ram_mirrors (b : Bus.NESBus M) (a c v : Z) :
  0 <= a < 0x2000 -> 0 <= c < 0x2000 ->
  exists b' : Bus.NESBus M,
    Bus.Write a v b = Some b' /\
    b' = Bus.set_cpuRAM (Bus.cpuRAM b') b /\
    Bus.Read c b' =
      Some ((if a mod 0x0800 =? c mod 0x0800 then v
             else default 0 (Bus.cpuRAM b !! (c mod 0x0800))), b').
Proof.
  intros Ha Hc.
  pose proof (Z.mod_pos_bound a 0x0800 ltac:(lia)).
  pose proof (Z.mod_pos_bound c 0x0800 ltac:(lia)).
  unfold Bus.Write, Bus.Read.
  destruct (Z.ltb_spec a 0x2000); [|lia].
  destruct (Z.ltb_spec c 0x2000); [|lia].
  rewrite !land_07FF. rewrite (aset_in_range 2048) by lia. simpl.
  eexists. split; [reflexivity|]. split; [reflexivity|].
  rewrite (aget_in_range 2048) by lia. simpl.
  destruct (Z.eqb_spec (a mod 0x0800) (c mod 0x0800)) as [E|E].
  - rewrite E, lookup_insert_eq. reflexivity.
  - rewrite lookup_insert_ne by exact E. reflexivity.
Qed.

(** X10: the PPU's eight registers repeat every eight bytes through
    $2000-$3FFF, and the addresses $4000-$401F with no device behind
    them do nothing: a read of one of them other than $4016 and $4017
    returns 0 and a write to one of them other than $4014 and $4016 is
    dropped, the bus staying as it was. *)
Theorem X10_register_mirrors_and_unmapped_io (b : Bus.NESBus M) (a v : Z) :
  (0x2000 <= a < 0x4000 ->
   Bus.Read a b = Bus.Read (0x2000 + a mod 8) b /\
   Bus.Write a v b = Bus.Write (0x2000 + a mod 8) v b) /\
  (0x4000 <= a < 0x4020 ->
   (a <> 0x4016 -> a <> 0x4017 -> Bus.Read a b = Some (0, b)) /\
   (a <> 0x4014 -> a <> 0x4016 -> Bus.Write a v b = Some b)).
Proof.
  split.
  - intros Ha. pose proof (Z.mod_pos_bound a 8 ltac:(lia)).
    unfold Bus.Read, Bus.Write.
    destruct (Z.ltb_spec a 0x2000); [lia|].
    destruct (Z.ltb_spec a 0x4000); [|lia].
    destruct (Z.ltb_spec (0x2000 + a mod 8) 0x2000); [lia|].
    destruct (Z.ltb_spec (0x2000 + a mod 8) 0x4000); [|lia].
    rewrite !land_0007.
    replace ((0x2000 + a mod 8) mod 8) with (a mod 8); [split; reflexivity|].
    replace (0x2000 + a mod 8) with (a mod 8 + 1024 * 8) by lia.
    rewrite Z.mod_add by lia. rewrite Z.mod_mod by lia. reflexivity.
  - intros Ha. unfold Bus.Read, Bus.Write.
    destruct (Z.ltb_spec a 0x2000); [lia|].
    destruct (Z.ltb_spec a 0x4000); [lia|].
    destruct (Z.leb_spec 0x4020 a); [lia|].
    split.
    + intros N1 N2.
      destruct (Z.eqb_spec a 0x4016); [contradiction|].
      destruct (Z.eqb_spec a 0x4017); [contradiction|]. reflexivity.
    + intros N1 N2.
      destruct (Z.eqb_spec a 0x4014); [contradiction|].
      destruct (Z.eqb_spec a 0x4016); [contradiction|]. reflexivity.
Qed.

(** *** The controller ports *)

Lemma busReads_4016 (n : nat) :
  forall (b : Bus.NESBus M) (vs : list Z) (c : Controller.t),
  controllerReads n (Bus.controller1 b) = Some (vs, c) ->
  busReads (repeat 0x4016 n) b = Some (vs, Bus.set_controller1 c b).
Proof.
  induction n as [|n IH]; intros b vs c H; simpl in H |- *.
  - injection H as <- <-. destruct b; reflexivity.
  - apply bind_Some in H as ([v c1] & E1 & H).
    apply bind_Some in H as ([vs' c2] & E2 & H). injection H as <- <-.
    unfold Bus.Read at 1. simpl. rewrite E1. simpl.
    rewrite (IH (Bus.set_controller1 c1 b) vs' c2 E2). reflexivity.
Qed.

Lemma busReads_4017 (n : nat) :
  forall (b : Bus.NESBus M) (vs : list Z) (c : Controller.t),
  controllerReads n (Bus.controller2 b) = Some (vs, c) ->
  busReads (repeat 0x4017 n) b = Some (vs, Bus.set_controller2 c b).
Proof.
  induction n as [|n IH]; intros b vs c H; simpl in H |- *.
  - injection H as <- <-. destruct b; reflexivity.
  - apply bind_Some in H as ([v c1] & E1 & H).
    apply bind_Some in H as ([vs' c2] & E2 & H). injection H as <- <-.
    unfold Bus.Read at 1. simpl. rewrite E1. simpl.
    rewrite (IH (Bus.set_controller2 c1 b) vs' c2 E2). reflexivity.
Qed.

Lemma busReads_app (xs ys : list Z) :
  forall b : Bus.NESBus M,
  busReads (xs ++ ys) b =
  do (l1, b1) <- busReads xs b;
  do (l2, b2) <- busReads ys b1;
  Some (l1 ++ l2, b2).
Proof.
  induction xs as [|x xs IH]; intros b; simpl.
  - destruct (busReads ys b) as [[l2 b2]|]; reflexivity.
  - destruct (Bus.Read x b) as [[v b']|]; simpl; [|reflexivity].
    rewrite IH. destruct (busReads xs b') as [[l1 b1]|]; simpl; [|reflexivity].
    destruct (busReads ys b1) as [[l2 b2]|]; reflexivity.
Qed.

(** X11: the two controller ports.  The writes 1 then 0 to $4016 strobe
    both controllers at once; then eight reads of $4016 return the eight
    button bits of controller 1 and leave controller 2 alone, so that
    eight reads of $4017 after them return the eight button bits of
    controller 2. *)
Theorem X11_controller_ports (b : Bus.NESBus M) :
  exists b1 b2 : Bus.NESBus M,
    busWrites [(0x4016, 1); (0x4016, 0)] b = Some b1 /\
    busReads (repeat 0x4016 8 ++ repeat 0x4017 8) b1 =
      Some (buttonBits (Controller.buttons (Bus.controller1 b))
            ++ buttonBits (Controller.buttons (Bus.controller2 b)), b2).
Proof.
  destruct b as [ram p [bs1 s1 i1] [bs2 s2 i2] pg ad dt dm tr].
  exists (Bus.mkNESBus ram p (Controller.mk bs1 false 0)
            (Controller.mk bs2 false 0) pg ad dt dm tr).
  exists (Bus.mkNESBus ram p (Controller.mk bs1 false 8)
            (Controller.mk bs2 false 8) pg ad dt dm tr).
  split.
  - unfold busWrites, Bus.Write. simpl. rewrite !strobe_pulse. reflexivity.
  - rewrite busReads_app.
    rewrite (busReads_4016 8
               (Bus.mkNESBus ram p (Controller.mk bs1 false 0)
                  (Controller.mk bs2 false 0) pg ad dt dm tr)
               (buttonBits bs1) (Controller.mk bs1 false 8) (reads_eight bs1)).
    cbv beta iota delta [bind].
    rewrite (busReads_4017 8
               (Bus.set_controller1 (Controller.mk bs1 false 8)
                  (Bus.mkNESBus ram p (Controller.mk bs1 false 0)
                     (Controller.mk bs2 false 0) pg ad dt dm tr))
               (buttonBits bs2) (Controller.mk bs2 false 8) (reads_eight bs2)).
    reflexivity.
Qed.

End CPUMap.

Lemma X9_cpu_ram_mirrors_witness :
  exists b' : Bus.NESBus Mapper0.t,
    Bus.Write 0x0123 0x42 (Bus.NewNESBus NewPPU) = Some b' /\
    Bus.Read 0x1923 b' = Some (0x42, b').
Proof.
  destruct (X9_cpu_ram_mirrors (Bus.NewNESBus (NewPPU : PPU Mapper0.t)) 0x0123 0x1923 0x42)
    as (b' & E & _ & H); [lia | lia |].
  exists b'. split; [exact E | exact H].
Defined.

Lemma X10_register_mirrors_and_unmapped_io_witness :
  Bus.Read 0x3FFA (Bus.NewNESBus (NewPPU : PPU Mapper0.t)) =
    Bus.Read (0x2000 + 0x3FFA mod 8) (Bus.NewNESBus NewPPU) /\
  Bus.Read 0x4015 (Bus.NewNESBus (NewPPU : PPU Mapper0.t)) =
    Some (0, Bus.NewNESBus NewPPU) /\
  Bus.Write 0x4017 0xC0 (Bus.NewNESBus (NewPPU : PPU Mapper0.t)) =
    Some (Bus.NewNESBus NewPPU).
Proof.
  split; [|split].
  - destruct (X10_register_mirrors_and_unmapped_io
                (Bus.NewNESBus (NewPPU : PPU Mapper0.t)) 0x3FFA 0) as (H & _).
    apply H. lia.
  - destruct (X10_register_mirrors_and_unmapped_io
                (Bus.NewNESBus (NewPPU : PPU Mapper0.t)) 0x4015 0) as (_ & H).
    destruct H as (H & _); [lia|]. apply H; lia.
  - destruct (X10_register_mirrors_and_unmapped_io
                (Bus.NewNESBus (NewPPU : PPU Mapper0.t)) 0x4017 0xC0) as (_ & H).
    destruct H as (_ & H); [lia|]. apply H; lia.
Defined.

(** ** Slices *)

Lemma len_nonneg (s : list Z) : 0 <= len s.
Proof. unfold len. lia. Qed.

Lemma len_make (n : Z) : 0 <= n -> len (make n) = n.
Proof. intros H. unfold len, make. rewrite repeat_length. lia. Qed.

Lemma sget_lookup (s : list Z) (i : Z) :
  0 <= i < len s -> sget s i = s !! Z.to_nat i.
Proof. intros H. unfold sget. rewrite bool_decide_eq_true_2 by exact H. reflexivity. Qed.

Lemma sget_Some (s : list Z) (i : Z) :
  0 <= i < len s -> exists v : Z, sget s i = Some v.
Proof.
  intros H. rewrite sget_lookup by exact H.
  destruct (lookup_lt_is_Some s (Z.to_nat i)) as [_ Hs].
  destruct Hs as [v Hv]; [unfold len in H; lia|]. eauto.
Qed.

Lemma sset_Some (s : list Z) (i v : Z) :
  0 <= i < len s -> sset s i v = Some (<[Z.to_nat i := v]> s).
Proof. intros H. unfold sset. rewrite bool_decide_eq_true_2 by exact H. reflexivity. Qed.

Lemma len_insert (s : list Z) (i : nat) (v : Z) : len (<[i := v]> s) = len s.
Proof. unfold len. rewrite length_insert. reflexivity. Qed.

Lemma sget_insert_eq (s : list Z) (i v : Z) :
  0 <= i < len s -> sget (<[Z.to_nat i := v]> s) i = Some v.
Proof.
  intros H. rewrite sget_lookup by (rewrite len_insert; exact H).
  apply list_lookup_insert_eq. unfold len in H. lia.
Qed.

Lemma sget_insert_ne (s : list Z) (i j v : Z) :
  0 <= i -> 0 <= j -> i <> j ->
  sget (<[Z.to_nat i := v]> s) j = sget s j.
Proof.
  intros Hi Hj Hne. unfold sget. rewrite length_insert.
  case_bool_decide; [|reflexivity].
  apply list_lookup_insert_ne. lia.
Qed.

Lemma repeat_lookup_lt {A : Type} (x : A) (n : nat) :
  forall i : nat, (i < n)%nat -> repeat x n !! i = Some x.
Proof.
  induction n as [|n IH]; intros i Hi; [lia|].
  destruct i as [|i]; [reflexivity|]. simpl. apply IH. lia.
Qed.

Lemma sget_make (n i : Z) : 0 <= i < n -> sget (make n) i = Some 0.
Proof.
  intros H. rewrite sget_lookup by (rewrite len_make; lia).
  unfold make. apply repeat_lookup_lt. lia.
Qed.

(** A read guarded by the length test never fails. *)
Lemma guarded_read (s : list Z) (i : Z) :
  0 <= i -> ok (if i <? len s then sget s i else Some 0) = true.
Proof.
  intros H. destruct (Z.ltb_spec i (len s)); [|reflexivity].
  destruct (sget_Some s i) as [v ->]; [lia | reflexivity].
Qed.

Lemma guarded_write {T : Type} (s : list Z) (i v : Z) (f : list Z -> T) (m : T) :
  0 <= i ->
  ok (if i <? len s then do c <- sset s i v; Some (f c) else Some m) = true.
Proof.
  intros H. destruct (Z.ltb_spec i (len s)); [|reflexivity].
  rewrite sset_Some by lia. reflexivity.
Qed.

(** ** NROM *)

Lemma NewMapper0_rom (prg chr : list Z) (mir : Z) :
  0 < len chr ->
  Mapper0.NewMapper0 prg chr mir =
  Mapper0.mk prg chr (u8 (len prg / 16384)) false mir.
Proof.
  intros H. unfold Mapper0.NewMapper0.
  destruct (Z.ltb_spec 0 (len chr)); [reflexivity | lia].
Qed.

Lemma NewMapper0_ram (prg : list Z) (mir : Z) :
  Mapper0.NewMapper0 prg [] mir =
  Mapper0.mk prg (make 8192) (u8 (len prg / 16384)) true mir.
Proof. reflexivity. Qed.

(** X12: the NROM cartridge.  With 16 KiB of PRG-ROM the CPU addresses
    $8000-$BFFF and $C000-$FFFF both read the one bank; with 32 KiB they
    read the ROM straight through; a write to PRG space changes nothing.
    CHR-ROM is read-only, and a cartridge without CHR-ROM has 8 KiB of
    CHR-RAM, all zero at first, that reads back what is written. *)
Theorem X12_nrom (prg chr : list Z) (mir a c v : Z) :
  0x8000 <= a < 0x10000 -> 0 <= c < 0x2000 ->
  (len prg = 16384 ->
   Mapper0.ReadPRG a (Mapper0.NewMapper0 prg chr mir) =
     prg !! Z.to_nat ((a - 0x8000) mod 0x4000)) /\
  (len prg = 32768 ->
   Mapper0.ReadPRG a (Mapper0.NewMapper0 prg chr mir) = prg !! Z.to_nat (a - 0x8000)) /\
  Mapper0.WritePRG a v (Mapper0.NewMapper0 prg chr mir) =
    Some (Mapper0.NewMapper0 prg chr mir) /\
  (len chr = 8192 ->
   Mapper0.ReadCHR c (Mapper0.NewMapper0 prg chr mir) = chr !! Z.to_nat c /\
   Mapper0.WriteCHR c v (Mapper0.NewMapper0 prg chr mir) =
     Some (Mapper0.NewMapper0 prg chr mir)) /\
  (Mapper0.ReadCHR c (Mapper0.NewMapper0 prg [] mir) = Some 0 /\
   exists m' : Mapper0.t,
     Mapper0.WriteCHR c v (Mapper0.NewMapper0 prg [] mir) = Some m' /\
     Mapper0.ReadCHR c m' = Some v /\
     forall c' : Z, 0 <= c' < 0x2000 -> c' <> c ->
       Mapper0.ReadCHR c' m' = Some 0).
Proof.
  intros Ha Hc. split; [|split; [|split; [|split]]].
  - intros Hp. unfold Mapper0.NewMapper0, Mapper0.ReadPRG. rewrite Hp.
    change (u8 (16384 / 16384)) with 1.
    pose proof (Z.mod_pos_bound (a - 0x8000) 0x4000 ltac:(lia)).
    destruct (0 <? len chr); simpl; unfold u16;
      rewrite (Z.mod_small (a - 0x8000) 65536) by lia; rewrite Hp;
      (destruct (Z.ltb_spec ((a - 0x8000) mod 0x4000) 16384); [|lia]);
      apply sget_lookup; lia.
  - intros Hp. unfold Mapper0.NewMapper0, Mapper0.ReadPRG. rewrite Hp.
    change (u8 (32768 / 16384)) with 2.
    destruct (0 <? len chr); simpl; unfold u16;
      rewrite (Z.mod_small (a - 0x8000) 65536) by lia; rewrite Hp;
      (destruct (Z.ltb_spec (a - 0x8000) 32768); [|lia]);
      apply sget_lookup; lia.
  - reflexivity.
  - intros Hl. rewrite NewMapper0_rom by lia.
    unfold Mapper0.ReadCHR, Mapper0.WriteCHR. simpl.
    destruct (Z.ltb_spec c (len chr)); [|lia].
    split; [apply sget_lookup; lia | reflexivity].
  - rewrite NewMapper0_ram. unfold Mapper0.ReadCHR, Mapper0.WriteCHR. simpl.
    rewrite len_make by lia.
    destruct (Z.ltb_spec c 8192); [|lia].
    split; [apply sget_make; lia|].
    rewrite sset_Some by (rewrite len_make; lia). simpl.
    eexists. split; [reflexivity|]. simpl. rewrite len_insert, len_make by lia.
    destruct (Z.ltb_spec c 8192); [|lia].
    split; [apply sget_insert_eq; rewrite len_make; lia|].
    intros c' Hc' Hne.
    destruct (Z.ltb_spec c' 8192); [|lia].
    rewrite sget_insert_ne by lia. apply sget_make. lia.
Qed.

(** A 16 KiB ROM holding $EA at offset $3FFC: the byte shows at $BFFC
    and at $FFFC. *)
Lemma X12_nrom_witness :
  let prg := <[Z.to_nat 0x3FFC := 0xEA]> (make 16384) in
  Mapper0.ReadPRG 0xBFFC (Mapper0.NewMapper0 prg [] MirrorVertical) = Some 0xEA /\
  Mapper0.ReadPRG 0xFFFC (Mapper0.NewMapper0 prg [] MirrorVertical) = Some 0xEA.
Proof.
  intros prg.
  destruct (X12_nrom prg [] MirrorVertical 0xBFFC 0 0) as (H1 & _); [lia | lia |].
  destruct (X12_nrom prg [] MirrorVertical 0xFFFC 0 0) as (H2 & _); [lia | lia |].
  split; [rewrite H1 | rewrite H2]; reflexivity.
Defined.

(** ** UxROM, CNROM and AxROM *)











(** ** MMC3 *)

Lemma Mapper4_chrOffset_inversion (m : Mapper4.t) (c : Z) :
  0 <= c < 0x2000 ->
  Mapper4.chrOffset c (Mapper4.set_chrMode 1 m) =
  Mapper4.chrOffset (if c <? 0x1000 then c + 0x1000 else c - 0x1000)
    (Mapper4.set_chrMode 0 m).
Proof.
  intros Hc. unfold Mapper4.chrOffset. simpl.
  destruct (Z.ltb_spec c 0x1000).
  - destruct (Z.ltb_spec (c + 0x1000) 0x0800); [lia|].
    destruct (Z.ltb_spec (c + 0x1000) 0x1000); [lia|].
    destruct (Z.ltb_spec c 0x0400).
    { destruct (Z.ltb_spec (c + 0x1000) 0x1400); [|lia].
      replace (c + 0x1000 - 0x1000) with c by lia. reflexivity. }
    destruct (Z.ltb_spec (c + 0x1000) 0x1400); [lia|].
    destruct (Z.ltb_spec c 0x0800).
    { destruct (Z.ltb_spec (c + 0x1000) 0x1800); [|lia].
      replace (c + 0x1000 - 0x1400) with (c - 0x0400) by lia. reflexivity. }
    destruct (Z.ltb_spec (c + 0x1000) 0x1800); [lia|].
    destruct (Z.ltb_spec c 0x0C00).
    { destruct (Z.ltb_spec (c + 0x1000) 0x1C00); [|lia].
      replace (c + 0x1000 - 0x1800) with (c - 0x0800) by lia. reflexivity. }
    destruct (Z.ltb_spec (c + 0x1000) 0x1C00); [lia|].
    replace (c + 0x1000 - 0x1C00) with (c - 0x0C00) by lia. reflexivity.
  - destruct (Z.ltb_spec c 0x0400); [lia|].
    destruct (Z.ltb_spec c 0x0800); [lia|].
    destruct (Z.ltb_spec c 0x0C00); [lia|].
    destruct (Z.ltb_spec c 0x1800).
    + destruct (Z.ltb_spec (c - 0x1000) 0x0800); [|lia]. reflexivity.
    + destruct (Z.ltb_spec (c - 0x1000) 0x0800); [lia|].
      destruct (Z.ltb_spec (c - 0x1000) 0x1000); [|lia].
      replace (c - 0x1000 - 0x0800) with (c - 0x1800) by lia. reflexivity.
Qed.

(** X16: CHR A12 inversion of the MMC3.  A write to an even address of
    $8000-$9FFF sets the bank register number from bits 0-2 of the value,
    the PRG mode from bit 6 and the CHR mode from bit 7.  With CHR mode 1
    the two pattern tables trade places: every PPU address reads what the
    address $1000 away reads with CHR mode 0 and the same bank
    registers. *)
Theorem X16_mmc3_chr_inversion (m : Mapper4.t) (a v c : Z) :
  0x8000 <= a < 0xA000 -> Z.land a 1 = 0 -> 0 <= c < 0x2000 ->
  (exists m' : Mapper4.t,
     Mapper4.WritePRG a v m = Some m' /\
     Mapper4.bankSelect m' = Z.land v 0x07 /\
     Mapper4.prgMode m' = Z.land (Z.shiftr v 6) 0x01 /\
     Mapper4.chrMode m' = Z.land (Z.shiftr v 7) 0x01 /\
     Mapper4.registers m' = Mapper4.registers m /\
     Mapper4.chrMem m' = Mapper4.chrMem m) /\
  Mapper4.ReadCHR c (Mapper4.set_chrMode 1 m) =
    Mapper4.ReadCHR (if c <? 0x1000 then c + 0x1000 else c - 0x1000)
      (Mapper4.set_chrMode 0 m).
Proof.
  intros Ha He Hc. split.
  - unfold Mapper4.WritePRG.
    destruct (Z.leb_spec 0x6000 a); [|lia].
    destruct (Z.ltb_spec a 0x8000); [lia|].
    destruct (Z.leb_spec 0x8000 a); [|lia].
    destruct (Z.ltb_spec a 0xA000); [|lia]. simpl. rewrite He. simpl.
    eexists. split; [reflexivity|]. repeat split; reflexivity.
  - unfold Mapper4.ReadCHR.
    rewrite Mapper4_chrOffset_inversion by exact Hc. reflexivity.
Qed.

(** Bank 9 in R2 and a byte at the start of that bank: with CHR mode 0
    it reads at $1000, with CHR mode 1 at $0000. *)
Lemma X16_mmc3_chr_inversion_witness :
  let m := Mapper4.set_registers (<[2 := 9]> ∅)
             (Mapper4.NewMapper4 (make 32768)
                (<[Z.to_nat 0x2400 := 0x5A]> (make 16384)) MirrorVertical) in
  (exists m' : Mapper4.t,
     Mapper4.WritePRG 0x8000 0x80 m = Some m' /\ Mapper4.chrMode m' = 1) /\
  Mapper4.ReadCHR 0x0000 (Mapper4.set_chrMode 1 m) =
    Mapper4.ReadCHR 0x1000 (Mapper4.set_chrMode 0 m) /\
  Mapper4.ReadCHR 0x1000 (Mapper4.set_chrMode 0 m) = Some 0x5A.
Proof.
  intros m.
  destruct (X16_mmc3_chr_inversion m 0x8000 0x80 0 ltac:(lia) eq_refl ltac:(lia))
    as ((m' & E & _ & _ & Hc & _) & H).
  split; [exists m'; split; [exact E | exact Hc]|].
  split; [exact H | vm_compute; reflexivity].
Defined.

Lemma Mapper4_RAM_range (a : Z) :
  0x6000 <= a < 0x8000 -> (0x6000 <=? a) && (a <? 0x8000) = true.
Proof.
  intros H. destruct (Z.leb_spec 0x6000 a); [|lia].
  destruct (Z.ltb_spec a 0x8000); [reflexivity | lia].
Qed.

(** X17: the PRG-RAM of the MMC3 at $6000-$7FFF.  Enabled and not
    write-protected, as on a new cartridge, it reads back a byte at the
    address it was written to and nowhere else; write-protected or
    disabled it drops the write; disabled it reads 0.  A write to an odd
    address of $A000-$BFFF sets the enable flag from bit 7 of the value
    and the write protection from bit 6. *)
Theorem X17_mmc3_prg_ram (m : Mapper4.t) (a a' r v c : Z) :
  len (Mapper4.prgRAM m) = 8192 ->
  0x6000 <= a < 0x8000 -> 0x6000 <= a' < 0x8000 ->
  0xA000 <= r < 0xC000 -> Z.land r 1 = 1 ->
  (Mapper4.prgRAMEnabled m = true -> Mapper4.prgRAMWriteProtect m = false ->
   exists m' : Mapper4.t,
     Mapper4.WritePRG a v m = Some m' /\
     Mapper4.ReadPRG a' m' = (if a =? a' then Some v else Mapper4.ReadPRG a' m) /\
     len (Mapper4.prgRAM m') = 8192) /\
  (Mapper4.prgRAMEnabled m = false \/ Mapper4.prgRAMWriteProtect m = true ->
   Mapper4.WritePRG a v m = Some m) /\
  (Mapper4.prgRAMEnabled m = false -> Mapper4.ReadPRG a m = Some 0) /\
  (exists m' : Mapper4.t,
     Mapper4.WritePRG r c m = Some m' /\
     Mapper4.prgRAMEnabled m' = negb (Z.land c 0x80 =? 0) /\
     Mapper4.prgRAMWriteProtect m' = negb (Z.land c 0x40 =? 0) /\
     Mapper4.prgRAM m' = Mapper4.prgRAM m).
Proof.
  intros Hl Ha Ha' Hr Ho.
  unfold Mapper4.WritePRG, Mapper4.ReadPRG.
  rewrite !Mapper4_RAM_range by assumption.
  split; [|split; [|split]].
  - intros He Hp. rewrite He, Hp. simpl.
    rewrite sset_Some by lia. simpl.
    eexists. split; [reflexivity|]. simpl. rewrite He.
    split; [|rewrite len_insert; exact Hl].
    destruct (Z.eqb_spec a a') as [->|Hne].
    + apply sget_insert_eq. lia.
    + apply sget_insert_ne; lia.
  - intros [He|Hp]; [rewrite He | rewrite Hp, andb_false_r]; reflexivity.
  - intros He. rewrite He. reflexivity.
  - destruct (Z.leb_spec 0x6000 r); [|lia].
    destruct (Z.ltb_spec r 0x8000); [lia|].
    destruct (Z.leb_spec 0x8000 r); [|lia].
    destruct (Z.ltb_spec r 0xA000); [lia|].
    destruct (Z.leb_spec 0xA000 r); [|lia].
    destruct (Z.ltb_spec r 0xC000); [|lia]. simpl. rewrite Ho. simpl.
    eexists. split; [reflexivity|]. repeat split; reflexivity.
Qed.

Lemma X17_mmc3_prg_ram_witness :
  let m := Mapper4.NewMapper4 (make 32768) [] MirrorVertical in
  (exists m' : Mapper4.t,
     Mapper4.WritePRG 0x6000 0x42 m = Some m' /\
     Mapper4.ReadPRG 0x6000 m' = Some 0x42) /\
  (exists m' : Mapper4.t,
     Mapper4.WritePRG 0xA001 0xC0 m = Some m' /\
     Mapper4.prgRAMWriteProtect m' = true).
Proof.
  intros m.
  destruct (X17_mmc3_prg_ram m 0x6000 0x6000 0xA001 0x42 0xC0)
    as (H1 & _ & _ & m2 & E2 & _ & H2 & _);
    [vm_compute; reflexivity | lia | lia | lia | reflexivity |].
  destruct (H1 eq_refl eq_refl) as (m1 & E1 & Hr & _).
  split; [exists m1; split; [exact E1 | exact Hr]|].
  exists m2. split; [exact E2 | exact H2].
Defined.

(** ** MMC1 *)




(** ** The iNES loader *)

Lemma slice_prefix (s : list Z) (n : Z) :
  0 <= n <= len s -> Cartridge.slice s 0 n = Some (take (Z.to_nat n) s).
Proof.
  intros H. unfold Cartridge.slice.
  rewrite bool_decide_eq_true_2 by lia.
  rewrite Z.sub_0_r. reflexivity.
Qed.

Lemma slice_Some (s : list Z) (lo hi : Z) :
  0 <= lo -> lo <= hi -> hi <= len s -> ok (Cartridge.slice s lo hi) = true.
Proof.
  intros H1 H2 H3. unfold Cartridge.slice.
  rewrite bool_decide_eq_true_2 by lia. reflexivity.
Qed.

Lemma slice_mid (a b c : list Z) :
  Cartridge.slice (a ++ b ++ c) (len a) (len a + len b) = Some b.
Proof.
  unfold Cartridge.slice, len.
  rewrite bool_decide_eq_true_2 by (rewrite !length_app; lia).
  replace (Z.to_nat (Z.of_nat (length a) + Z.of_nat (length b) - Z.of_nat (length a)))
    with (length b) by lia.
  rewrite Nat2Z.id, drop_app_length, take_app_length. reflexivity.
Qed.

Lemma createMapper_unsupported (id : Z) (prg chr : list Z) (mir : Z) :
  supportedMapper id = false ->
  Cartridge.createMapper id prg chr mir = inl (Cartridge.UnsupportedMapper id).
Proof.
  unfold supportedMapper, Cartridge.createMapper. intros H.
  repeat (apply orb_false_iff in H as [H ?]).
  repeat match goal with E : (_ =? _) = false |- _ => rewrite E; clear E end.
  reflexivity.
Qed.

Lemma createMapper_supported (id : Z) (prg chr : list Z) (mir : Z) :
  supportedMapper id = true ->
  exists m : AnyMapper, Cartridge.createMapper id prg chr mir = inr m.
Proof.
  unfold supportedMapper, Cartridge.createMapper. intros H.
  repeat match goal with
         | |- context [?x =? ?y] => destruct (x =? y); [eexists; reflexivity|]
         end.
  discriminate H.
Qed.

Lemma parseINESHeader_Some (data : list Z) :
  16 <= len data ->
  exists b4 b5 f6 f7 : Z,
    sget data 4 = Some b4 /\ sget data 5 = Some b5 /\
    sget data 6 = Some f6 /\ sget data 7 = Some f7 /\
    Cartridge.parseINESHeader data =
      Some (Cartridge.mkHeader b4 b5
              (Z.lor (Z.land f7 0xF0) (Z.shiftr (Z.land f6 0xF0) 4))
              (if negb (Z.land f6 0x08 =? 0) then MirrorFourScreen else Z.land f6 0x01)
              (negb (Z.land f6 0x02 =? 0)) (negb (Z.land f6 0x04 =? 0))
              (negb (Z.land f6 0x08 =? 0))).
Proof.
  intros H.
  destruct (sget_Some data 4) as [b4 E4]; [lia|].
  destruct (sget_Some data 5) as [b5 E5]; [lia|].
  destruct (sget_Some data 6) as [f6 E6]; [lia|].
  destruct (sget_Some data 7) as [f7 E7]; [lia|].
  exists b4, b5, f6, f7. repeat (split; [assumption|]).
  unfold Cartridge.parseINESHeader. rewrite E4, E5, E6, E7. reflexivity.
Qed.

Lemma sget_byte (data : list Z) (i v : Z) :
  bytesOnly data -> sget data i = Some v -> 0 <= v < 256.
Proof.
  unfold bytesOnly, sget. intros Hb H.
  case_bool_decide; [|discriminate].
  apply (Forall_lookup_1 _ _ _ _ Hb H).
Qed.

(** What [LoadFromBytes] does once the length and the magic number are
    right. *)
Lemma LoadFromBytes_body (data : list Z) (h : Cartridge.inesHeader) :
  16 <= len data -> take 4 data = Cartridge.inesMagic ->
  Cartridge.parseINESHeader data = Some h ->
  Cartridge.LoadFromBytes data =
  let offset := 16 + (if Cartridge.hasTrainer h then 512 else 0) in
  let prgSize := Cartridge.prgBanks h * 16384 in
  if len data <? offset + prgSize then Some (inl Cartridge.PRGTooSmall)
  else
    do prgROM <- Cartridge.slice data offset (offset + prgSize);
    let offset := offset + prgSize in
    let chrSize := Cartridge.chrBanks h * 8192 in
    let build (chrROM : list Z) :=
      match Cartridge.createMapper (Cartridge.mapperID h) prgROM chrROM
              (Cartridge.mirroring h) with
      | inl err => Some (inl err)
      | inr mapper =>
        Some (inr (Cartridge.Cartridge.mk mapper (Cartridge.mapperID h)
                     (Cartridge.prgBanks h) (Cartridge.chrBanks h)
                     (Cartridge.mirroring h) (Cartridge.hasSaveRAM h)
                     (Cartridge.hasTrainer h)))
      end in
    if 0 <? chrSize then
      if len data <? offset + chrSize then Some (inl Cartridge.CHRTooSmall)
      else do chrROM <- Cartridge.slice data offset (offset + chrSize); build chrROM
    else build [].
Proof.
  intros Hl Hm Hh. unfold Cartridge.LoadFromBytes.
  unfold Cartridge.inesHeaderSize, Cartridge.prgROMBankSize, Cartridge.chrROMBankSize.
  destruct (Z.ltb_spec (len data) 16); [lia|].
  rewrite slice_prefix by lia. change (Z.to_nat 4) with 4%nat.
  cbv beta iota delta [bind]. rewrite Hm.
  rewrite bool_decide_eq_true_2 by reflexivity. simpl negb. cbv iota.
  rewrite Hh. cbv beta iota zeta.
  destruct (Cartridge.hasTrainer h); reflexivity.
Qed.

(** X19: [LoadFromBytes] on any list of bytes returns a cartridge or an
    error and never panics.  It answers "file too small" below sixteen
    bytes, "invalid magic" when the first four bytes are not the magic
    number, "too small for PRG-ROM" (for CHR-ROM) when the file ends
    before the PRG-ROM (the CHR-ROM) the header announces, the trainer
    counted, and "unsupported mapper" for a mapper number other than 0,
    1, 2, 3, 4 and 7; otherwise it returns a cartridge. *)
Theorem X19_load_errors (data : list Z) :
  bytesOnly data ->
  (exists r : Cartridge.error + Cartridge.Cartridge.t,
     Cartridge.LoadFromBytes data = Some r) /\
  (len data < 16 ->
   Cartridge.LoadFromBytes data = Some (inl Cartridge.FileTooSmall)) /\
  (16 <= len data -> take 4 data <> Cartridge.inesMagic ->
   Cartridge.LoadFromBytes data = Some (inl (Cartridge.InvalidMagic (take 4 data)))) /\
  (16 <= len data -> take 4 data = Cartridge.inesMagic ->
   exists h : Cartridge.inesHeader,
     Cartridge.parseINESHeader data = Some h /\
     let prgEnd := 16 + (if Cartridge.hasTrainer h then 512 else 0)
                   + Cartridge.prgBanks h * 16384 in
     let chrEnd := prgEnd + Cartridge.chrBanks h * 8192 in
     (len data < prgEnd ->
      Cartridge.LoadFromBytes data = Some (inl Cartridge.PRGTooSmall)) /\
     (prgEnd <= len data -> len data < chrEnd ->
      Cartridge.LoadFromBytes data = Some (inl Cartridge.CHRTooSmall)) /\
     (chrEnd <= len data -> supportedMapper (Cartridge.mapperID h) = false ->
      Cartridge.LoadFromBytes data =
        Some (inl (Cartridge.UnsupportedMapper (Cartridge.mapperID h)))) /\
     (chrEnd <= len data -> supportedMapper (Cartridge.mapperID h) = true ->
      exists cart : Cartridge.Cartridge.t,
        Cartridge.LoadFromBytes data = Some (inr cart))).
Proof.
  intros Hb.
  assert (Hsmall : len data < 16 ->
            Cartridge.LoadFromBytes data = Some (inl Cartridge.FileTooSmall)).
  { intros H. unfold Cartridge.LoadFromBytes, Cartridge.inesHeaderSize.
    destruct (Z.ltb_spec (len data) 16); [reflexivity | lia]. }
  assert (Hmagic : 16 <= len data -> take 4 data <> Cartridge.inesMagic ->
            Cartridge.LoadFromBytes data =
              Some (inl (Cartridge.InvalidMagic (take 4 data)))).
  { intros H Hm. unfold Cartridge.LoadFromBytes, Cartridge.inesHeaderSize.
    destruct (Z.ltb_spec (len data) 16); [lia|].
    rewrite slice_prefix by lia. change (Z.to_nat 4) with 4%nat.
    cbv beta iota delta [bind].
    rewrite bool_decide_eq_false_2 by exact Hm. reflexivity. }
  assert (Hbody : 16 <= len data -> take 4 data = Cartridge.inesMagic ->
   exists h : Cartridge.inesHeader,
     Cartridge.parseINESHeader data = Some h /\
     let prgEnd := 16 + (if Cartridge.hasTrainer h then 512 else 0)
                   + Cartridge.prgBanks h * 16384 in
     let chrEnd := prgEnd + Cartridge.chrBanks h * 8192 in
     (len data < prgEnd ->
      Cartridge.LoadFromBytes data = Some (inl Cartridge.PRGTooSmall)) /\
     (prgEnd <= len data -> len data < chrEnd ->
      Cartridge.LoadFromBytes data = Some (inl Cartridge.CHRTooSmall)) /\
     (chrEnd <= len data -> supportedMapper (Cartridge.mapperID h) = false ->
      Cartridge.LoadFromBytes data =
        Some (inl (Cartridge.UnsupportedMapper (Cartridge.mapperID h)))) /\
     (chrEnd <= len data -> supportedMapper (Cartridge.mapperID h) = true ->
      exists cart : Cartridge.Cartridge.t,
        Cartridge.LoadFromBytes data = Some (inr cart))).
  { intros Hl Hm.
    destruct (parseINESHeader_Some data Hl) as (b4 & b5 & f6 & f7 & E4 & E5 & _ & _ & Eh).
    pose proof (sget_byte data 4 b4 Hb E4) as R4.
    pose proof (sget_byte data 5 b5 Hb E5) as R5.
    eexists. split; [exact Eh|].
    rewrite (LoadFromBytes_body data _ Hl Hm Eh).
    cbv beta iota zeta. simpl Cartridge.hasTrainer. simpl Cartridge.prgBanks.
    simpl Cartridge.chrBanks. simpl Cartridge.mapperID. simpl Cartridge.mirroring.
    simpl Cartridge.hasSaveRAM.
    set (t := if negb (Z.land f6 0x04 =? 0) then 512 else 0).
    assert (Ht : 0 <= t) by (unfold t; destruct (negb (Z.land f6 0x04 =? 0)); lia).
    set (id := Z.lor (Z.land f7 0xF0) (Z.shiftr (Z.land f6 0xF0) 4)).
    split; [|split; [|split]].
    - intros H. destruct (Z.ltb_spec (len data) (16 + t + b4 * 16384)); [reflexivity | lia].
    - intros H1 H2.
      destruct (Z.ltb_spec (len data) (16 + t + b4 * 16384)); [lia|].
      unfold Cartridge.slice at 1. rewrite bool_decide_eq_true_2 by lia.
      cbv beta iota delta [bind].
      destruct (Z.ltb_spec 0 (b5 * 8192)); [|lia].
      destruct (Z.ltb_spec (len data) (16 + t + b4 * 16384 + b5 * 8192));
        [reflexivity | lia].
    - intros H1 Hu.
      destruct (Z.ltb_spec (len data) (16 + t + b4 * 16384)); [lia|].
      unfold Cartridge.slice at 1. rewrite bool_decide_eq_true_2 by lia.
      cbv beta iota delta [bind].
      destruct (Z.ltb_spec 0 (b5 * 8192)).
      + destruct (Z.ltb_spec (len data) (16 + t + b4 * 16384 + b5 * 8192)); [lia|].
        unfold Cartridge.slice at 1. rewrite bool_decide_eq_true_2 by lia.
        rewrite createMapper_unsupported by exact Hu. reflexivity.
      + rewrite createMapper_unsupported by exact Hu. reflexivity.
    - intros H1 Hs.
      destruct (Z.ltb_spec (len data) (16 + t + b4 * 16384)); [lia|].
      unfold Cartridge.slice at 1. rewrite bool_decide_eq_true_2 by lia.
      cbv beta iota delta [bind].
      destruct (Z.ltb_spec 0 (b5 * 8192)).
      + destruct (Z.ltb_spec (len data) (16 + t + b4 * 16384 + b5 * 8192)); [lia|].
        unfold Cartridge.slice at 1. rewrite bool_decide_eq_true_2 by lia.
        match goal with
        | |- context [Cartridge.createMapper ?i ?p ?c ?m] =>
            destruct (createMapper_supported i p c m Hs) as [mp ->]
        end.
        eexists. reflexivity.
      + match goal with
        | |- context [Cartridge.createMapper ?i ?p ?c ?m] =>
            destruct (createMapper_supported i p c m Hs) as [mp ->]
        end.
        eexists. reflexivity. }
  split; [|split; [exact Hsmall | split; [exact Hmagic | exact Hbody]]].
  destruct (Z.lt_ge_cases (len data) 16) as [H|H]; [eauto|].
  destruct (decide (take 4 data = Cartridge.inesMagic)) as [Hm|Hm]; [|eauto].
  destruct (Hbody H Hm) as (h & _ & H1 & H2 & H3 & H4).
  cbv zeta in H1, H2, H3, H4.
  destruct (Z.lt_ge_cases (len data)
              (16 + (if Cartridge.hasTrainer h then 512 else 0)
               + Cartridge.prgBanks h * 16384)) as [L1|L1]; [eauto|].
  destruct (Z.lt_ge_cases (len data)
              (16 + (if Cartridge.hasTrainer h then 512 else 0)
               + Cartridge.prgBanks h * 16384 + Cartridge.chrBanks h * 8192))
    as [L2|L2]; [eauto|].
  destruct (supportedMapper (Cartridge.mapperID h)) eqn:Es.
  - destruct (H4 L2 eq_refl) as [cart ->]. eauto.
  - eauto.
Qed.

(** Two bytes are too few; a bare header that announces one PRG bank is
    too small for its PRG-ROM. *)
Lemma X19_load_errors_witness :
  Cartridge.LoadFromBytes [0x4E; 0x45] = Some (inl Cartridge.FileTooSmall) /\
  Cartridge.LoadFromBytes (inesImage 1 0 0 0 (make 8) [] [] [] [])
    = Some (inl Cartridge.PRGTooSmall).
Proof.
  split.
  - assert (Hb : bytesOnly [0x4E; 0x45]) by (repeat constructor; lia).
    destruct (X19_load_errors [0x4E; 0x45] Hb) as (_ & H & _).
    apply H. vm_compute. reflexivity.
  - assert (Hb : bytesOnly (inesImage 1 0 0 0 (make 8) [] [] [] []))
      by (repeat constructor; lia).
    destruct (X19_load_errors _ Hb) as (_ & _ & _ & H).
    destruct H as (h & Eh & H & _); [vm_compute; discriminate | reflexivity |].
    apply H. injection Eh as <-. vm_compute. reflexivity.
Defined.

Lemma inesImage_split (p c f6 f7 : Z) (pad trainer prg chr rest : list Z) :
  inesImage p c f6 f7 pad trainer prg chr rest =
  ([0x4E; 0x45; 0x53; 0x1A; p; c; f6; f7] ++ pad ++ trainer) ++ prg ++ (chr ++ rest) /\
  inesImage p c f6 f7 pad trainer prg chr rest =
  ([0x4E; 0x45; 0x53; 0x1A; p; c; f6; f7] ++ pad ++ trainer ++ prg) ++ chr ++ rest.
Proof. unfold inesImage. split; rewrite <- ?app_assoc; reflexivity. Qed.

(** X20: the layout of an iNES image.  The file being the sixteen header
    bytes, a trainer of 512 bytes if bit 2 of flags 6 is set and none if
    not, as many 16 KiB PRG banks and 8 KiB CHR banks as bytes 4 and 5
    say, and anything after them, [LoadFromBytes] hands exactly the PRG
    bytes and the CHR bytes to [createMapper], with the mapper number
    made of the high nibbles of flags 7 and 6 and the mirroring of bit 0
    of flags 6, or four-screen with bit 3; the cartridge holds that
    mapper and the header fields. *)
Theorem X20_ines_layout (p c f6 f7 : Z) (pad trainer prg chr rest : list Z) :
  0 <= p < 256 -> 0 <= c < 256 ->
  length pad = 8%nat ->
  len trainer = (if negb (Z.land f6 0x04 =? 0) then 512 else 0) ->
  len prg = p * 16384 -> len chr = c * 8192 ->
  let id := Z.lor (Z.land f7 0xF0) (Z.shiftr (Z.land f6 0xF0) 4) in
  let mir := if negb (Z.land f6 0x08 =? 0) then MirrorFourScreen else Z.land f6 0x01 in
  Cartridge.LoadFromBytes (inesImage p c f6 f7 pad trainer prg chr rest) =
  Some match Cartridge.createMapper id prg chr mir with
       | inl err => inl err
       | inr mapper =>
         inr (Cartridge.Cartridge.mk mapper id p c mir
                (negb (Z.land f6 0x02 =? 0)) (negb (Z.land f6 0x04 =? 0)))
       end.
Proof.
  intros Hp Hc Hpad Ht Hprg Hchr id mir.
  set (data := inesImage p c f6 f7 pad trainer prg chr rest).
  assert (Hlen : len data = 16 + len trainer + len prg + len chr + len rest).
  { unfold data, inesImage, len. rewrite !length_app. simpl length. lia. }
  pose proof (len_nonneg trainer). pose proof (len_nonneg rest).
  assert (Hm : take 4 data = Cartridge.inesMagic) by reflexivity.
  assert (Hh : Cartridge.parseINESHeader data =
               Some (Cartridge.mkHeader p c id mir (negb (Z.land f6 0x02 =? 0))
                       (negb (Z.land f6 0x04 =? 0)) (negb (Z.land f6 0x08 =? 0)))).
  { unfold Cartridge.parseINESHeader.
    rewrite !sget_lookup by lia. reflexivity. }
  rewrite (LoadFromBytes_body data _ ltac:(lia) Hm Hh).
  cbv beta iota zeta. simpl Cartridge.hasTrainer. simpl Cartridge.prgBanks.
  simpl Cartridge.chrBanks. simpl Cartridge.mapperID. simpl Cartridge.mirroring.
  simpl Cartridge.hasSaveRAM.
  rewrite <- Ht, <- Hprg, <- Hchr.
  destruct (Z.ltb_spec (len data) (16 + len trainer + len prg)); [lia|].
  destruct (inesImage_split p c f6 f7 pad trainer prg chr rest) as [S1 S2].
  assert (L1 : len ([0x4E; 0x45; 0x53; 0x1A; p; c; f6; f7] ++ pad ++ trainer)
               = 16 + len trainer).
  { unfold len. rewrite !length_app. simpl length. lia. }
  assert (L2 : len ([0x4E; 0x45; 0x53; 0x1A; p; c; f6; f7] ++ pad ++ trainer ++ prg)
               = 16 + len trainer + len prg).
  { unfold len. rewrite !length_app. simpl length. lia. }
  assert (E1 : Cartridge.slice data (16 + len trainer) (16 + len trainer + len prg)
               = Some prg).
  { unfold data. rewrite S1, <- L1. apply slice_mid. }
  rewrite E1. cbv beta iota delta [bind].
  destruct (Z.ltb_spec 0 (len chr)).
  - destruct (Z.ltb_spec (len data) (16 + len trainer + len prg + len chr)); [lia|].
    assert (E2 : Cartridge.slice data (16 + len trainer + len prg)
                   (16 + len trainer + len prg + len chr) = Some chr).
    { unfold data. rewrite S2, <- L2. apply slice_mid. }
    rewrite E2.
    destruct (Cartridge.createMapper id prg chr mir); reflexivity.
  - assert (chr = []) as ->.
    { destruct chr; [reflexivity|]. unfold len in *. simpl in *. lia. }
    destruct (Cartridge.createMapper id prg [] mir); reflexivity.
Qed.

(** An NROM image with a trainer and one PRG bank: the cartridge has
    mapper 0 and vertical mirroring, and the byte after the trainer is
    the one the CPU reads at $8000. *)
Lemma X20_ines_layout_witness :
  let prg := <[0%nat := 0xEA]> (make 16384) in
  exists cart : Cartridge.Cartridge.t,
    Cartridge.LoadFromBytes (inesImage 1 0 0x05 0 (make 8) (make 512) prg [] [0x99])
      = Some (inr cart) /\
    Cartridge.GetMapperID cart = 0 /\
    Cartridge.GetMirroring cart = MirrorVertical /\
    ReadPRG 0x8000 (Cartridge.GetMapper cart) = Some 0xEA.
Proof.
  intros prg.
  pose proof (X20_ines_layout 1 0 0x05 0 (make 8) (make 512) prg [] [0x99]
                ltac:(lia) ltac:(lia) eq_refl
                ltac:(vm_compute; reflexivity) ltac:(vm_compute; reflexivity)
                eq_refl) as H.
  cbv zeta in H.
  eexists. split; [exact H|].
  split; [reflexivity|]. split; [reflexivity|]. vm_compute. reflexivity.
Defined.

(** ** No mapper access panics *)

Lemma ok_sget (s : list Z) (i : Z) : 0 <= i < len s -> ok (sget s i) = true.
Proof. intros H. destruct (sget_Some s i H) as [v ->]. reflexivity. Qed.

Lemma ok_sset {T : Type} (s : list Z) (i v : Z) (f : list Z -> option T) :
  0 <= i < len s -> (forall c, ok (f c) = true) -> ok (bind (sset s i v) f) = true.
Proof. intros H Hf. rewrite sset_Some by exact H. apply Hf. Qed.

Lemma land_nonneg_r (x c : Z) : 0 <= c -> 0 <= Z.land x c.
Proof. intros H. apply Z.land_nonneg. right. exact H. Qed.

Lemma lor_nonneg_2 (x y : Z) : 0 <= x -> 0 <= y -> 0 <= Z.lor x y.
Proof. intros Hx Hy. apply Z.lor_nonneg. split; assumption. Qed.

Lemma u8_nonneg (x : Z) : 0 <= u8 x.
Proof. unfold u8. apply Z.mod_pos_bound. lia. Qed.

Lemma u16_range (x : Z) : 0 <= u16 x < 65536.
Proof. unfold u16. apply Z.mod_pos_bound. lia. Qed.

Ltac cmp :=
  repeat match goal with
         | |- context [?a <=? ?b] => destruct (Z.leb_spec a b)
         | |- context [?a <? ?b] => destruct (Z.ltb_spec a b)
         | |- context [?a =? ?b] => destruct (Z.eqb_spec a b)
         end.

Ltac leaf :=
  simpl;
  first [ reflexivity
        | apply ok_sget; lia
        | apply ok_sset; [lia | intros; reflexivity] ].

Lemma Mapper0_safe (m : Mapper0.t) (addr value : Z) :
  0 <= addr -> accessOk addr value (IsMapper0 m) = true.
Proof.
  intros Ha. unfold accessOk. simpl.
  unfold Mapper0.ReadPRG, Mapper0.ReadCHR, Mapper0.WritePRG, Mapper0.WriteCHR.
  pose proof (u16_range (addr - 0x8000)).
  pose proof (Z.mod_pos_bound (u16 (addr - 0x8000)) 0x4000 ltac:(lia)).
  rewrite !andb_true_iff. repeat split.
  - destruct (Mapper0.prgBanks m =? 1); apply guarded_read; lia.
  - apply guarded_read; lia.
  - destruct (Mapper0.chrIsRAM m); simpl; [|reflexivity].
    destruct (Z.ltb_spec addr (len (Mapper0.chrMem m))); [|reflexivity].
    rewrite sset_Some by lia. reflexivity.
Qed.

Lemma Mapper2_safe (m : Mapper2.t) (addr value : Z) :
  0 <= addr -> 0 <= Mapper2.prgBank m -> accessOk addr value (IsMapper2 m) = true.
Proof.
  intros Ha Hb. unfold accessOk. simpl.
  unfold Mapper2.ReadPRG, Mapper2.ReadCHR, Mapper2.WritePRG, Mapper2.WriteCHR.
  pose proof (u8_nonneg (Mapper2.prgBanks m - 1)).
  rewrite !andb_true_iff. repeat split.
  - destruct (Z.leb_spec 0x8000 addr); simpl.
    + destruct (Z.ltb_spec addr 0xC000); simpl.
      * apply guarded_read; lia.
      * destruct (Z.leb_spec 0xC000 addr); [apply guarded_read; lia | reflexivity].
    + destruct (Z.leb_spec 0xC000 addr); [lia | reflexivity].
  - apply guarded_read; lia.
  - destruct (0x8000 <=? addr); reflexivity.
  - destruct (Z.ltb_spec addr (len (Mapper2.chrRAM m))); [|reflexivity].
    rewrite sset_Some by lia. reflexivity.
Qed.

Lemma Mapper3_safe (m : Mapper3.t) (addr value : Z) :
  0 <= addr -> 0 <= Mapper3.chrBank m -> accessOk addr value (IsMapper3 m) = true.
Proof.
  intros Ha Hb. unfold accessOk. simpl.
  unfold Mapper3.ReadPRG, Mapper3.ReadCHR, Mapper3.WritePRG, Mapper3.WriteCHR.
  pose proof (u16_range (addr - 0x8000)).
  pose proof (Z.mod_pos_bound (u16 (addr - 0x8000)) 0x4000 ltac:(lia)).
  rewrite !andb_true_iff. repeat split.
  - destruct (Mapper3.prgBanks m =? 1); apply guarded_read; lia.
  - apply guarded_read; lia.
  - destruct (0x8000 <=? addr); [destruct (0 <? Mapper3.chrBanks m)|]; reflexivity.
Qed.

Lemma Mapper7_safe (m : Mapper7.t) (addr value : Z) :
  0 <= addr -> 0 <= Mapper7.prgBank m -> accessOk addr value (IsMapper7 m) = true.
Proof.
  intros Ha Hb. unfold accessOk. simpl.
  unfold Mapper7.ReadPRG, Mapper7.ReadCHR, Mapper7.WritePRG, Mapper7.WriteCHR.
  rewrite !andb_true_iff. repeat split.
  - destruct (Z.leb_spec 0x8000 addr); [apply guarded_read; lia | reflexivity].
  - apply guarded_read; lia.
  - destruct (0x8000 <=? addr); [|reflexivity]. simpl.
    destruct (0 <? Mapper7.prgBanks m); destruct (negb _); reflexivity.
  - destruct (Z.ltb_spec addr (len (Mapper7.chrRAM m))); [|reflexivity].
    rewrite sset_Some by lia. reflexivity.
Qed.

Lemma Mapper1_safe (m : Mapper1.t) (addr value : Z) :
  0 <= addr -> Mapper1_ok m -> accessOk addr value (IsMapper1 m) = true.
Proof.
  intros Ha (Hl & Hb & H0 & H1). unfold accessOk. simpl.
  pose proof (land_nonneg_r (Mapper1.prgBank m) 0xFE ltac:(lia)).
  pose proof (lor_nonneg_2 (Z.land (Mapper1.prgBank m) 0xFE) 1 ltac:(lia) ltac:(lia)).
  pose proof (u8_nonneg (Mapper1.prgBanks m - 1)).
  pose proof (land_nonneg_r (Mapper1.chrBank0 m) 0xFE ltac:(lia)).
  pose proof (lor_nonneg_2 (Z.land (Mapper1.chrBank0 m) 0xFE) 1 ltac:(lia) ltac:(lia)).
  pose proof (land_nonneg_r addr 0x0FFF ltac:(lia)).
  assert (Hoff : 0 <= Mapper1.chrOffset addr m).
  { unfold Mapper1.chrOffset.
    destruct (Mapper1.chrMode m =? 0).
    - destruct (0x1000 <=? addr); lia.
    - destruct (Z.ltb_spec addr 0x1000); lia. }
  rewrite !andb_true_iff. repeat split.
  - unfold Mapper1.ReadPRG.
    destruct (Z.leb_spec 0x6000 addr); simpl.
    + destruct (Z.ltb_spec addr 0x8000); simpl.
      { destruct (Mapper1.prgRAMEnabled m); [apply ok_sget; lia | reflexivity]. }
      destruct (Z.leb_spec 0x8000 addr); [|lia]. simpl.
      destruct (Z.ltb_spec addr 0xC000); simpl.
      { destruct ((Mapper1.prgMode m =? 0) || (Mapper1.prgMode m =? 1));
          [apply guarded_read; lia|].
        destruct (Mapper1.prgMode m =? 2); [apply guarded_read; lia|].
        destruct (Mapper1.prgMode m =? 3); apply guarded_read; lia. }
      destruct (Z.leb_spec 0xC000 addr); [|lia].
      destruct ((Mapper1.prgMode m =? 0) || (Mapper1.prgMode m =? 1));
        [apply guarded_read; lia|].
      destruct (Mapper1.prgMode m =? 2); [apply guarded_read; lia|].
      destruct (Mapper1.prgMode m =? 3); apply guarded_read; lia.
    + destruct (Z.leb_spec 0x8000 addr); [lia|]. simpl.
      destruct (Z.leb_spec 0xC000 addr); [lia | reflexivity].
  - unfold Mapper1.ReadCHR. apply guarded_read. exact Hoff.
  - unfold Mapper1.WritePRG.
    destruct (Z.leb_spec 0x6000 addr); simpl.
    + destruct (Z.ltb_spec addr 0x8000); simpl.
      { destruct (Mapper1.prgRAMEnabled m); [|reflexivity].
        rewrite sset_Some by lia. reflexivity. }
      destruct (Z.leb_spec 0x8000 addr); [|lia].
      destruct (negb _); [reflexivity|]. simpl.
      destruct (_ =? 5); reflexivity.
    + destruct (Z.leb_spec 0x8000 addr); [lia | reflexivity].
  - unfold Mapper1.WriteCHR.
    destruct (negb (Mapper1.chrIsRAM m)); [reflexivity|].
    destruct (Z.ltb_spec (Mapper1.chrOffset addr m) (len (Mapper1.chrMem m)));
      [|reflexivity].
    rewrite sset_Some by lia. reflexivity.
Qed.

Lemma writeRegister_ok (m : Mapper1.t) (addr value : Z) :
  Mapper1_ok m -> Mapper1_ok (Mapper1.writeRegister addr value m).
Proof.
  intros (Hl & Hb & H0 & H1). unfold Mapper1.writeRegister, Mapper1_ok.
  pose proof (land_nonneg_r value 0x1F ltac:(lia)).
  pose proof (land_nonneg_r value 0x0F ltac:(lia)).
  destruct (_ && _); [simpl; auto|].
  destruct (_ && _); [simpl; auto|].
  destruct (_ && _); [simpl; auto|].
  destruct (_ <=? _); simpl; auto.
Qed.

Lemma Mapper1_WritePRG_ok (m m' : Mapper1.t) (addr value : Z) :
  Mapper1_ok m -> Mapper1.WritePRG addr value m = Some m' -> Mapper1_ok m'.
Proof.
  intros Hok. unfold Mapper1.WritePRG.
  destruct (_ && _).
  { destruct (Mapper1.prgRAMEnabled m); [|intros [= <-]; exact Hok].
    unfold sset. case_bool_decide; [|discriminate]. simpl. intros [= <-].
    destruct Hok as (Hl & Hb & H0 & H1). unfold Mapper1_ok. simpl.
    rewrite len_insert. auto. }
  destruct (_ <=? _); [|intros [= <-]; exact Hok].
  destruct (negb _).
  { intros [= <-]. destruct Hok as (Hl & Hb & H0 & H1). unfold Mapper1_ok. simpl. auto. }
  cbv zeta. destruct (_ =? 5); intros [= <-].
  - match goal with
    | |- Mapper1_ok (Mapper1.set_shiftCount _ (Mapper1.set_shiftRegister _ ?w)) =>
        assert (Hw : Mapper1_ok w)
    end.
    { apply writeRegister_ok. destruct Hok as (Hl & Hb & H0 & H1).
      unfold Mapper1_ok. simpl. auto. }
    destruct Hw as (Hl & Hb & H0 & H1). unfold Mapper1_ok. simpl. auto.
  - destruct Hok as (Hl & Hb & H0 & H1). unfold Mapper1_ok. simpl. auto.
Qed.

Lemma Mapper1_WriteCHR_ok (m m' : Mapper1.t) (addr value : Z) :
  Mapper1_ok m -> Mapper1.WriteCHR addr value m = Some m' -> Mapper1_ok m'.
Proof.
  intros Hok. unfold Mapper1.WriteCHR.
  destruct (negb _); [intros [= <-]; exact Hok|].
  destruct (_ <? _); [|intros [= <-]; exact Hok].
  unfold sset. case_bool_decide; [|discriminate]. simpl. intros [= <-].
  destruct Hok as (Hl & Hb & H0 & H1). unfold Mapper1_ok. simpl. auto.
Qed.

Lemma Mapper4_reg (m : Mapper4.t) (r : Z) :
  Mapper4_ok m -> 0 <= r < 8 ->
  exists b : Z, aget 8 (Mapper4.registers m) r = Some b /\ 0 <= b.
Proof.
  intros (_ & _ & Hr) Hi. rewrite aget_in_range by exact Hi.
  eexists. split; [reflexivity|].
  destruct (Mapper4.registers m !! r) as [v|] eqn:E; simpl; [eapply Hr, E | lia].
Qed.

Lemma Mapper4_chrOffset_ok (m : Mapper4.t) (addr : Z) :
  Mapper4_ok m -> 0 <= addr ->
  exists off : Z, Mapper4.chrOffset addr m = Some off /\ 0 <= off.
Proof.
  intros Hok Ha. unfold Mapper4.chrOffset.
  destruct (Mapper4_reg m 0 Hok ltac:(lia)) as (r0 & E0 & P0).
  destruct (Mapper4_reg m 1 Hok ltac:(lia)) as (r1 & E1 & P1).
  destruct (Mapper4_reg m 2 Hok ltac:(lia)) as (r2 & E2 & P2).
  destruct (Mapper4_reg m 3 Hok ltac:(lia)) as (r3 & E3 & P3).
  destruct (Mapper4_reg m 4 Hok ltac:(lia)) as (r4 & E4 & P4).
  destruct (Mapper4_reg m 5 Hok ltac:(lia)) as (r5 & E5 & P5).
  pose proof (land_nonneg_r r0 0xFE ltac:(lia)).
  pose proof (land_nonneg_r r1 0xFE ltac:(lia)).
  rewrite E0, E1, E2, E3, E4, E5. simpl.
  destruct (Mapper4.chrMode m =? 0).
  - destruct (Z.ltb_spec addr 0x0800); [eexists; split; [reflexivity | lia]|].
    destruct (Z.ltb_spec addr 0x1000); [eexists; split; [reflexivity | lia]|].
    destruct (Z.ltb_spec addr 0x1400); [eexists; split; [reflexivity | lia]|].
    destruct (Z.ltb_spec addr 0x1800); [eexists; split; [reflexivity | lia]|].
    destruct (Z.ltb_spec addr 0x1C00); eexists; (split; [reflexivity | lia]).
  - destruct (Z.ltb_spec addr 0x0400); [eexists; split; [reflexivity | lia]|].
    destruct (Z.ltb_spec addr 0x0800); [eexists; split; [reflexivity | lia]|].
    destruct (Z.ltb_spec addr 0x0C00); [eexists; split; [reflexivity | lia]|].
    destruct (Z.ltb_spec addr 0x1000); [eexists; split; [reflexivity | lia]|].
    destruct (Z.ltb_spec addr 0x1800); eexists; (split; [reflexivity | lia]).
Qed.

Lemma Mapper4_safe (m : Mapper4.t) (addr value : Z) :
  0 <= addr -> Mapper4_ok m -> accessOk addr value (IsMapper4 m) = true.
Proof.
  intros Ha Hok. unfold accessOk. simpl.
  destruct (Mapper4_reg m 6 Hok ltac:(lia)) as (r6 & E6 & P6).
  destruct (Mapper4_reg m 7 Hok ltac:(lia)) as (r7 & E7 & P7).
  destruct (Mapper4_chrOffset_ok m addr Hok Ha) as (off & Eoff & Poff).
  pose proof (u8_nonneg (Mapper4.prgBanks m - 2)).
  pose proof (u8_nonneg (Mapper4.prgBanks m - 1)).
  destruct Hok as (Hl & Hs & Hr).
  rewrite !andb_true_iff. repeat split.
  - unfold Mapper4.ReadPRG, Mapper4.readBank. rewrite E6, E7.
    destruct (Z.leb_spec 0x6000 addr); simpl.
    + destruct (Z.ltb_spec addr 0x8000); simpl.
      { destruct (Mapper4.prgRAMEnabled m); [apply ok_sget; lia | reflexivity]. }
      destruct (Z.leb_spec 0x8000 addr); [|lia]. simpl.
      destruct (Z.ltb_spec addr 0xA000); simpl.
      { destruct (Mapper4.prgMode m =? 0); simpl; apply guarded_read; lia. }
      destruct (Z.leb_spec 0xA000 addr); [|lia]. simpl.
      destruct (Z.ltb_spec addr 0xC000); simpl; [apply guarded_read; lia|].
      destruct (Z.leb_spec 0xC000 addr); [|lia]. simpl.
      destruct (Z.ltb_spec addr 0xE000); simpl.
      { destruct (Mapper4.prgMode m =? 0); simpl; apply guarded_read; lia. }
      destruct (Z.leb_spec 0xE000 addr); [|lia]. apply guarded_read; lia.
    + destruct (Z.leb_spec 0x8000 addr); [lia|]. simpl.
      destruct (Z.leb_spec 0xA000 addr); [lia|]. simpl.
      destruct (Z.leb_spec 0xC000 addr); [lia|]. simpl.
      destruct (Z.leb_spec 0xE000 addr); [lia | reflexivity].
  - unfold Mapper4.ReadCHR. rewrite Eoff. simpl. apply guarded_read. exact Poff.
  - unfold Mapper4.WritePRG.
    destruct (Z.leb_spec 0x6000 addr); simpl.
    + destruct (Z.ltb_spec addr 0x8000); simpl.
      { destruct (_ && _); [|reflexivity]. rewrite sset_Some by lia. reflexivity. }
      destruct (Z.leb_spec 0x8000 addr); [|lia]. simpl.
      destruct (Z.ltb_spec addr 0xA000); simpl.
      { destruct (_ =? 0); [reflexivity|].
        rewrite aset_in_range by lia. reflexivity. }
      destruct (Z.leb_spec 0xA000 addr); [|lia]. simpl.
      destruct (Z.ltb_spec addr 0xC000); simpl.
      { destruct (Z.land addr 1 =? 0); [destruct (_ =? 0)|]; reflexivity. }
      destruct (Z.leb_spec 0xC000 addr); [|lia]. simpl.
      destruct (Z.ltb_spec addr 0xE000); simpl.
      { destruct (Z.land addr 1 =? 0); reflexivity. }
      destruct (Z.leb_spec 0xE000 addr); [|lia].
      destruct (Z.land addr 1 =? 0); reflexivity.
    + destruct (Z.leb_spec 0x8000 addr); [lia|]. simpl.
      destruct (Z.leb_spec 0xA000 addr); [lia|]. simpl.
      destruct (Z.leb_spec 0xC000 addr); [lia|]. simpl.
      destruct (Z.leb_spec 0xE000 addr); [lia | reflexivity].
  - unfold Mapper4.WriteCHR.
    destruct (negb (Mapper4.chrIsRAM m)); [reflexivity|].
    rewrite Eoff. simpl.
    destruct (Z.ltb_spec off (len (Mapper4.chrMem m))); [|reflexivity].
    rewrite sset_Some by lia. reflexivity.
Qed.

Lemma Mapper4_WritePRG_ok (m m' : Mapper4.t) (addr value : Z) :
  0 <= value -> Mapper4_ok m -> Mapper4.WritePRG addr value m = Some m' -> Mapper4_ok m'.
Proof.
  intros Hv Hok. pose proof Hok as (Hl & Hs & Hr). unfold Mapper4.WritePRG.
  destruct (_ && _).
  { destruct (_ && _); [|intros [= <-]; exact Hok].
    unfold sset. case_bool_decide; [|discriminate]. simpl. intros [= <-].
    unfold Mapper4_ok. simpl. rewrite len_insert. auto. }
  destruct (_ && _).
  { destruct (_ =? 0).
    - intros [= <-]. unfold Mapper4_ok. simpl.
      split; [exact Hl|]. split; [|exact Hr].
      change 0x07 with (Z.ones 3). rewrite Z.land_ones by lia.
      apply Z.mod_pos_bound. lia.
    - rewrite aset_in_range by exact Hs. simpl. intros [= <-].
      unfold Mapper4_ok. simpl. split; [exact Hl|]. split; [exact Hs|].
      intros i v. destruct (Z.eq_dec (Mapper4.bankSelect m) i) as [->|Hne].
      + rewrite lookup_insert_eq. intros [= <-]. exact Hv.
      + rewrite lookup_insert_ne by exact Hne. apply Hr. }
  destruct (_ && _).
  { destruct (_ =? 0); [destruct (_ =? 0)|]; intros [= <-]; exact Hok. }
  destruct (_ && _).
  { destruct (_ =? 0); intros [= <-]; exact Hok. }
  destruct (_ <=? _); [|intros [= <-]; exact Hok].
  destruct (_ =? 0); intros [= <-]; exact Hok.
Qed.

Lemma Mapper4_WriteCHR_ok (m m' : Mapper4.t) (addr value : Z) :
  Mapper4_ok m -> Mapper4.WriteCHR addr value m = Some m' -> Mapper4_ok m'.
Proof.
  intros Hok. unfold Mapper4.WriteCHR.
  destruct (negb _); [intros [= <-]; exact Hok|].
  destruct (Mapper4.chrOffset addr m) as [off|]; simpl; [|discriminate].
  destruct (_ <? _); [|intros [= <-]; exact Hok].
  unfold sset. case_bool_decide; [|discriminate]. simpl. intros [= <-]. exact Hok.
Qed.

Lemma Mapper4_Scanline_ok (m : Mapper4.t) : Mapper4_ok m -> Mapper4_ok (Mapper4.Scanline m).
Proof.
  intros Hok. unfold Mapper4.Scanline.
  destruct (_ || _); cbv zeta; destruct (_ && _); exact Hok.
Qed.

Lemma mapper_ok_safe (a : AnyMapper) (addr value : Z) :
  0 <= addr -> mapper_ok a -> accessOk addr value a = true.
Proof.
  intros Ha Hok. destruct a as [m|m|m|m|m|m]; simpl in Hok.
  - apply Mapper0_safe; assumption.
  - apply Mapper1_safe; assumption.
  - apply Mapper2_safe; assumption.
  - apply Mapper3_safe; assumption.
  - apply Mapper4_safe; assumption.
  - apply Mapper7_safe; assumption.
Qed.

Lemma option_map_Some {A B : Type} (f : A -> B) (o : option A) (b : B) :
  option_map f o = Some b -> exists a : A, o = Some a /\ b = f a.
Proof. destruct o as [a|]; simpl; [intros [= <-]; eauto | discriminate]. Qed.

Lemma mapper_ok_WritePRG (a a' : AnyMapper) (addr value : Z) :
  0 <= value -> mapper_ok a -> WritePRG addr value a = Some a' -> mapper_ok a'.
Proof.
  intros Hv Hok H. destruct a as [m|m|m|m|m|m]; simpl in Hok;
    unfold WritePRG, AnyMapper_Mapper in H;
    apply option_map_Some in H as (m' & H & ->); simpl.
  - exact I.
  - eapply Mapper1_WritePRG_ok; eassumption.
  - unfold Mapper2.WritePRG in H. destruct (_ <=? _); injection H as <-; simpl;
      [|exact Hok].
    apply land_nonneg_r, u8_nonneg.
  - unfold Mapper3.WritePRG in H.
    destruct (_ <=? _); [destruct (_ <? _)|]; injection H as <-; simpl;
      try exact Hok.
    apply land_nonneg_r, u8_nonneg.
  - eapply Mapper4_WritePRG_ok; eassumption.
  - unfold Mapper7.WritePRG in H. destruct (_ <=? _); [|injection H as <-; exact Hok].
    cbv zeta in H. simpl in H.
    destruct (0 <? Mapper7.prgBanks m); destruct (negb _); injection H as <-; simpl;
      first [apply land_nonneg_r, u8_nonneg | apply land_nonneg_r; lia].
Qed.

Lemma mapper_ok_WriteCHR (a a' : AnyMapper) (addr value : Z) :
  mapper_ok a -> WriteCHR addr value a = Some a' -> mapper_ok a'.
Proof.
  intros Hok H. destruct a as [m|m|m|m|m|m]; simpl in Hok;
    unfold WriteCHR, AnyMapper_Mapper in H;
    apply option_map_Some in H as (m' & H & ->); simpl.
  - exact I.
  - eapply Mapper1_WriteCHR_ok; eassumption.
  - unfold Mapper2.WriteCHR in H. destruct (_ <? _); [|injection H as <-; exact Hok].
    apply bind_Some in H as (c & _ & H). injection H as <-. exact Hok.
  - injection H as <-. exact Hok.
  - eapply Mapper4_WriteCHR_ok; eassumption.
  - unfold Mapper7.WriteCHR in H. destruct (_ <? _); [|injection H as <-; exact Hok].
    apply bind_Some in H as (c & _ & H). injection H as <-. exact Hok.
Qed.

Lemma mapper_ok_Scanline (a : AnyMapper) : mapper_ok a -> mapper_ok (Scanline a).
Proof.
  intros Hok. destruct a as [m|m|m|m|m|m]; simpl in *; try exact Hok.
  apply Mapper4_Scanline_ok, Hok.
Qed.

Lemma createMapper_ok (id : Z) (prg chr : list Z) (mir : Z) (a : AnyMapper) :
  Cartridge.createMapper id prg chr mir = inr a -> mapper_ok a.
Proof.
  unfold Cartridge.createMapper.
  repeat match goal with
         | |- context [?x =? ?y] => destruct (x =? y)
         end; intros [= <-]; simpl; try exact I; try lia.
  - unfold Mapper1.NewMapper1, Mapper1_ok.
    destruct (0 <? len chr); simpl; rewrite len_make by lia; repeat split; lia.
  - unfold Mapper4.NewMapper4, Mapper4_ok.
    destruct (0 <? len chr); simpl; rewrite len_make by lia;
      (split; [reflexivity|]); (split; [lia|]); intros i v; rewrite lookup_empty;
      discriminate.
Qed.

Lemma driven_ok (a0 a : AnyMapper) : mapper_ok a0 -> driven a0 a -> mapper_ok a.
Proof.
  intros H0. induction 1 as [|addr value m m' _ IH Ha Hv Hw
                            |addr value m m' _ IH Ha Hv Hw|m _ IH].
  - exact H0.
  - eapply mapper_ok_WritePRG; [|exact IH|exact Hw]. lia.
  - eapply mapper_ok_WriteCHR; [exact IH|exact Hw].
  - apply mapper_ok_Scanline, IH.
Qed.

(** X21: no access to a mapper panics.  Whatever mapper [createMapper]
    builds from whatever ROM contents, and whatever bytes the CPU and the
    PPU write to it afterwards at whatever 16-bit addresses, every PRG
    read, CHR read, PRG write and CHR write at a 16-bit address returns:
    no slice or array of any of the six mappers is ever indexed out of
    range. *)
Theorem X21_mapper_access_never_panics (id mir : Z) (prg chr : list Z)
    (a0 a : AnyMapper) (addr value : Z) :
  Cartridge.createMapper id prg chr mir = inr a0 ->
  driven a0 a ->
  0 <= addr < 0x10000 -> 0 <= value < 256 ->
  accessOk addr value a = true.
Proof.
  intros Hc Hd Ha Hv. apply mapper_ok_safe; [lia|].
  eapply driven_ok; [|exact Hd]. eapply createMapper_ok, Hc.
Qed.

(** An MMC3 with no ROM at all, after a bank-data write: the reads at
    $FFFF and the writes return. *)
Lemma X21_mapper_access_never_panics_witness :
  exists a : AnyMapper,
    WritePRG 0x8001 0xFF (IsMapper4 (Mapper4.NewMapper4 [] [] MirrorHorizontal))
      = Some a /\
    accessOk 0xFFFF 0xFF a = true.
Proof.
  eexists. split; [reflexivity|].
  eapply (X21_mapper_access_never_panics 4 MirrorHorizontal [] []);
    [reflexivity | | lia | lia].
  eapply (driven_WritePRG _ 0x8001 0xFF); [apply driven_new | lia | lia | reflexivity].
Defined.

(** ** The sprite count and the frame buffer *)

Ltac bounded_done :=
  unfold loadBackgroundShifters, updateShifters in *;
  repeat match goal with
         | |- context [if ?c then _ else _] => destruct c
         end;
  unfold bounded, pixelsOk in *; simpl; assumption.

Section Bounded.

Context {M : Type} {mapperM : Mapper M}.

Lemma pixelsOk_insert (p : PPU M) (i c : Z) :
  pixelsOk p -> pixelsOk (set_frameBuffer (<[i := Z.land c 0x3F]> (frameBuffer p)) p).
Proof.
  unfold pixelsOk. simpl. intros H j v.
  destruct (decide (i = j)) as [->|Hne].
  - rewrite lookup_insert_eq. intros [= <-].
    change 0x3F with (Z.ones 6). rewrite Z.land_ones by lia.
    pose proof (Z.mod_pos_bound c (2 ^ 6) ltac:(lia)). lia.
  - rewrite lookup_insert_ne by exact Hne. apply H.
Qed.

Lemma spriteEvaluation_loop_bounded (n : nat) :
  forall (i h : Z) (p p' : PPU M),
  spriteEvaluation_loop n i h p = Some p' -> bounded p -> bounded p'.
Proof.
  induction n as [|n IH]; intros i h p p' H Hb; simpl in H.
  - injection H as <-. exact Hb.
  - apply bind_Some in H as (y & _ & H).
    destruct (_ <? _) in H; [|eapply IH; eassumption].
    destruct (Z.leb_spec 8 (spriteCount p)) as [H8|H8].
    { injection H as <-. bounded_done. }
    repeat step_some.
    all: eapply IH; [eassumption|].
    all: destruct Hb as [Hc Hp]; destruct (i =? 0);
      (split; [|exact Hp]); simpl; unfold u8;
      rewrite Z.mod_small by lia; lia.
Qed.

Lemma spriteEvaluation_bounded (p p' : PPU M) :
  spriteEvaluation p = Some p' -> bounded p -> bounded p'.
Proof.
  unfold spriteEvaluation. intros H [_ Hp].
  assert (Hb : bounded (set_sprite0Present false
                          (set_spriteCount 0 (set_secondaryOAM (afill 32 0xFF) p)))).
  { split; [simpl; lia | exact Hp]. }
  destruct (negb _) in H; [injection H as <-; exact Hb|].
  eapply spriteEvaluation_loop_bounded; eassumption.
Qed.

Lemma spriteFetching_loop_bounded (n : nat) :
  forall (i h t : Z) (p p' : PPU M),
  spriteFetching_loop n i h t p = Some p' -> bounded p -> bounded p'.
Proof.
  induction n as [|n IH]; intros i h t p p' H Hb; simpl in H.
  - injection H as <-. exact Hb.
  - repeat step_some.
    all: eapply IH; [eassumption|]; bounded_done.
Qed.

Lemma renderPixel_bounded (p p' : PPU M) :
  renderPixel p = Some p' -> bounded p -> bounded p'.
Proof.
  unfold renderPixel. intros H [Hc Hp].
  repeat step_some; try (split; assumption).
  all: unfold aset in *; repeat case_bool_decide; try discriminate.
  all: repeat match goal with
              | H : Some _ = Some _ |- _ => injection H as <-
              end.
  all: repeat match goal with
              | |- context [if ?c then _ else _] => destruct c
              end.
  all: split; [exact Hc|].
  all: try (apply pixelsOk_insert; exact Hp).
  all: apply (pixelsOk_insert (set_status _ p)); exact Hp.
Qed.

Lemma backgroundFetch_bounded (p p' : PPU M) :
  backgroundFetch p = Some p' -> bounded p -> bounded p'.
Proof.
  unfold backgroundFetch. intros H Hb.
  repeat step_some; try bounded_done.
Qed.

Lemma activeScanline_bounded (p p' : PPU M) :
  activeScanline p = Some p' -> bounded p -> bounded p'.
Proof.
  unfold activeScanline. intros H Hb.
  apply bind_Some in H as (q1 & H1 & H).
  apply bind_Some in H as (q2 & H2 & H).
  apply bind_Some in H as (q3 & H3 & H).
  apply bind_Some in H as (q4 & H4 & H).
  injection H as <-.
  assert (B1 : bounded q1).
  { unfold backgroundCycles in H1. destruct (_ || _) in H1.
    - eapply backgroundFetch_bounded; [exact H1|]. unfold clearFlags. bounded_done.
    - injection H1 as <-. unfold clearFlags. bounded_done. }
  assert (B2 : bounded q2).
  { unfold resetHorizontal in H2. repeat step_some.
    all: try (eapply spriteEvaluation_bounded; [eassumption|]).
    all: unfold incrementVertical; bounded_done. }
  assert (B3 : bounded q3).
  { unfold spritePatternFetch in H3. repeat step_some; try exact B2.
    eapply spriteFetching_loop_bounded; eassumption. }
  assert (B4 : bounded q4).
  { unfold superfluousFetch in H4. repeat step_some; exact B3. }
  unfold restoreVertical. bounded_done.
Qed.

Lemma Clock_bounded (p p' : PPU M) :
  Clock p = Some p' -> bounded p -> bounded p'.
Proof.
  unfold Clock. intros H Hb.
  apply bind_Some in H as (q1 & H1 & H).
  apply bind_Some in H as (q2 & H2 & H).
  injection H as <-.
  assert (B1 : bounded q1).
  { destruct (_ && _) in H1;
      [eapply renderPixel_bounded; eassumption | injection H1 as <-; exact Hb]. }
  assert (B2 : bounded q2).
  { destruct (_ && _) in H2;
      [eapply activeScanline_bounded; eassumption | injection H2 as <-; exact B1]. }
  unfold advanceTiming, vblankStart. bounded_done.
Qed.

End Bounded.

(** ** A tick of the PPU returns *)

Ltac readable_side :=
  match goal with
  | Hr : readable _ |- _ =>
      unfold readable, chrTotal in *; simpl; exact Hr
  end.

Section Total.

Context {M : Type} {mapperM : Mapper M}.

Lemma readable_keeps (p q : PPU M) : keeps p q -> readable p -> readable q.
Proof.
  intros (_ & _ & _ & _ & _ & _ & Km & Kr & _) [H1 H2].
  unfold readable, chrTotal. rewrite Km, Kr. split; assumption.
Qed.

Lemma ppuRead_total (addr : Z) (p : PPU M) :
  readable p -> exists b : Z, ppuRead addr p = Some b.
Proof.
  intros [Hm Hc]. unfold ppuRead.
  assert (Ha : 0 <= Z.land addr 0x3FFF < 0x4000).
  { change 0x3FFF with (Z.ones 14). rewrite Z.land_ones by lia.
    apply Z.mod_pos_bound. lia. }
  set (a := Z.land addr 0x3FFF) in *.
  destruct (Z.ltb_spec a 0x2000).
  { unfold chrTotal in Hc. destruct (mapper p); [apply Hc; lia | eauto]. }
  destruct (Z.ltb_spec a 0x3F00).
  { rewrite aget_in_range by (pose proof (mirrorNametableAddress_bound a p Hm); lia).
    eauto. }
  destruct (Z.ltb_spec a 0x4000); [|eauto].
  rewrite aget_in_range by apply mirrorPaletteAddress_range. eauto.
Qed.

Lemma renderSprites_loop_total (x : Z) (p : PPU M) (n : nat) :
  forall i : Z, 0 <= i -> i + Z.of_nat n <= 8 ->
  exists r, renderSprites_loop n i x p = Some r.
Proof.
  induction n as [|n IH]; intros i Hi Hn; simpl; [eauto|].
  assert (Hu : u8 (i + 1) = i + 1) by (unfold u8; apply Z.mod_small; lia).
  rewrite !aget_in_range by lia. cbv beta iota delta [bind].
  rewrite Hu.
  repeat match goal with
         | |- context [if ?c then _ else _] => destruct c
         end; eauto; apply IH; lia.
Qed.

Lemma renderSprites_total (x : Z) (p : PPU M) :
  bounded p -> exists r, renderSprites x p = Some r.
Proof.
  intros [Hc _]. unfold renderSprites.
  destruct (negb _); [eauto|]. destruct (_ && _); [eauto|].
  apply renderSprites_loop_total; lia.
Qed.

Lemma pixel_index (p : PPU M) :
  (ScreenWidth <=? u16 (cycle p - 1)) || (ScreenHeight <=? u16 (scanline p)) = false ->
  0 <= u16 (u16 (scanline p) * ScreenWidth + u16 (cycle p - 1))
    < ScreenWidth * ScreenHeight.
Proof.
  unfold ScreenWidth, ScreenHeight, u16. intros H.
  apply orb_false_iff in H as [Hx Hy].
  apply Z.leb_gt in Hx, Hy.
  pose proof (Z.mod_pos_bound (cycle p - 1) 65536 ltac:(lia)).
  pose proof (Z.mod_pos_bound (scanline p) 65536 ltac:(lia)).
  rewrite (Z.mod_small (_ + _)) by lia. lia.
Qed.

Lemma renderPixel_total (p : PPU M) :
  readable p -> bounded p -> exists p', renderPixel p = Some p'.
Proof.
  intros Hr Hb. unfold renderPixel.
  destruct (_ || _) eqn:Ev; [eauto|].
  pose proof (pixel_index p Ev) as Hi.
  destruct (negb _).
  { destruct (ppuRead_total 0x3F00 p Hr) as [c ->]. cbv beta iota delta [bind].
    rewrite aset_in_range by exact Hi. eauto. }
  destruct (backgroundPixel p) as [bg bpal].
  destruct (renderSprites_total (u16 (cycle p - 1)) p Hb) as [[[[sp spal] prio] is0] ->].
  cbv beta iota zeta delta [bind].
  repeat match goal with
         | |- context [if ?c then _ else _] => destruct c
         end.
  all: match goal with
       | |- context [ppuRead ?a ?q] =>
           destruct (ppuRead_total a q ltac:(readable_side)) as [c ->]
       end.
  all: cbv beta iota delta [bind]; simpl frameBuffer.
  all: rewrite aset_in_range by exact Hi; eauto.
Qed.

Lemma backgroundFetch_total (p : PPU M) :
  readable p -> exists p', backgroundFetch p = Some p'.
Proof.
  intros Hr. unfold backgroundFetch.
  repeat match goal with
         | |- context [if ?c =? ?d then _ else _] => destruct (c =? d)
         end.
  all: try match goal with
       | |- context [ppuRead ?a ?q] =>
           destruct (ppuRead_total a q) as [c ->];
             [unfold loadBackgroundShifters;
              repeat match goal with
                     | |- context [if ?c then _ else _] => destruct c
                     end; readable_side|]
       end.
  all: cbv beta iota zeta delta [bind].
  all: repeat match goal with
              | |- context [if ?c then _ else _] => destruct c
              end; eauto.
Qed.

Lemma spriteEvaluation_loop_total (h : Z) (n : nat) :
  forall (i : Z) (p : PPU M), 0 <= i -> i + Z.of_nat n <= 64 ->
  0 <= spriteCount p <= 8 ->
  exists p', spriteEvaluation_loop n i h p = Some p'.
Proof.
  induction n as [|n IH]; intros i p Hi Hn Hc; simpl; [eauto|].
  assert (Hu : u8 (i + 1) = i + 1) by (unfold u8; apply Z.mod_small; lia).
  assert (Ho : u16 (i * 4) = i * 4) by (unfold u16; apply Z.mod_small; lia).
  rewrite Hu, Ho.
  rewrite aget_in_range by lia. cbv beta iota delta [bind].
  destruct (_ <? _); [|apply IH; lia].
  destruct (Z.leb_spec 8 (spriteCount p)) as [H8|H8]; [eauto|].
  assert (Hs : u16 (spriteCount p * 4) = spriteCount p * 4)
    by (unfold u16; apply Z.mod_small; lia).
  rewrite Hs.
  repeat first [ rewrite aget_in_range by lia
               | rewrite aset_in_range by lia
               | progress cbv beta iota zeta delta [bind]
               | progress simpl oam
               | progress simpl secondaryOAM ].
  apply IH; [lia | lia |].
  destruct (i =? 0); simpl; unfold u8; rewrite Z.mod_small by lia; lia.
Qed.

Lemma spriteEvaluation_total (p : PPU M) :
  exists p', spriteEvaluation p = Some p'.
Proof.
  unfold spriteEvaluation. destruct (negb _); [eauto|].
  apply spriteEvaluation_loop_total; simpl; lia.
Qed.

Lemma spriteFetching_loop_total (h t : Z) (n : nat) :
  forall (i : Z) (p : PPU M), 0 <= i -> i + Z.of_nat n <= 8 ->
  readable p ->
  exists p', spriteFetching_loop n i h t p = Some p'.
Proof.
  induction n as [|n IH]; intros i p Hi Hn Hr; simpl; [eauto|].
  assert (Hu : u8 (i + 1) = i + 1) by (unfold u8; apply Z.mod_small; lia).
  assert (Ho : u16 (i * 4) = i * 4) by (unfold u16; apply Z.mod_small; lia).
  rewrite Hu, Ho.
  repeat first [ rewrite aget_in_range by lia
               | rewrite aset_in_range by lia
               | progress cbv beta iota zeta delta [bind]
               | match goal with
                 | |- context [ppuRead ?a ?q] =>
                     destruct (ppuRead_total a q ltac:(readable_side)) as [? ->]
                 end ].
  apply IH; [lia | lia | readable_side].
Qed.

Lemma spriteFetching_total (p : PPU M) :
  readable p -> bounded p -> exists p', spriteFetching p = Some p'.
Proof.
  intros Hr [Hc _]. unfold spriteFetching.
  apply spriteFetching_loop_total; [lia | lia | exact Hr].
Qed.

Lemma activeScanline_total (p : PPU M) :
  readable p -> bounded p -> exists p', activeScanline p = Some p'.
Proof.
  intros Hr Hb. unfold activeScanline.
  assert (R0 : readable (clearFlags p))
    by (eapply readable_keeps; [apply clearFlags_keeps | exact Hr]).
  assert (B0 : bounded (clearFlags p)) by (unfold clearFlags; bounded_done).
  assert (T1 : exists q1, backgroundCycles (clearFlags p) = Some q1).
  { unfold backgroundCycles. destruct (_ || _); [|eauto].
    apply backgroundFetch_total.
    eapply readable_keeps; [|exact R0]. keeps_done. }
  destruct T1 as [q1 E1]. rewrite E1. cbv beta iota zeta delta [bind].
  pose proof (readable_keeps _ _ (backgroundCycles_keeps _ _ E1) R0) as R1.
  assert (B1 : bounded q1).
  { unfold backgroundCycles in E1. destruct (_ || _) in E1.
    - eapply backgroundFetch_bounded; [exact E1|]. bounded_done.
    - injection E1 as <-. exact B0. }
  assert (R1' : readable (incrementVertical q1))
    by (eapply readable_keeps; [apply incrementVertical_keeps | exact R1]).
  assert (B1' : bounded (incrementVertical q1))
    by (unfold incrementVertical; bounded_done).
  assert (T2 : exists q2, resetHorizontal (incrementVertical q1) = Some q2).
  { unfold resetHorizontal. destruct (_ =? _); [|eauto].
    destruct (_ && _); [apply spriteEvaluation_total | eauto]. }
  destruct T2 as [q2 E2]. rewrite E2. cbv beta iota zeta delta [bind].
  pose proof (readable_keeps _ _ (resetHorizontal_keeps _ _ E2) R1') as R2.
  assert (B2 : bounded q2).
  { unfold resetHorizontal in E2. repeat step_some.
    all: try (eapply spriteEvaluation_bounded; [eassumption|]).
    all: bounded_done. }
  assert (T3 : exists q3, spritePatternFetch q2 = Some q3).
  { unfold spritePatternFetch. destruct (_ =? _); [|eauto].
    destruct (_ && _); [apply spriteFetching_total; assumption | eauto]. }
  destruct T3 as [q3 E3]. rewrite E3. cbv beta iota zeta delta [bind].
  pose proof (readable_keeps _ _ (spritePatternFetch_keeps _ _ E3) R2) as R3.
  unfold superfluousFetch. destruct (_ || _); [|eauto].
  destruct (ppuRead_total (Z.lor 0x2000 (Z.land (vramAddress q3) 0x0FFF)) q3 R3)
    as [b ->].
  cbv beta iota zeta delta [bind]. eauto.
Qed.

(** A tick returns when the PPU's address space can be read and at most
    eight sprites are counted, and the next state is in the same case. *)
Lemma Clock_total (p : PPU M) :
  readable p -> bounded p ->
  exists p', Clock p = Some p' /\ readable p' /\ bounded p'.
Proof.
  intros Hr Hb.
  assert (T : exists p', Clock p = Some p').
  { unfold Clock.
    assert (T1 : exists q1,
      (if (0 <=? scanline p) && (scanline p <? 240)
          && (1 <=? cycle p) && (cycle p <=? 256)
       then renderPixel p else Some p) = Some q1 /\ readable q1 /\ bounded q1).
    { destruct (_ && _).
      - destruct (renderPixel_total p Hr Hb) as [q1 E1]. exists q1.
        split; [exact E1|]. split.
        + eapply readable_keeps; [eapply renderPixel_keeps; exact E1 | exact Hr].
        + eapply renderPixel_bounded; eassumption.
      - eauto. }
    destruct T1 as (q1 & -> & R1 & B1). cbv beta iota zeta delta [bind].
    destruct (_ && _); [|eauto].
    destruct (activeScanline_total q1 R1 B1) as [q2 ->].
    cbv beta iota zeta delta [bind]. eauto. }
  destruct T as [p' E]. exists p'. split; [exact E|]. split.
  - destruct (Clock_inv _ _ E) as (q & K & ->).
    pose proof (readable_keeps _ _ K Hr) as [Hm Hc].
    unfold readable, chrTotal, advanceTiming.
    repeat match goal with
           | |- context [if ?c then _ else _] => destruct c
           end; simpl; split; assumption.
  - eapply Clock_bounded; eassumption.
Qed.

End Total.

(** ** The console never panics *)

Lemma ok_Some {A : Type} (o : option A) : ok o = true -> exists a : A, o = Some a.
Proof. destruct o as [a|]; [eauto | discriminate]. Qed.

Lemma accessOk_inv (addr value : Z) (a : AnyMapper) :
  accessOk addr value a = true ->
  (exists v, ReadPRG addr a = Some v) /\ (exists v, ReadCHR addr a = Some v) /\
  (exists a', WritePRG addr value a = Some a') /\
  (exists a', WriteCHR addr value a = Some a').
Proof.
  unfold accessOk. intros H.
  apply andb_true_iff in H as [H H4]. apply andb_true_iff in H as [H H3].
  apply andb_true_iff in H as [H1 H2].
  repeat split; apply ok_Some; assumption.
Qed.

Lemma ppuOk_readable (p : PPU AnyMapper) : ppuOk p -> readable p.
Proof.
  intros ((a & Ea & Hok) & Hm & _). split; [exact Hm|].
  unfold chrTotal. rewrite Ea. intros addr Ha.
  apply (accessOk_inv addr 0 a (mapper_ok_safe a addr 0 Ha Hok)).
Qed.

Lemma ppuWrite_ok (addr value : Z) (p : PPU AnyMapper) :
  ppuOk p -> exists p', ppuWrite addr value p = Some p' /\ ppuOk p'.
Proof.
  intros ((a & Ea & Hok) & Hm & Hb & Ho). unfold ppuWrite.
  assert (Ha : 0 <= Z.land addr 0x3FFF < 0x4000).
  { change 0x3FFF with (Z.ones 14). rewrite Z.land_ones by lia.
    apply Z.mod_pos_bound. lia. }
  set (x := Z.land addr 0x3FFF) in *.
  destruct (Z.ltb_spec x 0x2000).
  { rewrite Ea.
    destruct (accessOk_inv x value a (mapper_ok_safe a x value ltac:(lia) Hok))
      as (_ & _ & _ & (a' & Ew)).
    rewrite Ew. cbv beta iota delta [bind]. eexists. split; [reflexivity|].
    split; [|split; [exact Hm|]; split; [exact Hb | exact Ho]].
    exists a'. split; [reflexivity|]. eapply mapper_ok_WriteCHR; eassumption. }
  destruct (Z.ltb_spec x 0x3F00).
  { rewrite aset_in_range by (pose proof (mirrorNametableAddress_bound x p Hm); lia).
    cbv beta iota delta [bind]. eexists. split; [reflexivity|].
    split; [exists a; split; assumption|]. split; [exact Hm|]; split; [exact Hb | exact Ho]. }
  destruct (Z.ltb_spec x 0x4000).
  { rewrite aset_in_range by apply mirrorPaletteAddress_range.
    cbv beta iota delta [bind]. eexists. split; [reflexivity|].
    split; [exists a; split; assumption|]. split; [exact Hm|]; split; [exact Hb | exact Ho]. }
  eexists. split; [reflexivity|].
  split; [exists a; split; assumption|]. split; [exact Hm|]; split; [exact Hb | exact Ho].
Qed.

Ltac ppuOk_same :=
  match goal with
  | H : ppuOk ?p |- ppuOk _ => exact H
  end.

Lemma WriteCPURegister_ok (addr value : Z) (p : PPU AnyMapper) :
  ppuOk p -> addr <> 0x2003 \/ 0 <= value < 256 ->
  exists p', WriteCPURegister addr value p = Some p' /\ ppuOk p'.
Proof.
  intros Hp Hv. pose proof Hp as (Hmap & Hm & Hb & Ho).
  unfold WriteCPURegister.
  destruct (Z.eqb_spec addr 0x2000); [eexists; split; [reflexivity | exact Hp]|].
  destruct (Z.eqb_spec addr 0x2001); [eexists; split; [reflexivity | exact Hp]|].
  destruct (Z.eqb_spec addr 0x2003).
  { eexists. split; [reflexivity|].
    split; [exact Hmap|]. split; [exact Hm|]. split; [exact Hb|]. simpl. lia. }
  destruct (Z.eqb_spec addr 0x2004).
  { rewrite aset_in_range by exact Ho. cbv beta iota zeta delta [bind].
    eexists. split; [reflexivity|].
    split; [exact Hmap|]. split; [exact Hm|]. split; [exact Hb|]. simpl.
    unfold u8. apply Z.mod_pos_bound. lia. }
  destruct (Z.eqb_spec addr 0x2005).
  { destruct (negb _); eexists; (split; [reflexivity | exact Hp]). }
  destruct (Z.eqb_spec addr 0x2006).
  { destruct (negb _); eexists; (split; [reflexivity | exact Hp]). }
  destruct (Z.eqb_spec addr 0x2007); [|eexists; split; [reflexivity | exact Hp]].
  destruct (ppuWrite_ok (vramAddress p) value p Hp) as (p' & -> & Hp').
  cbv beta iota zeta delta [bind]. eexists. split; [reflexivity | exact Hp'].
Qed.

Lemma ReadCPURegister_ok (addr : Z) (p : PPU AnyMapper) :
  ppuOk p -> exists v p', ReadCPURegister addr p = Some (v, p') /\ ppuOk p'.
Proof.
  intros Hp. pose proof Hp as (Hmap & Hm & Hb & Ho).
  unfold ReadCPURegister.
  destruct (addr =? 0x2002); [do 2 eexists; split; [reflexivity | exact Hp]|].
  destruct (addr =? 0x2004).
  { rewrite aget_in_range by exact Ho. cbv beta iota zeta delta [bind].
    do 2 eexists. split; [reflexivity | exact Hp]. }
  destruct (addr =? 0x2007); [|do 2 eexists; split; [reflexivity | exact Hp]].
  destruct (ppuRead_total (vramAddress p) p (ppuOk_readable p Hp)) as [b ->].
  cbv beta iota zeta delta [bind].
  do 2 eexists. split; [reflexivity | exact Hp].
Qed.

Lemma Clock_ok (p : PPU AnyMapper) :
  ppuOk p -> exists p', Clock p = Some p' /\ ppuOk p'.
Proof.
  intros Hp. pose proof Hp as ((a & Ea & Hok) & Hm & Hb & Ho).
  destruct (Clock_total p (ppuOk_readable p Hp) Hb) as (p' & E & [Hm' _] & Hb').
  exists p'. split; [exact E|].
  destruct (Clock_memory _ _ E) as (_ & Ka & _).
  split; [exists a; split; [rewrite (Clock_mapper _ _ E); exact Ea | exact Hok]|].
  split; [exact Hm'|]. split; [exact Hb'|]. rewrite Ka. exact Ho.
Qed.

Lemma consoleOk_ppu (b : Bus.NESBus AnyMapper) : consoleOk b -> ppuOk (Bus.ppu b).
Proof.
  intros (H1 & H2 & H3 & H4 & _).
  split; [exact H1|]. split; [exact H2|]. split; [exact H3 | exact H4].
Qed.

Lemma consoleOk_set_ppu (p : PPU AnyMapper) (b : Bus.NESBus AnyMapper) :
  ppuOk p -> consoleOk b -> consoleOk (Bus.set_ppu p b).
Proof.
  intros (H1 & H2 & H3 & H4) (_ & _ & _ & _ & H5 & H6).
  split; [exact H1|]. split; [exact H2|]. split; [exact H3|]. split; [exact H4|].
  split; assumption.
Qed.

Lemma Controller_Read_ok (c : Controller.t) :
  0 <= Controller.index c ->
  exists v c', Controller.Read c = Some (v, c') /\ 0 <= Controller.index c'.
Proof.
  intros Hi. unfold Controller.Read, Controller.ButtonA, bget.
  destruct (Controller.strobe c).
  { rewrite bool_decide_eq_true_2 by lia. cbv beta iota delta [bind].
    do 2 eexists. split; [reflexivity | exact Hi]. }
  assert (exists value,
    (if Controller.index c <? 8
     then do b <- (if bool_decide (0 <= Controller.index c < 8)
                   then Some (default false (Controller.buttons c !! Controller.index c))
                   else None);
          Some (if b then 0x01 else 0x00)
     else Some 0x01) = Some value) as [value ->].
  { destruct (Z.ltb_spec (Controller.index c) 8); [|eauto].
    rewrite bool_decide_eq_true_2 by lia. cbv beta iota delta [bind]. eauto. }
  cbv beta iota zeta delta [bind]. do 2 eexists. split; [reflexivity|].
  simpl. destruct (_ <? _); simpl; [lia|].
  unfold u8. apply Z.mod_pos_bound. lia.
Qed.

Lemma Bus_Read_ok (addr : Z) (b : Bus.NESBus AnyMapper) :
  consoleOk b -> 0 <= addr ->
  exists v b', Bus.Read addr b = Some (v, b') /\ consoleOk b'.
Proof.
  intros Hb Ha. pose proof (consoleOk_ppu b Hb) as Hp.
  pose proof Hb as ((a & Ea & Hok) & Hm & Hbd & Ho & H1 & H2).
  unfold Bus.Read.
  destruct (addr <? 0x2000).
  { rewrite aget_in_range.
    - cbv beta iota delta [bind]. do 2 eexists. split; [reflexivity | exact Hb].
    - change 0x07FF with (Z.ones 11). rewrite Z.land_ones by lia.
      apply Z.mod_pos_bound. lia. }
  destruct (addr <? 0x4000).
  { destruct (ReadCPURegister_ok (u16 (0x2000 + Z.land addr 0x0007)) _ Hp)
      as (v & p' & -> & Hp').
    cbv beta iota delta [bind]. do 2 eexists. split; [reflexivity|].
    apply consoleOk_set_ppu; assumption. }
  destruct (addr =? 0x4016).
  { destruct (Controller_Read_ok _ H1) as (v & c' & -> & Hc').
    cbv beta iota delta [bind]. do 2 eexists. split; [reflexivity|].
    split; [exists a; split; assumption|]. repeat (split; [assumption|]). exact H2. }
  destruct (addr =? 0x4017).
  { destruct (Controller_Read_ok _ H2) as (v & c' & -> & Hc').
    cbv beta iota delta [bind]. do 2 eexists. split; [reflexivity|].
    split; [exists a; split; assumption|]. repeat (split; [assumption|]). exact Hc'. }
  destruct (0x4020 <=? addr); [|do 2 eexists; split; [reflexivity | exact Hb]].
  rewrite Ea.
  destruct (accessOk_inv addr 0 a (mapper_ok_safe a addr 0 Ha Hok)) as ((v & ->) & _).
  cbv beta iota delta [bind]. do 2 eexists. split; [reflexivity | exact Hb].
Qed.

Lemma Bus_Write_ok (addr data : Z) (b : Bus.NESBus AnyMapper) :
  consoleOk b -> 0 <= addr -> 0 <= data < 256 ->
  exists b', Bus.Write addr data b = Some b' /\ consoleOk b'.
Proof.
  intros Hb Ha Hd. pose proof (consoleOk_ppu b Hb) as Hp.
  pose proof Hb as ((a & Ea & Hok) & Hm & Hbd & Ho & H1 & H2).
  unfold Bus.Write.
  destruct (addr <? 0x2000).
  { rewrite aset_in_range.
    - cbv beta iota delta [bind]. eexists. split; [reflexivity | exact Hb].
    - change 0x07FF with (Z.ones 11). rewrite Z.land_ones by lia.
      apply Z.mod_pos_bound. lia. }
  destruct (addr <? 0x4000).
  { destruct (WriteCPURegister_ok (u16 (0x2000 + Z.land addr 0x0007)) data _ Hp
                (or_intror Hd)) as (p' & -> & Hp').
    cbv beta iota delta [bind]. eexists. split; [reflexivity|].
    apply consoleOk_set_ppu; assumption. }
  destruct (addr =? 0x4014); [eexists; split; [reflexivity | exact Hb]|].
  destruct (addr =? 0x4016).
  { eexists. split; [reflexivity|].
    split; [exists a; split; assumption|]. repeat (split; [assumption|]).
    unfold Controller.Write. simpl.
    split; repeat match goal with
                  | |- context [if ?c then _ else _] => destruct c
                  end; simpl; lia. }
  destruct (0x4020 <=? addr); [|eexists; split; [reflexivity | exact Hb]].
  rewrite Ea.
  destruct (accessOk_inv addr data a (mapper_ok_safe a addr data Ha Hok))
    as (_ & _ & (a' & Ew) & _).
  rewrite Ew. cbv beta iota delta [bind]. eexists. split; [reflexivity|].
  split; [exists a'; split; [reflexivity|]|].
  - eapply mapper_ok_WritePRG; [|exact Hok|exact Ew]. lia.
  - repeat (split; [assumption|]). exact H2.
Qed.

Lemma Bus_Clock_ok (b : Bus.NESBus AnyMapper) :
  consoleOk b -> exists b', Bus.Clock b = Some b' /\ consoleOk b'.
Proof.
  intros Hb. pose proof (consoleOk_ppu b Hb) as Hp.
  unfold Bus.Clock.
  destruct (Clock_ok _ Hp) as (p1 & -> & Hp1). cbv beta iota delta [bind].
  destruct (Clock_ok _ Hp1) as (p2 & -> & Hp2). cbv beta iota delta [bind].
  destruct (Clock_ok _ Hp2) as (p3 & -> & Hp3). cbv beta iota zeta delta [bind].
  pose proof (consoleOk_set_ppu p3 b Hp3 Hb) as Hb3.
  set (b3 := Bus.set_ppu p3 b) in *. clearbody b3.
  destruct (Bus.dmaTransfer b3); [|eauto].
  destruct (Bus.dmaDummy b3) eqn:Ed.
  { eexists. split; [reflexivity | exact Hb3]. }
  destruct (_ mod 2 =? 0).
  - set (addr := Z.lor _ _).
    assert (T : exists v b', Bus.Read addr b3 = Some (v, b') /\ consoleOk b').
    { destruct (Z_lt_le_dec addr 0) as [Hneg|Hpos];
        [|apply Bus_Read_ok; assumption].
      (* a negative address would fall in the RAM range *)
      unfold Bus.Read. destruct (Z.ltb_spec addr 0x2000); [|lia].
      rewrite aget_in_range.
      - cbv beta iota delta [bind]. do 2 eexists. split; [reflexivity | exact Hb3].
      - change 0x07FF with (Z.ones 11). rewrite Z.land_ones by lia.
        apply Z.mod_pos_bound. lia. }
    destruct T as (v & b' & -> & Hb'). cbv beta iota zeta delta [bind].
    destruct (_ =? _); eexists; (split; [reflexivity | exact Hb']).
  - destruct (WriteCPURegister_ok 0x2004 (Bus.dmaData b3) _ (consoleOk_ppu _ Hb3)
                ltac:(left; lia)) as (p' & -> & Hp').
    cbv beta iota zeta delta [bind].
    pose proof (consoleOk_set_ppu p' b3 Hp' Hb3) as Hb4.
    destruct (_ =? _); eexists; (split; [reflexivity | exact Hb4]).
Qed.

Lemma LoadFromBytes_mapper (data : list Z) (cart : Cartridge.Cartridge.t) :
  Cartridge.LoadFromBytes data = Some (inr cart) ->
  mapper_ok (Cartridge.GetMapper cart).
Proof.
  unfold Cartridge.LoadFromBytes. intros H.
  repeat step_some; try discriminate.
  all: match goal with
       | H : match Cartridge.createMapper ?i ?a ?b ?c with _ => _ end = _ |- _ =>
           destruct (Cartridge.createMapper i a b c) as [e|m] eqn:Ec;
             [discriminate H | injection H as <-]
       end.
  all: eapply createMapper_ok; exact Ec.
Qed.

Lemma NewFromCartridge_ok (cart : Cartridge.Cartridge.t) :
  mapper_ok (Cartridge.GetMapper cart) ->
  Cartridge.GetMirroring cart <> MirrorFourScreen ->
  consoleOk (NES.NewFromCartridge cart).
Proof.
  intros Hok Hm. unfold NES.NewFromCartridge, consoleOk. simpl.
  split; [eexists; split; [reflexivity | exact Hok]|].
  split; [exact Hm|].
  split; [|unfold Controller.NewController; simpl; lia].
  split; [simpl; lia|]. intros i v. simpl. rewrite lookup_empty. discriminate.
Qed.

Lemma SetButton_index (button : Z) (pressed : bool) (c c' : Controller.t) :
  Controller.SetButton button pressed c = Some c' ->
  Controller.index c' = Controller.index c.
Proof.
  unfold Controller.SetButton. intros H. repeat step_some; reflexivity.
Qed.

Lemma running_ok (b0 b : Bus.NESBus AnyMapper) :
  consoleOk b0 -> running b0 b -> consoleOk b.
Proof.
  intros H0. induction 1 as [ | addr v b b' _ IH Ha Hr
                            | addr data b b' _ IH Ha Hd Hw
                            | b b' _ IH Hc | b _ IH | b _ IH | b _ IH
                            | button pressed b c _ IH Hbt Hs
                            | button pressed b c _ IH Hbt Hs ].
  - exact H0.
  - destruct (Bus_Read_ok addr b IH ltac:(lia)) as (v' & b'' & E & Hb).
    rewrite E in Hr. injection Hr as _ <-. exact Hb.
  - destruct (Bus_Write_ok addr data b IH ltac:(lia) Hd) as (b'' & E & Hb).
    rewrite E in Hw. injection Hw as <-. exact Hb.
  - destruct (Bus_Clock_ok b IH) as (b'' & E & Hb).
    rewrite E in Hc. injection Hc as <-. exact Hb.
  - exact IH.
  - destruct IH as (H1 & H2 & H3 & H4 & H5 & H6).
    split; [exact H1|]. split; [exact H2|]. split; [exact H3|].
    split; [simpl; lia|]. split; assumption.
  - exact IH.
  - destruct IH as (H1 & H2 & H3 & H4 & H5 & H6).
    split; [exact H1|]. split; [exact H2|]. split; [exact H3|].
    split; [exact H4|]. split; [|exact H6].
    simpl. rewrite (SetButton_index _ _ _ _ Hs). exact H5.
  - destruct IH as (H1 & H2 & H3 & H4 & H5 & H6).
    split; [exact H1|]. split; [exact H2|]. split; [exact H3|].
    split; [exact H4|]. split; [exact H5|].
    simpl. rewrite (SetButton_index _ _ _ _ Hs). exact H6.
Qed.

(** X22: the console never panics.  A cartridge that [LoadFromBytes]
    accepts and whose header does not ask for four-screen mirroring is
    put into a console by [NewFromCartridge]; whatever the CPU then
    reads and writes on the bus (bytes, at 16-bit addresses), however
    often the bus is clocked, the NMI line polled, the PPU reset, the
    frame-complete flag cleared and the buttons set, the next bus read,
    bus write and clock all return: no array of the bus, the PPU, the
    controllers or the mapper is indexed out of range. *)
Theorem X22_console_never_panics (data : list Z) (cart : Cartridge.Cartridge.t)
    (b : Bus.NESBus AnyMapper) (addr value : Z) :
  Cartridge.LoadFromBytes data = Some (inr cart) ->
  Cartridge.GetMirroring cart <> MirrorFourScreen ->
  running (NES.NewFromCartridge cart) b ->
  0 <= addr < 0x10000 -> 0 <= value < 256 ->
  ok (Bus.Read addr b) && ok (Bus.Write addr value b) && ok (Bus.Clock b) = true.
Proof.
  intros Hl Hm Hr Ha Hv.
  assert (Hb : consoleOk b).
  { eapply running_ok; [|exact Hr].
    apply NewFromCartridge_ok; [eapply LoadFromBytes_mapper; exact Hl | exact Hm]. }
  destruct (Bus_Read_ok addr b Hb ltac:(lia)) as (v & b1 & -> & _).
  destruct (Bus_Write_ok addr value b Hb ltac:(lia) Hv) as (b2 & -> & _).
  destruct (Bus_Clock_ok b Hb) as (b3 & -> & _).
  reflexivity.
Qed.

(** An MMC3 cartridge with one PRG and one CHR bank and horizontal
    mirroring, after the CPU has started an OAM DMA from page 2: the read
    of the reset vector, a write to the bank-data register and the next
    clock (a DMA cycle) return. *)
Lemma X22_console_never_panics_witness :
  let data := inesImage 1 1 0x40 0 (make 8) [] (make 16384) (make 8192) [] in
  let cart :=
    Cartridge.Cartridge.mk
      (IsMapper4 (Mapper4.NewMapper4 (make 16384) (make 8192) MirrorHorizontal))
      4 1 1 MirrorHorizontal false false in
  let b :=
    Bus.set_dmaTransfer true
      (Bus.set_dmaAddr 0 (Bus.set_dmaPage 2 (NES.NewFromCartridge cart))) in
  Cartridge.LoadFromBytes data = Some (inr cart) /\
  Bus.Write 0x4014 0x02 (NES.NewFromCartridge cart) = Some b /\
  ok (Bus.Read 0xFFFC b) && ok (Bus.Write 0x8001 0xFF b) && ok (Bus.Clock b) = true.
Proof.
  intros data cart b.
  assert (Hl : Cartridge.LoadFromBytes data = Some (inr cart))
    by (vm_compute; reflexivity).
  split; [exact Hl|]. split; [reflexivity|].
  apply (X22_console_never_panics data cart b 0xFFFC 0xFF Hl);
    [discriminate | | lia | lia].
  eapply (run_Write _ 0x4014 0x02); [apply run_start | lia | lia | reflexivity].
Defined.

(** ** What holds of the PPU in every state of the console *)

Section Invariant.

Context {M : Type} {mapperM : Mapper M}.

Variable P : PPU M -> Prop.

Hypothesis P_Clock : forall p p', Clock p = Some p' -> P p -> P p'.
Hypothesis P_Write :
  forall addr v p p', WriteCPURegister addr v p = Some p' -> P p -> P p'.
Hypothesis P_Read :
  forall addr v p p', ReadCPURegister addr p = Some (v, p') -> P p -> P p'.
Hypothesis P_mapper : forall m p, P p -> P (set_mapper m p).
Hypothesis P_nmi : forall p, P p -> P (set_nmiOutput false p).
Hypothesis P_Reset : forall p, P p -> P (Reset p).
Hypothesis P_Clear : forall p, P p -> P (ClearFrameComplete p).

Lemma Bus_Read_invariant (addr v : Z) (b b' : Bus.NESBus M) :
  Bus.Read addr b = Some (v, b') -> P (Bus.ppu b) -> P (Bus.ppu b').
Proof.
  unfold Bus.Read. intros H Hp.
  destruct (addr <? 0x2000).
  { apply bind_Some in H as (x & _ & H). injection H as _ <-. exact Hp. }
  destruct (addr <? 0x4000).
  { apply bind_Some in H as ([x p'] & Hr & H). injection H as _ <-.
    simpl. eapply P_Read; eassumption. }
  destruct (addr =? 0x4016).
  { apply bind_Some in H as ([x c] & _ & H). injection H as _ <-. exact Hp. }
  destruct (addr =? 0x4017).
  { apply bind_Some in H as ([x c] & _ & H). injection H as _ <-. exact Hp. }
  destruct (0x4020 <=? addr); [|injection H as _ <-; exact Hp].
  destruct (mapper (Bus.ppu b)); [|discriminate].
  apply bind_Some in H as (x & _ & H). injection H as _ <-. exact Hp.
Qed.

Lemma Bus_Write_invariant (addr data : Z) (b b' : Bus.NESBus M) :
  Bus.Write addr data b = Some b' -> P (Bus.ppu b) -> P (Bus.ppu b').
Proof.
  unfold Bus.Write. intros H Hp.
  destruct (addr <? 0x2000).
  { apply bind_Some in H as (x & _ & H). injection H as <-. exact Hp. }
  destruct (addr <? 0x4000).
  { apply bind_Some in H as (p' & Hw & H). injection H as <-.
    simpl. eapply P_Write; eassumption. }
  destruct (addr =? 0x4014); [injection H as <-; exact Hp|].
  destruct (addr =? 0x4016); [injection H as <-; exact Hp|].
  destruct (0x4020 <=? addr); [|injection H as <-; exact Hp].
  destruct (mapper (Bus.ppu b)); [|discriminate].
  apply bind_Some in H as (x & _ & H). injection H as <-.
  simpl. apply P_mapper. exact Hp.
Qed.

Lemma Bus_Clock_invariant (b b' : Bus.NESBus M) :
  Bus.Clock b = Some b' -> P (Bus.ppu b) -> P (Bus.ppu b').
Proof.
  unfold Bus.Clock. intros H Hp.
  apply bind_Some in H as (p1 & H1 & H).
  apply bind_Some in H as (p2 & H2 & H).
  apply bind_Some in H as (p3 & H3 & H).
  assert (Hp3 : P p3) by eauto.
  cbv zeta in H. simpl Bus.dmaTransfer in H. simpl Bus.dmaDummy in H.
  destruct (Bus.dmaTransfer b); [|injection H as <-; exact Hp3].
  destruct (Bus.dmaDummy b); [injection H as <-; exact Hp3|].
  apply bind_Some in H as (b4 & H4 & H).
  assert (Hp4 : P (Bus.ppu b4)).
  { simpl Bus.dmaAddr in H4. destruct (_ =? _) in H4.
    - cbv zeta in H4. apply bind_Some in H4 as ([v b5] & H5 & H4).
      injection H4 as <-. simpl.
      eapply Bus_Read_invariant; [exact H5 | exact Hp3].
    - apply bind_Some in H4 as (p5 & H5 & H4). injection H4 as <-. simpl.
      eapply P_Write; [exact H5 | exact Hp3]. }
  destruct (_ =? _) in H; injection H as <-; exact Hp4.
Qed.

Lemma running_invariant (b0 b : Bus.NESBus M) :
  running b0 b -> P (Bus.ppu b0) -> P (Bus.ppu b).
Proof.
  intros Hr H0. induction Hr as [ | addr v b b' _ IH Ha Hr
                                | addr data b b' _ IH Ha Hd Hw
                                | b b' _ IH Hc | b _ IH | b _ IH | b _ IH
                                | button pressed b c _ IH Hbt Hs
                                | button pressed b c _ IH Hbt Hs ].
  - exact H0.
  - eapply Bus_Read_invariant; eassumption.
  - eapply Bus_Write_invariant; eassumption.
  - eapply Bus_Clock_invariant; eassumption.
  - simpl. apply P_nmi, IH.
  - simpl. apply P_Reset, IH.
  - simpl. apply P_Clear, IH.
  - exact IH.
  - exact IH.
Qed.

End Invariant.

Section Steady.

Context {M : Type} {mapperM : Mapper M}.

Lemma ppuWrite_bounded (addr value : Z) (p p' : PPU M) :
  ppuWrite addr value p = Some p' -> bounded p -> bounded p'.
Proof. unfold ppuWrite. intros H Hb. repeat step_some; exact Hb. Qed.

Lemma WriteCPURegister_bounded (addr value : Z) (p p' : PPU M) :
  WriteCPURegister addr value p = Some p' -> bounded p -> bounded p'.
Proof.
  unfold WriteCPURegister. intros H Hb. repeat step_some; try exact Hb.
  match goal with
  | E : ppuWrite _ _ _ = Some _ |- _ => exact (ppuWrite_bounded _ _ _ _ E Hb)
  end.
Qed.

Lemma ReadCPURegister_bounded (addr v : Z) (p p' : PPU M) :
  ReadCPURegister addr p = Some (v, p') -> bounded p -> bounded p'.
Proof.
  unfold ReadCPURegister. intros H Hb.
  destruct (addr =? 0x2002); [injection H as _ <-; exact Hb|].
  destruct (addr =? 0x2004).
  { apply bind_Some in H as (x & _ & H). injection H as _ <-. exact Hb. }
  destruct (addr =? 0x2007).
  { apply bind_Some in H as (x & _ & H). injection H as _ <-. exact Hb. }
  injection H as _ <-. exact Hb.
Qed.

Lemma running_bounded (b0 b : Bus.NESBus M) :
  running b0 b -> bounded (Bus.ppu b0) -> bounded (Bus.ppu b).
Proof.
  apply (running_invariant bounded).
  - apply Clock_bounded.
  - apply WriteCPURegister_bounded.
  - apply ReadCPURegister_bounded.
  - intros m p H. exact H.
  - intros p H. exact H.
  - intros p H. exact H.
  - intros p H. exact H.
Qed.

Lemma ppuWrite_mirroring (addr value : Z) (p p' : PPU M) :
  ppuWrite addr value p = Some p' -> mirroringMode p' = mirroringMode p.
Proof. unfold ppuWrite. intros H. repeat step_some; reflexivity. Qed.

Lemma WriteCPURegister_mirroring (addr value : Z) (p p' : PPU M) :
  WriteCPURegister addr value p = Some p' -> mirroringMode p' = mirroringMode p.
Proof.
  unfold WriteCPURegister. intros H. repeat step_some; try reflexivity.
  simpl. eapply ppuWrite_mirroring; eassumption.
Qed.

Lemma ReadCPURegister_mirroring (addr v : Z) (p p' : PPU M) :
  ReadCPURegister addr p = Some (v, p') -> mirroringMode p' = mirroringMode p.
Proof.
  unfold ReadCPURegister. intros H.
  destruct (addr =? 0x2002); [injection H as _ <-; reflexivity|].
  destruct (addr =? 0x2004).
  { apply bind_Some in H as (x & _ & H). injection H as _ <-. reflexivity. }
  destruct (addr =? 0x2007).
  { apply bind_Some in H as (x & _ & H). injection H as _ <-. reflexivity. }
  injection H as _ <-. reflexivity.
Qed.

Lemma Clock_mirroring (p p' : PPU M) :
  Clock p = Some p' -> mirroringMode p' = mirroringMode p.
Proof.
  intros H. apply Clock_inv in H as (q & K & ->).
  destruct K as (_ & _ & _ & _ & _ & _ & _ & Km & _).
  rewrite <- Km. unfold advanceTiming.
  repeat match goal with |- context [if ?c then _ else _] => destruct c end;
    reflexivity.
Qed.

Lemma running_mirroring (b0 b : Bus.NESBus M) :
  running b0 b -> mirroringMode (Bus.ppu b) = mirroringMode (Bus.ppu b0).
Proof.
  intros Hr.
  apply (running_invariant (fun p => mirroringMode p = mirroringMode (Bus.ppu b0)))
    with (b0 := b0); try exact Hr; try reflexivity.
  - intros p p' H <-. apply Clock_mirroring, H.
  - intros addr v p p' H <-. eapply WriteCPURegister_mirroring, H.
  - intros addr v p p' H <-. eapply ReadCPURegister_mirroring, H.
  - intros m p H. exact H.
  - intros p H. exact H.
  - intros p H. exact H.
  - intros p H. exact H.
Qed.

(** A sequence of CPU writes is a run of the console. *)
Lemma busWrites_running (b0 : Bus.NESBus M) (ws : list (Z * Z)) :
  forall b b' : Bus.NESBus M,
  Forall (fun w => 0 <= fst w < 0x10000 /\ 0 <= snd w < 256) ws ->
  running b0 b -> busWrites ws b = Some b' -> running b0 b'.
Proof.
  induction ws as [|[addr data] ws IH]; intros b b' Hws Hr H; simpl in H.
  - injection H as <-. exact Hr.
  - apply bind_Some in H as (b1 & H1 & H).
    inversion Hws as [|w ws' [Ha Hd] Hws']; subst.
    apply (IH b1 b' Hws'); [|exact H].
    eapply run_Write; eassumption.
Qed.

End Steady.

Lemma HardwarePalette_lookup (v : Z) :
  0 <= v < 64 -> exists c : Palette.Color, Palette.HardwarePalette !! Z.to_nat v = Some c.
Proof.
  intros H. apply lookup_lt_is_Some_2.
  change (length Palette.HardwarePalette) with 64%nat. lia.
Qed.

(** X23: every pixel of the frame buffer is a valid palette index.  In
    every state of a console built by [NewFromCartridge], whatever the
    cartridge, each of the 256 x 240 entries of the array that
    [GetFrameBuffer] returns is below 64, so the look-up in the 64-entry
    [HardwarePalette] that the front ends do with it finds a colour. *)
Theorem X23_frame_buffer_holds_palette_indices (cart : Cartridge.Cartridge.t)
    (b : Bus.NESBus AnyMapper) (i : Z) :
  running (NES.NewFromCartridge cart) b ->
  0 <= i < ScreenWidth * ScreenHeight ->
  exists (v : Z) (c : Palette.Color),
    aget (ScreenWidth * ScreenHeight) (GetFrameBuffer (Bus.GetPPU b)) i = Some v /\
    0 <= v < 64 /\
    Palette.HardwarePalette !! Z.to_nat v = Some c.
Proof.
  intros Hr Hi.
  assert (Hb : bounded (Bus.ppu b)).
  { apply (running_bounded _ _ Hr). split; [simpl; lia|].
    intros j v. simpl. rewrite lookup_empty. discriminate. }
  destruct Hb as [_ Hp]. unfold Bus.GetPPU, GetFrameBuffer.
  rewrite aget_in_range by exact Hi.
  assert (Hv : 0 <= default 0 (frameBuffer (Bus.ppu b) !! i) < 64).
  { destruct (frameBuffer (Bus.ppu b) !! i) as [v|] eqn:E; simpl; [|lia].
    apply (Hp i v E). }
  destruct (HardwarePalette_lookup _ Hv) as [c Hc].
  exists (default 0 (frameBuffer (Bus.ppu b) !! i)), c. auto.
Qed.

(** X24: the nametable mirroring of the PPU is the one of the iNES
    header for good.  [NewFromCartridge] copies it from the cartridge
    once, and no bus access, clock or reset changes it afterwards: the
    mirroring that the MMC1, MMC3 and AxROM registers select, and that
    the mappers report through [GetMirroring], never reaches the PPU. *)
Theorem X24_mirroring_fixed_by_header (cart : Cartridge.Cartridge.t)
    (b : Bus.NESBus AnyMapper) :
  running (NES.NewFromCartridge cart) b ->
  mirroringMode (Bus.GetPPU b) = Cartridge.GetMirroring cart.
Proof.
  intros Hr. unfold Bus.GetPPU. rewrite (running_mirroring _ _ Hr). reflexivity.
Qed.

(** An NROM console whose CPU has written $21 to the backdrop entry of
    the palette: after one clock of the bus the first pixel of the frame
    buffer is $21, and the hardware palette has a colour for it. *)
Lemma X23_frame_buffer_holds_palette_indices_witness :
  let cart :=
    Cartridge.Cartridge.mk (IsMapper0 (Mapper0.NewMapper0 [] [0] MirrorHorizontal))
      0 0 0 MirrorHorizontal false false in
  exists b1 b : Bus.NESBus AnyMapper,
    busWrites [(0x2006, 0x3F); (0x2006, 0x00); (0x2007, 0x21)]
      (NES.NewFromCartridge cart) = Some b1 /\
    Bus.Clock b1 = Some b /\
    aget (ScreenWidth * ScreenHeight) (GetFrameBuffer (Bus.GetPPU b)) 0 = Some 0x21 /\
    exists (v : Z) (c : Palette.Color),
      aget (ScreenWidth * ScreenHeight) (GetFrameBuffer (Bus.GetPPU b)) 0 = Some v /\
      0 <= v < 64 /\
      Palette.HardwarePalette !! Z.to_nat v = Some c.
Proof.
  intros cart.
  evar (b1 : Bus.NESBus AnyMapper).
  assert (E1 : busWrites [(0x2006, 0x3F); (0x2006, 0x00); (0x2007, 0x21)]
                 (NES.NewFromCartridge cart) = Some b1)
    by (subst b1; vm_compute; reflexivity).
  evar (b : Bus.NESBus AnyMapper).
  assert (E2 : Bus.Clock b1 = Some b) by (subst b b1; vm_compute; reflexivity).
  exists b1, b.
  split; [exact E1|]. split; [exact E2|].
  split; [vm_compute; reflexivity|].
  apply (X23_frame_buffer_holds_palette_indices cart).
  - apply (run_Clock _ b1 b); [|exact E2].
    apply (busWrites_running _ [(0x2006, 0x3F); (0x2006, 0x00); (0x2007, 0x21)]
             (NES.NewFromCartridge cart) b1);
      [repeat constructor; simpl; lia | apply run_start | exact E1].
  - vm_compute. split; [discriminate | reflexivity].
Defined.

(** An AxROM console after the CPU has written $10 to $8000: the mapper
    reports single-screen mirroring from the upper nametable, and the PPU
    still mirrors horizontally, as the header said. *)
Lemma X24_mirroring_fixed_by_header_witness :
  let cart :=
    Cartridge.Cartridge.mk (IsMapper7 (Mapper7.NewMapper7 [] [] MirrorHorizontal))
      7 0 0 MirrorHorizontal false false in
  let b0 := NES.NewFromCartridge cart in
  let m :=
    Mapper7.set_mirroring MirrorSingleHigh
      (Mapper7.set_prgBank 0 (Mapper7.NewMapper7 [] [] MirrorHorizontal)) in
  let b := Bus.set_ppu (set_mapper (Some (IsMapper7 m)) (Bus.ppu b0)) b0 in
  Bus.Write 0x8000 0x10 b0 = Some b /\
  option_map GetMirroring (mapper (Bus.GetPPU b)) = Some MirrorSingleHigh /\
  mirroringMode (Bus.GetPPU b) = MirrorHorizontal.
Proof.
  intros cart b0 m b.
  assert (Hw : Bus.Write 0x8000 0x10 b0 = Some b) by (vm_compute; reflexivity).
  split; [exact Hw|]. split; [vm_compute; reflexivity|].
  apply (X24_mirroring_fixed_by_header cart).
  eapply (run_Write _ 0x8000 0x10); [apply run_start | lia | lia | exact Hw].
Defined.

(** ** VBlank and the NMI *)

Lemma VBlank_SetSprite0Hit (b : bool) (s : Z) :
  PPUStatus.VBlank (PPUStatus.SetSprite0Hit b s) = PPUStatus.VBlank s.
Proof.
  pose proof (SetSprite0Hit_flags b s) as H. unfold statusFlags in H.
  injection H as H _ _ _. exact H.
Qed.

Lemma VBlank_SetSpriteOverflow (b : bool) (s : Z) :
  PPUStatus.VBlank (PPUStatus.SetSpriteOverflow b s) = PPUStatus.VBlank s.
Proof.
  pose proof (SetSpriteOverflow_flags b s) as H. unfold statusFlags in H.
  injection H as H _ _ _. exact H.
Qed.

Lemma VBlank_lor_64 (s : Z) : PPUStatus.VBlank (Z.lor s 64) = PPUStatus.VBlank s.
Proof. exact (VBlank_SetSprite0Hit true s). Qed.

Lemma VBlank_lor_32 (s : Z) : PPUStatus.VBlank (Z.lor s 32) = PPUStatus.VBlank s.
Proof. exact (VBlank_SetSpriteOverflow true s). Qed.

Ltac sameVBlank_done :=
  unfold loadBackgroundShifters, updateShifters in *;
  repeat match goal with
         | |- context [if ?c then _ else _] => destruct c
         end;
  unfold sameVBlank; cbn [status nmiOutput set_status set_nmiOutput];
  simpl status; simpl nmiOutput;
  rewrite ?VBlank_SetSprite0Hit, ?VBlank_SetSpriteOverflow,
    ?VBlank_lor_64, ?VBlank_lor_32;
  split; reflexivity.

Section VBlank.

Context {M : Type} {mapperM : Mapper M}.

Lemma sameVBlank_refl (p : PPU M) : sameVBlank p p.
Proof. split; reflexivity. Qed.

Lemma sameVBlank_trans (p q r : PPU M) :
  sameVBlank p q -> sameVBlank q r -> sameVBlank p r.
Proof. intros [H1 H2] [H3 H4]. split; congruence. Qed.

Lemma spriteEvaluation_loop_sameVBlank (n : nat) :
  forall (i h : Z) (p p' : PPU M),
  spriteEvaluation_loop n i h p = Some p' -> sameVBlank p p'.
Proof.
  induction n as [|n IH]; intros i h p p' H; simpl in H.
  - injection H as <-. apply sameVBlank_refl.
  - apply bind_Some in H as (y & _ & H).
    destruct (_ <? _) in H; [|eapply IH; exact H].
    destruct (_ <=? _) in H.
    { injection H as <-. split; [apply VBlank_lor_32 | reflexivity]. }
    repeat step_some.
    all: match goal with
         | H : spriteEvaluation_loop _ _ _ _ = Some _ |- _ => apply IH in H
         end.
    all: eapply sameVBlank_trans; [|eassumption]; destruct (i =? 0);
      split; reflexivity.
Qed.

Lemma spriteEvaluation_sameVBlank (p p' : PPU M) :
  spriteEvaluation p = Some p' -> sameVBlank p p'.
Proof.
  unfold spriteEvaluation. intros H.
  destruct (negb _) in H; [injection H as <-; split; reflexivity|].
  apply spriteEvaluation_loop_sameVBlank in H.
  eapply sameVBlank_trans; [|exact H]. split; reflexivity.
Qed.

Lemma spriteFetching_loop_sameVBlank (n : nat) :
  forall (i h t : Z) (p p' : PPU M),
  spriteFetching_loop n i h t p = Some p' -> sameVBlank p p'.
Proof.
  induction n as [|n IH]; intros i h t p p' H; simpl in H.
  - injection H as <-. apply sameVBlank_refl.
  - repeat step_some.
    all: match goal with
         | H : spriteFetching_loop _ _ _ _ _ = Some _ |- _ => apply IH in H
         end.
    all: eapply sameVBlank_trans; [|eassumption]; split; reflexivity.
Qed.

Lemma renderPixel_sameVBlank (p p' : PPU M) :
  renderPixel p = Some p' -> sameVBlank p p'.
Proof.
  unfold renderPixel. intros H.
  repeat step_some; try (split; reflexivity).
  all: sameVBlank_done.
Qed.

Lemma backgroundFetch_sameVBlank (p p' : PPU M) :
  backgroundFetch p = Some p' -> sameVBlank p p'.
Proof.
  unfold backgroundFetch. intros H.
  repeat step_some; try sameVBlank_done.
Qed.

(** The pre-render and visible scanlines after their first block. *)
Lemma activeScanline_sameVBlank (p p' : PPU M) :
  activeScanline p = Some p' -> sameVBlank (clearFlags p) p'.
Proof.
  unfold activeScanline. intros H.
  apply bind_Some in H as (q1 & H1 & H).
  apply bind_Some in H as (q2 & H2 & H).
  apply bind_Some in H as (q3 & H3 & H).
  apply bind_Some in H as (q4 & H4 & H).
  injection H as <-.
  assert (S1 : sameVBlank (clearFlags p) q1).
  { unfold backgroundCycles in H1. destruct (_ || _) in H1.
    - apply backgroundFetch_sameVBlank in H1.
      eapply sameVBlank_trans; [|exact H1]. sameVBlank_done.
    - injection H1 as <-. apply sameVBlank_refl. }
  assert (S2 : sameVBlank q1 q2).
  { unfold resetHorizontal in H2. repeat step_some.
    all: try (apply spriteEvaluation_sameVBlank in H2;
              eapply sameVBlank_trans; [|exact H2]).
    all: unfold incrementVertical; sameVBlank_done. }
  assert (S3 : sameVBlank q2 q3).
  { unfold spritePatternFetch in H3. repeat step_some; try apply sameVBlank_refl.
    eapply spriteFetching_loop_sameVBlank; eassumption. }
  assert (S4 : sameVBlank q3 q4).
  { unfold superfluousFetch in H4. repeat step_some; split; reflexivity. }
  eapply sameVBlank_trans; [exact S1|]. eapply sameVBlank_trans; [exact S2|].
  eapply sameVBlank_trans; [exact S3|]. eapply sameVBlank_trans; [exact S4|].
  unfold restoreVertical. sameVBlank_done.
Qed.

Lemma advanceTiming_sameVBlank (p : PPU M) : sameVBlank p (advanceTiming p).
Proof. unfold advanceTiming. sameVBlank_done. Qed.

Lemma ppuWrite_nmiOutput (addr value : Z) (p p' : PPU M) :
  ppuWrite addr value p = Some p' -> nmiOutput p' = nmiOutput p.
Proof. unfold ppuWrite. intros H. repeat step_some; reflexivity. Qed.

Lemma WriteCPURegister_nmiOutput (addr value : Z) (p p' : PPU M) :
  WriteCPURegister addr value p = Some p' -> nmiOutput p' = nmiOutput p.
Proof.
  unfold WriteCPURegister. intros H. repeat step_some; try reflexivity.
  simpl. eapply ppuWrite_nmiOutput; eassumption.
Qed.

Lemma ReadCPURegister_nmiOutput (addr v : Z) (p p' : PPU M) :
  ReadCPURegister addr p = Some (v, p') -> nmiOutput p' = nmiOutput p.
Proof.
  unfold ReadCPURegister. intros H.
  destruct (addr =? 0x2002); [injection H as _ <-; reflexivity|].
  destruct (addr =? 0x2004).
  { apply bind_Some in H as (x & _ & H). injection H as _ <-. reflexivity. }
  destruct (addr =? 0x2007).
  { apply bind_Some in H as (x & _ & H). injection H as _ <-. reflexivity. }
  injection H as _ <-. reflexivity.
Qed.

Lemma advanceTiming_status (p : PPU M) :
  status (advanceTiming p) = status p /\ nmiOutput (advanceTiming p) = nmiOutput p.
Proof.
  unfold advanceTiming.
  repeat match goal with
         | |- context [if ?c then _ else _] => destruct c
         end; split; reflexivity.
Qed.

Lemma activeScanline_cycle1 (p : PPU M) :
  cycle p = 1 -> activeScanline p = Some (clearFlags p).
Proof.
  intros Hc. unfold activeScanline.
  assert (Cc : cycle (clearFlags p) = 1).
  { destruct (clearFlags_keeps p) as (_ & B & _). rewrite B. exact Hc. }
  set (q := clearFlags p) in *. clearbody q.
  assert (E1 : backgroundCycles q = Some q).
  { unfold backgroundCycles. rewrite Cc. reflexivity. }
  assert (E2 : incrementVertical q = q).
  { unfold incrementVertical. rewrite Cc. reflexivity. }
  assert (E3 : resetHorizontal q = Some q).
  { unfold resetHorizontal. rewrite Cc. reflexivity. }
  assert (E4 : spritePatternFetch q = Some q).
  { unfold spritePatternFetch. rewrite Cc. reflexivity. }
  assert (E5 : superfluousFetch q = Some q).
  { unfold superfluousFetch. rewrite Cc. reflexivity. }
  assert (E6 : restoreVertical q = q).
  { unfold restoreVertical. rewrite Cc. rewrite andb_false_r. reflexivity. }
  rewrite E1. cbv beta iota delta [bind]. rewrite E2, E3.
  cbv beta iota delta [bind]. rewrite E4. cbv beta iota delta [bind].
  rewrite E5. cbv beta iota delta [bind]. rewrite E6. reflexivity.
Qed.

Lemma clearFlags_flags (s : Z) :
  statusFlags
    (PPUStatus.SetSpriteOverflow false
       (PPUStatus.SetSprite0Hit false (PPUStatus.SetVBlank false s)))
  = (false, false, false, Z.land s 0x1F).
Proof.
  assert (F1 : statusFlags (PPUStatus.SetVBlank false s)
               = (false, PPUStatus.Sprite0Hit s, PPUStatus.SpriteOverflow s,
                  Z.land s 0x1F)) by apply SetVBlank_flags.
  set (y := PPUStatus.SetVBlank false s) in *.
  assert (F2 : statusFlags (PPUStatus.SetSprite0Hit false y)
               = (PPUStatus.VBlank y, false, PPUStatus.SpriteOverflow y,
                  Z.land y 0x1F)) by apply SetSprite0Hit_flags.
  set (x := PPUStatus.SetSprite0Hit false y) in *.
  rewrite SetSpriteOverflow_flags.
  unfold statusFlags in F1, F2.
  assert (A1 : PPUStatus.VBlank y = false) by congruence.
  assert (D1 : Z.land y 0x1F = Z.land s 0x1F) by congruence.
  assert (A2 : PPUStatus.VBlank x = PPUStatus.VBlank y) by congruence.
  assert (B2 : PPUStatus.Sprite0Hit x = false) by congruence.
  assert (D2 : Z.land x 0x1F = Z.land y 0x1F) by congruence.
  rewrite A2, A1, B2, D2, D1. reflexivity.
Qed.

Lemma clearFlags_idle (p : PPU M) :
  (scanline p, cycle p) <> (-1, 1) -> clearFlags p = p.
Proof.
  intros H. unfold clearFlags.
  destruct (Z.eqb_spec (scanline p) (-1)) as [Es|]; [|reflexivity].
  destruct (Z.eqb_spec (cycle p) 1) as [Ec|]; [|reflexivity].
  exfalso. apply H. rewrite Es, Ec. reflexivity.
Qed.

Lemma vblankStart_idle (p : PPU M) :
  (scanline p, cycle p) <> (241, 1) -> vblankStart p = p.
Proof.
  intros H. unfold vblankStart.
  destruct (Z.eqb_spec (scanline p) 241) as [Es|]; [|reflexivity].
  destruct (Z.eqb_spec (cycle p) 1) as [Ec|]; [|reflexivity].
  exfalso. apply H. rewrite Es, Ec. reflexivity.
Qed.

(** X25: when the VBlank flag and the NMI line change.  The tick at
    scanline 241, cycle 1 sets the VBlank flag, leaving the rest of
    PPUSTATUS alone, and raises the NMI line if PPUCTRL bit 7 is set; the
    tick at scanline -1, cycle 1 clears the three flags of PPUSTATUS and
    leaves the line alone; both ticks return.  Every other tick leaves
    the VBlank flag and the line as they were.  No register write or read
    touches the line, so setting PPUCTRL bit 7 while the VBlank flag is
    up raises no NMI. *)
Theorem X25_vblank_and_nmi (p : PPU M) :
  (scanline p = 241 -> cycle p = 1 ->
     exists p' : PPU M, Clock p = Some p' /\
       status p' = PPUStatus.SetVBlank true (status p) /\
       PPUStatus.VBlank (status p') = true /\
       nmiOutput p' = nmiOutput p || PPUControl.EnableNMI (control p)) /\
  (scanline p = -1 -> cycle p = 1 ->
     exists p' : PPU M, Clock p = Some p' /\
       statusFlags (status p') = (false, false, false, Z.land (status p) 0x1F) /\
       nmiOutput p' = nmiOutput p) /\
  (forall p' : PPU M, Clock p = Some p' ->
     (scanline p, cycle p) <> (241, 1) -> (scanline p, cycle p) <> (-1, 1) ->
     sameVBlank p p') /\
  (forall (addr value : Z) (p' : PPU M),
     WriteCPURegister addr value p = Some p' -> nmiOutput p' = nmiOutput p) /\
  (forall (addr v : Z) (p' : PPU M),
     ReadCPURegister addr p = Some (v, p') -> nmiOutput p' = nmiOutput p).
Proof.
  split; [|split; [|split; [|split]]].
  - intros Hs Hc. unfold Clock.
    assert (C1 : (0 <=? scanline p) && (scanline p <? 240)
                 && (1 <=? cycle p) && (cycle p <=? 256) = false)
      by (rewrite Hs; reflexivity).
    assert (C2 : (-1 <=? scanline p) && (scanline p <? 240) = false)
      by (rewrite Hs; reflexivity).
    rewrite C1. cbv beta iota delta [bind]. rewrite C2.
    eexists. split; [reflexivity|].
    destruct (advanceTiming_status (vblankStart p)) as [-> ->].
    unfold vblankStart. rewrite Hs, Hc.
    change ((241 =? 241) && (1 =? 1)) with true. cbv iota zeta.
    assert (Hv : PPUStatus.VBlank (PPUStatus.SetVBlank true (status p)) = true).
    { pose proof (SetVBlank_flags true (status p)) as F. unfold statusFlags in F.
      injection F as F _ _ _. exact F. }
    simpl control.
    destruct (PPUControl.EnableNMI (control p)); simpl status; simpl nmiOutput;
      rewrite ?orb_true_r, ?orb_false_r;
      (split; [reflexivity|]); (split; [exact Hv | reflexivity]).
  - intros Hs Hc. unfold Clock.
    assert (C1 : (0 <=? scanline p) && (scanline p <? 240)
                 && (1 <=? cycle p) && (cycle p <=? 256) = false)
      by (rewrite Hs; reflexivity).
    assert (C2 : (-1 <=? scanline p) && (scanline p <? 240) = true)
      by (rewrite Hs; reflexivity).
    rewrite C1. cbv beta iota delta [bind]. rewrite C2.
    rewrite (activeScanline_cycle1 p Hc). cbv beta iota delta [bind].
    eexists. split; [reflexivity|].
    destruct (advanceTiming_status (vblankStart (clearFlags p))) as [-> ->].
    rewrite vblankStart_idle.
    2:{ destruct (clearFlags_keeps p) as (A & _). rewrite A, Hs. intros [=]. }
    unfold clearFlags. rewrite Hs, Hc.
    change ((-1 =? -1) && (1 =? 1)) with true. cbv iota zeta.
    split; [apply clearFlags_flags | reflexivity].
  - intros p' H N1 N2. unfold Clock in H.
    apply bind_Some in H as (q1 & H1 & H).
    apply bind_Some in H as (q2 & H2 & H).
    injection H as <-.
    assert (S1 : sameVBlank p q1 /\ keeps p q1).
    { destruct (_ && _) in H1.
      - split; [apply renderPixel_sameVBlank | apply renderPixel_keeps]; exact H1.
      - injection H1 as <-. split; [apply sameVBlank_refl | apply keeps_refl]. }
    destruct S1 as [S1 (Ks1 & Kc1 & _)].
    assert (S2 : sameVBlank q1 q2 /\ keeps q1 q2).
    { destruct (_ && _) in H2.
      - split; [|apply activeScanline_keeps; exact H2].
        apply activeScanline_sameVBlank in H2.
        rewrite clearFlags_idle in H2 by (rewrite Ks1, Kc1; exact N2). exact H2.
      - injection H2 as <-. split; [apply sameVBlank_refl | apply keeps_refl]. }
    destruct S2 as [S2 (Ks2 & Kc2 & _)].
    rewrite vblankStart_idle by (rewrite Ks2, Kc2, Ks1, Kc1; exact N1).
    eapply sameVBlank_trans; [exact S1|]. eapply sameVBlank_trans; [exact S2|].
    apply advanceTiming_sameVBlank.
  - intros addr value p'. apply WriteCPURegister_nmiOutput.
  - intros addr v p'. apply ReadCPURegister_nmiOutput.
Qed.

End VBlank.

(** A PPU with PPUCTRL = $80 at scanline 241, cycle 1: the tick raises
    the VBlank flag and the NMI line.  With PPUCTRL = 0 the line stays
    low, and the write of $80 to PPUCTRL that follows, with the flag up,
    leaves it low. *)
Lemma X25_vblank_and_nmi_witness :
  let p0 : PPU Mapper0.t := set_cycle 1 (set_scanline 241 NewPPU) in
  (exists p' : PPU Mapper0.t,
     Clock (set_control 0x80 p0) = Some p' /\
     PPUStatus.VBlank (status p') = true /\ nmiOutput p' = true) /\
  (exists p' p'' : PPU Mapper0.t,
     Clock p0 = Some p' /\
     PPUStatus.VBlank (status p') = true /\ nmiOutput p' = false /\
     WriteCPURegister 0x2000 0x80 p' = Some p'' /\ nmiOutput p'' = false) /\
  (exists p' : PPU Mapper0.t,
     Clock (set_scanline 0 p0) = Some p' /\ sameVBlank (set_scanline 0 p0) p').
Proof.
  intros p0. split; [|split].
  - destruct (X25_vblank_and_nmi (set_control 0x80 p0)) as (H & _).
    destruct (H eq_refl eq_refl) as (p' & E & _ & V & N).
    exists p'. split; [exact E|]. split; [exact V|]. rewrite N. reflexivity.
  - destruct (X25_vblank_and_nmi p0) as (H & _).
    destruct (H eq_refl eq_refl) as (p' & E & _ & V & N).
    destruct (X25_vblank_and_nmi p') as (_ & _ & _ & W & _).
    exists p'. eexists. split; [exact E|]. split; [exact V|].
    split; [rewrite N; reflexivity|].
    split; [reflexivity|]. rewrite (W 0x2000 0x80 _ eq_refl), N. reflexivity.
  - destruct (X25_vblank_and_nmi (set_scanline 0 p0)) as (_ & _ & H & _).
    evar (p' : PPU Mapper0.t).
    assert (E : Clock (set_scanline 0 p0) = Some p')
      by (subst p' p0; vm_compute; reflexivity).
    exists p'. split; [exact E|].
    apply (H p' E); vm_compute; intros [=].
Defined.

(** ** The colour of a pixel *)

Section Colour.

Context {M : Type} {mapperM : Mapper M}.

Lemma palette_address_range (paletteIndex pixelValue : Z) :
  0 <= u16 (Z.lor (u8 (Z.shiftl paletteIndex 2)) (Z.land pixelValue 0x03)) < 256.
Proof.
  assert (H1 : 0 <= u8 (Z.shiftl paletteIndex 2) < 256)
    by (unfold u8; apply Z.mod_pos_bound; lia).
  assert (H2 : 0 <= Z.land pixelValue 0x03 < 4).
  { change 0x03 with (Z.ones 2). rewrite Z.land_ones by lia.
    apply Z.mod_pos_bound. lia. }
  assert (H3 : 0 <= Z.lor (u8 (Z.shiftl paletteIndex 2)) (Z.land pixelValue 0x03) < 256).
  { split; [apply Z.lor_nonneg; lia|].
    change 256 with (2 ^ 8).
    destruct (Z.eq_dec (Z.lor (u8 (Z.shiftl paletteIndex 2)) (Z.land pixelValue 3)) 0)
      as [->|Hne]; [lia|].
    apply Z.log2_lt_pow2; [pose proof (Z.lor_nonneg (u8 (Z.shiftl paletteIndex 2))
                                          (Z.land pixelValue 3)); lia|].
    rewrite Z.log2_lor by lia.
    apply Z.max_lub_lt.
    - destruct (Z.eq_dec (u8 (Z.shiftl paletteIndex 2)) 0) as [->|]; [simpl; lia|].
      apply Z.log2_lt_pow2; lia.
    - destruct (Z.eq_dec (Z.land pixelValue 3) 0) as [->|]; [simpl; lia|].
      apply Z.log2_lt_pow2; lia. }
  unfold u16. rewrite Z.mod_small by lia. exact H3.
Qed.

Lemma palette_address_small (paletteIndex pixelValue : Z) :
  0 <= paletteIndex < 8 -> 0 <= pixelValue < 4 ->
  u16 (Z.lor (u8 (Z.shiftl paletteIndex 2)) (Z.land pixelValue 0x03))
  = 4 * paletteIndex + pixelValue.
Proof.
  intros Hi Hp.
  assert (Hc : forall i, 0 <= i < 8 ->
    forallb (fun v => u16 (Z.lor (u8 (Z.shiftl i 2)) (Z.land v 0x03)) =? 4 * i + v)
            [0; 1; 2; 3] = true).
  { apply (all_below 8 (fun i =>
      forallb (fun v => u16 (Z.lor (u8 (Z.shiftl i 2)) (Z.land v 0x03)) =? 4 * i + v)
              [0; 1; 2; 3])). vm_compute. reflexivity. }
  specialize (Hc paletteIndex Hi). rewrite forallb_forall in Hc.
  apply Z.eqb_eq, Hc.
  assert (pixelValue = 0 \/ pixelValue = 1 \/ pixelValue = 2 \/ pixelValue = 3)
    as [->|[->|[->| ->]]] by lia; simpl; auto.
Qed.

Lemma mirrorPaletteAddress_slot (paletteIndex pixelValue : Z) :
  0 <= paletteIndex < 8 -> 0 <= pixelValue < 4 ->
  mirrorPaletteAddress (u16 (0x3F00 + (4 * paletteIndex + pixelValue)))
  = paletteSlot paletteIndex pixelValue.
Proof.
  intros Hi Hp. unfold mirrorPaletteAddress, paletteSlot, u16.
  rewrite (Z.mod_small (0x3F00 + _)) by lia.
  replace (0x3F00 + (4 * paletteIndex + pixelValue) - 0x3F00)
    with (4 * paletteIndex + pixelValue) by lia.
  rewrite (Z.mod_small (4 * paletteIndex + pixelValue) 65536) by lia.
  rewrite (Z.mod_small (4 * paletteIndex + pixelValue) 32) by lia.
  replace ((4 * paletteIndex + pixelValue) mod 4) with pixelValue.
  2:{ rewrite Z.add_comm, Z.mul_comm, Z.mod_add by lia.
      symmetry. apply Z.mod_small. lia. }
  destruct (Z.leb_spec 16 (4 * paletteIndex + pixelValue));
    destruct (Z.leb_spec 4 paletteIndex);
    destruct (Z.eqb_spec pixelValue 0); simpl; lia.
Qed.

(** X26: [GetColorFromPalette] returns a colour for every palette
    number, pixel value and PPU state: it reads palette RAM, never the
    cartridge or the nametables, and masks the byte to the 64 entries of
    the hardware palette.  For palette 0 to 7 and pixel value 0 to 3 the
    byte is the one at position 4 * palette + pixel of palette RAM, and
    pixel 0 of the sprite palettes 4 to 7 is the byte of the background
    palette four below. *)
Theorem X26_GetColorFromPalette (paletteIndex pixelValue : Z) (p : PPU M) :
  (exists c : Palette.Color, GetColorFromPalette paletteIndex pixelValue p = Some c) /\
  (0 <= paletteIndex < 8 -> 0 <= pixelValue < 4 ->
   GetColorFromPalette paletteIndex pixelValue p =
   Palette.HardwarePalette !!
     Z.to_nat (Z.land (default 0 (paletteRAM p !! paletteSlot paletteIndex pixelValue))
                      0x3F)).
Proof.
  assert (Hm : forall c : Z, 0 <= Z.land c 0x3F < 64).
  { intros c. change 0x3F with (Z.ones 6). rewrite Z.land_ones by lia.
    apply Z.mod_pos_bound. lia. }
  assert (Hlen : Z.of_nat (length Palette.HardwarePalette) = 64) by reflexivity.
  pose proof (palette_address_range paletteIndex pixelValue) as Ha.
  split.
  - unfold GetColorFromPalette. cbv zeta.
    set (a := u16 (Z.lor _ _)) in *.
    assert (Hu : 0x3F00 <= u16 (0x3F00 + a) < 0x4000)
      by (unfold u16; rewrite Z.mod_small by lia; lia).
    rewrite ppuRead_palette by exact Hu.
    rewrite aget_in_range by apply mirrorPaletteAddress_range.
    cbv beta iota delta [bind].
    rewrite bool_decide_eq_true_2 by (rewrite Hlen; apply Hm).
    apply HardwarePalette_lookup, Hm.
  - intros Hi Hp. unfold GetColorFromPalette. cbv zeta.
    rewrite palette_address_small by assumption.
    assert (Hu : 0x3F00 <= u16 (0x3F00 + (4 * paletteIndex + pixelValue)) < 0x4000)
      by (unfold u16; rewrite Z.mod_small by lia; lia).
    rewrite ppuRead_palette by exact Hu.
    rewrite aget_in_range by apply mirrorPaletteAddress_range.
    cbv beta iota delta [bind].
    rewrite bool_decide_eq_true_2 by (rewrite Hlen; apply Hm).
    rewrite mirrorPaletteAddress_slot by assumption. reflexivity.
Qed.

End Colour.

(** After $21 is written to $3F04, pixel 0 of sprite palette 5 has the
    colour 33 of the hardware palette. *)
Lemma X26_GetColorFromPalette_witness :
  exists p : PPU Mapper0.t,
    ppuWrites [(0x2006, 0x3F); (0x2006, 0x04); (0x2007, 0x21)] NewPPU = Some p /\
    GetColorFromPalette 5 0 p = Some (Palette.mkColor 76 154 236).
Proof.
  evar (p : PPU Mapper0.t).
  assert (E : ppuWrites [(0x2006, 0x3F); (0x2006, 0x04); (0x2007, 0x21)] NewPPU
              = Some p) by (subst p; vm_compute; reflexivity).
  exists p. split; [exact E|].
  destruct (X26_GetColorFromPalette 5 0 p) as [_ H].
  rewrite (H ltac:(lia) ltac:(lia)). vm_compute. reflexivity.
Defined.

(** ** Horizontal flip *)

(** X27: [reverseByte] mirrors a byte: bit [i] of the result is bit
    [7 - i] of the argument, the result is a byte, and reversing twice
    gives the byte back. *)
Theorem X27_reverseByte (b i : Z) :
  0 <= b < 256 -> 0 <= i < 8 ->
  0 <= reverseByte b < 256 /\
  Z.testbit (reverseByte b) i = Z.testbit b (7 - i) /\
  reverseByte (reverseByte b) = b.
Proof.
  intros Hb Hi.
  pose (check := fun b : Z =>
    (0 <=? reverseByte b) && (reverseByte b <? 256)
    && (reverseByte (reverseByte b) =? b)
    && forallb (fun i => Bool.eqb (Z.testbit (reverseByte b) i) (Z.testbit b (7 - i)))
               [0; 1; 2; 3; 4; 5; 6; 7]).
  assert (H : check b = true).
  { apply (all_below 256 check); [vm_compute; reflexivity | exact Hb]. }
  unfold check in H.
  apply andb_true_iff in H as [H H4]. apply andb_true_iff in H as [H H3].
  apply andb_true_iff in H as [H1 H2].
  apply Z.leb_le in H1. apply Z.ltb_lt in H2. apply Z.eqb_eq in H3.
  split; [lia|]. split; [|exact H3].
  rewrite forallb_forall in H4. apply eqb_prop, H4.
  assert (i = 0 \/ i = 1 \/ i = 2 \/ i = 3 \/ i = 4 \/ i = 5 \/ i = 6 \/ i = 7)
    as [->|[->|[->|[->|[->|[->|[->| ->]]]]]]] by lia; simpl; auto 10.
Qed.

(** $B1 = 1011 0001 reversed is $8D = 1000 1101. *)
Lemma X27_reverseByte_witness :
  reverseByte 0xB1 = 0x8D /\
  0 <= reverseByte 0xB1 < 256 /\
  Z.testbit (reverseByte 0xB1) 2 = Z.testbit 0xB1 (7 - 2) /\
  reverseByte (reverseByte 0xB1) = 0xB1.
Proof.
  split; [reflexivity|]. apply (X27_reverseByte 0xB1 2); lia.
Defined.

(** ** Sprite evaluation *)

Section Evaluation.

Context {M : Type} {mapperM : Mapper M}.

Lemma len_cons (x : Z) (l : list Z) : len (x :: l) = len l + 1.
Proof. unfold len. simpl length. lia. Qed.

Lemma spriteEvaluation_loop_spec (h : Z) (n : nat) :
  forall (i : Z) (p : PPU M),
  0 <= i -> i + Z.of_nat n <= 64 -> 0 <= spriteCount p <= 8 ->
  let hs := List.filter (spriteInRange (oam p) (scanline p) h) (seqZ i (Z.of_nat n)) in
  let c := spriteCount p in
  exists p' : PPU M,
    spriteEvaluation_loop n i h p = Some p' /\
    spriteCount p' = Z.min 8 (c + len hs) /\
    (forall idx : Z, idx < 4 * c \/ 4 * Z.min 8 (c + len hs) <= idx ->
       secondaryOAM p' !! idx = secondaryOAM p !! idx) /\
    (forall (k : nat) (s j : Z), hs !! k = Some s -> c + Z.of_nat k < 8 -> 0 <= j < 4 ->
       secondaryOAM p' !! (4 * (c + Z.of_nat k) + j)
       = Some (default 0 (oam p !! (s * 4 + j)))) /\
    sprite0Present p'
      = sprite0Present p || existsb (fun s : Z => s =? 0) (take (Z.to_nat (8 - c)) hs) /\
    status p'
      = if 8 <? c + len hs then PPUStatus.SetSpriteOverflow true (status p)
        else status p.
Proof.
  induction n as [|n IH]; intros i p Hi Hn Hc hs c.
  - exists p. subst hs c. simpl. change (len []) with 0.
    rewrite Z.add_0_r, Z.min_r by lia.
    split; [reflexivity|]. split; [reflexivity|]. split; [reflexivity|].
    split; [intros k s j Hk; rewrite lookup_nil in Hk; discriminate|].
    rewrite take_nil, orb_false_r.
    split; [reflexivity|].
    destruct (Z.ltb_spec 8 (spriteCount p)); [lia | reflexivity].
  - assert (Es : seqZ i (Z.of_nat (S n)) = i :: seqZ (i + 1) (Z.of_nat n)).
    { rewrite seqZ_cons by lia. f_equal. f_equal; lia. }
    subst hs. rewrite Es. simpl List.filter.
    assert (Hu : u8 (i + 1) = i + 1) by (unfold u8; apply Z.mod_small; lia).
    assert (Ho : u16 (i * 4) = i * 4) by (unfold u16; apply Z.mod_small; lia).
    simpl spriteEvaluation_loop. rewrite Hu, Ho.
    rewrite aget_in_range by lia. cbv beta iota delta [bind].
    change (spriteInRange (oam p) (scanline p) h i)
      with (u16 (u16 (scanline p) - default 0 (oam p !! (i * 4))) <? h).
    destruct (u16 (u16 (scanline p) - default 0 (oam p !! (i * 4))) <? h) eqn:Ein.
    2:{ (* the sprite does not cover the scanline *)
        apply (IH (i + 1) p); lia. }
    set (hs := List.filter _ _).
    rewrite len_cons.
    assert (Hl : 0 <= len hs) by (unfold len; lia).
    destruct (Z.leb_spec 8 (spriteCount p)) as [H8|H8].
    { (* eight sprites are there already: overflow, and the scan stops *)
      eexists. split; [reflexivity|]. subst c. simpl.
      split; [rewrite Z.min_l by lia; lia|].
      split; [reflexivity|].
      split; [intros k s j _ Hk; lia|].
      replace (Z.to_nat (8 - spriteCount p)) with 0%nat by lia.
      rewrite take_0, orb_false_r. split; [reflexivity|].
      destruct (Z.ltb_spec 8 (spriteCount p + (len hs + 1))); [reflexivity | lia]. }
    (* the sprite is copied *)
    assert (Hs : u16 (spriteCount p * 4) = spriteCount p * 4)
      by (unfold u16; apply Z.mod_small; lia).
    rewrite Hs.
    repeat first [ rewrite aget_in_range by lia
                 | rewrite aset_in_range by lia
                 | progress cbv beta iota zeta delta [bind]
                 | progress simpl oam
                 | progress simpl secondaryOAM ].
    match goal with
    | |- context [spriteEvaluation_loop n (i + 1) h ?q] => set (p2 := q)
    end.
    assert (Ec : spriteCount p2 = c + 1).
    { subst p2 c. destruct (i =? 0); simpl; unfold u8; apply Z.mod_small; lia. }
    assert (Eo : oam p2 = oam p) by (subst p2; destruct (i =? 0); reflexivity).
    assert (El : scanline p2 = scanline p) by (subst p2; destruct (i =? 0); reflexivity).
    assert (Et : status p2 = status p) by (subst p2; destruct (i =? 0); reflexivity).
    assert (E0 : sprite0Present p2 = sprite0Present p || (i =? 0)).
    { subst p2.
      destruct (i =? 0); simpl; rewrite ?orb_true_r, ?orb_false_r; reflexivity. }
    assert (Eq : secondaryOAM p2
                 = <[c * 4 + 3 := default 0 (oam p !! (i * 4 + 3))]>
                     (<[c * 4 + 2 := default 0 (oam p !! (i * 4 + 2))]>
                        (<[c * 4 + 1 := default 0 (oam p !! (i * 4 + 1))]>
                           (<[c * 4 + 0 := default 0 (oam p !! (i * 4 + 0))]>
                              (secondaryOAM p)))))
      by (subst p2 c; destruct (i =? 0); reflexivity).
    destruct (IH (i + 1) p2 ltac:(lia) ltac:(lia) ltac:(rewrite Ec; subst c; lia))
      as (p' & Ep & Hcount & Hsame & Hcopy & H0 & Hst).
    rewrite Eo, El, Ec, Et, E0 in *. fold hs in Hcount, Hsame, Hcopy, H0, Hst.
    clearbody p2.
    exists p'. split; [exact Ep|].
    replace (c + (len hs + 1)) with (c + 1 + len hs) by lia.
    split; [exact Hcount|].
    split; [|split; [|split]].
    + intros idx Hidx. rewrite Hsame by lia. rewrite Eq.
      rewrite !lookup_insert_ne by lia. reflexivity.
    + intros k s j Hk Hlt Hj. destruct k as [|k]; simpl in Hk.
      * injection Hk as <-. rewrite Hsame by lia. rewrite Eq.
        replace (Z.of_nat 0) with 0 by reflexivity.
        assert (j = 0 \/ j = 1 \/ j = 2 \/ j = 3) as [->|[->|[->| ->]]] by lia.
        -- rewrite !lookup_insert_ne by lia.
           replace (4 * (c + 0) + 0) with (c * 4 + 0) by lia.
           rewrite lookup_insert_eq. reflexivity.
        -- rewrite !lookup_insert_ne by lia.
           replace (4 * (c + 0) + 1) with (c * 4 + 1) by lia.
           rewrite lookup_insert_eq. reflexivity.
        -- rewrite lookup_insert_ne by lia.
           replace (4 * (c + 0) + 2) with (c * 4 + 2) by lia.
           rewrite lookup_insert_eq. reflexivity.
        -- replace (4 * (c + 0) + 3) with (c * 4 + 3) by lia.
           rewrite lookup_insert_eq. reflexivity.
      * replace (c + Z.of_nat (S k)) with (c + 1 + Z.of_nat k) by lia.
        apply Hcopy; [exact Hk | lia | exact Hj].
    + rewrite H0.
      replace (Z.to_nat (8 - c)) with (S (Z.to_nat (8 - (c + 1)))) by lia.
      simpl. rewrite orb_assoc. reflexivity.
    + exact Hst.
Qed.

Lemma filter_cons_bool (f : Z -> bool) (x : Z) (l : list Z) :
  List.filter f (x :: l) = if f x then x :: List.filter f l else List.filter f l.
Proof. reflexivity. Qed.

Lemma afill_lookup (idx : Z) : 0 <= idx < 32 -> afill 32 0xFF !! idx = Some 0xFF.
Proof.
  intros H.
  pose (check := fun i : Z =>
    match afill 32 0xFF !! i with Some v => v =? 0xFF | None => false end).
  assert (C : check idx = true).
  { apply (all_below 32 check); [vm_compute; reflexivity | exact H]. }
  unfold check in C. destruct (afill 32 0xFF !! idx) as [v|]; [|discriminate].
  apply Z.eqb_eq in C. rewrite C. reflexivity.
Qed.

Lemma no_sprite0_later (f : Z -> bool) (n : nat) :
  existsb (fun s : Z => s =? 0) (take n (List.filter f (seqZ 1 63))) = false.
Proof.
  destruct (existsb _ _) eqn:E; [|reflexivity]. exfalso.
  apply existsb_exists in E as (x & Hin & Hx).
  apply Z.eqb_eq in Hx. subst x.
  apply list_elem_of_In in Hin. apply elem_of_take in Hin as (k & Hk & _).
  apply list_elem_of_lookup_2 in Hk. apply list_elem_of_In in Hk.
  apply filter_In in Hk as [Hk _]. apply list_elem_of_In in Hk.
  apply elem_of_seqZ in Hk. lia.
Qed.

(** X28: what sprite evaluation leaves for the scanline.  With rendering
    on, it takes the sprites of OAM that cover the scanline, in OAM
    order, up to eight: their number is the sprite count, their four
    bytes are copied to secondary OAM in that order, the rest of
    secondary OAM is $FF, the sprite-0 marker says whether sprite 0 is
    among them, and the overflow flag is set exactly when more than
    eight sprites cover the scanline (it is never cleared here).  With
    rendering off it empties secondary OAM and leaves the status
    register alone.  It always returns. *)
Theorem X28_sprite_evaluation (p : PPU M) :
  let h := if negb (PPUControl.SpriteSize (control p) =? 0) then 16 else 8 in
  let hits := spritesInRange (oam p) (scanline p) h in
  exists p' : PPU M,
    spriteEvaluation p = Some p' /\
    if PPUMask.IsRenderingEnabled (mask p) then
      spriteCount p' = Z.min 8 (len hits) /\
      (forall (k : nat) (s j : Z),
         hits !! k = Some s -> Z.of_nat k < 8 -> 0 <= j < 4 ->
         secondaryOAM p' !! (4 * Z.of_nat k + j)
         = Some (default 0 (oam p !! (s * 4 + j)))) /\
      (forall idx : Z, 4 * Z.min 8 (len hits) <= idx < 32 ->
         secondaryOAM p' !! idx = Some 0xFF) /\
      sprite0Present p' = spriteInRange (oam p) (scanline p) h 0 /\
      status p' = (if 8 <? len hits
                   then PPUStatus.SetSpriteOverflow true (status p)
                   else status p)
    else
      spriteCount p' = 0 /\
      (forall idx : Z, 0 <= idx < 32 -> secondaryOAM p' !! idx = Some 0xFF) /\
      sprite0Present p' = false /\
      status p' = status p.
Proof.
  intros h hits. unfold spriteEvaluation.
  destruct (PPUMask.IsRenderingEnabled (mask p)) eqn:Er; simpl mask; rewrite Er;
    simpl negb; cbv iota.
  2:{ eexists. split; [reflexivity|]. simpl.
      split; [reflexivity|]. split; [apply afill_lookup|]. split; reflexivity. }
  cbv zeta. simpl control. fold h.
  set (p1 := set_sprite0Present false
               (set_spriteCount 0 (set_secondaryOAM (afill 32 0xFF) p))).
  destruct (spriteEvaluation_loop_spec h 64 0 p1 ltac:(lia) ltac:(lia)
              ltac:(simpl; lia))
    as (p' & Ep & Hcount & Hsame & Hcopy & H0 & Hst).
  change (oam p1) with (oam p) in *. change (scanline p1) with (scanline p) in *.
  change (spriteCount p1) with 0 in *. change (status p1) with (status p) in *.
  change (sprite0Present p1) with false in *.
  change (secondaryOAM p1) with (afill 32 0xFF) in *.
  change (Z.of_nat 64) with 64 in *.
  subst hits. unfold spritesInRange.
  set (hits := List.filter (spriteInRange (oam p) (scanline p) h) (seqZ 0 64)) in *.
  rewrite Z.add_0_l in Hcount, Hsame, Hst.
  exists p'. split; [exact Ep|]. split; [exact Hcount|].
  split; [|split; [|split]].
  - clearbody hits. intros k s j Hk Hlt Hj.
    specialize (Hcopy k s j Hk ltac:(lia) Hj).
    rewrite Z.add_0_l in Hcopy. exact Hcopy.
  - clearbody hits. intros idx Hidx.
    assert (Hl : 0 <= len hits) by (unfold len; lia).
    set (m := Z.min 8 (len hits)) in *.
    assert (Hm : 0 <= m <= 8) by (subst m; lia).
    clearbody m.
    rewrite Hsame by (right; lia). apply afill_lookup. lia.
  - rewrite H0. rewrite orb_false_l.
    replace (Z.to_nat (8 - 0)) with 8%nat by reflexivity.
    unfold hits.
    rewrite (seqZ_cons 0 64) by lia.
    rewrite filter_cons_bool.
    replace (Z.succ 0) with 1 by reflexivity.
    replace (Z.pred 64) with 63 by reflexivity.
    destruct (spriteInRange (oam p) (scanline p) h 0); [reflexivity|].
    apply no_sprite0_later.
  - exact Hst.
Qed.

End Evaluation.
